(** * cypress-testid-visualizer: a model of [cypress-extension/content.js]

    The content script scans a page for elements that carry a
    [data-testid] attribute, highlights them, installs hover and click
    behaviour on them and keeps that bookkeeping in step with the page
    through a debounced mutation observer.

    The script is a set of callbacks over shared module-level state
    ([elementData], [trackedElements], [activeTimeouts], the [timeout]
    variable of the one debounced function) and over the browser (the
    document, the timer table, the clipboard).  It is embedded here as
    state-passing functions over one record, [World], that holds both.
    Closures are data: a handler or a timer callback is a constructor
    that records what the closure captured, and [run_handler] and
    [run_callback] give the closure bodies. *)

From stdpp Require Import gmap strings list.
From Stdlib Require Import Lia.

#[local] Set Warnings "-register-all,-clear-no-such-hyp".

Open Scope string_scope.
Open Scope list_scope.
Open Scope nat_scope.

(** ** The page *)

(** DOM nodes are compared by identity; a node is named by a number,
    and so is a timer. *)
Definition Node := nat.

Inductive EventType := mouseenter | mouseleave | click.

#[global] Instance EventType_eq_dec : EqDecision EventType.
Proof. solve_decision. Defined.

(** Function objects that are registered as listeners.  [k] is the
    serial number of the [highlightElement] activation that created the
    closure, so two activations never yield the same function object. *)
Inductive Handler :=
  | MouseEnter (el : Node) (k : nat)            (* content.js:32 *)
  | MouseLeave (el : Node) (k : nat)            (* content.js:88 *)
  | ClickCopy (el : Node) (k : nat)             (* content.js:98 *)
  | TooltipClick (el tooltip : Node)            (* content.js:49 *)
  | TooltipEnter (tooltip : Node)               (* content.js:72 *)
  | TooltipLeave (tooltip : Node)               (* content.js:76 *)
  | PageHandler (k : nat).                      (* a listener of the host page *)

#[global] Instance Handler_eq_dec : EqDecision Handler.
Proof. solve_decision. Defined.

(** The part of an element's state that the script reads or writes.
    Inline styles and the [title] of the tooltip are presentation only
    and are left out. *)
Record Element := mkElement {
  id : string;                          (* "" when unset *)
  dataset_testid : option string;       (* the data-testid attribute *)
  classList : list string;
  innerText : string;
  value : string;
  listeners : list (EventType * Handler)
}.

Definition blank : Element :=
  {| id := ""; dataset_testid := None; classList := []; innerText := "";
     value := ""; listeners := [] |}.

(** Arguments handed to the debounced function. *)
Inductive Value := VNum (n : Z) | VStr (s : string).

(** Timer callbacks; the constructor records what the closure captured. *)
Inductive Callback :=
  | Later (args : list Value)           (* debounce, content.js:10 *)
  | LeaveRemoval                        (* content.js:90 *)
  | TooltipLeaveRemoval (tooltip : Node) (* content.js:78 *)
  | FeedbackRemoval (feedback : Node).  (* content.js:170 *)

(** The value stored in [elementData]. *)
Record Handlers := mkHandlers {
  mouseEnterHandler : Handler;
  mouseLeaveHandler : Handler;
  clickHandler : Handler
}.

(** Where a copy was started from: the element itself or its tooltip. *)
Inductive CopySource := FromElement | FromTooltip (tooltip : Node).

(** A handler suspended at [await navigator.clipboard.writeText(testId)]. *)
Record PendingWrite := mkPending {
  pw_source : CopySource;
  pw_el : Node;
  pw_testId : string
}.

(** What [document.execCommand('copy')] does in this browser. *)
Inductive ExecOutcome := ExecCopies | ExecReturnsFalse | ExecThrows.

(** Ghost record of the attach and detach operations performed. *)
Inductive Op :=
  | OpAddListener (el : Node) (ev : EventType) (h : Handler)
  | OpRemoveListener (el : Node) (ev : EventType) (h : Handler)
  | OpClassAdd (el : Node) (c : string)
  | OpClassRemove (el : Node) (c : string)
  | OpDataSet (el : Node)
  | OpDataDelete (el : Node)
  | OpTrackAdd (el : Node)
  | OpTrackDelete (el : Node).

(** Ghost record of the calls that the properties below count. *)
Inductive Call :=
  | CallFunc (args : list Value)                 (* func(...args) in later *)
  | CallShowCopyFeedback (el : Node) (testId : string)
  | CallFallbackCopy (text : string).

Record World := mkWorld {
  (* browser: the page *)
  nodes : gmap nat Element;
  document : list nat;                  (* attached elements, document order *)
  nextNode : nat;
  pointer : option nat;                 (* the element under the pointer *)
  clipboardApi : bool;                  (* is navigator.clipboard defined *)
  execCommand : ExecOutcome;
  clipboard : option string;
  console : list string;
  pendingWrites : list PendingWrite;
  (* browser: timers *)
  clock : nat;
  nextTimer : nat;
  timers : list (nat * (nat * Callback)); (* id, due time, callback *)
  (* module-level state of content.js *)
  elementData : gmap nat Handlers;
  trackedElements : list nat;           (* a Set, in insertion order *)
  activeTimeouts : list nat;            (* a Set, in insertion order *)
  timeout : option nat;                 (* of debouncedScanAndHighlight *)
  nextClosure : nat;
  observing : bool;
  (* ghost *)
  ops : list Op;
  calls : list Call
}.

(** Field updates. *)
Definition set_nodes (f : gmap nat Element → gmap nat Element) (w : World) : World :=
  mkWorld (f (nodes w)) (document w) (nextNode w) (pointer w) (clipboardApi w)
    (execCommand w) (clipboard w) (console w) (pendingWrites w) (clock w)
    (nextTimer w) (timers w) (elementData w) (trackedElements w)
    (activeTimeouts w) (timeout w) (nextClosure w) (observing w) (ops w) (calls w).
Definition set_document (f : list nat → list nat) (w : World) : World :=
  mkWorld (nodes w) (f (document w)) (nextNode w) (pointer w) (clipboardApi w)
    (execCommand w) (clipboard w) (console w) (pendingWrites w) (clock w)
    (nextTimer w) (timers w) (elementData w) (trackedElements w)
    (activeTimeouts w) (timeout w) (nextClosure w) (observing w) (ops w) (calls w).
Definition set_nextNode (v : nat) (w : World) : World :=
  mkWorld (nodes w) (document w) v (pointer w) (clipboardApi w)
    (execCommand w) (clipboard w) (console w) (pendingWrites w) (clock w)
    (nextTimer w) (timers w) (elementData w) (trackedElements w)
    (activeTimeouts w) (timeout w) (nextClosure w) (observing w) (ops w) (calls w).
Definition set_pointer (v : option nat) (w : World) : World :=
  mkWorld (nodes w) (document w) (nextNode w) v (clipboardApi w)
    (execCommand w) (clipboard w) (console w) (pendingWrites w) (clock w)
    (nextTimer w) (timers w) (elementData w) (trackedElements w)
    (activeTimeouts w) (timeout w) (nextClosure w) (observing w) (ops w) (calls w).
Definition set_clipboard (v : option string) (w : World) : World :=
  mkWorld (nodes w) (document w) (nextNode w) (pointer w) (clipboardApi w)
    (execCommand w) v (console w) (pendingWrites w) (clock w)
    (nextTimer w) (timers w) (elementData w) (trackedElements w)
    (activeTimeouts w) (timeout w) (nextClosure w) (observing w) (ops w) (calls w).
Definition set_console (f : list string → list string) (w : World) : World :=
  mkWorld (nodes w) (document w) (nextNode w) (pointer w) (clipboardApi w)
    (execCommand w) (clipboard w) (f (console w)) (pendingWrites w) (clock w)
    (nextTimer w) (timers w) (elementData w) (trackedElements w)
    (activeTimeouts w) (timeout w) (nextClosure w) (observing w) (ops w) (calls w).
Definition set_pendingWrites (f : list PendingWrite → list PendingWrite) (w : World) : World :=
  mkWorld (nodes w) (document w) (nextNode w) (pointer w) (clipboardApi w)
    (execCommand w) (clipboard w) (console w) (f (pendingWrites w)) (clock w)
    (nextTimer w) (timers w) (elementData w) (trackedElements w)
    (activeTimeouts w) (timeout w) (nextClosure w) (observing w) (ops w) (calls w).
Definition set_clock (v : nat) (w : World) : World :=
  mkWorld (nodes w) (document w) (nextNode w) (pointer w) (clipboardApi w)
    (execCommand w) (clipboard w) (console w) (pendingWrites w) v
    (nextTimer w) (timers w) (elementData w) (trackedElements w)
    (activeTimeouts w) (timeout w) (nextClosure w) (observing w) (ops w) (calls w).
Definition set_nextTimer (v : nat) (w : World) : World :=
  mkWorld (nodes w) (document w) (nextNode w) (pointer w) (clipboardApi w)
    (execCommand w) (clipboard w) (console w) (pendingWrites w) (clock w)
    v (timers w) (elementData w) (trackedElements w)
    (activeTimeouts w) (timeout w) (nextClosure w) (observing w) (ops w) (calls w).
Definition set_timers (f : list (nat * (nat * Callback)) → list (nat * (nat * Callback)))
    (w : World) : World :=
  mkWorld (nodes w) (document w) (nextNode w) (pointer w) (clipboardApi w)
    (execCommand w) (clipboard w) (console w) (pendingWrites w) (clock w)
    (nextTimer w) (f (timers w)) (elementData w) (trackedElements w)
    (activeTimeouts w) (timeout w) (nextClosure w) (observing w) (ops w) (calls w).
Definition set_elementData (f : gmap nat Handlers → gmap nat Handlers) (w : World) : World :=
  mkWorld (nodes w) (document w) (nextNode w) (pointer w) (clipboardApi w)
    (execCommand w) (clipboard w) (console w) (pendingWrites w) (clock w)
    (nextTimer w) (timers w) (f (elementData w)) (trackedElements w)
    (activeTimeouts w) (timeout w) (nextClosure w) (observing w) (ops w) (calls w).
Definition set_trackedElements (f : list nat → list nat) (w : World) : World :=
  mkWorld (nodes w) (document w) (nextNode w) (pointer w) (clipboardApi w)
    (execCommand w) (clipboard w) (console w) (pendingWrites w) (clock w)
    (nextTimer w) (timers w) (elementData w) (f (trackedElements w))
    (activeTimeouts w) (timeout w) (nextClosure w) (observing w) (ops w) (calls w).
Definition set_activeTimeouts (f : list nat → list nat) (w : World) : World :=
  mkWorld (nodes w) (document w) (nextNode w) (pointer w) (clipboardApi w)
    (execCommand w) (clipboard w) (console w) (pendingWrites w) (clock w)
    (nextTimer w) (timers w) (elementData w) (trackedElements w)
    (f (activeTimeouts w)) (timeout w) (nextClosure w) (observing w) (ops w) (calls w).
Definition set_timeout (v : option nat) (w : World) : World :=
  mkWorld (nodes w) (document w) (nextNode w) (pointer w) (clipboardApi w)
    (execCommand w) (clipboard w) (console w) (pendingWrites w) (clock w)
    (nextTimer w) (timers w) (elementData w) (trackedElements w)
    (activeTimeouts w) v (nextClosure w) (observing w) (ops w) (calls w).
Definition set_nextClosure (v : nat) (w : World) : World :=
  mkWorld (nodes w) (document w) (nextNode w) (pointer w) (clipboardApi w)
    (execCommand w) (clipboard w) (console w) (pendingWrites w) (clock w)
    (nextTimer w) (timers w) (elementData w) (trackedElements w)
    (activeTimeouts w) (timeout w) v (observing w) (ops w) (calls w).
Definition set_observing (v : bool) (w : World) : World :=
  mkWorld (nodes w) (document w) (nextNode w) (pointer w) (clipboardApi w)
    (execCommand w) (clipboard w) (console w) (pendingWrites w) (clock w)
    (nextTimer w) (timers w) (elementData w) (trackedElements w)
    (activeTimeouts w) (timeout w) (nextClosure w) v (ops w) (calls w).
Definition log_op (o : Op) (w : World) : World :=
  mkWorld (nodes w) (document w) (nextNode w) (pointer w) (clipboardApi w)
    (execCommand w) (clipboard w) (console w) (pendingWrites w) (clock w)
    (nextTimer w) (timers w) (elementData w) (trackedElements w)
    (activeTimeouts w) (timeout w) (nextClosure w) (observing w) (ops w ++ [o]) (calls w).
Definition log_call (c : Call) (w : World) : World :=
  mkWorld (nodes w) (document w) (nextNode w) (pointer w) (clipboardApi w)
    (execCommand w) (clipboard w) (console w) (pendingWrites w) (clock w)
    (nextTimer w) (timers w) (elementData w) (trackedElements w)
    (activeTimeouts w) (timeout w) (nextClosure w) (observing w) (ops w) (calls w ++ [c]).

(** ** DOM primitives *)

(** The state of a node; a node the page never touched is blank. *)
Definition node (w : World) (n : nat) : Element := default blank (nodes w !! n).

Definition update_node (n : nat) (f : Element → Element) (w : World) : World :=
  set_nodes (λ m, <[n := f (node w n)]> m) w.

(** JavaScript truthiness of an attribute read: [undefined], [null] and
    the empty string are falsy, every other string is truthy. *)
Definition truthy (v : option string) : bool :=
  match v with
  | Some s => negb (String.eqb s "")
  | None => false
  end.

(** A JavaScript [Set] keeps insertion order and has no duplicates. *)
Definition set_add (x : nat) (s : list nat) : list nat :=
  if bool_decide (x ∈ s) then s else s ++ [x].
Definition set_delete (x : nat) (s : list nat) : list nat :=
  filter (λ y, y ≠ x) s.

Definition classList_contains (w : World) (el : nat) (c : string) : bool :=
  bool_decide (c ∈ classList (node w el)).

Definition with_classList (cs : list string) (e : Element) : Element :=
  mkElement (id e) (dataset_testid e) cs (innerText e) (value e) (listeners e).
Definition with_listeners (ls : list (EventType * Handler)) (e : Element) : Element :=
  mkElement (id e) (dataset_testid e) (classList e) (innerText e) (value e) ls.
Definition with_testid (t : option string) (e : Element) : Element :=
  mkElement (id e) t (classList e) (innerText e) (value e) (listeners e).

Definition classList_add (el : nat) (c : string) (w : World) : World :=
  log_op (OpClassAdd el c)
    (update_node el (λ e, if bool_decide (c ∈ classList e) then e
                          else with_classList (classList e ++ [c]) e) w).

Definition classList_remove (el : nat) (c : string) (w : World) : World :=
  log_op (OpClassRemove el c)
    (update_node el (λ e, with_classList (filter (λ c', c' ≠ c) (classList e)) e) w).

(** [addEventListener] ignores a (type, callback) pair that is already
    registered; [removeEventListener] removes the pair if it is there. *)
Definition addEventListener (el : nat) (ev : EventType) (h : Handler) (w : World) : World :=
  log_op (OpAddListener el ev h)
    (update_node el (λ e, if bool_decide ((ev, h) ∈ listeners e) then e
                          else with_listeners (listeners e ++ [(ev, h)]) e) w).

Definition removeEventListener (el : nat) (ev : EventType) (h : Handler) (w : World) : World :=
  log_op (OpRemoveListener el ev h)
    (update_node el (λ e, with_listeners (filter (λ l, l ≠ (ev, h)) (listeners e)) e) w).

(** [document.querySelectorAll('[data-testid]')]: the attached elements
    that have the attribute, whatever its value, in document order. *)
Definition querySelectorAll_testid (w : World) : list nat :=
  filter (λ n, is_Some (dataset_testid (node w n))) (document w).

Definition document_contains (w : World) (el : nat) : bool :=
  bool_decide (el ∈ document w).

(** ** highlightElement, cleanupElement, scanAndHighlight *)

Definition HIGHLIGHT : string := "test-id-highlight".

Definition highlightElement (el : nat) (w : World) : World :=
  if negb (truthy (dataset_testid (node w el))) || classList_contains w el HIGHLIGHT
  then w
  else if bool_decide (is_Some (elementData w !! el)) then w
  else
    let w := classList_add el HIGHLIGHT w in
    let k := nextClosure w in
    let w := set_nextClosure (S k) w in
    let w := addEventListener el mouseenter (MouseEnter el k) w in
    let w := addEventListener el mouseleave (MouseLeave el k) w in
    let w := addEventListener el click (ClickCopy el k) w in
    let w := log_op (OpDataSet el)
               (set_elementData
                  (λ m, <[el := mkHandlers (MouseEnter el k) (MouseLeave el k) (ClickCopy el k)]> m) w) in
    log_op (OpTrackAdd el) (set_trackedElements (set_add el) w).

Definition cleanupElement (el : nat) (w : World) : World :=
  match elementData w !! el with
  | None => w
  | Some handlers =>
      let w := removeEventListener el mouseenter (mouseEnterHandler handlers) w in
      let w := removeEventListener el mouseleave (mouseLeaveHandler handlers) w in
      let w := removeEventListener el click (clickHandler handlers) w in
      let w := classList_remove el HIGHLIGHT w in
      let w := log_op (OpDataDelete el) (set_elementData (delete el) w) in
      log_op (OpTrackDelete el) (set_trackedElements (set_delete el) w)
  end.

(** The cleanup step of one element of the loop at content.js:209. *)
Definition cleanup_if_gone (currentElements : list nat) (w : World) (el : nat) : World :=
  if negb (bool_decide (el ∈ currentElements)) || negb (document_contains w el)
  then cleanupElement el w
  else w.

(** The [for ... of trackedElements] loop deletes from the set it walks.
    A [Set] iterator keeps going after the entry it stands on is deleted,
    and [cleanupElement el] deletes no entry but [el], so the loop visits
    exactly the entries present when it starts, in insertion order. *)
Definition scanAndHighlight (w : World) : World :=
  let elements := querySelectorAll_testid w in
  let currentElements := elements in
  let w := foldl (λ w el, highlightElement el w) w elements in
  foldl (cleanup_if_gone currentElements) w (trackedElements w).

(** ** Timers *)

Definition WAIT : nat := 100.            (* debounce(scanAndHighlight, 100) *)
Definition GRACE : nat := 100.           (* tooltip removal delay *)
Definition FEEDBACK_DELAY : nat := 2000.

(** [setTimeout] hands out a fresh id and files the callback under it. *)
Definition setTimeout (cb : Callback) (delay : nat) (w : World) : nat * World :=
  let t := nextTimer w in
  (t, set_nextTimer (S t) (set_timers (λ l, l ++ [(t, (clock w + delay, cb))]) w)).

(** [clearTimeout] of [undefined] or of an id that is not pending does
    nothing. *)
Definition clearTimeout (t : option nat) (w : World) : World :=
  match t with
  | None => w
  | Some t => set_timers (filter (λ e, e.1 ≠ t)) w
  end.

(** ** debounce *)

(** [func(...args)] in [later]: the one debounced function of the script
    wraps [scanAndHighlight], which takes no parameter and so ignores the
    arguments it is handed. *)
Definition func (args : list Value) (w : World) : World :=
  scanAndHighlight (log_call (CallFunc args) w).

Definition later (args : list Value) (w : World) : World :=
  let w := clearTimeout (timeout w) w in
  func args w.

Definition executedFunction (wait : nat) (args : list Value) (w : World) : World :=
  let w := clearTimeout (timeout w) w in
  let '(t, w) := setTimeout (Later args) wait w in
  set_timeout (Some t) w.

(** [debounce(func, wait)] returns [executedFunction]; the [func] it
    was given is the one [later] calls. *)
Definition debounce (wait : nat) : list Value → World → World :=
  executedFunction wait.

Definition debouncedScanAndHighlight : list Value → World → World :=
  debounce WAIT.

(** ** Ephemeral artifacts *)

Definition TOOLTIP_ID : string := "__testid_tooltip__".
Definition FEEDBACK_ID : string := "__testid_copy_feedback__".

(** [document.getElementById]: the first attached element with that id. *)
Definition getElementById (i : string) (w : World) : option nat :=
  head (filter (λ n, id (node w n) = i) (document w)).

(** [node.remove()] and [parent.removeChild(node)]. *)
Definition remove (n : nat) (w : World) : World :=
  set_document (filter (λ m, m ≠ n)) w.

(** [document.createElement]: a new, detached, blank element. *)
Definition createElement (w : World) : nat * World :=
  let n := nextNode w in
  (n, set_nextNode (S n) (set_nodes (λ m, <[n := blank]> m) w)).

(** [document.body.appendChild]: the node becomes the last element of
    the document. *)
Definition appendChild (n : nat) (w : World) : World :=
  set_document (λ d, filter (λ m, m ≠ n) d ++ [n]) w.

Definition remove_if_present (i : string) (w : World) : World :=
  match getElementById i w with
  | Some n => remove n w
  | None => w
  end.

(** [activeTimeouts.forEach(id => { clearTimeout(id); activeTimeouts.delete(id) })] *)
Definition clear_and_delete (w : World) (t : nat) : World :=
  set_activeTimeouts (set_delete t) (clearTimeout (Some t) w).

Definition showCopyFeedback (el : nat) (testId : string) (w : World) : World :=
  let w := log_call (CallShowCopyFeedback el testId) w in
  let w := remove_if_present FEEDBACK_ID w in
  let w := foldl clear_and_delete w (activeTimeouts w) in
  let '(feedback, w) := createElement w in
  let w := update_node feedback
             (λ e, mkElement FEEDBACK_ID (dataset_testid e) ["test-id-copy-feedback"]
                     ("Copied: " +:+ testId) (value e) (listeners e)) w in
  let w := appendChild feedback w in
  let '(timeoutId, w) := setTimeout (FeedbackRemoval feedback) FEEDBACK_DELAY w in
  set_activeTimeouts (set_add timeoutId) w.

Definition fallbackCopyTextToClipboard (text : string) (w : World) : World :=
  let w := log_call (CallFallbackCopy text) w in
  let '(textArea, w) := createElement w in
  let w := update_node textArea
             (λ e, mkElement (id e) (dataset_testid e) (classList e) (innerText e)
                     text (listeners e)) w in
  let w := appendChild textArea w in
  let w := match execCommand w with
           | ExecCopies => set_clipboard (Some (value (node w textArea))) w
           | ExecReturnsFalse => w
           | ExecThrows => set_console (λ c, c ++ ["Fallback: Oops, unable to copy"]) w
           end in
  remove textArea w.

(** ** Copying *)

(** The [try] branch after the awaited write resolved. *)
Definition copy_resolved (src : CopySource) (el : nat) (testId : string) (w : World) : World :=
  let w := showCopyFeedback el testId w in
  match src with
  | FromElement => w
  | FromTooltip tooltip => remove tooltip w
  end.

(** The [catch] branch. *)
Definition copy_rejected (src : CopySource) (el : nat) (testId : string) (w : World) : World :=
  let w := set_console (λ c, c ++ ["Failed to copy data-testid:"]) w in
  let w := fallbackCopyTextToClipboard testId w in
  let w := showCopyFeedback el testId w in
  match src with
  | FromElement => w
  | FromTooltip tooltip => remove tooltip w
  end.

(** [clickHandler] and [tooltipClickHandler] up to the [await].  Where
    [navigator.clipboard] is undefined the call throws inside the [try]
    and the [catch] branch runs at once; otherwise the handler is
    suspended until the write settles. *)
Definition copy_begin (src : CopySource) (el : nat) (w : World) : World :=
  let testId := dataset_testid (node w el) in
  if negb (truthy testId) then w
  else
    let testId := default "" testId in
    if clipboardApi w
    then set_pendingWrites (λ l, l ++ [mkPending src el testId]) w
    else copy_rejected src el testId w.

(** The [i]-th pending write settles and its handler resumes. *)
Definition settle (i : nat) (ok : bool) (w : World) : World :=
  match pendingWrites w !! i with
  | None => w
  | Some p =>
      let w := set_pendingWrites (delete i) w in
      if ok
      then copy_resolved (pw_source p) (pw_el p) (pw_testId p)
             (set_clipboard (Some (pw_testId p)) w)
      else copy_rejected (pw_source p) (pw_el p) (pw_testId p) w
  end.

(** ** Listener bodies *)

Definition with_id (i : string) (e : Element) : Element :=
  mkElement i (dataset_testid e) (classList e) (innerText e) (value e) (listeners e).

Definition run_mouseEnterHandler (el : nat) (w : World) : World :=
  let w := remove_if_present TOOLTIP_ID w in
  let '(tooltip, w) := createElement w in
  let w := update_node tooltip
             (λ e, mkElement (id e) (dataset_testid e) ["test-id-tooltip"]
                     (default "" (dataset_testid (node w el))) (value e) (listeners e)) w in
  let w := update_node tooltip (with_id TOOLTIP_ID) w in
  let w := addEventListener tooltip click (TooltipClick el tooltip) w in
  let w := addEventListener tooltip mouseenter (TooltipEnter tooltip) w in
  let w := addEventListener tooltip mouseleave (TooltipLeave tooltip) w in
  appendChild tooltip w.

Definition run_mouseLeaveHandler (w : World) : World :=
  (setTimeout LeaveRemoval GRACE w).2.

Definition run_handler (h : Handler) (w : World) : World :=
  match h with
  | MouseEnter el _ => run_mouseEnterHandler el w
  | MouseLeave _ _ => run_mouseLeaveHandler w
  | ClickCopy el _ => copy_begin FromElement el w
  | TooltipClick el tooltip => copy_begin (FromTooltip tooltip) el w
  | TooltipEnter _ => w                  (* the body is a comment *)
  | TooltipLeave tooltip => (setTimeout (TooltipLeaveRemoval tooltip) GRACE w).2
  | PageHandler _ => w
  end.

(** The tooltip has no child element, so it matches [:hover] exactly
    when the pointer is over it. *)
Definition matches_hover (w : World) (n : nat) : bool :=
  bool_decide (pointer w = Some n).

(** Timer callback bodies; [t] is the id under which the timer ran. *)
Definition run_callback (t : nat) (cb : Callback) (w : World) : World :=
  match cb with
  | Later args => later args w
  | LeaveRemoval =>
      match getElementById TOOLTIP_ID w with
      | Some tooltip => if negb (matches_hover w tooltip) then remove tooltip w else w
      | None => w
      end
  | TooltipLeaveRemoval tooltip =>
      if document_contains w tooltip then remove tooltip w else w
  | FeedbackRemoval feedback =>
      let w := if document_contains w feedback then remove feedback w else w in
      set_activeTimeouts (set_delete t) w
  end.

(** ** The event loop *)

Definition is_due (w : World) (e : nat * (nat * Callback)) : Prop := e.2.1 ≤ clock w.

#[global] Instance is_due_dec w e : Decision (is_due w e).
Proof. unfold is_due. apply _. Defined.

(** Run the timers that are due, oldest registration first.  A timer
    leaves the table when it runs. *)
Fixpoint run_due (fuel : nat) (w : World) : World :=
  match fuel with
  | 0 => w
  | S fuel =>
      match head (filter (is_due w) (timers w)) with
      | None => w
      | Some (t, (_, cb)) =>
          run_due fuel (run_callback t cb (set_timers (filter (λ e, e.1 ≠ t)) w))
      end
  end.

(** One millisecond passes.  No callback of the script starts a timer,
    so as many rounds as there are pending timers run all that are due. *)
Definition tick (w : World) : World :=
  let w := set_clock (S (clock w)) w in
  run_due (length (timers w)) w.

(** Listeners run in registration order. *)
Definition dispatch (ev : EventType) (n : nat) (w : World) : World :=
  foldl (λ w l, if bool_decide (l.1 = ev) then run_handler l.2 w else w)
        w (listeners (node w n)).

(** ** The mutation observer *)

(** A node as a mutation record shows it: an element with its
    [data-testid] attribute and its children, or a text or comment node. *)
Inductive DomTree :=
  | ElementNode (testid : option string) (children : list DomTree)
  | OtherNode.

Fixpoint has_testid_attribute (t : DomTree) : bool :=
  match t with
  | ElementNode a children =>
      bool_decide (is_Some a) || existsb has_testid_attribute children
  | OtherNode => false
  end.

(** [node.querySelector('[data-testid]')] is non-null. *)
Definition querySelector_testid (t : DomTree) : bool :=
  match t with
  | ElementNode _ children => existsb has_testid_attribute children
  | OtherNode => false
  end.

Definition relevant_node (t : DomTree) : bool :=
  match t with
  | ElementNode a _ => truthy a || querySelector_testid t
  | OtherNode => false
  end.

Inductive MutationType := childList | attributes | characterData.

Record MutationRecord := mkMutation {
  mutation_type : MutationType;
  attributeName : option string;
  addedNodes : list DomTree;
  removedNodes : list DomTree
}.

Definition relevant_mutation (m : MutationRecord) : bool :=
  existsb relevant_node (addedNodes m)
  || existsb relevant_node (removedNodes m)
  || match mutation_type m, attributeName m with
     | attributes, Some a => String.eqb a "data-testid"
     | _, _ => false
     end.

Definition hasRelevantChanges (mutations : list MutationRecord) : bool :=
  existsb relevant_mutation mutations.

Definition observerCallback (mutations : list MutationRecord) (w : World) : World :=
  if hasRelevantChanges mutations then debouncedScanAndHighlight [] w else w.

(** ** Teardown: the [beforeunload] listener *)

Definition beforeunload (w : World) : World :=
  let w := foldl (λ w el, cleanupElement el w) w (trackedElements w) in
  let w := foldl (λ w t, clearTimeout (Some t) w) w (activeTimeouts w) in
  let w := set_activeTimeouts (λ _, []) w in
  let w := set_observing false w in
  let w := remove_if_present TOOLTIP_ID w in
  remove_if_present FEEDBACK_ID w.

(** ** The system as a transition function *)

Inductive Action :=
  | Tick
  | Mutations (ms : list MutationRecord)
  | PointerEnter (n : Node)
  | PointerLeave (n : Node)
  | Click (n : Node)
  | SettleWrite (i : nat) (ok : bool)
  | Unload
  (* the host page, acting on elements that exist *)
  | PageSetTestid (n : Node) (v : option string)
  | PageSetClasses (n : Node) (cs : list string)
  | PageDetach (n : Node)
  | PageInsert (testid : option string).

Definition step (a : Action) (w : World) : World :=
  match a with
  | Tick => tick w
  | Mutations ms => if observing w then observerCallback ms w else w
  | PointerEnter n => dispatch mouseenter n (set_pointer (Some n) w)
  | PointerLeave n => dispatch mouseleave n (set_pointer None w)
  | Click n => dispatch click n w
  | SettleWrite i ok => settle i ok w
  | Unload => beforeunload w
  | PageSetTestid n v =>
      match nodes w !! n with
      | Some _ => update_node n (with_testid v) w
      | None => w
      end
  | PageSetClasses n cs =>
      match nodes w !! n with
      | Some _ => update_node n (with_classList cs) w
      | None => w
      end
  | PageDetach n => remove n w
  | PageInsert v =>
      let '(n, w) := createElement w in
      appendChild n (update_node n (with_testid v) w)
  end.

Definition run (l : list Action) (w : World) : World :=
  foldl (λ w a, step a w) w l.

(** The page as the script finds it: the given elements, attached in
    order, nothing pending. *)
Definition page (els : list Element) (api : bool) (exec : ExecOutcome) : World :=
  {| nodes := map_seq 0 els;
     document := seq 0 (length els);
     nextNode := length els;
     pointer := None; clipboardApi := api; execCommand := exec;
     clipboard := None; console := []; pendingWrites := [];
     clock := 0; nextTimer := 0; timers := [];
     elementData := ∅; trackedElements := []; activeTimeouts := [];
     timeout := None; nextClosure := 0; observing := false;
     ops := []; calls := [] |}.

(** Running the script: the initial scan, then [observer.observe]. *)
Definition load (w : World) : World :=
  set_observing true (scanAndHighlight w).

Definition div (testid : option string) : Element :=
  mkElement "" testid [] "" "" [].

(** * Properties *)

(** ** Reading the state through the primitives *)

Lemma node_update_node n f w m :
  node (update_node n f w) m = if decide (n = m) then f (node w n) else node w m.
Proof.
  unfold node, update_node; cbn.
  destruct (decide (n = m)) as [->|Hne].
  - by rewrite lookup_insert_eq.
  - by rewrite lookup_insert_ne.
Qed.

Lemma node_log_op o w m : node (log_op o w) m = node w m.
Proof. reflexivity. Qed.

(** What the script leaves alone when it only attaches and detaches:
    everything of the browser but classes and listeners. *)
Definition env (w : World) :=
  (document w, nextNode w, pointer w, clipboardApi w, execCommand w,
   clipboard w, console w, pendingWrites w, clock w, nextTimer w, timers w,
   activeTimeouts w, timeout w, observing w, calls w).

(** The attributes of a node that attaching and detaching leave alone. *)
Definition attrs (e : Element) := (id e, dataset_testid e, innerText e, value e).

Definition has_class (w : World) (el : nat) : Prop := HIGHLIGHT ∈ classList (node w el).
Definition annotated (w : World) (el : nat) : Prop := is_Some (elementData w !! el).
Definition tracked (w : World) (el : nat) : Prop := el ∈ trackedElements w.

(** The body of [highlightElement] past its two guards. *)
Definition annotate (el : nat) (w : World) : World :=
  let w := classList_add el HIGHLIGHT w in
  let k := nextClosure w in
  let w := set_nextClosure (S k) w in
  let w := addEventListener el mouseenter (MouseEnter el k) w in
  let w := addEventListener el mouseleave (MouseLeave el k) w in
  let w := addEventListener el click (ClickCopy el k) w in
  let w := log_op (OpDataSet el)
             (set_elementData
                (λ m, <[el := mkHandlers (MouseEnter el k) (MouseLeave el k) (ClickCopy el k)]> m) w) in
  log_op (OpTrackAdd el) (set_trackedElements (set_add el) w).

Lemma highlightElement_unfold el w :
  highlightElement el w =
  if negb (truthy (dataset_testid (node w el))) || classList_contains w el HIGHLIGHT
  then w
  else if bool_decide (annotated w el) then w else annotate el w.
Proof. reflexivity. Qed.

Lemma highlightElement_cases el w :
  (highlightElement el w = w ∧
   (truthy (dataset_testid (node w el)) = false ∨ has_class w el ∨ annotated w el))
  ∨ (highlightElement el w = annotate el w ∧
     truthy (dataset_testid (node w el)) = true ∧ ¬ has_class w el ∧ ¬ annotated w el).
Proof.
  rewrite highlightElement_unfold. unfold classList_contains.
  destruct (truthy (dataset_testid (node w el))) eqn:Ht; cbn; [|left; auto].
  case_bool_decide as Hc; cbn; [left; auto|].
  case_bool_decide as Ha; [left; auto|].
  right; auto.
Qed.

Lemma set_add_elem x y s : y ∈ set_add x s ↔ y = x ∨ y ∈ s.
Proof.
  unfold set_add. case_bool_decide.
  - split; [auto|]. intros [->|]; done.
  - rewrite elem_of_app, list_elem_of_singleton. tauto.
Qed.

Lemma set_delete_elem x y s : y ∈ set_delete x s ↔ y ≠ x ∧ y ∈ s.
Proof. unfold set_delete. by rewrite list_elem_of_filter. Qed.

(** Per-primitive readings of a node. *)
Lemma node_classList_add el c w x :
  node (classList_add el c w) x =
  if decide (el = x)
  then (if bool_decide (c ∈ classList (node w el)) then node w el
        else with_classList (classList (node w el) ++ [c]) (node w el))
  else node w x.
Proof. unfold classList_add. by rewrite node_log_op, node_update_node. Qed.

Lemma node_classList_remove el c w x :
  node (classList_remove el c w) x =
  if decide (el = x)
  then with_classList (filter (λ c', c' ≠ c) (classList (node w el))) (node w el)
  else node w x.
Proof. unfold classList_remove. by rewrite node_log_op, node_update_node. Qed.

Lemma node_addEventListener el ev h w x :
  node (addEventListener el ev h w) x =
  if decide (el = x)
  then (if bool_decide ((ev, h) ∈ listeners (node w el)) then node w el
        else with_listeners (listeners (node w el) ++ [(ev, h)]) (node w el))
  else node w x.
Proof. unfold addEventListener. by rewrite node_log_op, node_update_node. Qed.

Lemma node_removeEventListener el ev h w x :
  node (removeEventListener el ev h w) x =
  if decide (el = x)
  then with_listeners (filter (λ l, l ≠ (ev, h)) (listeners (node w el))) (node w el)
  else node w x.
Proof. unfold removeEventListener. by rewrite node_log_op, node_update_node. Qed.

Lemma node_set_elementData f w x : node (set_elementData f w) x = node w x.
Proof. reflexivity. Qed.
Lemma node_set_trackedElements f w x : node (set_trackedElements f w) x = node w x.
Proof. reflexivity. Qed.
Lemma node_set_nextClosure v w x : node (set_nextClosure v w) x = node w x.
Proof. reflexivity. Qed.

(** The listener list after [addEventListener]. *)
Definition add_listener (l : EventType * Handler) (ls : list (EventType * Handler)) :=
  if bool_decide (l ∈ ls) then ls else ls ++ [l].

Lemma annotate_node el w x :
  node (annotate el w) x =
  if decide (el = x)
  then mkElement (id (node w el)) (dataset_testid (node w el))
         (if bool_decide (HIGHLIGHT ∈ classList (node w el)) then classList (node w el)
          else classList (node w el) ++ [HIGHLIGHT])
         (innerText (node w el)) (value (node w el))
         (add_listener (click, ClickCopy el (nextClosure w))
            (add_listener (mouseleave, MouseLeave el (nextClosure w))
               (add_listener (mouseenter, MouseEnter el (nextClosure w))
                  (listeners (node w el)))))
  else node w x.
Proof.
  unfold annotate. cbn zeta.
  rewrite node_log_op, node_set_trackedElements, node_log_op, node_set_elementData.
  destruct (decide (el = x)) as [->|Hne].
  - repeat (rewrite ?node_addEventListener, ?node_set_nextClosure, ?node_classList_add;
            rewrite (decide_True (P := x = x)) by done).
    unfold add_listener.
    destruct (node w x) as [i t cs it v ls]; cbn.
    repeat match goal with
           | |- context [bool_decide ?P] =>
               lazymatch P with
               | context [bool_decide _] => fail
               | _ => destruct (bool_decide P); cbn
               end
           end; reflexivity.
  - rewrite !node_addEventListener, !(decide_False (P := el = x)) by done.
    by rewrite node_set_nextClosure, node_classList_add, decide_False.
Qed.

Lemma add_listener_elem l l' ls : l' ∈ add_listener l ls ↔ l' = l ∨ l' ∈ ls.
Proof.
  unfold add_listener. case_bool_decide.
  - split; [auto|]. intros [->|]; done.
  - rewrite elem_of_app, list_elem_of_singleton. tauto.
Qed.

Section annotate_facts.
Context (el : nat) (w : World).

Lemma annotate_env : env (annotate el w) = env w.
Proof. reflexivity. Qed.

Lemma annotate_elementData :
  elementData (annotate el w) =
  <[el := mkHandlers (MouseEnter el (nextClosure w)) (MouseLeave el (nextClosure w))
            (ClickCopy el (nextClosure w))]> (elementData w).
Proof. reflexivity. Qed.

Lemma annotate_trackedElements :
  trackedElements (annotate el w) = set_add el (trackedElements w).
Proof. reflexivity. Qed.

Lemma annotate_ops :
  ops (annotate el w) =
  ops w ++ [OpClassAdd el HIGHLIGHT;
            OpAddListener el mouseenter (MouseEnter el (nextClosure w));
            OpAddListener el mouseleave (MouseLeave el (nextClosure w));
            OpAddListener el click (ClickCopy el (nextClosure w));
            OpDataSet el; OpTrackAdd el].
Proof.
  unfold annotate, classList_add, addEventListener. cbn [ops log_op set_trackedElements
    set_elementData set_nextClosure update_node set_nodes nextClosure].
  by rewrite <- !app_assoc.
Qed.

Lemma annotate_attrs x : attrs (node (annotate el w) x) = attrs (node w x).
Proof. rewrite annotate_node. by destruct (decide (el = x)) as [->|]. Qed.

Lemma annotate_has_class : has_class (annotate el w) el.
Proof.
  unfold has_class. rewrite annotate_node, decide_True by done. cbn.
  case_bool_decide; [done|]. apply elem_of_app. right. by apply list_elem_of_singleton.
Qed.
End annotate_facts.

(** The body of [cleanupElement] past its guard. *)
Definition detach (el : nat) (handlers : Handlers) (w : World) : World :=
  let w := removeEventListener el mouseenter (mouseEnterHandler handlers) w in
  let w := removeEventListener el mouseleave (mouseLeaveHandler handlers) w in
  let w := removeEventListener el click (clickHandler handlers) w in
  let w := classList_remove el HIGHLIGHT w in
  let w := log_op (OpDataDelete el) (set_elementData (delete el) w) in
  log_op (OpTrackDelete el) (set_trackedElements (set_delete el) w).

Lemma cleanupElement_unfold el w :
  cleanupElement el w =
  match elementData w !! el with
  | None => w
  | Some handlers => detach el handlers w
  end.
Proof. reflexivity. Qed.

(** The three (type, callback) pairs a side-table entry stands for. *)
Definition installed (hs : Handlers) : list (EventType * Handler) :=
  [(mouseenter, mouseEnterHandler hs); (mouseleave, mouseLeaveHandler hs);
   (click, clickHandler hs)].

Lemma filter_installed hs (ls : list (EventType * Handler)) :
  filter (λ l, l ≠ (click, clickHandler hs))
    (filter (λ l, l ≠ (mouseleave, mouseLeaveHandler hs))
       (filter (λ l, l ≠ (mouseenter, mouseEnterHandler hs)) ls))
  = filter (λ l, l ∉ installed hs) ls.
Proof.
  induction ls as [|l ls IH]; [done|].
  unfold installed in *.
  rewrite (filter_cons (λ l, l ∉ _)).
  rewrite (filter_cons (λ l, l ≠ (mouseenter, _))).
  destruct (decide (l ≠ (mouseenter, mouseEnterHandler hs))) as [H1|H1].
  - rewrite (filter_cons (λ l, l ≠ (mouseleave, _))).
    destruct (decide (l ≠ (mouseleave, mouseLeaveHandler hs))) as [H2|H2].
    + rewrite (filter_cons (λ l, l ≠ (click, _))).
      destruct (decide (l ≠ (click, clickHandler hs))) as [H3|H3].
      * rewrite decide_True; [by rewrite IH|].
        rewrite !elem_of_cons, elem_of_nil. tauto.
      * rewrite decide_False; [by rewrite IH|].
        apply dec_stable in H3. rewrite !elem_of_cons. tauto.
    + rewrite decide_False; [by rewrite IH|].
      apply dec_stable in H2. rewrite !elem_of_cons. tauto.
  - rewrite decide_False; [by rewrite IH|].
    apply dec_stable in H1. rewrite !elem_of_cons. tauto.
Qed.

Lemma detach_node el hs w x :
  node (detach el hs w) x =
  if decide (el = x)
  then mkElement (id (node w el)) (dataset_testid (node w el))
         (filter (λ c, c ≠ HIGHLIGHT) (classList (node w el)))
         (innerText (node w el)) (value (node w el))
         (filter (λ l, l ∉ installed hs) (listeners (node w el)))
  else node w x.
Proof.
  unfold detach. cbn zeta.
  rewrite node_log_op, node_set_trackedElements, node_log_op, node_set_elementData.
  destruct (decide (el = x)) as [->|Hne].
  - repeat (rewrite ?node_classList_remove, ?node_removeEventListener;
            rewrite (decide_True (P := x = x)) by done).
    destruct (node w x) as [i t cs it v ls]; cbn.
    unfold with_classList; cbn. by rewrite filter_installed.
  - rewrite node_classList_remove, (decide_False (P := el = x)) by done.
    by rewrite !node_removeEventListener, !(decide_False (P := el = x)) by done.
Qed.

Section detach_facts.
Context (el : nat) (hs : Handlers) (w : World).

Lemma detach_env : env (detach el hs w) = env w.
Proof. reflexivity. Qed.

Lemma detach_elementData : elementData (detach el hs w) = delete el (elementData w).
Proof. reflexivity. Qed.

Lemma detach_trackedElements :
  trackedElements (detach el hs w) = set_delete el (trackedElements w).
Proof. reflexivity. Qed.

Lemma detach_ops :
  ops (detach el hs w) =
  ops w ++ [OpRemoveListener el mouseenter (mouseEnterHandler hs);
            OpRemoveListener el mouseleave (mouseLeaveHandler hs);
            OpRemoveListener el click (clickHandler hs);
            OpClassRemove el HIGHLIGHT; OpDataDelete el; OpTrackDelete el].
Proof.
  unfold detach, classList_remove, removeEventListener.
  cbn [ops log_op set_trackedElements set_elementData update_node set_nodes].
  by rewrite <- !app_assoc.
Qed.

Lemma detach_attrs x : attrs (node (detach el hs w) x) = attrs (node w x).
Proof. rewrite detach_node. by destruct (decide (el = x)) as [->|]. Qed.

Lemma detach_no_class : ¬ has_class (detach el hs w) el.
Proof.
  unfold has_class. rewrite detach_node, decide_True by done. cbn.
  rewrite list_elem_of_filter. tauto.
Qed.
End detach_facts.

(** The two loops of [scanAndHighlight]. *)
Definition highlight_all (l : list nat) (w : World) : World :=
  foldl (λ w el, highlightElement el w) w l.
Definition cleanup_all (current l : list nat) (w : World) : World :=
  foldl (cleanup_if_gone current) w l.

Lemma scanAndHighlight_unfold w :
  scanAndHighlight w =
  cleanup_all (querySelectorAll_testid w)
    (trackedElements (highlight_all (querySelectorAll_testid w) w))
    (highlight_all (querySelectorAll_testid w) w).
Proof. reflexivity. Qed.

Lemma cleanup_if_gone_cases current w el :
  (cleanup_if_gone current w el = w ∧
   ((el ∈ current ∧ el ∈ document w) ∨ elementData w !! el = None))
  ∨ (∃ hs, cleanup_if_gone current w el = detach el hs w ∧
           elementData w !! el = Some hs ∧ (el ∉ current ∨ el ∉ document w)).
Proof.
  unfold cleanup_if_gone, document_contains. rewrite cleanupElement_unfold.
  destruct (decide (el ∈ current)) as [Hc|Hc];
    destruct (decide (el ∈ document w)) as [Hd|Hd];
    rewrite ?(bool_decide_eq_true_2 _ Hc), ?(bool_decide_eq_false_2 _ Hc),
            ?(bool_decide_eq_true_2 _ Hd), ?(bool_decide_eq_false_2 _ Hd); cbn;
    try (left; by auto);
    destruct (elementData w !! el) as [hs|] eqn:He;
    try (left; by auto); right; exists hs; auto.
Qed.

(** Attaching and detaching leave the browser side and the attributes
    of every node alone. *)
Lemma highlightElement_env el w : env (highlightElement el w) = env w.
Proof. destruct (highlightElement_cases el w) as [[-> _]|[-> _]]; done. Qed.

Lemma highlightElement_attrs el w x :
  attrs (node (highlightElement el w) x) = attrs (node w x).
Proof.
  destruct (highlightElement_cases el w) as [[-> _]|[-> _]];
    [done | apply annotate_attrs].
Qed.

Lemma cleanupElement_env el w : env (cleanupElement el w) = env w.
Proof. rewrite cleanupElement_unfold. by destruct (elementData w !! el). Qed.

Lemma cleanupElement_attrs el w x :
  attrs (node (cleanupElement el w) x) = attrs (node w x).
Proof.
  rewrite cleanupElement_unfold.
  destruct (elementData w !! el); [apply detach_attrs | done].
Qed.

Lemma cleanup_if_gone_env current w el : env (cleanup_if_gone current w el) = env w.
Proof. unfold cleanup_if_gone. destruct (_ || _); [apply cleanupElement_env | done]. Qed.

Lemma cleanup_if_gone_attrs current w el x :
  attrs (node (cleanup_if_gone current w el) x) = attrs (node w x).
Proof. unfold cleanup_if_gone. destruct (_ || _); [apply cleanupElement_attrs | done]. Qed.

Lemma highlight_all_env l w : env (highlight_all l w) = env w.
Proof.
  revert w. induction l as [|x l IH]; intros w; [done|].
  cbn. unfold highlight_all in IH. by rewrite IH, highlightElement_env.
Qed.

Lemma highlight_all_attrs l w x : attrs (node (highlight_all l w) x) = attrs (node w x).
Proof.
  revert w. induction l as [|y l IH]; intros w; [done|].
  cbn. unfold highlight_all in IH. by rewrite IH, highlightElement_attrs.
Qed.

Lemma cleanup_all_env current l w : env (cleanup_all current l w) = env w.
Proof.
  revert w. induction l as [|x l IH]; intros w; [done|].
  cbn. unfold cleanup_all in IH. by rewrite IH, cleanup_if_gone_env.
Qed.

Lemma cleanup_all_attrs current l w x :
  attrs (node (cleanup_all current l w) x) = attrs (node w x).
Proof.
  revert w. induction l as [|y l IH]; intros w; [done|].
  cbn. unfold cleanup_all in IH. by rewrite IH, cleanup_if_gone_attrs.
Qed.

Lemma scanAndHighlight_env w : env (scanAndHighlight w) = env w.
Proof. by rewrite scanAndHighlight_unfold, cleanup_all_env, highlight_all_env. Qed.

Lemma scanAndHighlight_attrs w x :
  attrs (node (scanAndHighlight w) x) = attrs (node w x).
Proof. by rewrite scanAndHighlight_unfold, cleanup_all_attrs, highlight_all_attrs. Qed.

Lemma env_document w w' : env w' = env w → document w' = document w.
Proof. unfold env. congruence. Qed.

Lemma attrs_testid e e' : attrs e' = attrs e → dataset_testid e' = dataset_testid e.
Proof. unfold attrs. congruence. Qed.

Lemma attrs_id e e' : attrs e' = attrs e → id e' = id e.
Proof. unfold attrs. congruence. Qed.

Lemma querySelectorAll_testid_ext w w' :
  document w' = document w →
  (∀ x, dataset_testid (node w' x) = dataset_testid (node w x)) →
  querySelectorAll_testid w' = querySelectorAll_testid w.
Proof.
  intros Hd Ht. unfold querySelectorAll_testid. rewrite Hd.
  apply list_filter_iff. intros x. by rewrite Ht.
Qed.

(** ** What a pass does to one element *)

Definition op_node (o : Op) : nat :=
  match o with
  | OpAddListener el _ _ | OpRemoveListener el _ _ | OpClassAdd el _
  | OpClassRemove el _ | OpDataSet el | OpDataDelete el | OpTrackAdd el
  | OpTrackDelete el => el
  end.

(** The operations performed on [el] so far. *)
Definition ops_on (el : nat) (w : World) : list Op :=
  filter (λ o, op_node o = el) (ops w).

(** [w'] and [w] agree on everything that concerns [el]. *)
Definition same_at (el : nat) (w' w : World) : Prop :=
  node w' el = node w el ∧ elementData w' !! el = elementData w !! el
  ∧ (tracked w' el ↔ tracked w el) ∧ ops_on el w' = ops_on el w.

Lemma same_at_refl el w : same_at el w w.
Proof. by repeat split. Qed.

Lemma same_at_trans el w1 w2 w3 : same_at el w1 w2 → same_at el w2 w3 → same_at el w1 w3.
Proof.
  intros (?&?&?&?) (?&?&?&?). repeat split; try congruence; tauto.
Qed.

(** [highlightElement] returns at one of its guards. *)
Definition settled (w : World) (el : nat) : Prop :=
  truthy (dataset_testid (node w el)) = false ∨ has_class w el ∨ annotated w el.

(** The loop of [scanAndHighlight] does not clean [el] up, or cleaning
    it up does nothing. *)
Definition stays (current : list nat) (w : World) (el : nat) : Prop :=
  (el ∈ current ∧ el ∈ document w) ∨ elementData w !! el = None.

Lemma settled_same_at el w' w : same_at el w' w → settled w el → settled w' el.
Proof.
  intros (Hn&He&_&_). unfold settled, has_class, annotated. by rewrite Hn, He.
Qed.

Lemma stays_same_at current el w' w :
  document w' = document w → same_at el w' w → stays current w el → stays current w' el.
Proof. intros Hd (_&He&_&_). unfold stays. by rewrite Hd, He. Qed.

Lemma annotate_same_at x el w : x ≠ el → same_at el (annotate x w) w.
Proof.
  intros Hne. repeat split.
  - by rewrite annotate_node, decide_False.
  - by rewrite annotate_elementData, lookup_insert_ne.
  - unfold tracked. rewrite annotate_trackedElements, set_add_elem. intuition congruence.
  - unfold tracked. rewrite annotate_trackedElements, set_add_elem. intuition congruence.
  - unfold ops_on. rewrite annotate_ops, filter_app.
    rewrite !filter_cons, filter_nil; cbn. rewrite !decide_False by done.
    apply app_nil_r.
Qed.

Lemma detach_same_at x hs el w : x ≠ el → same_at el (detach x hs w) w.
Proof.
  intros Hne. repeat split.
  - by rewrite detach_node, decide_False.
  - by rewrite detach_elementData, lookup_delete_ne.
  - unfold tracked. rewrite detach_trackedElements, set_delete_elem. intuition congruence.
  - unfold tracked. rewrite detach_trackedElements, set_delete_elem. intuition congruence.
  - unfold ops_on. rewrite detach_ops, filter_app.
    rewrite !filter_cons, filter_nil; cbn. rewrite !decide_False by done.
    apply app_nil_r.
Qed.

Lemma highlightElement_frame x el w : x ≠ el → same_at el (highlightElement x w) w.
Proof.
  intros Hne. destruct (highlightElement_cases x w) as [[-> _]|[-> _]];
    [apply same_at_refl | by apply annotate_same_at].
Qed.

Lemma cleanup_if_gone_frame current x el w :
  x ≠ el → same_at el (cleanup_if_gone current w x) w.
Proof.
  intros Hne. destruct (cleanup_if_gone_cases current w x) as [[-> _]|(hs&->&_)];
    [apply same_at_refl | by apply detach_same_at].
Qed.

Lemma highlightElement_settled el w : settled w el → highlightElement el w = w.
Proof.
  intros Hs. destruct (highlightElement_cases el w) as [[-> _]|(_&Ht&Hc&Ha)]; [done|].
  destruct Hs as [Hs|[Hs|Hs]]; [congruence|done|done].
Qed.

Lemma cleanup_if_gone_stays current el w :
  stays current w el → cleanup_if_gone current w el = w.
Proof.
  intros Hs. destruct (cleanup_if_gone_cases current w el) as [[-> _]|(hs&_&He&Hg)]; [done|].
  destruct Hs as [[? ?]|Hs]; [tauto|congruence].
Qed.

(** An element that is settled is not touched by the first loop. *)
Lemma highlight_all_settled l w el : settled w el → same_at el (highlight_all l w) w.
Proof.
  revert w. induction l as [|x l IH]; intros w Hs; [apply same_at_refl|].
  cbn. fold (highlight_all l (highlightElement x w)).
  destruct (decide (x = el)) as [->|Hne].
  - rewrite highlightElement_settled by done. by apply IH.
  - eapply same_at_trans; [|by apply highlightElement_frame].
    apply IH. eapply settled_same_at; [by apply highlightElement_frame|done].
Qed.

(** An element that is not scanned is not touched by the first loop. *)
Lemma highlight_all_notin l w el : el ∉ l → same_at el (highlight_all l w) w.
Proof.
  revert w. induction l as [|x l IH]; intros w Hn; [apply same_at_refl|].
  cbn. fold (highlight_all l (highlightElement x w)).
  apply not_elem_of_cons in Hn as [Hne Hn].
  eapply same_at_trans; [by apply IH|]. by apply highlightElement_frame.
Qed.

(** An element that stays is not touched by the second loop. *)
Lemma cleanup_all_stays current l w el :
  stays current w el → same_at el (cleanup_all current l w) w.
Proof.
  revert w. induction l as [|x l IH]; intros w Hs; [apply same_at_refl|].
  cbn. fold (cleanup_all current l (cleanup_if_gone current w x)).
  destruct (decide (x = el)) as [->|Hne].
  - rewrite cleanup_if_gone_stays by done. by apply IH.
  - eapply same_at_trans; [|by apply cleanup_if_gone_frame].
    apply IH. eapply stays_same_at; [|by apply cleanup_if_gone_frame|done].
    apply env_document, cleanup_if_gone_env.
Qed.

(** Past its own turn in the first loop every element is settled. *)
Lemma highlightElement_self el w : settled (highlightElement el w) el.
Proof.
  destruct (highlightElement_cases el w) as [[-> Hs]|[-> _]]; [done|].
  right; right. unfold annotated. rewrite annotate_elementData, lookup_insert_eq. eauto.
Qed.

Lemma highlight_all_in l w el : el ∈ l → settled (highlight_all l w) el.
Proof.
  revert w. induction l as [|x l IH]; intros w Hin; [by apply elem_of_nil in Hin|].
  cbn. fold (highlight_all l (highlightElement x w)).
  destruct (decide (x = el)) as [->|Hne].
  - eapply settled_same_at; [apply highlight_all_settled|]; apply highlightElement_self.
  - apply IH. apply elem_of_cons in Hin as [?|?]; [congruence|done].
Qed.

(** Past its own turn in the second loop every element stays. *)
Lemma cleanup_if_gone_self current el w : stays current (cleanup_if_gone current w el) el.
Proof.
  destruct (cleanup_if_gone_cases current w el) as [[-> Hs]|(hs&->&_)]; [done|].
  right. by rewrite detach_elementData, lookup_delete_eq.
Qed.

Lemma cleanup_all_in current l w el :
  el ∈ l → stays current (cleanup_all current l w) el.
Proof.
  revert w. induction l as [|x l IH]; intros w Hin; [by apply elem_of_nil in Hin|].
  cbn. fold (cleanup_all current l (cleanup_if_gone current w x)).
  destruct (decide (x = el)) as [->|Hne].
  - eapply stays_same_at; [..|apply cleanup_if_gone_self].
    + apply env_document, cleanup_all_env.
    + apply cleanup_all_stays, cleanup_if_gone_self.
  - apply IH. apply elem_of_cons in Hin as [?|?]; [congruence|done].
Qed.

Lemma cleanup_if_gone_tracked current w x el :
  tracked (cleanup_if_gone current w x) el → tracked w el.
Proof.
  destruct (cleanup_if_gone_cases current w x) as [[-> _]|(hs&->&_)]; [done|].
  unfold tracked. rewrite detach_trackedElements, set_delete_elem. tauto.
Qed.

Lemma cleanup_all_tracked current l w el :
  tracked (cleanup_all current l w) el → tracked w el.
Proof.
  revert w. induction l as [|x l IH]; intros w; [done|].
  cbn. fold (cleanup_all current l (cleanup_if_gone current w x)).
  intros H. eapply cleanup_if_gone_tracked, IH, H.
Qed.

Lemma highlight_all_id l w : (∀ el, el ∈ l → settled w el) → highlight_all l w = w.
Proof.
  induction l as [|x l IH]; intros Hs; [done|].
  cbn. rewrite highlightElement_settled by (apply Hs; left).
  apply IH. intros el Hin. apply Hs. by right.
Qed.

Lemma cleanup_all_id current l w :
  (∀ el, el ∈ l → stays current w el) → cleanup_all current l w = w.
Proof.
  induction l as [|x l IH]; intros Hs; [done|].
  cbn. rewrite cleanup_if_gone_stays by (apply Hs; left).
  apply IH. intros el Hin. apply Hs. by right.
Qed.

Lemma querySelectorAll_testid_document w el :
  el ∈ querySelectorAll_testid w → el ∈ document w.
Proof. unfold querySelectorAll_testid. rewrite list_elem_of_filter. tauto. Qed.

Lemma querySelectorAll_testid_scan w :
  querySelectorAll_testid (scanAndHighlight w) = querySelectorAll_testid w.
Proof.
  apply querySelectorAll_testid_ext.
  - apply env_document, scanAndHighlight_env.
  - intros x. apply attrs_testid, scanAndHighlight_attrs.
Qed.

Lemma same_at_sym el w' w : same_at el w' w → same_at el w w'.
Proof. intros (?&?&?&?). repeat split; try congruence; tauto. Qed.

(** Annotated in full: class, side-table entry and set membership. *)
Definition good (w : World) (el : nat) : Prop :=
  has_class w el ∧ annotated w el ∧ tracked w el.

Lemma good_same_at el w' w : same_at el w' w → good w el → good w' el.
Proof.
  intros (Hn&He&Ht&_). unfold good, has_class, annotated. rewrite Hn, He. tauto.
Qed.

Lemma annotate_good el w : good (annotate el w) el.
Proof.
  split; [apply annotate_has_class|]. split.
  - unfold annotated. rewrite annotate_elementData, lookup_insert_eq. eauto.
  - unfold tracked. rewrite annotate_trackedElements, set_add_elem. by left.
Qed.

Lemma good_settled w el : good w el → settled w el.
Proof. intros (?&?&?). right. by left. Qed.

(** An element that is scanned and not yet settled gets annotated. *)
Lemma highlight_all_annotates l w el :
  el ∈ l → ¬ settled w el → good (highlight_all l w) el.
Proof.
  revert w. induction l as [|x l IH]; intros w Hin Hns; [by apply elem_of_nil in Hin|].
  cbn. fold (highlight_all l (highlightElement x w)).
  destruct (decide (x = el)) as [->|Hne].
  - destruct (highlightElement_cases el w) as [[_ Hs]|[-> _]]; [done|].
    eapply good_same_at; [|apply annotate_good].
    apply highlight_all_settled, good_settled, annotate_good.
  - apply IH; [apply elem_of_cons in Hin as [?|?]; [congruence|done]|].
    intros Hs. apply Hns. eapply settled_same_at; [|exact Hs].
    by apply same_at_sym, highlightElement_frame.
Qed.

Lemma truthy_is_Some v : truthy v = true → is_Some v.
Proof. destruct v; [eauto|done]. Qed.

Lemma detach_congr el hs w1 w2 :
  same_at el w1 w2 → same_at el (detach el hs w1) (detach el hs w2).
Proof.
  intros (Hn&He&Ht&Ho). repeat split.
  - by rewrite !detach_node, !decide_True, Hn by done.
  - by rewrite !detach_elementData, !lookup_delete_eq.
  - unfold tracked. rewrite !detach_trackedElements, !set_delete_elem. tauto.
  - unfold tracked. rewrite !detach_trackedElements, !set_delete_elem. tauto.
  - unfold ops_on in *. by rewrite !detach_ops, !filter_app, Ho.
Qed.

(** An element of the walked set that is gone is detached, once. *)
Lemma cleanup_all_gone current l w el hs :
  el ∈ l → el ∉ current → elementData w !! el = Some hs →
  same_at el (cleanup_all current l w) (detach el hs w).
Proof.
  revert w. induction l as [|x l IH]; intros w Hin Hg He; [by apply elem_of_nil in Hin|].
  cbn. fold (cleanup_all current l (cleanup_if_gone current w x)).
  destruct (decide (x = el)) as [->|Hne].
  - destruct (cleanup_if_gone_cases current w el) as [[_ [[? _]|?]]|(hs'&->&He'&_)];
      [done|congruence|].
    assert (hs' = hs) as -> by congruence.
    apply cleanup_all_stays. right. by rewrite detach_elementData, lookup_delete_eq.
  - pose proof (cleanup_if_gone_frame current x el w Hne) as Hf.
    eapply same_at_trans; [|apply detach_congr, Hf].
    apply IH; [apply elem_of_cons in Hin as [?|?]; [congruence|done]|done|].
    destruct Hf as (_&->&_). done.
Qed.

(** ** The reconciliation pass *)

Lemma scanAndHighlight_fixed w current :
  querySelectorAll_testid w = current →
  (∀ el, el ∈ current → settled w el) →
  (∀ el, el ∈ trackedElements w → stays current w el) →
  scanAndHighlight w = w.
Proof.
  intros Hq Hs Hst. rewrite scanAndHighlight_unfold, Hq.
  rewrite highlight_all_id by done. by apply cleanup_all_id.
Qed.

(** C2.  A second call of [scanAndHighlight] right after a first one,
    with the page unchanged in between, returns the state the first call
    left: the Tracked Element Set is the same, and the second call adds
    no attach operation (class add, addEventListener, side-table insert,
    set add) and no detach operation to those performed. *)
Theorem scanAndHighlight_idempotent (w : World) :
  let w1 := scanAndHighlight w in
  scanAndHighlight w1 = w1
  ∧ trackedElements (scanAndHighlight w1) = trackedElements w1
  ∧ elementData (scanAndHighlight w1) = elementData w1
  ∧ ops (scanAndHighlight w1) = ops w1.
Proof.
  intros w1.
  assert (scanAndHighlight w1 = w1) as Hid; [|by rewrite Hid].
  set (current := querySelectorAll_testid w).
  set (wm := highlight_all current w).
  assert (w1 = cleanup_all current (trackedElements wm) wm) as Hw1 by reflexivity.
  assert (document wm = document w) as Hdm by apply env_document, highlight_all_env.
  apply (scanAndHighlight_fixed w1 current).
  - apply querySelectorAll_testid_scan.
  - intros el Hin.
    eapply settled_same_at; [|by apply (highlight_all_in current w)].
    rewrite Hw1. apply cleanup_all_stays. left. split; [done|].
    fold wm. rewrite Hdm. by apply querySelectorAll_testid_document.
  - intros el Hin. rewrite Hw1. apply cleanup_all_in.
    eapply cleanup_all_tracked. rewrite <- Hw1. exact Hin.
Qed.

(** Coverage in a state where an element with a side-table entry is in
    the set. *)
Lemma scanAndHighlight_covers (w : World) (el : nat) :
  el ∈ document w →
  truthy (dataset_testid (node w el)) = true →
  (annotated w el → tracked w el) →
  let w' := scanAndHighlight w in
  ((has_class w el ↔ annotated w el) →
     tracked w' el ∧ annotated w' el ∧ has_class w' el)
  ∧ (has_class w el → ¬ annotated w el →
     ¬ annotated w' el ∧ has_class w' el ∧ highlightElement el w = w).
Proof.
  intros Hdoc Ht Htr w'.
  assert (el ∈ querySelectorAll_testid w) as Hcur.
  { unfold querySelectorAll_testid. apply list_elem_of_filter.
    split; [by apply truthy_is_Some|done]. }
  set (current := querySelectorAll_testid w) in *.
  set (wm := highlight_all current w).
  assert (document wm = document w) as Hdm by apply env_document, highlight_all_env.
  assert (same_at el w' wm) as Hsame.
  { apply cleanup_all_stays. left. split; [done|]. by rewrite Hdm. }
  split.
  - intros Hagree.
    enough (good w' el) as (?&?&?) by done.
    eapply good_same_at; [exact Hsame|].
    destruct (decide (HIGHLIGHT ∈ classList (node w el))) as [Hc|Hc].
    + eapply good_same_at; [apply highlight_all_settled; right; by left|].
      split; [done|]. split; [tauto|]. apply Htr. tauto.
    + apply highlight_all_annotates; [done|].
      intros [Hs|[Hs|Hs]]; [congruence|done|tauto].
  - intros Hc Hna.
    assert (settled w el) as Hs by (right; by left).
    pose proof (same_at_trans _ _ _ _ Hsame (highlight_all_settled current w el Hs))
      as (Hn&He&_&_).
    unfold annotated, has_class. rewrite Hn, He.
    split; [done|]. split; [done|]. by apply highlightElement_settled.
Qed.

(** Cleanup of an element whose side-table entry is [hs]. *)
Lemma scanAndHighlight_detaches (w : World) (el : nat) (hs : Handlers) :
  tracked w el →
  elementData w !! el = Some hs →
  el ∉ querySelectorAll_testid w ∨ el ∉ document w →
  let w' := scanAndHighlight w in
  ¬ tracked w' el
  ∧ elementData w' !! el = None
  ∧ ¬ has_class w' el
  ∧ listeners (node w' el) = filter (λ l, l ∉ installed hs) (listeners (node w el))
  ∧ ops_on el w' =
    ops_on el w ++ [OpRemoveListener el mouseenter (mouseEnterHandler hs);
                    OpRemoveListener el mouseleave (mouseLeaveHandler hs);
                    OpRemoveListener el click (clickHandler hs);
                    OpClassRemove el HIGHLIGHT; OpDataDelete el; OpTrackDelete el].
Proof.
  intros Htr He Hgone w'.
  assert (el ∉ querySelectorAll_testid w) as Hcur.
  { destruct Hgone as [?|Hd]; [done|].
    intros Hin. by apply Hd, querySelectorAll_testid_document. }
  set (current := querySelectorAll_testid w) in *.
  set (wm := highlight_all current w).
  pose proof (highlight_all_notin current w el Hcur) as Hm. fold wm in Hm.
  assert (same_at el w' (detach el hs w)) as (Hn&Hd&Ht&Ho).
  { eapply same_at_trans; [|apply detach_congr, Hm].
    apply cleanup_all_gone; [|done|].
    - destruct Hm as (_&_&Hmt&_). by apply Hmt.
    - destruct Hm as (_&->&_). done. }
  split; [|split; [|split; [|split]]].
  - rewrite Ht. unfold tracked. rewrite detach_trackedElements, set_delete_elem. tauto.
  - by rewrite Hd, detach_elementData, lookup_delete_eq.
  - unfold has_class. rewrite Hn. apply detach_no_class.
  - by rewrite Hn, detach_node, decide_True.
  - rewrite Ho. unfold ops_on. rewrite detach_ops, filter_app.
    f_equal. rewrite !filter_cons, filter_nil; cbn. by rewrite !decide_True.
Qed.

(** C10.  [cleanupElement] on an element without a side-table entry
    returns the state it was given: no listener is removed, the class
    list and [trackedElements] are as they were, no operation is added.
    There is no failing branch. *)
Theorem cleanupElement_without_entry_is_noop (w : World) (el : nat) :
  elementData w !! el = None →
  cleanupElement el w = w
  ∧ listeners (node (cleanupElement el w) el) = listeners (node w el)
  ∧ classList (node (cleanupElement el w) el) = classList (node w el)
  ∧ trackedElements (cleanupElement el w) = trackedElements w
  ∧ ops (cleanupElement el w) = ops w.
Proof.
  intros He. unfold cleanupElement. by rewrite He.
Qed.

(** ** Invariants of the running script *)

(** The function objects that [highlightElement] creates. *)
Definition is_script_handler (h : Handler) : bool :=
  match h with
  | MouseEnter _ _ | MouseLeave _ _ | ClickCopy _ _ => true
  | _ => false
  end.

(** [el] has the three listeners of one [highlightElement] activation. *)
Definition has_installed (w : World) (el : nat) : Prop :=
  ∃ k, ∀ l, l ∈ installed (mkHandlers (MouseEnter el k) (MouseLeave el k) (ClickCopy el k)) →
            l ∈ listeners (node w el).

(** The side-table, the set and the listeners on the page say the same. *)
Record linked (w : World) : Prop := mkLinked {
  linked_tracked : ∀ el, el ∈ trackedElements w ↔ is_Some (elementData w !! el);
  linked_entry : ∀ el hs, elementData w !! el = Some hs →
    (∃ k, hs = mkHandlers (MouseEnter el k) (MouseLeave el k) (ClickCopy el k))
    ∧ ∀ l, l ∈ installed hs → l ∈ listeners (node w el);
  linked_listeners : ∀ el l, l ∈ listeners (node w el) → is_script_handler l.2 = true →
    ∃ hs, elementData w !! el = Some hs ∧ l ∈ installed hs
}.

(** Node numbers below [nextNode] are the ones handed out, and the
    document holds only nodes that exist. *)
Record stored (w : World) : Prop := mkStored {
  stored_fresh : ∀ n, is_Some (nodes w !! n) → n < nextNode w;
  stored_document : ∀ n, n ∈ document w → is_Some (nodes w !! n)
}.

(** The feedback artifacts in the document. *)
Definition feedbacks (w : World) : list nat :=
  filter (λ n, id (node w n) = FEEDBACK_ID) (document w).

Definition is_feedback_timer (e : nat * (nat * Callback)) : bool :=
  match e.2.2 with FeedbackRemoval _ => true | _ => false end.
Definition is_later_timer (e : nat * (nat * Callback)) : bool :=
  match e.2.2 with Later _ => true | _ => false end.

(** Pending feedback timers are registered in [activeTimeouts], timer
    ids below [nextTimer] are the ones handed out, each once, and the one
    pending [later] is the one the debouncer remembers. *)
Record timers_ok (w : World) : Prop := mkTimersOk {
  timers_active : ∀ e, e ∈ timers w → is_feedback_timer e = true → e.1 ∈ activeTimeouts w;
  timers_fresh : ∀ e, e ∈ timers w → e.1 < nextTimer w;
  timers_later : ∀ e, e ∈ timers w → is_later_timer e = true → timeout w = Some e.1;
  timers_nodup : NoDup (timers w).*1
}.

Record wf (w : World) : Prop := mkWf {
  wf_linked : linked w;
  wf_stored : stored w;
  wf_feedback : length (feedbacks w) ≤ 1;
  wf_timers : timers_ok w
}.

(** What each invariant reads. *)
Definition script_view (w : World) := (elementData w, trackedElements w).
Definition page_view (w : World) := (nodes w, document w, nextNode w).
Definition timer_view (w : World) :=
  (timers w, nextTimer w, activeTimeouts w, timeout w).

Lemma node_ext w' w : nodes w' = nodes w → ∀ x, node w' x = node w x.
Proof. intros H x. unfold node. by rewrite H. Qed.

Lemma linked_ext w' w :
  script_view w' = script_view w → (∀ x, listeners (node w' x) = listeners (node w x)) →
  linked w → linked w'.
Proof.
  unfold script_view. intros [= He Ht] Hn [H1 H2 H3]. split.
  - intros el. rewrite Ht, He. apply H1.
  - intros el hs. rewrite He, Hn. apply H2.
  - intros el l. rewrite He, Hn. apply H3.
Qed.

Lemma stored_ext w' w : page_view w' = page_view w → stored w → stored w'.
Proof.
  unfold page_view. intros [= Hn Hd Hx] [H1 H2]. split.
  - intros n. rewrite Hn, Hx. apply H1.
  - intros n. rewrite Hn, Hd. apply H2.
Qed.

Lemma feedbacks_ext w' w :
  document w' = document w → (∀ x, x ∈ document w → id (node w' x) = id (node w x)) →
  feedbacks w' = feedbacks w.
Proof.
  intros Hd Hi. unfold feedbacks. rewrite Hd.
  revert Hi. generalize (document w) as l.
  induction l as [|x l IH]; intros Hi; [done|].
  rewrite !filter_cons, Hi by left.
  rewrite IH; [done|]. intros y Hy. apply Hi. by right.
Qed.

Lemma timers_ok_ext w' w : timer_view w' = timer_view w → timers_ok w → timers_ok w'.
Proof.
  unfold timer_view. intros [= Ht Hn Ha Ho] [H1 H2 H3 H4]. split.
  - intros e. rewrite Ht, Ha. apply H1.
  - intros e. rewrite Ht, Hn. apply H2.
  - intros e. rewrite Ht, Ho. apply H3.
  - by rewrite Ht.
Qed.

(** A state change that touches neither the page nor the timers nor the
    bookkeeping of the script. *)
Lemma wf_ext w' w :
  script_view w' = script_view w → page_view w' = page_view w →
  timer_view w' = timer_view w → wf w → wf w'.
Proof.
  intros Hs Hp Ht [H1 H2 H3 H4].
  assert (nodes w' = nodes w) as Hn by (unfold page_view in Hp; congruence).
  assert (document w' = document w) as Hd by (unfold page_view in Hp; congruence).
  split.
  - eapply linked_ext; [done| |done]. intros x. by rewrite (node_ext _ _ Hn).
  - by eapply stored_ext.
  - rewrite (feedbacks_ext w' w); [done|done|]. intros x _. by rewrite (node_ext _ _ Hn).
  - by eapply timers_ok_ext.
Qed.

Lemma env_timer_view w' w : env w' = env w → timer_view w' = timer_view w.
Proof. unfold env, timer_view. congruence. Qed.

Lemma env_nextNode w' w : env w' = env w → nextNode w' = nextNode w.
Proof. unfold env. congruence. Qed.

Lemma node_in_store w n : node w n ≠ blank → is_Some (nodes w !! n).
Proof. unfold node. destruct (nodes w !! n); [eauto|done]. Qed.

Lemma update_node_keys n f w : dom (nodes (update_node n f w)) = {[n]} ∪ dom (nodes w).
Proof. unfold update_node; cbn. apply dom_insert_L. Qed.

Lemma annotate_keys el w : dom (nodes (annotate el w)) = {[el]} ∪ dom (nodes w).
Proof.
  unfold annotate, classList_add, addEventListener, update_node; cbn.
  rewrite !dom_insert_L. set_solver.
Qed.

Lemma detach_keys el hs w : dom (nodes (detach el hs w)) = {[el]} ∪ dom (nodes w).
Proof.
  unfold detach, classList_remove, removeEventListener, update_node; cbn.
  rewrite !dom_insert_L. set_solver.
Qed.

Lemma stored_keys w' w el :
  dom (nodes w') = {[el]} ∪ dom (nodes w) → is_Some (nodes w !! el) →
  document w' = document w → nextNode w' = nextNode w →
  stored w → stored w'.
Proof.
  intros Hk Hel Hd Hn [H1 H2]. split.
  - intros n Hs. rewrite Hn. apply H1.
    apply elem_of_dom in Hs. rewrite Hk in Hs.
    apply elem_of_union in Hs as [Hs|Hs]; [|by apply elem_of_dom].
    apply elem_of_singleton in Hs. by subst.
  - intros n Hin. rewrite Hd in Hin. apply H2 in Hin.
    apply elem_of_dom. rewrite Hk. apply elem_of_union. right. by apply elem_of_dom.
Qed.

Lemma installed_elem hs l :
  l ∈ installed hs ↔
  l = (mouseenter, mouseEnterHandler hs) ∨ l = (mouseleave, mouseLeaveHandler hs)
  ∨ l = (click, clickHandler hs).
Proof. unfold installed. rewrite !elem_of_cons, elem_of_nil. tauto. Qed.

Lemma annotate_linked el w : ¬ annotated w el → linked w → linked (annotate el w).
Proof.
  intros Hna [H1 H2 H3]. split.
  - intros x. rewrite annotate_trackedElements, annotate_elementData, set_add_elem.
    destruct (decide (el = x)) as [->|Hne].
    + rewrite lookup_insert_eq. split; eauto.
    + rewrite lookup_insert_ne by done. rewrite <- H1. intuition congruence.
  - intros x hs. rewrite annotate_elementData, annotate_node.
    destruct (decide (el = x)) as [->|Hne].
    + rewrite lookup_insert_eq. intros [= <-]. split; [eauto|].
      intros l Hl. cbn. rewrite !add_listener_elem.
      apply installed_elem in Hl. cbn in Hl. tauto.
    + rewrite lookup_insert_ne by done. apply H2.
  - intros x l. rewrite annotate_elementData, annotate_node.
    destruct (decide (el = x)) as [->|Hne].
    + rewrite lookup_insert_eq. cbn. rewrite !add_listener_elem. intros Hl Hs.
      eexists. split; [done|]. rewrite installed_elem. cbn.
      destruct Hl as [?|[?|[?|Hl]]]; [tauto..|].
      destruct (H3 _ _ Hl Hs) as (hs&He&_). destruct Hna. unfold annotated. by rewrite He.
    + rewrite lookup_insert_ne by done. apply H3.
Qed.

Lemma detach_linked el hs w :
  elementData w !! el = Some hs → linked w → linked (detach el hs w).
Proof.
  intros He [H1 H2 H3]. split.
  - intros x. rewrite detach_trackedElements, detach_elementData, set_delete_elem.
    destruct (decide (el = x)) as [->|Hne].
    + rewrite lookup_delete_eq. split; [tauto|]. by intros [? ?].
    + rewrite lookup_delete_ne by done. rewrite <- H1. intuition congruence.
  - intros x hs'. rewrite detach_elementData, detach_node.
    destruct (decide (el = x)) as [->|Hne].
    + by rewrite lookup_delete_eq.
    + rewrite lookup_delete_ne by done. apply H2.
  - intros x l. rewrite detach_elementData, detach_node.
    destruct (decide (el = x)) as [->|Hne].
    + cbn. rewrite list_elem_of_filter. intros [Hn Hl] Hs.
      destruct (H3 _ _ Hl Hs) as (hs'&He'&Hi).
      assert (hs' = hs) as -> by congruence. done.
    + rewrite lookup_delete_ne by done. apply H3.
Qed.

Lemma wf_attach_detach w' w el :
  env w' = env w → (∀ x, attrs (node w' x) = attrs (node w x)) →
  dom (nodes w') = {[el]} ∪ dom (nodes w) → is_Some (nodes w !! el) →
  linked w' → wf w → wf w'.
Proof.
  intros Henv Hattrs Hk Hel Hl [_ H2 H3 H4]. split; [done|..].
  - eapply stored_keys; [done|done|by apply env_document|by apply env_nextNode|done].
  - rewrite (feedbacks_ext w' w); [done|by apply env_document|].
    intros x _. apply attrs_id, Hattrs.
  - eapply timers_ok_ext; [by apply env_timer_view|done].
Qed.

Lemma truthy_in_store w el :
  truthy (dataset_testid (node w el)) = true → is_Some (nodes w !! el).
Proof. intros H. apply node_in_store. intros Hb. by rewrite Hb in H. Qed.

Lemma linked_in_store w el hs :
  linked w → elementData w !! el = Some hs → is_Some (nodes w !! el).
Proof.
  intros [_ H2 _] He. apply node_in_store. intros Hb.
  destruct (H2 _ _ He) as [_ Hl].
  specialize (Hl (mouseenter, mouseEnterHandler hs)).
  rewrite Hb in Hl. cbn in Hl. eapply not_elem_of_nil, Hl. apply installed_elem. auto.
Qed.

Lemma highlightElement_wf el w : wf w → wf (highlightElement el w).
Proof.
  intros Hwf. destruct (highlightElement_cases el w) as [[-> _]|(->&Ht&_&Ha)]; [done|].
  eapply wf_attach_detach; [apply annotate_env|apply annotate_attrs|apply annotate_keys
                            |by apply truthy_in_store| |done].
  apply annotate_linked; [done|apply Hwf].
Qed.

Lemma cleanupElement_wf el w : wf w → wf (cleanupElement el w).
Proof.
  intros Hwf. rewrite cleanupElement_unfold.
  destruct (elementData w !! el) as [hs|] eqn:He; [|done].
  eapply wf_attach_detach; [apply detach_env|apply detach_attrs|apply detach_keys| | |done].
  - eapply linked_in_store; [apply Hwf|done].
  - apply detach_linked; [done|apply Hwf].
Qed.

Lemma foldl_preserves {A} (P : World → Prop) (f : World → A → World) l w :
  (∀ w x, P w → P (f w x)) → P w → P (foldl f w l).
Proof. intros Hf. revert w. induction l as [|x l IH]; intros w Hw; cbn; auto. Qed.

Lemma scanAndHighlight_wf w : wf w → wf (scanAndHighlight w).
Proof.
  intros Hwf. unfold scanAndHighlight.
  apply foldl_preserves.
  - intros w0 x H0. unfold cleanup_if_gone. destruct (_ || _); [by apply cleanupElement_wf|done].
  - apply foldl_preserves; [|done]. intros w0 x H0. by apply highlightElement_wf.
Qed.

(** [linked] reads the listeners of a node only as far as they are the
    script's own. *)
Lemma linked_script_ext w' w :
  script_view w' = script_view w →
  (∀ x l, is_script_handler l.2 = true →
          (l ∈ listeners (node w' x) ↔ l ∈ listeners (node w x))) →
  linked w → linked w'.
Proof.
  unfold script_view. intros [= He Ht] Hn [H1 H2 H3]. split.
  - intros el. rewrite Ht, He. apply H1.
  - intros el hs. rewrite He. intros Hhs.
    destruct (H2 _ _ Hhs) as [(k&->) Hl]. split; [eauto|].
    intros l Hi. apply Hn; [|by apply Hl].
    apply installed_elem in Hi. cbn in Hi. by destruct Hi as [->|[->| ->]].
  - intros el l Hl Hs. rewrite He. apply H3; [|done]. by apply Hn.
Qed.

Lemma NoDup_fst_filter {A} (P : nat * A → Prop) `{∀ e, Decision (P e)} (l : list (nat * A)) :
  NoDup l.*1 → NoDup (filter P l).*1.
Proof. intros Hl. eapply sublist_NoDup; [exact Hl|]. apply fmap_sublist, sublist_filter. Qed.

Lemma NoDup_fst_snoc {A} (l : list (nat * A)) t x :
  NoDup l.*1 → (∀ e, e ∈ l → e.1 < t) → NoDup (l ++ [(t, x)]).*1.
Proof.
  intros Hl Hf. rewrite fmap_app. apply NoDup_app. split; [done|]. split.
  - intros y Hy Hy'. apply list_elem_of_singleton in Hy'. cbn in Hy'. subst y.
    apply list_elem_of_fmap in Hy as (e&He1&He). apply Hf in He. lia.
  - apply NoDup_singleton.
Qed.

Lemma timers_ok_filter (P : nat * (nat * Callback) → Prop) `{∀ e, Decision (P e)} w :
  timers_ok w → timers_ok (set_timers (filter P) w).
Proof.
  intros [H1 H2 H3 H4]. split; cbn.
  - intros e [_ He]%list_elem_of_filter. by apply H1.
  - intros e [_ He]%list_elem_of_filter. by apply H2.
  - intros e [_ He]%list_elem_of_filter. by apply H3.
  - by apply NoDup_fst_filter.
Qed.

Lemma clearTimeout_timers_ok t w : timers_ok w → timers_ok (clearTimeout t w).
Proof. destruct t as [t|]; [|done]. apply timers_ok_filter. Qed.

Lemma wf_timers_only w' w :
  script_view w' = script_view w → page_view w' = page_view w →
  timers_ok w' → wf w → wf w'.
Proof.
  intros Hs Hp Ht [H1 H2 H3 _].
  assert (nodes w' = nodes w) as Hn by (unfold page_view in Hp; congruence).
  assert (document w' = document w) as Hd by (unfold page_view in Hp; congruence).
  split; [| |rewrite (feedbacks_ext w' w)|]; try done.
  - eapply linked_ext; [done| |done]. intros x. by rewrite (node_ext _ _ Hn).
  - by eapply stored_ext.
  - intros x _. by rewrite (node_ext _ _ Hn).
Qed.

Lemma clearTimeout_wf t w : wf w → wf (clearTimeout t w).
Proof.
  intros Hwf. apply (wf_timers_only _ w); [by destruct t..| |done].
  apply clearTimeout_timers_ok, Hwf.
Qed.

(** A timer that is neither a feedback timer nor a [later]. *)
Lemma setTimeout_wf cb d w :
  match cb with LeaveRemoval | TooltipLeaveRemoval _ => True | _ => False end →
  wf w → wf (setTimeout cb d w).2.
Proof.
  intros Hcb Hwf. apply (wf_timers_only _ w); [done..| |done].
  destruct Hwf as [_ _ _ [H1 H2 H3 H4]]. split; cbn.
  - intros e [He|He%list_elem_of_singleton]%elem_of_app; [by apply H1|].
    subst e. by destruct cb.
  - intros e [He|He%list_elem_of_singleton]%elem_of_app; [apply H2 in He; lia|].
    subst e. cbn. lia.
  - intros e [He|He%list_elem_of_singleton]%elem_of_app; [by apply H3|].
    subst e. by destruct cb.
  - by apply NoDup_fst_snoc.
Qed.

Lemma filter_filter_comm {A} (P Q : A → Prop) `{∀ x, Decision (P x)} `{∀ x, Decision (Q x)}
    (l : list A) :
  filter P (filter Q l) = filter Q (filter P l).
Proof.
  rewrite !list_filter_filter. apply list_filter_iff. intros x. tauto.
Qed.

Lemma feedbacks_remove n w :
  feedbacks (remove n w) = filter (λ m, m ≠ n) (feedbacks w).
Proof.
  unfold feedbacks, remove; cbn.
  change (λ n0, id (node (set_document (filter (λ m, m ≠ n)) w) n0) = FEEDBACK_ID)
    with (λ n0, id (node w n0) = FEEDBACK_ID).
  apply filter_filter_comm.
Qed.

Lemma remove_wf n w : wf w → wf (remove n w).
Proof.
  intros [H1 [H2 H2'] H3 H4]. split.
  - apply (linked_ext _ w); done.
  - split; cbn; [done|]. intros m [_ Hm]%list_elem_of_filter. by apply H2'.
  - rewrite feedbacks_remove. etrans; [apply length_filter|done].
  - apply (timers_ok_ext _ w); done.
Qed.

Lemma createElement_node w x : stored w → node (createElement w).2 x = node w x.
Proof.
  intros [H1 _]. unfold createElement, node; cbn.
  destruct (decide (nextNode w = x)) as [<-|Hne].
  - rewrite lookup_insert_eq. destruct (nodes w !! nextNode w) eqn:Hn; [|done].
    assert (nextNode w < nextNode w) by (apply H1; eauto). lia.
  - by rewrite lookup_insert_ne.
Qed.

Lemma createElement_wf w :
  wf w →
  let n := (createElement w).1 in
  let w' := (createElement w).2 in
  wf w' ∧ is_Some (nodes w' !! n) ∧ (n ∉ document w') ∧ node w' n = blank.
Proof.
  intros [H1 H2 H3 H4] n w'. unfold n, w'. split; [split|].
  - apply (linked_ext _ w); [done| |done]. intros x. by rewrite createElement_node.
  - destruct H2 as [H2 H2']. split; cbn.
    + intros m Hm. apply lookup_insert_is_Some in Hm as [Hm|[_ Hm]]; [lia|].
      apply H2 in Hm. lia.
    + intros m Hm. apply lookup_insert_is_Some'. right. by apply H2'.
  - rewrite (feedbacks_ext _ w); [done|done|]. intros x _. by rewrite createElement_node.
  - apply (timers_ok_ext _ w); done.
  - split; [|split].
    + cbn. rewrite lookup_insert_eq. eauto.
    + cbn. intros Hin. destruct H2 as [H2 H2']. apply H2', H2 in Hin. lia.
    + unfold node; cbn. by rewrite lookup_insert_eq.
Qed.

Lemma update_node_wf n f w :
  wf w → is_Some (nodes w !! n) →
  n ∉ document w ∨ id (f (node w n)) = id (node w n) →
  (∀ l, is_script_handler l.2 = true →
        (l ∈ listeners (f (node w n)) ↔ l ∈ listeners (node w n))) →
  wf (update_node n f w).
Proof.
  intros [H1 H2 H3 H4] Hn Hid Hl. split.
  - apply (linked_script_ext _ w); [done| |done].
    intros x l Hs. rewrite node_update_node.
    destruct (decide (n = x)) as [<-|]; [by apply Hl|done].
  - eapply (stored_keys _ w n); [apply update_node_keys|done..].
  - rewrite (feedbacks_ext _ w); [done|done|].
    intros x Hx. rewrite node_update_node.
    destruct (decide (n = x)) as [<-|]; [|done].
    destruct Hid as [?|?]; done.
  - apply (timers_ok_ext _ w); done.
Qed.

Lemma appendChild_wf n w :
  wf w → is_Some (nodes w !! n) →
  id (node w n) ≠ FEEDBACK_ID ∨ feedbacks w = [] →
  wf (appendChild n w).
Proof.
  intros [H1 [H2 H2'] H3 H4] Hn Hid. split.
  - apply (linked_ext _ w); done.
  - split; cbn; [done|].
    intros m [[_ Hm]%list_elem_of_filter|Hm%list_elem_of_singleton]%elem_of_app;
      [by apply H2'|by subst].
  - change (feedbacks (appendChild n w))
      with (filter (λ m, id (node w m) = FEEDBACK_ID)
              (filter (λ m, m ≠ n) (document w) ++ [n])).
    rewrite filter_app, length_app.
    rewrite filter_filter_comm. fold (feedbacks w).
    destruct Hid as [Hid|Hid].
    + rewrite filter_cons, decide_False by done. cbn.
      pose proof (length_filter (λ m, m ≠ n) (feedbacks w)). lia.
    + rewrite Hid. cbn. pose proof (length_filter (λ m, id (node w m) = FEEDBACK_ID) [n]).
      cbn in *. lia.
  - apply (timers_ok_ext _ w); done.
Qed.

Lemma filter_all {A} (P : A → Prop) `{∀ x, Decision (P x)} (l : list A) :
  (∀ x, x ∈ l → P x) → filter P l = l.
Proof.
  induction l as [|x l IH]; intros Hl; [done|].
  rewrite filter_cons_True by (apply Hl; left).
  f_equal. apply IH. intros y Hy. apply Hl. by right.
Qed.

Lemma filter_none {A} (P : A → Prop) `{∀ x, Decision (P x)} (l : list A) :
  (∀ x, x ∈ l → ¬ P x) → filter P l = [].
Proof.
  induction l as [|x l IH]; intros Hl; [done|].
  rewrite filter_cons_False by (apply Hl; left).
  apply IH. intros y Hy. apply Hl. by right.
Qed.

Lemma filter_ext_in {A} (P Q : A → Prop) `{∀ x, Decision (P x)} `{∀ x, Decision (Q x)}
    (l : list A) :
  (∀ x, x ∈ l → P x ↔ Q x) → filter P l = filter Q l.
Proof.
  induction l as [|x l IH]; intros Hl; [done|].
  rewrite !filter_cons. rewrite IH by (intros y Hy; apply Hl; by right).
  destruct (decide (P x)) as [Hp|Hp].
  - rewrite decide_True; [done|]. apply Hl; [left|done].
  - rewrite decide_False; [done|]. intros Hq. apply Hp, Hl; [left|done].
Qed.

Lemma getElementById_FEEDBACK w : getElementById FEEDBACK_ID w = head (feedbacks w).
Proof. reflexivity. Qed.

Lemma remove_if_present_wf i w : wf w → wf (remove_if_present i w).
Proof.
  intros Hwf. unfold remove_if_present.
  destruct (getElementById i w); [by apply remove_wf|done].
Qed.

(** With at most one feedback artifact around, removing the one that
    [getElementById] finds leaves none. *)
Lemma remove_if_present_feedbacks w :
  length (feedbacks w) ≤ 1 → feedbacks (remove_if_present FEEDBACK_ID w) = [].
Proof.
  intros Hlen. unfold remove_if_present. rewrite getElementById_FEEDBACK.
  destruct (feedbacks w) as [|m [|m' l]] eqn:Hf; [done| |cbn in Hlen; lia].
  cbn [head]. rewrite feedbacks_remove, Hf, filter_cons, decide_False by (intros H; by apply H).
  done.
Qed.

(** The [forEach] of [showCopyFeedback] clears every timer registered in
    [activeTimeouts] and empties the set. *)
Lemma clear_and_delete_all l w :
  let w' := foldl clear_and_delete w l in
  timers w' = filter (λ e, e.1 ∉ l) (timers w)
  ∧ activeTimeouts w' = filter (λ t, t ∉ l) (activeTimeouts w)
  ∧ script_view w' = script_view w ∧ page_view w' = page_view w
  ∧ nextTimer w' = nextTimer w ∧ timeout w' = timeout w
  ∧ calls w' = calls w ∧ clock w' = clock w.
Proof.
  revert w. induction l as [|t l IH]; intros w; cbn.
  - repeat split; try done.
    + symmetry. apply filter_all. intros; apply not_elem_of_nil.
    + symmetry. apply filter_all. intros; apply not_elem_of_nil.
  - destruct (IH (clear_and_delete w t)) as (H1&H2&H3&H4&H5&H6&H7&H8).
    rewrite H1, H2, H3, H4, H5, H6, H7, H8. cbn.
    repeat split; try done.
    + rewrite list_filter_filter. apply list_filter_iff. intros e.
      rewrite not_elem_of_cons. tauto.
    + unfold set_delete. rewrite list_filter_filter. apply list_filter_iff. intros e.
      rewrite not_elem_of_cons. tauto.
Qed.

Lemma clear_and_delete_wf w : wf w → wf (foldl clear_and_delete w (activeTimeouts w)).
Proof.
  intros Hwf.
  destruct (clear_and_delete_all (activeTimeouts w) w) as (H1&H2&H3&H4&H5&H6&_).
  apply (wf_timers_only _ w); [done..| |done].
  destruct Hwf as [_ _ _ [T1 T2 T3 T4]]. split.
  - rewrite H1. intros e [Hn He]%list_elem_of_filter Hf. destruct Hn. by apply T1.
  - rewrite H1, H5. intros e [_ He]%list_elem_of_filter. by apply T2.
  - rewrite H1, H6. intros e [_ He]%list_elem_of_filter. by apply T3.
  - rewrite H1. by apply NoDup_fst_filter.
Qed.

Lemma log_call_wf c w : wf w → wf (log_call c w).
Proof. by apply wf_ext. Qed.
Lemma log_op_wf o w : wf w → wf (log_op o w).
Proof. by apply wf_ext. Qed.

Lemma showCopyFeedback_wf el testId w : wf w → wf (showCopyFeedback el testId w).
Proof.
  intros Hwf. unfold showCopyFeedback. cbn zeta.
  set (w1 := remove_if_present FEEDBACK_ID (log_call _ w)).
  assert (wf w1) as Hw1 by by apply remove_if_present_wf, log_call_wf.
  assert (feedbacks w1 = []) as Hf1 by (apply remove_if_present_feedbacks, Hwf).
  set (w2 := foldl clear_and_delete w1 (activeTimeouts w1)).
  assert (wf w2) as Hw2 by by apply clear_and_delete_wf.
  assert (feedbacks w2 = []) as Hf2.
  { destruct (clear_and_delete_all (activeTimeouts w1) w1) as (_&_&_&Hp&_).
    fold w2 in Hp. unfold page_view in Hp. injection Hp as Hn Hd _.
    rewrite (feedbacks_ext w2 w1); [done|done|]. intros x _. by rewrite (node_ext _ _ Hn). }
  assert (activeTimeouts w2 = []) as Ha2.
  { destruct (clear_and_delete_all (activeTimeouts w1) w1) as (_&Ha&_).
    fold w2 in Ha. rewrite Ha. apply filter_none. intros t Ht Hn. done. }
  destruct (createElement_wf w2 Hw2) as (Hw3&Hs3&Hd3&Hb3).
  destruct (createElement w2) as [feedback w3] eqn:Hc. cbn in Hw3, Hs3, Hd3, Hb3.
  assert (feedbacks w3 = []) as Hf3.
  { replace w3 with (createElement w2).2 by by rewrite Hc.
    rewrite (feedbacks_ext _ w2); [done|done|].
    intros x _. rewrite createElement_node; [done|apply Hw2]. }
  assert (timer_view w3 = timer_view w2) as Ht3.
  { replace w3 with (createElement w2).2 by by rewrite Hc. done. }
  set (w4 := update_node feedback _ w3).
  assert (wf w4) as Hw4.
  { apply update_node_wf; [done|done|by left|]. intros l _. by rewrite Hb3. }
  set (w5 := appendChild feedback w4).
  assert (wf w5) as Hw5.
  { apply appendChild_wf; [done| |right].
    - unfold w4, update_node; cbn. rewrite lookup_insert_eq. eauto.
    - rewrite (feedbacks_ext w4 w3); [done|done|].
      intros x Hx. unfold w4. rewrite node_update_node.
      destruct (decide (feedback = x)) as [<-|]; done. }
  cbn. apply (wf_timers_only _ w5); [done..| |done].
  destruct Hw5 as [_ _ _ [T1 T2 T3 T4]]. split; cbn.
  - intros e [He|He%list_elem_of_singleton]%elem_of_app Hf.
    + apply set_add_elem. right. by apply T1.
    + subst e. apply set_add_elem. by left.
  - intros e [He|He%list_elem_of_singleton]%elem_of_app; [apply T2 in He; cbn in *; lia|].
    subst e. cbn. lia.
  - intros e [He|He%list_elem_of_singleton]%elem_of_app; [by apply T3|].
    by subst e.
  - by apply NoDup_fst_snoc.
Qed.

Lemma set_clipboard_wf v w : wf w → wf (set_clipboard v w).
Proof. by apply wf_ext. Qed.
Lemma set_console_wf f w : wf w → wf (set_console f w).
Proof. by apply wf_ext. Qed.
Lemma set_pendingWrites_wf f w : wf w → wf (set_pendingWrites f w).
Proof. by apply wf_ext. Qed.
Lemma set_pointer_wf v w : wf w → wf (set_pointer v w).
Proof. by apply wf_ext. Qed.
Lemma set_observing_wf v w : wf w → wf (set_observing v w).
Proof. by apply wf_ext. Qed.
Lemma set_clock_wf v w : wf w → wf (set_clock v w).
Proof. by apply wf_ext. Qed.

Lemma update_node_in_store n f w : is_Some (nodes (update_node n f w) !! n).
Proof. unfold update_node; cbn. rewrite lookup_insert_eq. eauto. Qed.

Lemma fallbackCopyTextToClipboard_wf text w :
  wf w → wf (fallbackCopyTextToClipboard text w).
Proof.
  intros Hwf. unfold fallbackCopyTextToClipboard. cbn zeta.
  apply (log_call_wf (CallFallbackCopy text)) in Hwf.
  destruct (createElement_wf _ Hwf) as (Hw1&Hs1&Hd1&Hb1).
  destruct (createElement (log_call _ w)) as [textArea w1]. cbn in Hw1, Hs1, Hd1, Hb1.
  set (w2 := update_node textArea _ w1).
  assert (wf w2) as Hw2.
  { apply update_node_wf; [done|done|by left|]. intros l _. by rewrite Hb1. }
  apply remove_wf.
  assert (wf (appendChild textArea w2)) as Hw3.
  { apply appendChild_wf; [done|apply update_node_in_store|left].
    unfold w2. rewrite node_update_node, decide_True, Hb1 by done. done. }
  destruct (execCommand _); [by apply set_clipboard_wf|done|by apply set_console_wf].
Qed.

Lemma copy_resolved_wf src el testId w : wf w → wf (copy_resolved src el testId w).
Proof.
  intros Hwf. unfold copy_resolved.
  destruct src; [|apply remove_wf]; by apply showCopyFeedback_wf.
Qed.

Lemma copy_rejected_wf src el testId w : wf w → wf (copy_rejected src el testId w).
Proof.
  intros Hwf. unfold copy_rejected.
  destruct src; [|apply remove_wf];
    by apply showCopyFeedback_wf, fallbackCopyTextToClipboard_wf, set_console_wf.
Qed.

Lemma copy_begin_wf src el w : wf w → wf (copy_begin src el w).
Proof.
  intros Hwf. unfold copy_begin.
  destruct (negb _); [done|].
  destruct (clipboardApi w); [by apply set_pendingWrites_wf|by apply copy_rejected_wf].
Qed.

Lemma settle_wf i ok w : wf w → wf (settle i ok w).
Proof.
  intros Hwf. unfold settle. destruct (pendingWrites w !! i); [|done].
  destruct ok.
  - by apply copy_resolved_wf, set_clipboard_wf, set_pendingWrites_wf.
  - by apply copy_rejected_wf, set_pendingWrites_wf.
Qed.

(** A listener of the tooltip is added to a node that exists. *)
Lemma addEventListener_wf n ev h w :
  wf w → is_Some (nodes w !! n) → is_script_handler h = false →
  wf (addEventListener n ev h w).
Proof.
  intros Hwf Hn Hh. unfold addEventListener. apply log_op_wf.
  apply update_node_wf; [done|done|right; by case_bool_decide|].
  intros l Hl. case_bool_decide; [done|]. cbn.
  rewrite elem_of_app, list_elem_of_singleton. split; [|tauto].
  intros [?| ->]; [done|]. cbn in Hl. congruence.
Qed.

Lemma addEventListener_in_store n ev h w x :
  is_Some (nodes w !! x) → is_Some (nodes (addEventListener n ev h w) !! x).
Proof.
  intros Hx. unfold addEventListener, update_node; cbn.
  apply lookup_insert_is_Some'. by right.
Qed.

Lemma addEventListener_id n ev h w x :
  id (node (addEventListener n ev h w) x) = id (node w x).
Proof.
  rewrite node_addEventListener. destruct (decide (n = x)) as [->|]; [|done].
  by case_bool_decide.
Qed.

Lemma run_mouseEnterHandler_wf el w : wf w → wf (run_mouseEnterHandler el w).
Proof.
  intros Hwf. unfold run_mouseEnterHandler. cbn zeta.
  apply (remove_if_present_wf TOOLTIP_ID) in Hwf.
  destruct (createElement_wf _ Hwf) as (Hw1&Hs1&Hd1&Hb1).
  destruct (createElement (remove_if_present _ w)) as [tooltip w1].
  cbn in Hw1, Hs1, Hd1, Hb1.
  set (w2 := update_node tooltip _ w1).
  assert (wf w2) as Hw2.
  { apply update_node_wf; [done|done|by left|]. intros l _. by rewrite Hb1. }
  set (w3 := update_node tooltip (with_id TOOLTIP_ID) w2).
  assert (wf w3) as Hw3.
  { apply update_node_wf; [done|apply update_node_in_store|by left|]. done. }
  assert (id (node w3 tooltip) = TOOLTIP_ID) as Hid.
  { unfold w3. by rewrite node_update_node, decide_True. }
  assert (is_Some (nodes w3 !! tooltip)) as Hs3 by apply update_node_in_store.
  set (w4 := addEventListener tooltip click (TooltipClick el tooltip) w3).
  assert (wf w4) as Hw4 by by apply addEventListener_wf.
  assert (is_Some (nodes w4 !! tooltip)) as Hs4 by by apply addEventListener_in_store.
  set (w5 := addEventListener tooltip mouseenter (TooltipEnter tooltip) w4).
  assert (wf w5) as Hw5 by by apply addEventListener_wf.
  assert (is_Some (nodes w5 !! tooltip)) as Hs5 by by apply addEventListener_in_store.
  set (w6 := addEventListener tooltip mouseleave (TooltipLeave tooltip) w5).
  assert (wf w6) as Hw6 by by apply addEventListener_wf.
  apply appendChild_wf; [done|by apply addEventListener_in_store|].
  left. unfold w6, w5, w4. by rewrite !addEventListener_id, Hid.
Qed.

Lemma run_handler_wf h w : wf w → wf (run_handler h w).
Proof.
  intros Hwf. destruct h; cbn; try done.
  - by apply run_mouseEnterHandler_wf.
  - by apply (setTimeout_wf LeaveRemoval).
  - by apply copy_begin_wf.
  - by apply copy_begin_wf.
  - by apply (setTimeout_wf (TooltipLeaveRemoval tooltip)).
Qed.

Lemma dispatch_wf ev n w : wf w → wf (dispatch ev n w).
Proof.
  intros Hwf. unfold dispatch. apply foldl_preserves; [|done].
  intros w0 l H0. case_bool_decide; [by apply run_handler_wf|done].
Qed.

Lemma executedFunction_wf wait args w : wf w → wf (executedFunction wait args w).
Proof.
  intros Hwf. unfold executedFunction. cbn.
  apply (wf_timers_only _ w); [by destruct (timeout w)..| |done].
  destruct Hwf as [_ _ _ [T1 T2 T3 T4]].
  assert (∀ e, e ∈ timers (clearTimeout (timeout w) w) →
               e ∈ timers w ∧ is_later_timer e = false) as Hc.
  { intros e He. destruct (timeout w) as [t|] eqn:Ht; cbn in He.
    - apply list_elem_of_filter in He as [Hne He]. split; [done|].
      destruct (is_later_timer e) eqn:Hl; [|done].
      apply T3 in Hl; [|done]. congruence.
    - split; [done|]. destruct (is_later_timer e) eqn:Hl; [|done].
      apply T3 in Hl; [|done]. congruence. }
  assert (nextTimer (clearTimeout (timeout w) w) = nextTimer w) as Hn
    by by destruct (timeout w).
  assert (activeTimeouts (clearTimeout (timeout w) w) = activeTimeouts w) as Ha
    by by destruct (timeout w).
  split; cbn; rewrite ?Hn, ?Ha.
  - intros e [He|He%list_elem_of_singleton]%elem_of_app Hf; [|by subst].
    apply T1; [|done]. by apply Hc.
  - intros e [He|He%list_elem_of_singleton]%elem_of_app.
    + apply Hc in He as [He _]. apply T2 in He. lia.
    + subst. cbn. lia.
  - intros e [He|He%list_elem_of_singleton]%elem_of_app Hl; [|by subst].
    apply Hc in He as [_ He]. congruence.
  - apply NoDup_fst_snoc.
    + destruct (timeout w); [by apply NoDup_fst_filter|done].
    + intros e He. apply Hc in He as [He _]. by apply T2.
Qed.

Lemma later_wf args w : wf w → wf (later args w).
Proof.
  intros Hwf. unfold later, func.
  by apply scanAndHighlight_wf, log_call_wf, clearTimeout_wf.
Qed.

(** A callback runs after its timer has left the table. *)
Lemma run_callback_wf t cb w :
  (∀ e, e ∈ timers w → e.1 ≠ t) → wf w → wf (run_callback t cb w).
Proof.
  intros Ht Hwf. destruct cb; cbn.
  - by apply later_wf.
  - destruct (getElementById _ _); [|done]. destruct (negb _); [by apply remove_wf|done].
  - destruct (document_contains _ _); [by apply remove_wf|done].
  - set (w1 := if document_contains w feedback then remove feedback w else w).
    assert (wf w1) as Hw1 by (unfold w1; destruct (document_contains _ _);
                              [by apply remove_wf|done]).
    assert (timer_view w1 = timer_view w) as Hv
      by (unfold w1; by destruct (document_contains _ _)).
    apply (wf_timers_only _ w1); [done..| |done].
    destruct Hw1 as [_ _ _ [T1 T2 T3 T4]].
    unfold timer_view in Hv. injection Hv as Hv1 Hv2 Hv3 Hv4.
    split; cbn; [|done..].
    intros e He Hf. apply set_delete_elem. split; [|by apply T1].
    apply Ht. by rewrite <- Hv1.
Qed.

Lemma run_due_wf fuel w : wf w → wf (run_due fuel w).
Proof.
  revert w. induction fuel as [|fuel IH]; intros w Hwf; [done|]. cbn.
  destruct (head _) as [[t [d cb]]|]; [|done].
  apply IH, run_callback_wf.
  - cbn. intros e [? _]%list_elem_of_filter. done.
  - apply (wf_timers_only _ w); [done..| |done].
    apply timers_ok_filter, Hwf.
Qed.

Lemma tick_wf w : wf w → wf (tick w).
Proof. intros Hwf. unfold tick. by apply run_due_wf, set_clock_wf. Qed.

Lemma beforeunload_wf w : wf w → wf (beforeunload w).
Proof.
  intros Hwf. unfold beforeunload. cbn zeta.
  do 2 apply remove_if_present_wf. apply set_observing_wf.
  set (w1 := foldl (λ w el, cleanupElement el w) w (trackedElements w)).
  assert (wf w1) as Hw1.
  { apply foldl_preserves; [|done]. intros w0 x H0. by apply cleanupElement_wf. }
  set (w2 := foldl (λ w t, clearTimeout (Some t) w) w1 (activeTimeouts w1)).
  assert (wf w2) as Hw2.
  { apply foldl_preserves; [|done]. intros w0 x H0. by apply clearTimeout_wf. }
  assert (∀ l w0, timers (foldl (λ w t, clearTimeout (Some t) w) w0 l)
                  = filter (λ e, e.1 ∉ l) (timers w0)) as Hcl.
  { induction l as [|t l IH]; intros w0; cbn.
    - symmetry. apply filter_all. intros; apply not_elem_of_nil.
    - rewrite IH. cbn. rewrite list_filter_filter. apply list_filter_iff.
      intros e. rewrite not_elem_of_cons. tauto. }
  apply (wf_timers_only _ w2); [done..| |done].
  destruct Hw2 as [_ _ _ [T1 T2 T3 T4]]. split; cbn; [|done..].
  intros e He Hf. exfalso.
  unfold w2 in He. rewrite Hcl in He. apply list_elem_of_filter in He as [Hn He].
  apply Hn. destruct Hw1 as [_ _ _ [U1 _ _ _]]. by apply U1.
Qed.

Lemma step_wf a w : wf w → wf (step a w).
Proof.
  intros Hwf. destruct a; cbn [step].
  - by apply tick_wf.
  - destruct (observing w); [|done]. unfold observerCallback.
    destruct (hasRelevantChanges ms); [by apply executedFunction_wf|done].
  - by apply dispatch_wf, set_pointer_wf.
  - by apply dispatch_wf, set_pointer_wf.
  - by apply dispatch_wf.
  - by apply settle_wf.
  - by apply beforeunload_wf.
  - destruct (nodes w !! n) eqn:Hn; [|done].
    apply update_node_wf; [done|by eexists|by right|done].
  - destruct (nodes w !! n) eqn:Hn; [|done].
    apply update_node_wf; [done|by eexists|by right|done].
  - by apply remove_wf.
  - destruct (createElement_wf _ Hwf) as (Hw1&Hs1&Hd1&Hb1).
    destruct (createElement w) as [n w1]. cbn in Hw1, Hs1, Hd1, Hb1.
    apply appendChild_wf; [|apply update_node_in_store|left].
    + apply update_node_wf; [done|done|by left|done].
    + by rewrite node_update_node, decide_True, Hb1.
Qed.

Lemma run_wf l w : wf w → wf (run l w).
Proof. intros Hwf. unfold run. apply foldl_preserves; [|done]. intros; by apply step_wf. Qed.

(** An element as the host page can have made it: it does not use the
    reserved id of the feedback artifact, and its listeners are the
    page's own. *)
Definition page_element (e : Element) : Prop :=
  id e ≠ FEEDBACK_ID ∧ Forall (λ l, is_script_handler l.2 = false) (listeners e).

#[global] Instance page_element_dec e : Decision (page_element e).
Proof. unfold page_element. apply _. Defined.

Lemma page_node els api exec i : node (page els api exec) i = default blank (els !! i).
Proof. unfold node, page; cbn. by rewrite lookup_map_seq_0. Qed.

Lemma page_node_element els api exec i :
  Forall page_element els → page_element (node (page els api exec) i).
Proof.
  intros Hels. rewrite page_node. destruct (els !! i) as [e|] eqn:He; cbn.
  - eapply Forall_lookup_1; eauto.
  - split; [done|constructor].
Qed.

Lemma page_wf els api exec : Forall page_element els → wf (page els api exec).
Proof.
  intros Hels. split.
  - split; cbn.
    + intros el. rewrite lookup_empty, elem_of_nil. split; [done|by intros [? ?]].
    + intros el hs. by rewrite lookup_empty.
    + intros el l Hl Hs. exfalso.
      destruct (page_node_element els api exec el Hels) as [_ Hf].
      rewrite Forall_forall in Hf. apply Hf in Hl. congruence.
  - split; cbn.
    + intros n Hn. rewrite lookup_map_seq_0 in Hn. by apply lookup_lt_is_Some.
    + intros n Hn. rewrite lookup_map_seq_0. apply lookup_lt_is_Some.
      apply elem_of_seq in Hn. lia.
  - unfold feedbacks. rewrite filter_none; [cbn; lia|].
    intros n _. by destruct (page_node_element els api exec n Hels).
  - split; cbn; [intros e He; by apply elem_of_nil in He..|constructor].
Qed.

Lemma load_wf w : wf w → wf (load w).
Proof. intros Hwf. by apply set_observing_wf, scanAndHighlight_wf. Qed.

(** ** The membership invariant *)

(** The operations the invariant is claimed for, and the other
    transitions of the system. *)
Inductive Operation :=
  | DoHighlightElement (el : nat)
  | DoCleanupElement (el : nat)
  | DoScanAndHighlight
  | DoTeardown
  | DoObserve                            (* observer.observe, content.js:261 *)
  | DoStep (a : Action).

Definition operate (w : World) (o : Operation) : World :=
  match o with
  | DoHighlightElement el => highlightElement el w
  | DoCleanupElement el => cleanupElement el w
  | DoScanAndHighlight => scanAndHighlight w
  | DoTeardown => beforeunload w
  | DoObserve => set_observing true w
  | DoStep a => step a w
  end.

Lemma operate_wf w o : wf w → wf (operate w o).
Proof.
  intros Hwf. destruct o; cbn [operate].
  - by apply highlightElement_wf.
  - by apply cleanupElement_wf.
  - by apply scanAndHighlight_wf.
  - by apply beforeunload_wf.
  - by apply set_observing_wf.
  - by apply step_wf.
Qed.

(** The states the script can be in: it starts on a page of the host
    and goes through its operations and transitions. *)
Definition reachable (w : World) : Prop :=
  ∃ els api exec os,
    Forall page_element els ∧ w = foldl operate (page els api exec) os.

Lemma reachable_wf w : reachable w → wf w.
Proof.
  intros (els&api&exec&os&Hels&->).
  apply foldl_preserves; [intros; by apply operate_wf|by apply page_wf].
Qed.

Lemma reachable_operate w o : reachable w → reachable (operate w o).
Proof.
  intros (els&api&exec&os&Hels&->). exists els, api, exec, (os ++ [o]).
  split; [done|]. by rewrite foldl_app.
Qed.

Lemma reachable_run acts w : reachable w → reachable (run acts w).
Proof.
  revert w. induction acts as [|a acts IH]; intros w Hw; [done|].
  apply IH. by apply (reachable_operate w (DoStep a)).
Qed.

Lemma linked_membership w el :
  linked w →
  (tracked w el ↔ has_installed w el) ∧ (tracked w el ↔ annotated w el).
Proof.
  intros [H1 H2 H3]. split; [|apply H1].
  unfold tracked. rewrite H1. split.
  - intros [hs Hhs]. destruct (H2 _ _ Hhs) as [(k&->) Hl]. by exists k.
  - intros (k&Hk).
    destruct (H3 el (mouseenter, MouseEnter el k)) as (hs&->&_); [|done|eauto].
    apply Hk, installed_elem. auto.
Qed.

(** C9.  Start from any page whose elements carry only listeners of the
    page itself.  After any sequence of [highlightElement],
    [cleanupElement], [scanAndHighlight] and teardown calls, interleaved
    with any other transition of the system, an element is in
    [trackedElements] if and only if it has the three listeners that
    [highlightElement] installs, and if and only if it has an entry in
    [elementData]. *)
Theorem membership_invariant (els : list Element) (api : bool) (exec : ExecOutcome)
    (os : list Operation) (el : nat) :
  Forall page_element els →
  let w := foldl operate (page els api exec) os in
  (tracked w el ↔ has_installed w el) ∧ (tracked w el ↔ annotated w el).
Proof.
  intros Hels w. apply linked_membership, wf_linked.
  apply foldl_preserves; [intros; by apply operate_wf|by apply page_wf].
Qed.

(** ** Coverage and cleanup *)

(** C1, as the code has it.  In a state the script can be in, let [el]
    be attached and carry a non-empty [data-testid].  If before the pass
    its highlight class and its side-table entry agree (it has both or
    neither), then after [scanAndHighlight] it is in [trackedElements],
    has an entry in [elementData] and carries the class.  The class is
    looked at first, though: an element that carries the class and has no
    side-table entry is skipped by [highlightElement], and has no entry
    after the pass either. *)
Theorem scanAndHighlight_coverage (w : World) (el : nat) :
  reachable w →
  el ∈ document w →
  truthy (dataset_testid (node w el)) = true →
  let w' := scanAndHighlight w in
  ((has_class w el ↔ annotated w el) →
     tracked w' el ∧ annotated w' el ∧ has_class w' el)
  ∧ (has_class w el → ¬ annotated w el →
     ¬ annotated w' el ∧ has_class w' el ∧ highlightElement el w = w).
Proof.
  intros Hr Hdoc Ht. apply scanAndHighlight_covers; [done..|].
  intros Ha. by apply (linked_tracked _ (wf_linked _ (reachable_wf _ Hr))).
Qed.

(** C3.  In a state the script can be in, let [el] be in
    [trackedElements], and at the start of the pass be absent from the
    scan result or not attached to the document.  Then [el] has a
    side-table entry [hs], and after [scanAndHighlight] it is out of
    [trackedElements], its entry is erased, it does not carry the class,
    its listeners are those it had but for the three pairs of [hs], and
    the operations done on it are the three [removeEventListener] calls
    (mouseenter, mouseleave, click), the class removal and the two
    deletions, once each. *)
Theorem scanAndHighlight_cleans_removed (w : World) (el : nat) :
  reachable w →
  tracked w el →
  el ∉ querySelectorAll_testid w ∨ el ∉ document w →
  let w' := scanAndHighlight w in
  ∃ hs, elementData w !! el = Some hs
  ∧ ¬ tracked w' el
  ∧ elementData w' !! el = None
  ∧ ¬ has_class w' el
  ∧ listeners (node w' el) = filter (λ l, l ∉ installed hs) (listeners (node w el))
  ∧ ops_on el w' =
    ops_on el w ++ [OpRemoveListener el mouseenter (mouseEnterHandler hs);
                    OpRemoveListener el mouseleave (mouseLeaveHandler hs);
                    OpRemoveListener el click (clickHandler hs);
                    OpClassRemove el HIGHLIGHT; OpDataDelete el; OpTrackDelete el].
Proof.
  intros Hr Htr Hgone w'.
  destruct (proj1 (linked_tracked _ (wf_linked _ (reachable_wf _ Hr)) el) Htr) as [hs Hhs].
  exists hs. split; [done|]. by apply scanAndHighlight_detaches.
Qed.

(** ** The feedback artifact *)

Definition feedback_timers (w : World) : list (nat * (nat * Callback)) :=
  filter (λ e, is_feedback_timer e = true) (timers w).

Lemma showCopyFeedback_spec el testId w :
  wf w →
  let w' := showCopyFeedback el testId w in
  let n := nextNode w in
  feedbacks w' = [n]
  ∧ innerText (node w' n) = "Copied: " +:+ testId
  ∧ (∀ m, m ∈ feedbacks w → m ∉ document w')
  ∧ feedback_timers w' = [(nextTimer w, (clock w + FEEDBACK_DELAY, FeedbackRemoval n))]
  ∧ activeTimeouts w' = [nextTimer w].
Proof.
  intros Hwf w' n. unfold w', showCopyFeedback. cbn zeta.
  set (w0 := log_call (CallShowCopyFeedback el testId) w).
  assert (wf w0) as Hw0 by by apply log_call_wf.
  set (w1 := remove_if_present FEEDBACK_ID w0).
  assert (wf w1) as Hw1 by by apply remove_if_present_wf.
  assert (feedbacks w1 = []) as Hf1 by (apply remove_if_present_feedbacks, Hwf).
  assert (nextNode w1 = n ∧ nextTimer w1 = nextTimer w ∧ clock w1 = clock w) as (Hn1&Ht1&Hc1).
  { unfold w1, remove_if_present. by destruct (getElementById _ _). }
  assert (∀ m, m ∈ feedbacks w → m ∉ document w1) as Hold.
  { intros m Hm. unfold w1, remove_if_present. rewrite getElementById_FEEDBACK.
    change (feedbacks w0) with (feedbacks w).
    pose proof (wf_feedback _ Hwf) as Hlen.
    destruct (feedbacks w) as [|m' [|m'' l]] eqn:Hf; [by apply elem_of_nil in Hm| |cbn in Hlen; lia].
    apply list_elem_of_singleton in Hm as ->. cbn.
    rewrite list_elem_of_filter. tauto. }
  set (w2 := foldl clear_and_delete w1 (activeTimeouts w1)).
  destruct (clear_and_delete_all (activeTimeouts w1) w1) as (Ht2&Ha2&_&Hp2&Hnt2&_&_&Hc2).
  fold w2 in Ht2, Ha2, Hp2, Hnt2, Hc2.
  unfold page_view in Hp2. injection Hp2 as Hnodes2 Hd2 Hn2.
  assert (wf w2) as Hw2 by by apply clear_and_delete_wf.
  assert (activeTimeouts w2 = []) as Ha2'.
  { rewrite Ha2. apply filter_none. intros t Ht Hn. done. }
  assert (feedback_timers w2 = []) as Hft2.
  { unfold feedback_timers. rewrite Ht2, list_filter_filter. apply filter_none.
    intros e He [Hf Hn]. apply Hn. by apply (timers_active _ (wf_timers _ Hw1)). }
  assert (feedbacks w2 = []) as Hf2.
  { rewrite (feedbacks_ext w2 w1); [done|done|]. intros x _. by rewrite (node_ext _ _ Hnodes2). }
  pose proof (createElement_node w2 n (wf_stored _ Hw2)) as Hnode3.
  change (createElement w2) with
    (nextNode w2, set_nextNode (S (nextNode w2)) (set_nodes (λ m, <[nextNode w2 := blank]> m) w2))
    in *.
  cbv beta iota zeta. cbn [fst snd] in Hnode3.
  rewrite Hn2, Hn1 in *.
  set (w3 := set_nextNode (S n) (set_nodes (λ m, <[n := blank]> m) w2)) in *.
  set (w4 := update_node n _ w3).
  set (w5 := appendChild n w4).
  change (setTimeout (FeedbackRemoval n) FEEDBACK_DELAY w5) with
    (nextTimer w2, set_nextTimer (S (nextTimer w2))
       (set_timers (λ l, l ++ [(nextTimer w2, (clock w2 + FEEDBACK_DELAY, FeedbackRemoval n))]) w5)).
  cbv beta iota zeta.
  rewrite Hnt2, Ht1, Hc2, Hc1.
  set (w6 := set_nextTimer _ _).
  set (w7 := set_activeTimeouts _ w6).
  assert (∀ x, x ≠ n → node w4 x = node w2 x) as Hother.
  { intros x Hx. unfold w4. rewrite node_update_node, decide_False by done.
    unfold node, w3. cbn [nodes set_nextNode set_nodes]. by rewrite lookup_insert_ne. }
  assert (node w4 n = mkElement FEEDBACK_ID None ["test-id-copy-feedback"]
                        ("Copied: " +:+ testId) "" []) as Hnew.
  { unfold w4. rewrite node_update_node, decide_True by done.
    unfold node, w3. cbn [nodes set_nextNode set_nodes]. by rewrite lookup_insert_eq. }
  assert (document w7 = filter (λ m, m ≠ n) (document w1) ++ [n]) as Hdoc7.
  { rewrite <- Hd2. reflexivity. }
  split; [|split; [|split; [|split]]].
  - change (feedbacks w7) with (filter (λ x, id (node w4 x) = FEEDBACK_ID) (document w7)).
    rewrite Hdoc7, filter_app, filter_cons, decide_True, filter_nil by by rewrite Hnew.
    rewrite filter_none; [done|].
    intros x [Hx Hin]%list_elem_of_filter Hid. rewrite Hother in Hid by done.
    assert (x ∈ feedbacks w2) as Hx2; [|rewrite Hf2 in Hx2; by apply elem_of_nil in Hx2].
    apply list_elem_of_filter. split; [done|]. by rewrite Hd2.
  - change (node w7 n) with (node w4 n). by rewrite Hnew.
  - intros m Hm. rewrite Hdoc7.
    rewrite elem_of_app, list_elem_of_filter, list_elem_of_singleton.
    intros [[_ Hin]| ->]; [by apply (Hold m)|].
    assert (n < nextNode w); [|unfold n in *; lia].
    apply (stored_fresh _ (wf_stored _ Hwf)), (stored_document _ (wf_stored _ Hwf)).
    unfold feedbacks in Hm. by apply list_elem_of_filter in Hm as [_ Hm].
  - change (feedback_timers w7) with
      (filter (λ e, is_feedback_timer e = true)
         (timers w2 ++ [(nextTimer w, (clock w + FEEDBACK_DELAY, FeedbackRemoval n))])).
    rewrite filter_app. fold (feedback_timers w2). rewrite Hft2.
    rewrite filter_cons, decide_True by done. done.
  - change (activeTimeouts w7) with (set_add (nextTimer w) (activeTimeouts w2)).
    by rewrite Ha2'.
Qed.

(** ** Copying *)

(** What a copy is seen to do: the calls made, the console, the
    clipboard and the suspended handlers. *)
Definition io (w : World) :=
  (calls w, console w, clipboard w, pendingWrites w, clipboardApi w, execCommand w).

Lemma clear_and_delete_io l w : io (foldl clear_and_delete w l) = io w.
Proof.
  revert w. induction l as [|t l IH]; intros w; [done|]. cbn. by rewrite IH.
Qed.

Lemma remove_if_present_io i w : io (remove_if_present i w) = io w.
Proof. unfold remove_if_present. by destruct (getElementById i w). Qed.

Lemma showCopyFeedback_io el testId w :
  io (showCopyFeedback el testId w) =
  (calls w ++ [CallShowCopyFeedback el testId], console w, clipboard w,
   pendingWrites w, clipboardApi w, execCommand w).
Proof.
  unfold showCopyFeedback. cbv zeta.
  set (w1 := remove_if_present FEEDBACK_ID (log_call _ w)).
  set (w2 := foldl clear_and_delete w1 (activeTimeouts w1)).
  change (io w2 = (calls w ++ [CallShowCopyFeedback el testId], console w, clipboard w,
                   pendingWrites w, clipboardApi w, execCommand w)).
  unfold w2. rewrite clear_and_delete_io. unfold w1. by rewrite remove_if_present_io.
Qed.

Definition fallback_log (w : World) : list string :=
  match execCommand w with
  | ExecThrows => ["Fallback: Oops, unable to copy"]
  | _ => []
  end.

Lemma fallbackCopyTextToClipboard_io text w :
  io (fallbackCopyTextToClipboard text w) =
  (calls w ++ [CallFallbackCopy text], console w ++ fallback_log w,
   match execCommand w with ExecCopies => Some text | _ => clipboard w end,
   pendingWrites w, clipboardApi w, execCommand w).
Proof.
  unfold fallbackCopyTextToClipboard, fallback_log, io. cbv zeta.
  change (createElement (log_call (CallFallbackCopy text) w))
    with (nextNode w, set_nextNode (S (nextNode w))
                        (set_nodes (λ m, <[nextNode w := blank]> m)
                           (log_call (CallFallbackCopy text) w))).
  cbv beta iota.
  set (w2 := appendChild _ _).
  change (execCommand w2) with (execCommand w).
  assert (value (node w2 (nextNode w)) = text) as Hv.
  { unfold w2. change (node (appendChild ?n ?w0) ?x) with (node w0 x).
    by rewrite node_update_node, decide_True. }
  destruct (execCommand w) eqn:He;
    cbn [remove set_document set_clipboard set_console calls console
         clipboard pendingWrites clipboardApi execCommand];
    change (calls w2) with (calls w ++ [CallFallbackCopy text]);
    change (console w2) with (console w);
    change (clipboard w2) with (clipboard w);
    change (pendingWrites w2) with (pendingWrites w);
    change (clipboardApi w2) with (clipboardApi w);
    change (execCommand w2) with (execCommand w);
    rewrite ?Hv, ?app_nil_r, He; reflexivity.
Qed.

Section copy_fields.
Context (el : nat) (testId : string) (w : World).

Lemma showCopyFeedback_calls :
  calls (showCopyFeedback el testId w) = calls w ++ [CallShowCopyFeedback el testId].
Proof. pose proof (showCopyFeedback_io el testId w) as H. unfold io in H. congruence. Qed.
Lemma showCopyFeedback_console : console (showCopyFeedback el testId w) = console w.
Proof. pose proof (showCopyFeedback_io el testId w) as H. unfold io in H. congruence. Qed.
Lemma showCopyFeedback_clipboard : clipboard (showCopyFeedback el testId w) = clipboard w.
Proof. pose proof (showCopyFeedback_io el testId w) as H. unfold io in H. congruence. Qed.
Lemma showCopyFeedback_pendingWrites :
  pendingWrites (showCopyFeedback el testId w) = pendingWrites w.
Proof. pose proof (showCopyFeedback_io el testId w) as H. unfold io in H. congruence. Qed.

Lemma fallbackCopyTextToClipboard_calls :
  calls (fallbackCopyTextToClipboard testId w) = calls w ++ [CallFallbackCopy testId].
Proof.
  pose proof (fallbackCopyTextToClipboard_io testId w) as H. unfold io in H. congruence.
Qed.
Lemma fallbackCopyTextToClipboard_console :
  console (fallbackCopyTextToClipboard testId w) = console w ++ fallback_log w.
Proof.
  pose proof (fallbackCopyTextToClipboard_io testId w) as H. unfold io in H. congruence.
Qed.
Lemma fallbackCopyTextToClipboard_pendingWrites :
  pendingWrites (fallbackCopyTextToClipboard testId w) = pendingWrites w.
Proof.
  pose proof (fallbackCopyTextToClipboard_io testId w) as H. unfold io in H. congruence.
Qed.
End copy_fields.

(** The calls, the console and the suspended handlers after a copy ran
    to its end. *)
Definition outcome (w : World) := (calls w, console w, pendingWrites w).

Lemma copy_resolved_outcome src el testId w :
  outcome (copy_resolved src el testId w) =
  (calls w ++ [CallShowCopyFeedback el testId], console w, pendingWrites w).
Proof.
  unfold copy_resolved.
  assert (∀ w0, outcome (match src with
                         | FromElement => w0
                         | FromTooltip tooltip => remove tooltip w0
                         end) = outcome w0) as -> by by destruct src.
  unfold outcome.
  by rewrite showCopyFeedback_calls, showCopyFeedback_console, showCopyFeedback_pendingWrites.
Qed.

Lemma copy_resolved_clipboard src el testId w :
  clipboard (copy_resolved src el testId w) = clipboard w.
Proof.
  unfold copy_resolved.
  assert (∀ w0, clipboard (match src with
                           | FromElement => w0
                           | FromTooltip tooltip => remove tooltip w0
                           end) = clipboard w0) as -> by by destruct src.
  apply showCopyFeedback_clipboard.
Qed.

Lemma copy_rejected_outcome src el testId w :
  outcome (copy_rejected src el testId w) =
  (calls w ++ [CallFallbackCopy testId; CallShowCopyFeedback el testId],
   console w ++ ["Failed to copy data-testid:"] ++ fallback_log w,
   pendingWrites w).
Proof.
  unfold copy_rejected. cbv zeta.
  assert (∀ w0, outcome (match src with
                         | FromElement => w0
                         | FromTooltip tooltip => remove tooltip w0
                         end) = outcome w0) as -> by by destruct src.
  unfold outcome.
  rewrite showCopyFeedback_calls, showCopyFeedback_console, showCopyFeedback_pendingWrites.
  rewrite fallbackCopyTextToClipboard_calls, fallbackCopyTextToClipboard_console,
    fallbackCopyTextToClipboard_pendingWrites.
  change (fallback_log (set_console ?f w)) with (fallback_log w).
  change (calls (set_console ?f w)) with (calls w).
  change (pendingWrites (set_console ?f w)) with (pendingWrites w).
  change (console (set_console ?f w)) with (f (console w)). cbv beta.
  by rewrite <- !app_assoc.
Qed.

Lemma node_remove t w x : node (remove t w) x = node w x.
Proof. reflexivity. Qed.
Lemma document_remove t w : document (remove t w) = filter (λ m, m ≠ t) (document w).
Proof. reflexivity. Qed.
Lemma clipboard_remove t w : clipboard (remove t w) = clipboard w.
Proof. reflexivity. Qed.

(** The text field of the fallback: a new element that holds the
    text, is in the document while the copy command runs and is out of it
    again when the function returns.  Nothing else of the page is
    touched. *)
Lemma fallbackCopyTextToClipboard_textarea text w :
  let w' := fallbackCopyTextToClipboard text w in
  value (node w' (nextNode w)) = text
  ∧ (nextNode w ∉ document w')
  ∧ nextNode w' = S (nextNode w)
  ∧ (∀ x, x ≠ nextNode w → node w' x = node w x)
  ∧ trackedElements w' = trackedElements w.
Proof.
  intros w'. unfold w', fallbackCopyTextToClipboard. cbv zeta.
  change (createElement (log_call (CallFallbackCopy text) w))
    with (nextNode w, set_nextNode (S (nextNode w))
                        (set_nodes (λ m, <[nextNode w := blank]> m)
                           (log_call (CallFallbackCopy text) w))).
  cbv beta iota.
  set (w2 := appendChild _ _).
  change (execCommand w2) with (execCommand w).
  assert (value (node w2 (nextNode w)) = text) as Hv.
  { unfold w2. change (node (appendChild ?n ?w0) ?x) with (node w0 x).
    by rewrite node_update_node, decide_True. }
  assert (∀ x, x ≠ nextNode w → node w2 x = node w x) as Hx.
  { intros x Hne. unfold w2. change (node (appendChild ?n ?w0) ?x) with (node w0 x).
    rewrite node_update_node, decide_False by done.
    unfold node. cbn [nodes set_nextNode set_nodes log_call]. by rewrite lookup_insert_ne. }
  assert (nextNode w2 = S (nextNode w) ∧ trackedElements w2 = trackedElements w)
    as [Hn Ht] by done.
  clearbody w2.
  assert (∀ w3, nodes w3 = nodes w2 → nextNode w3 = nextNode w2 →
                trackedElements w3 = trackedElements w2 →
                value (node (remove (nextNode w) w3) (nextNode w)) = text
                ∧ (nextNode w ∉ document (remove (nextNode w) w3))
                ∧ nextNode (remove (nextNode w) w3) = S (nextNode w)
                ∧ (∀ x, x ≠ nextNode w → node (remove (nextNode w) w3) x = node w x)
                ∧ trackedElements (remove (nextNode w) w3) = trackedElements w) as Hfin.
  { intros w3 H1 H2 H3.
    change (node (remove (nextNode w) w3)) with (node w3).
    change (nextNode (remove (nextNode w) w3)) with (nextNode w3).
    change (trackedElements (remove (nextNode w) w3)) with (trackedElements w3).
    rewrite (node_ext _ _ H1), H2, H3. split; [done|]. split.
    - cbn. rewrite list_elem_of_filter. tauto.
    - split; [done|]. split; [|done]. intros x Hne. rewrite (node_ext _ _ H1). by apply Hx. }
  destruct (execCommand w); by apply Hfin.
Qed.

(** [showCopyFeedback] makes one new element and changes no other; what
    it adds to the document is that element. *)
Lemma showCopyFeedback_frame el testId w :
  let w' := showCopyFeedback el testId w in
  (∀ x, x ≠ nextNode w → node w' x = node w x)
  ∧ (∀ m, m ∈ document w' → m = nextNode w ∨ m ∈ document w)
  ∧ trackedElements w' = trackedElements w.
Proof.
  intros w'. unfold w', showCopyFeedback. cbv zeta.
  set (w1 := remove_if_present FEEDBACK_ID (log_call _ w)).
  assert (nodes w1 = nodes w ∧ nextNode w1 = nextNode w
          ∧ trackedElements w1 = trackedElements w
          ∧ ∀ m, m ∈ document w1 → m ∈ document w) as (Hn1&Hx1&Ht1&Hd1).
  { unfold w1, remove_if_present. destruct (getElementById _ _); [|done].
    do 3 (split; [done|]). cbn. by intros m [_ ?]%list_elem_of_filter. }
  destruct (clear_and_delete_all (activeTimeouts w1) w1) as (_&_&Hs2&Hp2&_).
  set (w2 := foldl clear_and_delete w1 (activeTimeouts w1)) in *.
  unfold page_view in Hp2. injection Hp2 as Hn2 Hd2 Hx2.
  unfold script_view in Hs2. injection Hs2 as _ Ht2.
  clearbody w2.
  change (createElement w2) with
    (nextNode w2, set_nextNode (S (nextNode w2)) (set_nodes (λ m, <[nextNode w2 := blank]> m) w2)).
  cbv beta iota zeta.
  set (w4 := update_node (nextNode w2) _ _).
  change (setTimeout (FeedbackRemoval (nextNode w2)) FEEDBACK_DELAY (appendChild (nextNode w2) w4))
    with (nextTimer w2, set_nextTimer (S (nextTimer w2))
       (set_timers (λ l, l ++ [(nextTimer w2, (clock w2 + FEEDBACK_DELAY,
                                               FeedbackRemoval (nextNode w2)))])
          (appendChild (nextNode w2) w4))).
  cbv beta iota zeta.
  set (w7 := set_activeTimeouts _ _).
  assert (∀ x, node w7 x = node w4 x) as Hnode by done.
  assert (document w7 = filter (λ m, m ≠ nextNode w2) (document w2) ++ [nextNode w2]) as Hdoc
    by done.
  assert (trackedElements w7 = trackedElements w2) as Htr by done.
  assert (nextNode w2 = nextNode w) as Hnn by congruence.
  clearbody w7.
  split; [|split].
  - intros x Hne. rewrite <- Hnn in Hne. rewrite Hnode. unfold w4.
    rewrite node_update_node, decide_False by congruence.
    unfold node. cbn [nodes set_nextNode set_nodes]. rewrite lookup_insert_ne by congruence.
    by rewrite Hn2, Hn1.
  - intros m. rewrite Hdoc, elem_of_app, list_elem_of_filter, list_elem_of_singleton, Hd2, Hnn.
    intros [[_ Hm]|Hm]; [right; by apply Hd1|by left].
  - by rewrite Htr, Ht2, Ht1.
Qed.

(** The [catch] branch ran the fallback mechanism: the text field was
    made with the identifier in it and is out of the document again, and
    the clipboard holds the identifier exactly if the copy command
    copied. *)
Lemma copy_rejected_fallback src el testId w :
  let w' := copy_rejected src el testId w in
  clipboard w' = match execCommand w with ExecCopies => Some testId | _ => clipboard w end
  ∧ value (node w' (nextNode w)) = testId
  ∧ nextNode w ∉ document w'.
Proof.
  intros w'. unfold w', copy_rejected. cbv zeta.
  set (u0 := set_console (λ c, c ++ ["Failed to copy data-testid:"]) w).
  destruct (fallbackCopyTextToClipboard_textarea testId u0) as (F1&F2&F3&_).
  pose proof (fallbackCopyTextToClipboard_io testId u0) as Hio.
  assert (nextNode u0 = nextNode w) as Hn0 by done.
  rewrite Hn0 in F1, F2, F3. clear Hn0.
  assert (clipboard (fallbackCopyTextToClipboard testId u0)
          = match execCommand w with ExecCopies => Some testId | _ => clipboard w end) as Hc.
  { change (execCommand w) with (execCommand u0). change (clipboard w) with (clipboard u0).
    unfold io in Hio. congruence. }
  clear Hio.
  set (u1 := fallbackCopyTextToClipboard testId u0) in *. clearbody u1.
  destruct (showCopyFeedback_frame el testId u1) as (S1&S2&_).
  pose proof (showCopyFeedback_clipboard el testId u1) as S3.
  set (u2 := showCopyFeedback el testId u1) in *. clearbody u2.
  assert (clipboard u2 = match execCommand w with
                         | ExecCopies => Some testId
                         | _ => clipboard w
                         end
          ∧ value (node u2 (nextNode w)) = testId ∧ nextNode w ∉ document u2) as (G1&G2&G3).
  { split; [by rewrite S3|]. split.
    - rewrite S1 by lia. done.
    - intros Hin. destruct (S2 _ Hin) as [?|?]; [lia|done]. }
  destruct src as [|t]; [done|].
  rewrite clipboard_remove, node_remove, document_remove, list_elem_of_filter. tauto.
Qed.

(** C8.  A copy started on [el], whose identifier [testId] is not
    empty.  Without a clipboard API the write throws at once: the
    fallback runs, what it throws is logged and goes no further, and
    [showCopyFeedback] is called once.  With the API the handler is
    suspended, one pending write stands for it and no call is made yet.
    When a pending write resolves, [showCopyFeedback] is called once and
    the fallback is not called; when it is rejected, the fallback runs,
    what it throws is logged and goes no further, and [showCopyFeedback]
    is called once.  Either way the pending write is gone, so the action
    triggers no second feedback.  Where the fallback runs it is the
    mechanism of [fallbackCopyTextToClipboard]: a new text field holds
    the identifier and is out of the document again afterwards, and the
    clipboard holds the identifier exactly if the copy command copied;
    if the command refuses or throws the clipboard is as before. *)
Theorem copy_feedback_once (w : World) (src : CopySource) (el : nat) (testId : string) :
  dataset_testid (node w el) = Some testId → testId ≠ "" →
  (clipboardApi w = false →
     let w' := copy_begin src el w in
     calls w' = calls w ++ [CallFallbackCopy testId; CallShowCopyFeedback el testId]
     ∧ console w' = console w ++ ["Failed to copy data-testid:"] ++ fallback_log w
     ∧ pendingWrites w' = pendingWrites w
     ∧ clipboard w' = match execCommand w with
                      | ExecCopies => Some testId
                      | _ => clipboard w
                      end
     ∧ value (node w' (nextNode w)) = testId
     ∧ nextNode w ∉ document w')
  ∧ (clipboardApi w = true →
     let w' := copy_begin src el w in
     calls w' = calls w
     ∧ pendingWrites w' = pendingWrites w ++ [mkPending src el testId])
  ∧ (∀ w2 i, pendingWrites w2 !! i = Some (mkPending src el testId) →
     (let w' := settle i true w2 in
      calls w' = calls w2 ++ [CallShowCopyFeedback el testId]
      ∧ console w' = console w2
      ∧ clipboard w' = Some testId
      ∧ pendingWrites w' = delete i (pendingWrites w2))
     ∧ (let w' := settle i false w2 in
        calls w' = calls w2 ++ [CallFallbackCopy testId; CallShowCopyFeedback el testId]
        ∧ console w' = console w2 ++ ["Failed to copy data-testid:"] ++ fallback_log w2
        ∧ pendingWrites w' = delete i (pendingWrites w2)
        ∧ clipboard w' = match execCommand w2 with
                         | ExecCopies => Some testId
                         | _ => clipboard w2
                         end
        ∧ value (node w' (nextNode w2)) = testId
        ∧ nextNode w2 ∉ document w')).
Proof.
  intros Hid Hne.
  assert (truthy (dataset_testid (node w el)) = true) as Ht.
  { rewrite Hid. unfold truthy. destruct (String.eqb_spec testId ""); done. }
  split; [|split].
  - intros Hapi w'. unfold w', copy_begin. rewrite Ht, Hapi, Hid. cbn [negb default].
    change (Datatypes.id testId) with testId.
    pose proof (copy_rejected_outcome src el testId w) as Ho.
    pose proof (copy_rejected_fallback src el testId w) as Hf. cbv zeta in Hf.
    unfold outcome in Ho. injection Ho as -> -> ->. by do 3 (split; [done|]).
  - intros Hapi w'. unfold w', copy_begin. rewrite Ht, Hapi, Hid. done.
  - intros w2 i Hp. split.
    + intros w'. unfold w', settle. rewrite Hp. cbn [pw_source pw_el pw_testId].
      rewrite copy_resolved_clipboard.
      pose proof (copy_resolved_outcome src el testId
                    (set_clipboard (Some testId) (set_pendingWrites (delete i) w2))) as Ho.
      unfold outcome in Ho. by injection Ho as -> -> ->.
    + intros w'. unfold w', settle. rewrite Hp. cbn [pw_source pw_el pw_testId].
      pose proof (copy_rejected_outcome src el testId (set_pendingWrites (delete i) w2)) as Ho.
      pose proof (copy_rejected_fallback src el testId (set_pendingWrites (delete i) w2)) as Hf.
      assert (nextNode (set_pendingWrites (delete i) w2) = nextNode w2
              ∧ execCommand (set_pendingWrites (delete i) w2) = execCommand w2
              ∧ clipboard (set_pendingWrites (delete i) w2) = clipboard w2) as (E1&E2&E3)
        by done.
      cbv zeta in Hf. rewrite E1, E2, E3 in Hf.
      unfold outcome in Ho. injection Ho as -> -> ->. by do 3 (split; [done|]).
Qed.

(** ** The debouncer *)

(** The pending [later] timers. *)
Definition laters (w : World) : list (nat * (nat * Callback)) :=
  filter (λ e, is_later_timer e = true) (timers w).

(** Timer ids are handed out once, and a pending [later] is the one the
    [timeout] variable of the debouncer names. *)
Record debounce_ok (w : World) : Prop := mkDebounceOk {
  debounce_nodup : NoDup (timers w).*1;
  debounce_fresh : ∀ e, e ∈ timers w → e.1 < nextTimer w;
  debounce_later : ∀ e, e ∈ timers w → is_later_timer e = true → timeout w = Some e.1
}.

(** What the debouncer and the count of its executions depend on. *)
Definition debounce_view (w : World) :=
  (timers w, nextTimer w, timeout w, calls w, clock w, observing w).

Lemma debounce_ok_filter (P : nat * (nat * Callback) → Prop) `{∀ e, Decision (P e)} w :
  debounce_ok w → debounce_ok (set_timers (filter P) w).
Proof.
  intros [H1 H2 H3]. split; cbn.
  - by apply NoDup_fst_filter.
  - intros e [_ He]%list_elem_of_filter. by apply H2.
  - intros e [_ He]%list_elem_of_filter. by apply H3.
Qed.

Lemma debounce_ok_ext w' w :
  timers w' = timers w → nextTimer w' = nextTimer w → timeout w' = timeout w →
  debounce_ok w → debounce_ok w'.
Proof.
  intros Ht Hn Ho [H1 H2 H3]. split; rewrite ?Ht, ?Hn, ?Ho; done.
Qed.

(** A callback other than [later] leaves the debouncer alone. *)
Lemma run_callback_other t cb w :
  match cb with Later _ => False | _ => True end →
  debounce_view (run_callback t cb w) = debounce_view w.
Proof.
  intros Hcb. destruct cb; [done|..]; cbn.
  - destruct (getElementById _ _); [|done]. by destruct (negb _).
  - by destruct (document_contains _ _).
  - by destruct (document_contains _ _).
Qed.

Lemma later_view args w :
  debounce_view (later args w) =
  (timers (clearTimeout (timeout w) w), nextTimer w, timeout w,
   calls w ++ [CallFunc args], clock w, observing w).
Proof.
  unfold later, func.
  pose proof (scanAndHighlight_env (log_call (CallFunc args) (clearTimeout (timeout w) w)))
    as He.
  remember (scanAndHighlight _) as w' eqn:Hw'. clear Hw'.
  unfold env in He. unfold debounce_view.
  assert (∀ w0, (nextTimer (clearTimeout (timeout w) w0) = nextTimer w0
                 ∧ timeout (clearTimeout (timeout w) w0) = timeout w0
                 ∧ calls (clearTimeout (timeout w) w0) = calls w0
                 ∧ clock (clearTimeout (timeout w) w0) = clock w0
                 ∧ observing (clearTimeout (timeout w) w0) = observing w0)) as Hc
    by (intros w0; by destruct (timeout w)).
  destruct (Hc w) as (H1&H2&H3&H4&H5).
  cbn in He. rewrite H1, H2, H3, H4, H5 in He. congruence.
Qed.

Lemma elem_of_laters e w : e ∈ laters w ↔ is_later_timer e = true ∧ e ∈ timers w.
Proof. unfold laters. by rewrite list_elem_of_filter. Qed.

Lemma laters_nil w : laters w = [] ↔ ∀ e, e ∈ timers w → is_later_timer e = false.
Proof.
  split.
  - intros Hl e He. destruct (is_later_timer e) eqn:Hle; [|done].
    assert (e ∈ laters w) as Hin by by apply elem_of_laters.
    rewrite Hl in Hin. by apply elem_of_nil in Hin.
  - intros Hl. apply filter_none. intros e He. rewrite (Hl e He). done.
Qed.

(** No [later] pending: running the due timers executes nothing. *)
Lemma run_due_idle fuel w :
  debounce_ok w → laters w = [] →
  let w' := run_due fuel w in
  debounce_ok w' ∧ laters w' = [] ∧ calls w' = calls w
  ∧ clock w' = clock w ∧ observing w' = observing w.
Proof.
  revert w. induction fuel as [|fuel IH]; intros w Hok Hl; [done|]. cbn.
  destruct (head _) as [[t [d cb]]|] eqn:Hh; [|done].
  apply head_Some_elem_of, list_elem_of_filter in Hh as [_ Hin].
  pose proof (proj1 (laters_nil w) Hl _ Hin) as Hnl.
  set (w1 := set_timers (filter (λ e, e.1 ≠ t)) w).
  assert (debounce_view (run_callback t cb w1) = debounce_view w1) as Hv.
  { apply run_callback_other. by destruct cb. }
  unfold debounce_view in Hv. injection Hv as Hv1 Hv2 Hv3 Hv4 Hv5 Hv6.
  destruct (IH (run_callback t cb w1)) as (I1&I2&I3&I4&I5).
  - apply (debounce_ok_ext _ w1); [done..|]. by apply debounce_ok_filter.
  - apply laters_nil. rewrite Hv1. cbn. intros e [_ He]%list_elem_of_filter.
    by apply (proj1 (laters_nil w) Hl).
  - rewrite I3, I4, I5, Hv4, Hv5, Hv6. done.
Qed.

Lemma NoDup_fst_eq {A} (l : list (nat * A)) e1 e2 :
  NoDup l.*1 → e1 ∈ l → e2 ∈ l → e1.1 = e2.1 → e1 = e2.
Proof.
  induction l as [|x l IH]; intros Hnd H1 H2 Heq; [by apply elem_of_nil in H1|].
  rewrite fmap_cons in Hnd. apply NoDup_cons in Hnd as [Hx Hnd].
  apply elem_of_cons in H1 as [->|H1]; apply elem_of_cons in H2 as [->|H2]; [done|..].
  - destruct Hx. rewrite Heq. apply list_elem_of_fmap. eauto.
  - destruct Hx. rewrite <- Heq. apply list_elem_of_fmap. eauto.
  - by apply IH.
Qed.

Lemma clearTimeout_nextTimer t w : nextTimer (clearTimeout t w) = nextTimer w.
Proof. by destruct t. Qed.
Lemma clearTimeout_timeout t w : timeout (clearTimeout t w) = timeout w.
Proof. by destruct t. Qed.
Lemma clearTimeout_debounce_ok t w : debounce_ok w → debounce_ok (clearTimeout t w).
Proof. intros Hok. destruct t; [by apply debounce_ok_filter|done]. Qed.

Lemma laters_filter (P : nat * (nat * Callback) → Prop) `{∀ e, Decision (P e)} w :
  laters (set_timers (filter P) w) = filter P (laters w).
Proof. unfold laters; cbn. apply filter_filter_comm. Qed.

Lemma later_entry w t d a e :
  laters w = [(t, (d, Later a))] → e ∈ timers w → is_later_timer e = true →
  e = (t, (d, Later a)).
Proof.
  intros Hl He Hle. assert (e ∈ laters w) as Hin by by apply elem_of_laters.
  rewrite Hl in Hin. by apply list_elem_of_singleton in Hin.
Qed.

Lemma later_pending w t d a : laters w = [(t, (d, Later a))] → (t, (d, Later a)) ∈ timers w.
Proof.
  intros Hl. assert ((t, (d, Later a)) ∈ laters w) as Hin by (rewrite Hl; left).
  by apply elem_of_laters in Hin as [_ ?].
Qed.

(** Removing another timer leaves the pending [later] where it is. *)
Lemma laters_remove_other w t d a e :
  debounce_ok w → laters w = [(t, (d, Later a))] → e ∈ timers w →
  is_later_timer e = false →
  laters (set_timers (filter (λ e', e'.1 ≠ e.1)) w) = [(t, (d, Later a))].
Proof.
  intros Hok Hl He Hnl. rewrite laters_filter, Hl.
  rewrite filter_cons_True; [done|]. cbn. intros Heq.
  assert ((t, (d, Later a)) = e) as <-.
  { eapply NoDup_fst_eq; [apply Hok|by apply later_pending|done|done]. }
  done.
Qed.

(** A [later] is pending and not yet due: nothing is executed. *)
Lemma run_due_waiting fuel w t d a :
  debounce_ok w → laters w = [(t, (d, Later a))] → clock w < d →
  let w' := run_due fuel w in
  debounce_ok w' ∧ laters w' = [(t, (d, Later a))] ∧ calls w' = calls w
  ∧ clock w' = clock w ∧ observing w' = observing w.
Proof.
  revert w. induction fuel as [|fuel IH]; intros w Hok Hl Hd; [done|]. cbn.
  destruct (head _) as [[t' [d' cb]]|] eqn:Hh; [|done].
  apply head_Some_elem_of, list_elem_of_filter in Hh as [Hdue Hin].
  unfold is_due in Hdue. cbn in Hdue.
  assert (is_later_timer (t', (d', cb)) = false) as Hnl.
  { destruct (is_later_timer (t', (d', cb))) eqn:Hle; [|done].
    pose proof (later_entry _ _ _ _ _ Hl Hin Hle) as [= -> -> ->]. lia. }
  set (w1 := set_timers (filter (λ e, e.1 ≠ t')) w).
  assert (debounce_view (run_callback t' cb w1) = debounce_view w1) as Hv.
  { apply run_callback_other. by destruct cb. }
  unfold debounce_view in Hv. injection Hv as Hv1 Hv2 Hv3 Hv4 Hv5 Hv6.
  destruct (IH (run_callback t' cb w1)) as (I1&I2&I3&I4&I5).
  - apply (debounce_ok_ext _ w1); [done..|]. by apply debounce_ok_filter.
  - unfold laters. rewrite Hv1. fold (laters w1).
    by apply (laters_remove_other w t d a (t', (d', cb))).
  - by rewrite Hv5.
  - rewrite I3, I4, I5, Hv4, Hv5, Hv6. done.
Qed.

(** A [later] is pending and due: it is executed, once. *)
Lemma run_due_fires fuel w t d a :
  debounce_ok w → laters w = [(t, (d, Later a))] → d ≤ clock w →
  length (timers w) ≤ fuel →
  let w' := run_due fuel w in
  debounce_ok w' ∧ laters w' = [] ∧ calls w' = calls w ++ [CallFunc a]
  ∧ clock w' = clock w ∧ observing w' = observing w.
Proof.
  revert w. induction fuel as [|fuel IH]; intros w Hok Hl Hd Hfuel.
  { apply later_pending in Hl. destruct (timers w); [by apply elem_of_nil in Hl|].
    cbn in Hfuel. lia. }
  cbn.
  destruct (head _) as [[t' [d' cb]]|] eqn:Hh.
  2:{ apply head_None in Hh. exfalso.
      eapply (filter_nil_not_elem_of _ _ (t, (d, Later a))); [exact Hh|done|].
      by apply later_pending. }
  apply head_Some_elem_of, list_elem_of_filter in Hh as [Hdue Hin].
  set (w1 := set_timers (filter (λ e, e.1 ≠ t')) w).
  assert (length (timers w1) ≤ fuel) as Hlen.
  { assert (length (timers w1) < length (timers w)); [|lia].
    apply (length_filter_lt _ _ (t', (d', cb))); [done|]. cbn. tauto. }
  assert (debounce_ok w1) as Hok1 by by apply debounce_ok_filter.
  destruct (is_later_timer (t', (d', cb))) eqn:Hle.
  - pose proof (later_entry _ _ _ _ _ Hl Hin Hle) as [= -> -> ->].
    cbn [run_callback].
    pose proof (later_view a w1) as Hv.
    remember (later a w1) as w2 eqn:Hw2. clear Hw2.
    unfold debounce_view in Hv. injection Hv as Hv1 Hv2 Hv3 Hv4 Hv5 Hv6.
    assert (laters w1 = []) as Hl1.
    { unfold w1. rewrite laters_filter, Hl, filter_cons_False; [done|]. cbn. tauto. }
    destruct (run_due_idle fuel w2) as (I1&I2&I3&I4&I5).
    + apply (debounce_ok_ext _ (clearTimeout (timeout w) w1));
        [done|by rewrite clearTimeout_nextTimer|by rewrite clearTimeout_timeout|].
      destruct (timeout w); [by apply debounce_ok_filter|done].
    + apply laters_nil. rewrite Hv1. intros e He.
      apply (proj1 (laters_nil w1) Hl1).
      destruct (timeout w); [|done]. cbn in He. by apply list_elem_of_filter in He as [_ ?].
    + rewrite I3, I4, I5, Hv4, Hv5, Hv6. done.
  - assert (debounce_view (run_callback t' cb w1) = debounce_view w1) as Hv.
    { apply run_callback_other. by destruct cb. }
    unfold debounce_view in Hv. injection Hv as Hv1 Hv2 Hv3 Hv4 Hv5 Hv6.
    destruct (IH (run_callback t' cb w1)) as (I1&I2&I3&I4&I5).
    + by apply (debounce_ok_ext _ w1).
    + unfold laters. rewrite Hv1. fold (laters w1).
      by apply (laters_remove_other w t d a (t', (d', cb))).
    + by rewrite Hv5.
    + by rewrite Hv1.
    + rewrite I3, I4, I5, Hv4, Hv5, Hv6. done.
Qed.

(** The rounds of [tick] are enough: no callback starts a timer, each
    round takes one out, so after a tick no pending timer is due. *)
Lemma debounce_view_timers w' w :
  debounce_view w' = debounce_view w → timers w' = timers w ∧ clock w' = clock w.
Proof. unfold debounce_view. intros [= ? _ _ _ ? _]. done. Qed.

Lemma run_callback_timers t cb w :
  length (timers (run_callback t cb w)) ≤ length (timers w)
  ∧ clock (run_callback t cb w) = clock w.
Proof.
  destruct cb as [args| | |].
  - cbn [run_callback]. pose proof (later_view args w) as Hv.
    remember (later args w) as w' eqn:Hw'. clear Hw'.
    unfold debounce_view in Hv. injection Hv as Ht _ _ _ Hc _. rewrite Ht, Hc.
    split; [|done]. destruct (timeout w); [apply length_filter|done].
  - by destruct (debounce_view_timers _ _ (run_callback_other t LeaveRemoval w I))
      as [-> ->].
  - by destruct (debounce_view_timers _ _
                   (run_callback_other t (TooltipLeaveRemoval tooltip) w I)) as [-> ->].
  - by destruct (debounce_view_timers _ _
                   (run_callback_other t (FeedbackRemoval feedback) w I)) as [-> ->].
Qed.

Lemma run_due_complete fuel w :
  length (timers w) ≤ fuel →
  filter (is_due (run_due fuel w)) (timers (run_due fuel w)) = [].
Proof.
  revert w. induction fuel as [|fuel IH]; intros w Hlen.
  { destruct (timers w) eqn:Ht; [|cbn in Hlen; lia]. cbn. by rewrite Ht. }
  cbn. destruct (head _) as [[t [d cb]]|] eqn:Hh; [|by apply head_None].
  apply head_Some_elem_of, list_elem_of_filter in Hh as [_ Hin].
  apply IH.
  set (w1 := set_timers (filter (λ e, e.1 ≠ t)) w).
  destruct (run_callback_timers t cb w1) as [Hl _].
  assert (length (timers w1) < length (timers w)); [|lia].
  apply (length_filter_lt _ _ (t, (d, cb))); [done|]. cbn. tauto.
Qed.

Lemma tick_complete w : filter (is_due (tick w)) (timers (tick w)) = [].
Proof. unfold tick. by apply run_due_complete. Qed.

(** [k] milliseconds pass. *)
Definition ticks (k : nat) (w : World) : World := run (repeat Tick k) w.

Lemma ticks_S k w : ticks (S k) w = ticks k (tick w).
Proof. reflexivity. Qed.

Lemma tick_idle w :
  debounce_ok w → laters w = [] →
  debounce_ok (tick w) ∧ laters (tick w) = [] ∧ calls (tick w) = calls w
  ∧ clock (tick w) = S (clock w) ∧ observing (tick w) = observing w.
Proof.
  intros Hok Hl. unfold tick.
  apply (run_due_idle _ (set_clock (S (clock w)) w)); [|done].
  by apply (debounce_ok_ext _ w).
Qed.

Lemma tick_waiting w t d a :
  debounce_ok w → laters w = [(t, (d, Later a))] → S (clock w) < d →
  debounce_ok (tick w) ∧ laters (tick w) = [(t, (d, Later a))]
  ∧ calls (tick w) = calls w ∧ clock (tick w) = S (clock w)
  ∧ observing (tick w) = observing w.
Proof.
  intros Hok Hl Hd. unfold tick.
  apply (run_due_waiting _ (set_clock (S (clock w)) w)); [|done|done].
  by apply (debounce_ok_ext _ w).
Qed.

Lemma tick_fires w t d a :
  debounce_ok w → laters w = [(t, (d, Later a))] → d ≤ S (clock w) →
  debounce_ok (tick w) ∧ laters (tick w) = []
  ∧ calls (tick w) = calls w ++ [CallFunc a] ∧ clock (tick w) = S (clock w)
  ∧ observing (tick w) = observing w.
Proof.
  intros Hok Hl Hd. unfold tick.
  apply (run_due_fires _ (set_clock (S (clock w)) w) t d a); [|done|done|done].
  by apply (debounce_ok_ext _ w).
Qed.

Lemma ticks_idle k w :
  debounce_ok w → laters w = [] →
  debounce_ok (ticks k w) ∧ laters (ticks k w) = [] ∧ calls (ticks k w) = calls w
  ∧ observing (ticks k w) = observing w.
Proof.
  revert w. induction k as [|k IH]; intros w Hok Hl; [done|].
  rewrite ticks_S. destruct (tick_idle w Hok Hl) as (T1&T2&T3&_&T5).
  destruct (IH (tick w) T1 T2) as (I1&I2&I3&I4). by rewrite I3, I4, T3, T5.
Qed.

Lemma ticks_waiting k w t d a :
  debounce_ok w → laters w = [(t, (d, Later a))] → clock w + k < d →
  debounce_ok (ticks k w) ∧ laters (ticks k w) = [(t, (d, Later a))]
  ∧ calls (ticks k w) = calls w ∧ clock (ticks k w) = clock w + k
  ∧ observing (ticks k w) = observing w.
Proof.
  revert w. induction k as [|k IH]; intros w Hok Hl Hd.
  { change (ticks 0 w) with w. split; [done|]. split; [done|]. split; [done|].
    split; [lia|done]. }
  rewrite ticks_S. destruct (tick_waiting w t d a Hok Hl) as (T1&T2&T3&T4&T5); [lia|].
  destruct (IH (tick w) T1 T2) as (I1&I2&I3&I4&I5); [lia|].
  rewrite I3, I4, I5, T3, T4, T5. split; [done|]. split; [done|]. split; [done|].
  split; [lia|done].
Qed.

Lemma ticks_fire k w t d a :
  debounce_ok w → laters w = [(t, (d, Later a))] → clock w < d → d ≤ clock w + k →
  debounce_ok (ticks k w) ∧ laters (ticks k w) = []
  ∧ calls (ticks k w) = calls w ++ [CallFunc a]
  ∧ observing (ticks k w) = observing w.
Proof.
  revert w. induction k as [|k IH]; intros w Hok Hl Hlt Hd; [lia|].
  rewrite ticks_S. destruct (decide (S (clock w) < d)) as [Hw|Hw].
  - destruct (tick_waiting w t d a Hok Hl Hw) as (T1&T2&T3&T4&T5).
    destruct (IH (tick w) T1 T2) as (I1&I2&I3&I4); [lia..|].
    by rewrite I3, I4, T3, T5.
  - destruct (tick_fires w t d a Hok Hl) as (T1&T2&T3&T4&T5); [lia|].
    destruct (ticks_idle k (tick w) T1 T2) as (I1&I2&I3&I4).
    by rewrite I3, I4, T3, T5.
Qed.

(** A call of the debounced function: whatever [later] was pending is
    cancelled, and one is pending for [WAIT] from now. *)
Lemma debounced_pending args w :
  debounce_ok w →
  let w' := debouncedScanAndHighlight args w in
  debounce_ok w'
  ∧ laters w' = [(nextTimer w, (clock w + WAIT, Later args))]
  ∧ calls w' = calls w ∧ clock w' = clock w ∧ observing w' = observing w.
Proof.
  intros Hok w'. unfold w', debouncedScanAndHighlight, debounce, executedFunction.
  pose proof (clearTimeout_debounce_ok (timeout w) w Hok) as Hok1.
  assert (laters (clearTimeout (timeout w) w) = []) as Hl1.
  { apply laters_nil. intros e He. destruct (is_later_timer e) eqn:Hle; [|done].
    destruct (timeout w) as [t|] eqn:Ht; cbn in He.
    - apply list_elem_of_filter in He as [Hne He].
      pose proof (debounce_later _ Hok e He Hle). congruence.
    - pose proof (debounce_later _ Hok e He Hle). congruence. }
  pose proof (clearTimeout_nextTimer (timeout w) w) as Hn1.
  assert (clock (clearTimeout (timeout w) w) = clock w
          ∧ calls (clearTimeout (timeout w) w) = calls w
          ∧ observing (clearTimeout (timeout w) w) = observing w) as (Hc1&Hcs1&Ho1)
    by by destruct (timeout w).
  remember (clearTimeout (timeout w) w) as w1 eqn:Hw1. clear Hw1.
  unfold setTimeout. cbn. rewrite Hn1, Hc1, Hcs1, Ho1.
  split; [|split; [|done]].
  - split; cbn.
    + rewrite fmap_app. apply NoDup_app. split; [apply Hok1|]. split.
      * intros x Hx [->|[]%elem_of_nil]%elem_of_cons.
        apply list_elem_of_fmap in Hx as (e&He1&He).
        apply (debounce_fresh _ Hok1) in He. cbn in He1. lia.
      * apply NoDup_singleton.
    + intros e [He|He%list_elem_of_singleton]%elem_of_app.
      * apply (debounce_fresh _ Hok1) in He. lia.
      * subst e. cbn. lia.
    + intros e [He|He%list_elem_of_singleton]%elem_of_app Hle; [|by subst].
      rewrite (proj1 (laters_nil w1) Hl1 e He) in Hle. done.
  - unfold laters; cbn. rewrite filter_app. fold (laters w1). rewrite Hl1. done.
Qed.

(** A burst of calls: after each call and before the next, less than
    [WAIT] milliseconds pass. *)
Definition call_burst (burst : list (list Value * nat)) (w : World) : World :=
  foldl (λ w c, ticks c.2 (debouncedScanAndHighlight c.1 w)) w burst.

Lemma call_burst_quiet burst w :
  debounce_ok w → Forall (λ c, c.2 < WAIT) burst →
  debounce_ok (call_burst burst w)
  ∧ calls (call_burst burst w) = calls w
  ∧ observing (call_burst burst w) = observing w.
Proof.
  revert w. induction burst as [|[args gap] burst IH]; intros w Hok Hb; [done|].
  apply Forall_cons in Hb as [Hgap Hb]. cbn in Hgap.
  change (call_burst ((args, gap) :: burst) w)
    with (call_burst burst (ticks gap (debouncedScanAndHighlight args w))).
  destruct (debounced_pending args w Hok) as (D1&D2&D3&D4&D5).
  destruct (ticks_waiting gap _ _ _ _ D1 D2) as (T1&T2&T3&T4&T5); [lia|].
  destruct (IH _ T1 Hb) as (I1&I2&I3).
  by rewrite I2, I3, T3, T5, D3, D5.
Qed.

(** A burst of mutation notifications, each followed by a pause. *)
Definition notify_burst (burst : list (list MutationRecord * nat)) (w : World) : World :=
  foldl (λ w c, ticks c.2 (step (Mutations c.1) w)) w burst.

Lemma notify_relevant ms w :
  observing w = true → hasRelevantChanges ms = true →
  step (Mutations ms) w = debouncedScanAndHighlight [] w.
Proof. intros Ho Hr. cbn. unfold observerCallback. by rewrite Ho, Hr. Qed.

Lemma notify_burst_call_burst burst w :
  debounce_ok w → observing w = true →
  Forall (λ c, hasRelevantChanges c.1 = true ∧ c.2 < WAIT) burst →
  notify_burst burst w = call_burst (map (λ c, ([], c.2)) burst) w
  ∧ Forall (λ c : list Value * nat, c.2 < WAIT) (map (λ c, ([], c.2)) burst).
Proof.
  revert w. induction burst as [|[ms gap] burst IH]; intros w Hok Ho Hb.
  { split; [done|constructor]. }
  apply Forall_cons in Hb as [[Hr Hgap] Hb]. cbn in Hr, Hgap.
  change (notify_burst ((ms, gap) :: burst) w)
    with (notify_burst burst (ticks gap (step (Mutations ms) w))).
  rewrite notify_relevant by done.
  destruct (debounced_pending [] w Hok) as (D1&D2&D3&D4&D5).
  destruct (ticks_waiting gap _ _ _ _ D1 D2) as (T1&T2&T3&T4&T5); [lia|].
  destruct (IH (ticks gap (debouncedScanAndHighlight [] w))) as [I1 I2];
    [done|by rewrite T5, D5|done|].
  split; [by rewrite I1|]. by constructor.
Qed.

Lemma burst_then_wait burst args w :
  debounce_ok w → Forall (λ c, c.2 < WAIT) burst →
  let w0 := call_burst burst w in
  let w1 := debouncedScanAndHighlight args w0 in
  laters w1 = [(nextTimer w0, (clock w1 + WAIT, Later args))]
  ∧ (∀ k, k < WAIT → calls (ticks k w1) = calls w)
  ∧ (∀ k, WAIT ≤ k →
       calls (ticks k w1) = calls w ++ [CallFunc args] ∧ laters (ticks k w1) = []).
Proof.
  intros Hok Hb w0 w1.
  destruct (call_burst_quiet burst w Hok Hb) as (B1&B2&B3). fold w0 in B1, B2, B3.
  destruct (debounced_pending args w0 B1) as (D1&D2&D3&D4&D5). fold w1 in D1, D2, D3, D4, D5.
  split; [by rewrite D4|]. split.
  - intros k Hk.
    destruct (ticks_waiting k _ _ _ _ D1 D2) as (_&_&T3&_); [lia|].
    by rewrite T3, D3, B2.
  - intros k Hk.
    destruct (ticks_fire k _ _ _ _ D1 D2) as (_&T2&T3&_); [unfold WAIT; lia|lia|].
    by rewrite T2, T3, D3, B2.
Qed.

Lemma timers_ok_debounce_ok w : timers_ok w → debounce_ok w.
Proof. intros [_ H2 H3 H4]. by split. Qed.

(** C4.  In a state the script can be in: after a burst of calls
    of the debounced function, each less than [WAIT] = 100 ms after the
    one before, the one pending [later] is that of the last call and is
    due [WAIT] after it; nothing is executed before that, and from then
    on the wrapped function has been executed exactly once, with the
    arguments of the last call.  So a burst of relevant mutation
    notifications, while the observer is connected, ends in exactly one
    reconciliation pass. *)
Theorem debounce_collapses_burst (w : World) :
  reachable w →
  (∀ burst args,
     Forall (λ c, c.2 < WAIT) burst →
     let w0 := call_burst burst w in
     let w1 := debouncedScanAndHighlight args w0 in
     laters w1 = [(nextTimer w0, (clock w1 + WAIT, Later args))]
     ∧ (∀ k, k < WAIT → calls (ticks k w1) = calls w)
     ∧ (∀ k, WAIT ≤ k →
          calls (ticks k w1) = calls w ++ [CallFunc args] ∧ laters (ticks k w1) = []))
  ∧ (observing w = true →
     ∀ burst ms,
       Forall (λ c, hasRelevantChanges c.1 = true ∧ c.2 < WAIT) burst →
       hasRelevantChanges ms = true →
       let w1 := step (Mutations ms) (notify_burst burst w) in
       (∀ k, k < WAIT → calls (ticks k w1) = calls w)
       ∧ (∀ k, WAIT ≤ k → calls (ticks k w1) = calls w ++ [CallFunc []])).
Proof.
  intros Hr.
  pose proof (timers_ok_debounce_ok _ (wf_timers _ (reachable_wf _ Hr))) as Hok.
  split.
  - intros burst args Hb. by apply burst_then_wait.
  - intros Ho burst ms Hb Hrel w1.
    destruct (notify_burst_call_burst burst w Hok Ho Hb) as [Hn Hb'].
    destruct (call_burst_quiet _ w Hok Hb') as (_&_&B3).
    unfold w1. rewrite notify_relevant; [|by rewrite Hn, B3|done].
    rewrite Hn.
    destruct (burst_then_wait _ [] w Hok Hb') as (_&H1&H2).
    split; [done|]. intros k Hk. by destruct (H2 k Hk).
Qed.

(** ** Worked examples *)

(** A page with one marked element, as in the scenario of the
    specification. *)
Definition login_page : World :=
  page [div (Some "login-btn")] true ExecCopies.

(** The same page with the clipboard API missing and a copy command
    that throws. *)
Definition login_page_no_clipboard : World :=
  page [div (Some "login-btn")] false ExecThrows.

(** A page whose marked element already carries the highlight class. *)
Definition prehighlighted_page : World :=
  page [mkElement "" (Some "login-btn") [HIGHLIGHT] "" "" []] true ExecCopies.

(** A mutation record for a change of the [data-testid] attribute. *)
Definition testid_changed : MutationRecord :=
  mkMutation attributes (Some "data-testid") [] [].

(** ** Teardown *)

(** What the [beforeunload] listener does clear: the set, the registered
    timers, the observer.  The timers that stay are those whose ids were
    never put in [activeTimeouts]. *)
Lemma cleanup_each_untracks l w :
  wf w →
  let w' := foldl (λ w el, cleanupElement el w) w l in
  trackedElements w' = filter (λ x, x ∉ l) (trackedElements w) ∧ env w' = env w.
Proof.
  revert w. induction l as [|x l IH]; intros w Hwf.
  { split; [|done]. cbn. symmetry. apply filter_all. intros; apply not_elem_of_nil. }
  cbn. destruct (IH (cleanupElement x w) (cleanupElement_wf x w Hwf)) as [I1 I2].
  rewrite I1, I2, cleanupElement_env. split; [|done].
  rewrite cleanupElement_unfold. destruct (elementData w !! x) as [hs|] eqn:He.
  - rewrite detach_trackedElements. unfold set_delete. rewrite list_filter_filter.
    apply list_filter_iff. intros y. rewrite not_elem_of_cons. tauto.
  - apply filter_ext_in. intros y Hy. rewrite not_elem_of_cons.
    split; [|tauto]. intros Hn. split; [|done]. intros ->.
    apply (linked_tracked _ (wf_linked _ Hwf)) in Hy. rewrite He in Hy.
    by destruct Hy.
Qed.

Lemma clear_each_timers l w :
  let w' := foldl (λ w t, clearTimeout (Some t) w) w l in
  timers w' = filter (λ e, e.1 ∉ l) (timers w)
  ∧ trackedElements w' = trackedElements w ∧ observing w' = observing w
  ∧ activeTimeouts w' = activeTimeouts w.
Proof.
  revert w. induction l as [|t l IH]; intros w; cbn [foldl].
  - split; [|done]. symmetry. apply filter_all. intros; apply not_elem_of_nil.
  - destruct (IH (clearTimeout (Some t) w)) as (I1&I2&I3&I4).
    rewrite I1, I2, I3, I4. split; [|done]. cbn.
    rewrite list_filter_filter. apply list_filter_iff. intros e.
    rewrite not_elem_of_cons. tauto.
Qed.

Lemma beforeunload_clears_registered w :
  reachable w →
  let w' := beforeunload w in
  trackedElements w' = [] ∧ activeTimeouts w' = [] ∧ observing w' = false
  ∧ feedback_timers w' = []
  ∧ timers w' = filter (λ e, e.1 ∉ activeTimeouts w) (timers w).
Proof.
  intros Hr w'. pose proof (reachable_wf _ Hr) as Hwf.
  unfold w', beforeunload. cbv zeta.
  destruct (cleanup_each_untracks (trackedElements w) w Hwf) as [C1 C2].
  set (w1 := foldl (λ w el, cleanupElement el w) w (trackedElements w)) in *.
  assert (timers w1 = timers w ∧ activeTimeouts w1 = activeTimeouts w) as [Ht1 Ha1]
    by (unfold env in C2; split; congruence).
  destruct (clear_each_timers (activeTimeouts w1) w1) as (T1&T2&T3&T4).
  set (w2 := foldl (λ w t, clearTimeout (Some t) w) w1 (activeTimeouts w1)) in *.
  set (w3 := set_observing false (set_activeTimeouts (λ _, []) w2)).
  assert (∀ i w0, trackedElements (remove_if_present i w0) = trackedElements w0
                  ∧ activeTimeouts (remove_if_present i w0) = activeTimeouts w0
                  ∧ observing (remove_if_present i w0) = observing w0
                  ∧ timers (remove_if_present i w0) = timers w0) as Hrm.
  { intros i w0. unfold remove_if_present. by destruct (getElementById i w0). }
  destruct (Hrm FEEDBACK_ID (remove_if_present TOOLTIP_ID w3)) as (R1&R2&R3&R4).
  destruct (Hrm TOOLTIP_ID w3) as (S1&S2&S3&S4).
  unfold feedback_timers. rewrite R1, R2, R3, R4, S1, S2, S3, S4.
  change (trackedElements w3) with (trackedElements w2).
  change (timers w3) with (timers w2).
  rewrite T1, T2, C1, Ht1, Ha1.
  split; [by apply filter_none; intros x Hx Hn|]. split; [done|]. split; [done|].
  split; [|done].
  rewrite list_filter_filter. apply filter_none. intros e He [Hf Hn].
  apply Hn. by apply (timers_active _ (wf_timers _ Hwf)).
Qed.

(** The state at unload: a reconciliation is pending in the debouncer
    and a tooltip removal is pending from a pointer-leave. *)
Definition before_unload : World :=
  run [Mutations [testid_changed]; PointerEnter 0; PointerLeave 0] (load login_page).

(** C6, at a failing input.  After the [beforeunload] listener ran, the
    element is detached, the observer is disconnected and the tooltip is
    gone, but the debouncer's [later] and the tooltip-removal timer are
    still pending: they were never registered in [activeTimeouts].  When
    the [later] fires, 100 ms on, [scanAndHighlight] runs and attaches to
    the element again, with the observer disconnected. *)
Theorem teardown_leaves_timers_pending :
  let w := step Unload before_unload in
  trackedElements w = []
  ∧ observing w = false
  ∧ getElementById TOOLTIP_ID w = None
  ∧ timers before_unload = [(0, (100, Later [])); (1, (100, LeaveRemoval))]
  ∧ timers w = [(0, (100, Later [])); (1, (100, LeaveRemoval))]
  ∧ calls (ticks 100 w) = [CallFunc []]
  ∧ trackedElements (ticks 100 w) = [0]
  ∧ observing (ticks 100 w) = false.
Proof. vm_compute. repeat split; reflexivity. Qed.

(** ** The tooltip's grace delay *)

(** The two delayed removals, side by side: the one set by the element's
    [mouseleave] spares a tooltip under the pointer, the one set by the
    tooltip's own [mouseleave] removes it wherever the pointer is. *)
Lemma element_leave_removal_spares_hovered t w tooltip :
  getElementById TOOLTIP_ID w = Some tooltip → pointer w = Some tooltip →
  run_callback t LeaveRemoval w = w.
Proof.
  intros Hg Hp. cbn [run_callback]. rewrite Hg. unfold matches_hover.
  by rewrite bool_decide_eq_true_2.
Qed.

Lemma tooltip_leave_removal_ignores_pointer t w tooltip :
  tooltip ∈ document w →
  run_callback t (TooltipLeaveRemoval tooltip) w = remove tooltip w.
Proof.
  intros Hd. cbn [run_callback]. unfold document_contains.
  by rewrite bool_decide_eq_true_2.
Qed.

(** The pointer enters the element, moves onto the tooltip within the
    grace delay and stays there. *)
Definition over_tooltip : World :=
  ticks 100 (run [PointerEnter 0; PointerLeave 0; PointerEnter 1] (load login_page)).

(** It leaves the tooltip, and is back over it 50 ms later. *)
Definition back_over_tooltip : World :=
  step (PointerEnter 1) (ticks 50 (step (PointerLeave 1) over_tooltip)).

(** C7, at a failing input.  The removal scheduled when the pointer left
    the element finds the pointer over the tooltip and leaves the tooltip
    in place.  The removal scheduled when the pointer left the tooltip
    does not look where the pointer is: the pointer is back over the
    tooltip before the delay ends, the [mouseenter] listener of the
    tooltip cancels nothing, and the tooltip is removed under the
    pointer. *)
Theorem tooltip_removed_under_pointer :
  getElementById TOOLTIP_ID over_tooltip = Some 1
  ∧ pointer over_tooltip = Some 1
  ∧ timers over_tooltip = []
  ∧ clock back_over_tooltip = 150
  ∧ timers back_over_tooltip = [(1, (200, TooltipLeaveRemoval 1))]
  ∧ run_handler (TooltipEnter 1) back_over_tooltip = back_over_tooltip
  ∧ pointer (ticks 49 back_over_tooltip) = Some 1
  ∧ getElementById TOOLTIP_ID (ticks 49 back_over_tooltip) = Some 1
  ∧ pointer (ticks 50 back_over_tooltip) = Some 1
  ∧ getElementById TOOLTIP_ID (ticks 50 back_over_tooltip) = None
  ∧ 1 ∉ document (ticks 50 back_over_tooltip).
Proof.
  vm_compute. repeat split; try reflexivity.
  intros H. apply list_elem_of_singleton in H. discriminate.
Qed.

(** ** Instances *)

(** The claim of C1 as the specification words it fails on a page whose
    marked element already carries the class: the element is attached,
    its identifier is not empty, it has no side-table entry, and after
    the pass it is neither tracked nor in the side-table. *)
Lemma coverage_fails_on_prehighlighted_element :
  0 ∈ document prehighlighted_page
  ∧ truthy (dataset_testid (node prehighlighted_page 0)) = true
  ∧ has_class prehighlighted_page 0
  ∧ elementData prehighlighted_page !! 0 = None
  ∧ ¬ (tracked (scanAndHighlight prehighlighted_page) 0
       ∧ annotated (scanAndHighlight prehighlighted_page) 0
       ∧ has_class (scanAndHighlight prehighlighted_page) 0).
Proof.
  split; [left|]. split; [reflexivity|]. split; [left|]. split; [reflexivity|].
  intros (Ht&_&_). unfold tracked in Ht.
  replace (trackedElements (scanAndHighlight prehighlighted_page)) with (@nil nat) in Ht
    by (vm_compute; reflexivity).
  by apply elem_of_nil in Ht.
Qed.

Lemma login_page_elements : Forall page_element [div (Some "login-btn")].
Proof. constructor; [|constructor]. split; [discriminate|constructor]. Qed.

Lemma login_page_reachable : reachable login_page.
Proof.
  exists [div (Some "login-btn")], true, ExecCopies, [].
  split; [apply login_page_elements|reflexivity].
Qed.

Lemma loaded_page_reachable : reachable (load login_page).
Proof.
  exists [div (Some "login-btn")], true, ExecCopies, [DoScanAndHighlight; DoObserve].
  split; [apply login_page_elements|reflexivity].
Qed.

Lemma prehighlighted_page_reachable : reachable prehighlighted_page.
Proof.
  exists [mkElement "" (Some "login-btn") [HIGHLIGHT] "" "" []], true, ExecCopies, [].
  split; [|reflexivity]. constructor; [|constructor]. split; [discriminate|constructor].
Qed.

Lemma scanAndHighlight_coverage_witness :
  (tracked (scanAndHighlight login_page) 0
   ∧ annotated (scanAndHighlight login_page) 0
   ∧ has_class (scanAndHighlight login_page) 0)
  ∧ (¬ annotated (scanAndHighlight prehighlighted_page) 0
     ∧ has_class (scanAndHighlight prehighlighted_page) 0
     ∧ highlightElement 0 prehighlighted_page = prehighlighted_page).
Proof.
  split.
  - apply (scanAndHighlight_coverage login_page 0).
    + apply login_page_reachable.
    + left.
    + reflexivity.
    + split.
      * intros Hc. apply elem_of_nil in Hc. done.
      * intros [hs Hhs]. vm_compute in Hhs. discriminate.
  - apply (scanAndHighlight_coverage prehighlighted_page 0).
    + apply prehighlighted_page_reachable.
    + left.
    + reflexivity.
    + left.
    + intros [hs Hhs]. vm_compute in Hhs. discriminate.
Defined.

(** The page after its marked element was taken out of the document. *)
Definition element_removed : World := step (PageDetach 0) (load login_page).

Lemma scanAndHighlight_cleans_removed_witness :
  ∃ hs, elementData element_removed !! 0 = Some hs
  ∧ ¬ tracked (scanAndHighlight element_removed) 0
  ∧ elementData (scanAndHighlight element_removed) !! 0 = None
  ∧ ¬ has_class (scanAndHighlight element_removed) 0.
Proof.
  destruct (scanAndHighlight_cleans_removed element_removed 0) as (hs&H0&H1&H2&H3&_).
  - apply (reachable_operate _ (DoStep (PageDetach 0))), loaded_page_reachable.
  - left.
  - right. intros H. vm_compute in H. by apply elem_of_nil in H.
  - exists hs. split; [exact H0|]. split; [exact H1|]. split; [exact H2|exact H3].
Defined.

Lemma cleanupElement_without_entry_is_noop_witness :
  cleanupElement 0 login_page = login_page.
Proof.
  apply (cleanupElement_without_entry_is_noop login_page 0). reflexivity.
Defined.

Lemma membership_invariant_witness :
  tracked (foldl operate login_page
             [DoScanAndHighlight; DoStep (PageDetach 0); DoScanAndHighlight;
              DoHighlightElement 0; DoCleanupElement 0; DoTeardown]) 0
  ↔ annotated (foldl operate login_page
                 [DoScanAndHighlight; DoStep (PageDetach 0); DoScanAndHighlight;
                  DoHighlightElement 0; DoCleanupElement 0; DoTeardown]) 0.
Proof.
  apply (membership_invariant [div (Some "login-btn")] true ExecCopies
           [DoScanAndHighlight; DoStep (PageDetach 0); DoScanAndHighlight;
            DoHighlightElement 0; DoCleanupElement 0; DoTeardown] 0).
  apply login_page_elements.
Defined.

Lemma copy_feedback_once_witness :
  (calls (copy_begin FromElement 0 (load login_page_no_clipboard))
   = [CallFallbackCopy "login-btn"; CallShowCopyFeedback 0 "login-btn"]
   ∧ console (copy_begin FromElement 0 (load login_page_no_clipboard))
     = ["Failed to copy data-testid:"; "Fallback: Oops, unable to copy"])
  ∧ (calls (copy_begin FromElement 0 (load login_page)) = []
     ∧ pendingWrites (copy_begin FromElement 0 (load login_page))
       = [mkPending FromElement 0 "login-btn"])
  ∧ calls (settle 0 true (copy_begin FromElement 0 (load login_page)))
    = [CallShowCopyFeedback 0 "login-btn"]
  ∧ calls (settle 0 false (copy_begin FromElement 0 (load login_page)))
    = [CallFallbackCopy "login-btn"; CallShowCopyFeedback 0 "login-btn"]
  ∧ clipboard (settle 0 false (copy_begin FromElement 0 (load login_page)))
    = Some "login-btn"
  ∧ value (node (settle 0 false (copy_begin FromElement 0 (load login_page))) 1)
    = "login-btn"
  ∧ (1 ∉ document (settle 0 false (copy_begin FromElement 0 (load login_page)))).
Proof.
  destruct (copy_feedback_once (load login_page_no_clipboard) FromElement 0 "login-btn")
    as (H1&_&_); [reflexivity|discriminate|].
  destruct (copy_feedback_once (load login_page) FromElement 0 "login-btn")
    as (_&H2&H3); [reflexivity|discriminate|].
  destruct H1 as (Hc&Ho&_); [reflexivity|].
  destruct H2 as (Hc2&Hp2); [reflexivity|].
  destruct (H3 (copy_begin FromElement 0 (load login_page)) 0) as [Hs Hf]; [reflexivity|].
  destruct Hs as (Hs&_). destruct Hf as (Hf&_&_&Hclip&Hval&Hdoc).
  split; [split; [exact Hc|exact Ho]|]. split; [split; [exact Hc2|exact Hp2]|].
  split; [exact Hs|]. split; [exact Hf|]. split; [exact Hclip|]. split; [exact Hval|exact Hdoc].
Defined.

Lemma debounce_collapses_burst_witness :
  calls (ticks 99 (debouncedScanAndHighlight [VNum 3]
                     (call_burst [([VNum 1], 40); ([VNum 2], 99)] (load login_page)))) = []
  ∧ calls (ticks 100 (debouncedScanAndHighlight [VNum 3]
                        (call_burst [([VNum 1], 40); ([VNum 2], 99)] (load login_page))))
    = [CallFunc [VNum 3]]
  ∧ calls (ticks 100 (step (Mutations [testid_changed])
                        (notify_burst [([testid_changed], 10)] (load login_page))))
    = [CallFunc []].
Proof.
  destruct (debounce_collapses_burst (load login_page) loaded_page_reachable) as [H1 H2].
  split; [|split].
  - refine (proj1 (proj2 (H1 [([VNum 1], 40); ([VNum 2], 99)] [VNum 3] _)) 99 _).
    + repeat constructor; cbn; unfold WAIT; lia.
    + unfold WAIT; lia.
  - refine (proj1 (proj2 (proj2 (H1 [([VNum 1], 40); ([VNum 2], 99)] [VNum 3] _)) 100 _)).
    + repeat constructor; cbn; unfold WAIT; lia.
    + unfold WAIT; lia.
  - refine (proj2 (H2 _ [([testid_changed], 10)] [testid_changed] _ _) 100 _).
    + reflexivity.
    + repeat constructor; cbn; unfold WAIT; lia.
    + reflexivity.
    + unfold WAIT; lia.
Defined.

(** * Further properties of the script *)

(** ** Attaching and detaching, one element at a time *)

(** A second [highlightElement] on the same element attaches nothing
    more, and a second [cleanupElement] detaches nothing more: in every
    state each of the two is idempotent. *)
Theorem highlight_cleanup_idempotent (w : World) (el : nat) :
  highlightElement el (highlightElement el w) = highlightElement el w
  ∧ cleanupElement el (cleanupElement el w) = cleanupElement el w.
Proof.
  split.
  - apply highlightElement_settled, highlightElement_self.
  - rewrite (cleanupElement_unfold el w).
    destruct (elementData w !! el) as [hs|] eqn:He.
    + rewrite cleanupElement_unfold, detach_elementData, lookup_delete_eq. done.
    + rewrite cleanupElement_unfold, He. done.
Qed.

Lemma filter_snoc_out {A} (P : A → Prop) `{∀ x, Decision (P x)} (l : list A) x :
  (∀ y, y ∈ l → P y) → ¬ P x → filter P (l ++ [x]) = l.
Proof.
  intros Hl Hx. rewrite filter_app, filter_all by done.
  rewrite filter_cons_False by done. apply app_nil_r.
Qed.

Lemma add_listener_new l ls : l ∉ ls → add_listener l ls = ls ++ [l].
Proof. intros Hl. unfold add_listener. by rewrite bool_decide_eq_false_2. Qed.

(** An element that [highlightElement] annotates: it has an identifier
    and neither the class nor a side-table entry. *)
Definition eligible (w : World) (el : nat) : Prop :=
  truthy (dataset_testid (node w el)) = true ∧ ¬ has_class w el ∧ ¬ annotated w el.

(** Attaching to an element and detaching again leaves no footprint: in
    a state the script can be in, [cleanupElement] after [highlightElement]
    gives back every node as it was (classes and listeners included), the
    side-table, the set and the browser side. *)
Theorem attach_detach_round_trip (w : World) (el : nat) :
  reachable w → eligible w el →
  let w' := cleanupElement el (highlightElement el w) in
  (∀ x, node w' x = node w x)
  ∧ elementData w' = elementData w
  ∧ trackedElements w' = trackedElements w
  ∧ env w' = env w.
Proof.
  intros Hr (Ht&Hc&Ha) w'.
  pose proof (wf_linked _ (reachable_wf _ Hr)) as [L1 L2 L3].
  assert (highlightElement el w = annotate el w) as Hh.
  { destruct (highlightElement_cases el w) as [[_ [Hs|[Hs|Hs]]]|[-> _]];
      [congruence|done|done|done]. }
  assert (elementData w !! el = None) as He.
  { destruct (elementData w !! el) eqn:He; [|done]. destruct Ha. unfold annotated.
    rewrite He. eauto. }
  unfold w'. rewrite Hh, cleanupElement_unfold, annotate_elementData, lookup_insert_eq.
  set (hs := mkHandlers _ _ _).
  split; [|split; [|split]].
  - intros x. rewrite detach_node.
    destruct (decide (el = x)) as [<-|]; [|by rewrite annotate_node, decide_False].
    rewrite annotate_node, decide_True by done.
    cbn [id dataset_testid classList innerText value listeners].
    assert (∀ l, l ∈ listeners (node w el) → is_script_handler l.2 = false) as Hns.
    { intros l Hl. destruct (is_script_handler l.2) eqn:Hs; [|done].
      destruct (L3 _ _ Hl Hs) as (hs'&Hhs'&_). congruence. }
    rewrite bool_decide_eq_false_2 by done.
    rewrite filter_snoc_out; [|intros c Hin ->; done|intros H; by apply H].
    rewrite (add_listener_new (mouseenter, _));
      [|intros Hl; apply Hns in Hl; done].
    rewrite (add_listener_new (mouseleave, _));
      [|intros [Hl|Hl%list_elem_of_singleton]%elem_of_app; [apply Hns in Hl; done|done]].
    rewrite (add_listener_new (click, _)).
    2:{ rewrite !elem_of_app, !list_elem_of_singleton.
        intros [[Hl|Hl]|Hl]; [apply Hns in Hl; done|done|done]. }
    rewrite <- !app_assoc. rewrite filter_app, filter_all.
    + cbn [app]. rewrite !filter_cons, filter_nil.
      rewrite !decide_False; [rewrite app_nil_r; by destruct (node w el)|..];
        intros Hn; apply Hn, installed_elem; cbn; auto.
    + intros l Hl Hi. apply Hns in Hl. apply installed_elem in Hi. cbn in Hi.
      by destruct Hi as [->|[->| ->]].
  - rewrite detach_elementData, annotate_elementData. by apply delete_insert_id.
  - rewrite detach_trackedElements, annotate_trackedElements.
    assert (el ∉ trackedElements w) as Hn.
    { intros Hin. apply L1 in Hin. rewrite He in Hin. by destruct Hin. }
    unfold set_add, set_delete. rewrite bool_decide_eq_false_2 by done.
    apply filter_snoc_out; [|tauto]. intros y Hy ->. done.
  - by rewrite detach_env, annotate_env.
Qed.

(** ** The tracked set after a pass *)

Lemma highlightElement_tracked_mono x w el :
  tracked w el → tracked (highlightElement x w) el.
Proof.
  intros Ht. destruct (highlightElement_cases x w) as [[-> _]|[-> _]]; [done|].
  unfold tracked. rewrite annotate_trackedElements, set_add_elem. by right.
Qed.

Lemma highlight_all_tracked_mono l w el :
  tracked w el → tracked (highlight_all l w) el.
Proof.
  intros Ht. apply (foldl_preserves (λ w, tracked w el)); [|done].
  intros w0 x H0. by apply highlightElement_tracked_mono.
Qed.

(** An element enters the set in the first loop only by being annotated. *)
Lemma highlight_all_tracked l w el :
  tracked (highlight_all l w) el → tracked w el ∨ ¬ settled w el.
Proof.
  revert w. induction l as [|x l IH]; intros w Ht; [by left|].
  change (highlight_all (x :: l) w) with (highlight_all l (highlightElement x w)) in Ht.
  destruct (IH _ Ht) as [Hx|Hx].
  - destruct (decide (x = el)) as [->|Hne].
    + destruct (highlightElement_cases el w) as [[Heq _]|(_&H1&H2&H3)].
      * rewrite Heq in Hx. by left.
      * right. intros [Hs|[Hs|Hs]]; [congruence|done|done].
    + left. by apply (highlightElement_frame x el w Hne).
  - destruct (decide (x = el)) as [->|Hne].
    + destruct (highlightElement_cases el w) as [[Heq _]|(_&H1&H2&H3)].
      * rewrite Heq in Hx. by right.
      * right. intros [Hs|[Hs|Hs]]; [congruence|done|done].
    + right. intros Hs. apply Hx. eapply settled_same_at; [|exact Hs].
      by apply highlightElement_frame.
Qed.

(** After a pass, in a state the script can be in, the tracked elements
    are exactly the elements of the scan result that were tracked before
    or have an identifier and did not carry the class.  So no element
    outside the scan result stays tracked; an element whose identifier
    became empty stays tracked as long as it keeps the attribute. *)
Theorem tracked_after_pass (w : World) (el : nat) :
  reachable w →
  tracked (scanAndHighlight w) el ↔
  el ∈ querySelectorAll_testid w
  ∧ (tracked w el
     ∨ (truthy (dataset_testid (node w el)) = true ∧ ¬ has_class w el)).
Proof.
  intros Hr. pose proof (wf_linked _ (reachable_wf _ Hr)) as [L1 _ _].
  rewrite scanAndHighlight_unfold.
  set (current := querySelectorAll_testid w).
  set (wm := highlight_all current w).
  assert (document wm = document w) as Hdm by apply env_document, highlight_all_env.
  split.
  - intros Ht.
    assert (tracked wm el) as Htm by (eapply cleanup_all_tracked; exact Ht).
    assert (el ∈ current) as Hcur.
    { destruct (decide (el ∈ current)) as [|Hn]; [done|]. exfalso.
      pose proof (highlight_all_notin current w el Hn) as Hm. fold wm in Hm.
      destruct Hm as (Hm1&Hm2&Hm3&Hm4).
      assert (is_Some (elementData wm !! el)) as [hs Hhs].
      { rewrite Hm2. apply L1. by apply Hm3. }
      pose proof (cleanup_all_gone current (trackedElements wm) wm el hs Htm Hn Hhs)
        as (_&_&Hg&_).
      apply Hg in Ht. unfold tracked in Ht.
      rewrite detach_trackedElements, set_delete_elem in Ht. tauto. }
    split; [done|].
    destruct (highlight_all_tracked current w el Htm) as [?|Hns]; [by left|].
    right. split.
    + destruct (truthy (dataset_testid (node w el))) eqn:Htr; [done|].
      destruct Hns. by left.
    + intros Hc. apply Hns. right. by left.
  - intros [Hcur Hor].
    assert (same_at el (cleanup_all current (trackedElements wm) wm) wm) as (_&_&Hs&_).
    { apply cleanup_all_stays. left. split; [done|]. rewrite Hdm.
      by apply querySelectorAll_testid_document. }
    apply Hs.
    destruct Hor as [Ht|[Htr Hc]]; [by apply highlight_all_tracked_mono|].
    destruct (decide (el ∈ trackedElements w)) as [Ht|Ht];
      [by apply highlight_all_tracked_mono|].
    apply (highlight_all_annotates current w el Hcur).
    intros [Hs'|[Hs'|Hs']]; [congruence|done|]. apply Ht, L1, Hs'.
Qed.

(** ** What a pass leaves alone *)

(** [w'] has the classes of [w] but for the highlight class, and the
    listeners of [w] but for the script's own. *)
Definition page_kept (w' w : World) : Prop :=
  ∀ x,
    (∀ c, c ≠ HIGHLIGHT → (c ∈ classList (node w' x) ↔ c ∈ classList (node w x)))
    ∧ (∀ l, is_script_handler l.2 = false →
            (l ∈ listeners (node w' x) ↔ l ∈ listeners (node w x))).

Lemma page_kept_refl w : page_kept w w.
Proof. intros x. split; intros; done. Qed.

Lemma page_kept_trans w1 w2 w3 : page_kept w1 w2 → page_kept w2 w3 → page_kept w1 w3.
Proof.
  intros H12 H23 x. destruct (H12 x) as [A1 A2], (H23 x) as [B1 B2]. split.
  - intros c Hc. by rewrite A1, B1.
  - intros l Hl. by rewrite A2, B2.
Qed.

Lemma annotate_page_kept el w : page_kept (annotate el w) w.
Proof.
  intros x. rewrite annotate_node. destruct (decide (el = x)) as [<-|]; [|by split].
  cbn. split.
  - intros c Hc. case_bool_decide; [done|].
    rewrite elem_of_app, list_elem_of_singleton. split; [|tauto]. intros [?|?]; done.
  - intros l Hl. rewrite !add_listener_elem. split; [|tauto].
    intros [->|[->|[->|?]]]; done.
Qed.

Lemma detach_page_kept el hs w :
  (∀ l, l ∈ installed hs → is_script_handler l.2 = true) →
  page_kept (detach el hs w) w.
Proof.
  intros Hs x. rewrite detach_node. destruct (decide (el = x)) as [<-|]; [|by split].
  cbn. split.
  - intros c Hc. rewrite list_elem_of_filter. tauto.
  - intros l Hl. rewrite list_elem_of_filter. split; [tauto|].
    intros Hin. split; [|done]. intros Hi. apply Hs in Hi. congruence.
Qed.

Lemma linked_installed_script w el hs l :
  linked w → elementData w !! el = Some hs → l ∈ installed hs →
  is_script_handler l.2 = true.
Proof.
  intros [_ L2 _] He Hl. destruct (L2 _ _ He) as [(k&->) _].
  apply installed_elem in Hl. cbn in Hl. by destruct Hl as [->|[->| ->]].
Qed.

Lemma highlightElement_page_kept el w : page_kept (highlightElement el w) w.
Proof.
  destruct (highlightElement_cases el w) as [[-> _]|[-> _]];
    [apply page_kept_refl|apply annotate_page_kept].
Qed.

Lemma cleanupElement_page_kept el w : linked w → page_kept (cleanupElement el w) w.
Proof.
  intros Hl. rewrite cleanupElement_unfold.
  destruct (elementData w !! el) as [hs|] eqn:He; [|apply page_kept_refl].
  apply detach_page_kept. intros l. by apply (linked_installed_script w el hs).
Qed.

(** A pass changes nothing of the page but the highlight class and the
    script's own listeners: in a state the script can be in, the
    document, the timers, the clipboard and the rest of the browser
    side are as before, and so are every element's id, [data-testid],
    text and value, its other classes and the listeners of the page. *)
Theorem pass_touches_only_highlighting (w : World) :
  reachable w →
  let w' := scanAndHighlight w in
  env w' = env w
  ∧ (∀ x, attrs (node w' x) = attrs (node w x))
  ∧ page_kept w' w.
Proof.
  intros Hr w'. split; [apply scanAndHighlight_env|].
  split; [intros x; apply scanAndHighlight_attrs|].
  pose proof (reachable_wf _ Hr) as Hwf.
  unfold w', scanAndHighlight.
  refine (proj2 (foldl_preserves (λ w0, wf w0 ∧ page_kept w0 w) _ _ _ _ _)).
  - intros w0 x [H0 K0]. unfold cleanup_if_gone.
    destruct (_ || _); [|done]. split; [by apply cleanupElement_wf|].
    eapply page_kept_trans; [|exact K0]. apply cleanupElement_page_kept, H0.
  - apply (foldl_preserves (λ w0, wf w0 ∧ page_kept w0 w)).
    + intros w0 x [H0 K0]. split; [by apply highlightElement_wf|].
      eapply page_kept_trans; [|exact K0]. apply highlightElement_page_kept.
    + split; [done|apply page_kept_refl].
Qed.

(** ** The fallback copy *)

Lemma filter_ne_absent (n : nat) (l : list nat) : n ∉ l → filter (λ m, m ≠ n) l = l.
Proof. intros Hn. apply filter_all. intros y Hy ->. done. Qed.

(** The fallback leaves no text field behind.  In a state the script can
    be in, after [fallbackCopyTextToClipboard] the document is the one
    before, element for element; the clipboard holds the text when the
    copy command works and is untouched when the command refuses or
    throws, and a throw only adds a line to the console. *)
Theorem fallback_leaves_no_textarea (w : World) (text : string) :
  reachable w →
  let w' := fallbackCopyTextToClipboard text w in
  document w' = document w
  ∧ (∀ x, x ≠ nextNode w → node w' x = node w x)
  ∧ clipboard w' = match execCommand w with
                   | ExecCopies => Some text
                   | _ => clipboard w
                   end
  ∧ console w' = console w ++ fallback_log w
  ∧ script_view w' = script_view w
  ∧ timer_view w' = timer_view w.
Proof.
  intros Hr w'. pose proof (wf_stored _ (reachable_wf _ Hr)) as [S1 S2].
  assert (nextNode w ∉ document w) as Hfresh.
  { intros Hin. apply S2, S1 in Hin. lia. }
  pose proof (fallbackCopyTextToClipboard_io text w) as Hio.
  unfold io in Hio. fold w' in Hio.
  assert (document w' = document w
          ∧ (∀ x, x ≠ nextNode w → node w' x = node w x)
          ∧ script_view w' = script_view w ∧ timer_view w' = timer_view w)
    as (Hd&Hn&Hs&Ht).
  { unfold w', fallbackCopyTextToClipboard. cbv zeta.
    change (createElement (log_call (CallFallbackCopy text) w))
      with (nextNode w, set_nextNode (S (nextNode w))
                          (set_nodes (λ m, <[nextNode w := blank]> m)
                             (log_call (CallFallbackCopy text) w))).
    cbv beta iota.
    set (w2 := appendChild _ _).
    assert (∀ w3 : World,
              document w3 = document w2 → nodes w3 = nodes w2 →
              script_view w3 = script_view w2 → timer_view w3 = timer_view w2 →
              document (remove (nextNode w) w3) = document w
              ∧ (∀ x, x ≠ nextNode w → node (remove (nextNode w) w3) x = node w x)
              ∧ script_view (remove (nextNode w) w3) = script_view w
              ∧ timer_view (remove (nextNode w) w3) = timer_view w) as Hrm.
    { intros w3 Hd3 Hn3 Hs3 Ht3. split; [|split; [|split]].
      - cbn. rewrite Hd3. unfold w2. cbn.
        rewrite filter_app, !(filter_ne_absent _ _ Hfresh).
        rewrite filter_cons_False by (intros ?; done).
        by rewrite filter_nil, app_nil_r.
      - intros x Hx. change (node (remove (nextNode w) w3) x) with (node w3 x).
        rewrite (node_ext _ _ Hn3). unfold w2.
        change (node (appendChild ?n ?w0) x) with (node w0 x).
        rewrite node_update_node, decide_False by done.
        unfold node. cbn. by rewrite lookup_insert_ne.
      - change (script_view w3 = script_view w). by rewrite Hs3.
      - change (timer_view w3 = timer_view w). by rewrite Ht3. }
    destruct (execCommand w2); by apply Hrm. }
  split; [done|]. split; [done|]. split; [congruence|]. split; [congruence|done].
Qed.

(** ** The mutation filter *)

(** An element of the subtree, the root included, has a non-empty
    [data-testid]. *)
Fixpoint has_identifier (t : DomTree) : bool :=
  match t with
  | ElementNode a children => truthy a || existsb has_identifier children
  | OtherNode => false
  end.

Lemma existsb_impl {A} (f g : A → bool) (l : list A) :
  Forall (λ x, f x = true → g x = true) l → existsb f l = true → existsb g l = true.
Proof.
  induction 1 as [|x l Hx Hl IH]; [done|]. cbn.
  rewrite !orb_true_iff. intros [?|?]; auto.
Qed.

Lemma has_identifier_attribute : ∀ t, has_identifier t = true → has_testid_attribute t = true.
Proof.
  fix IH 1. intros [a children|]; [|done]. cbn.
  rewrite !orb_true_iff. intros [Ha|Hc].
  - left. apply bool_decide_eq_true_2. by apply truthy_is_Some.
  - right. revert Hc. apply existsb_impl.
    induction children as [|c cs IHcs]; constructor; [apply IH|apply IHcs].
Qed.

Lemma relevant_node_bounds t :
  (has_identifier t = true → relevant_node t = true)
  ∧ (relevant_node t = true → has_testid_attribute t = true).
Proof.
  destruct t as [a children|]; [|done]. cbn. rewrite !orb_true_iff. split.
  - intros [?|Hc]; [by left|]. right. revert Hc. apply existsb_impl.
    apply Forall_forall. intros c _. apply has_identifier_attribute.
  - intros [Ha|?]; [|by right]. left. apply bool_decide_eq_true_2. by apply truthy_is_Some.
Qed.

(** The record is a change of the [data-testid] attribute. *)
Definition testid_attribute_record (m : MutationRecord) : Prop :=
  mutation_type m = attributes ∧ attributeName m = Some "data-testid".

Lemma relevant_mutation_attribute m :
  match mutation_type m, attributeName m with
  | attributes, Some a => String.eqb a "data-testid"
  | _, _ => false
  end = true ↔ testid_attribute_record m.
Proof.
  unfold testid_attribute_record.
  destruct (mutation_type m), (attributeName m) as [a|]; try (split; [done|by intros [? ?]]).
  destruct (String.eqb_spec a "data-testid") as [->|Hne]; split; try done.
  intros [_ [= ?]]. done.
Qed.

(** What the observer lets through.  While it is connected, a
    notification with a record that adds or removes a subtree holding a
    non-empty identifier, or that reports a change of [data-testid],
    schedules the debounced pass.  A notification in which no added or
    removed subtree holds the attribute at all and no record reports a
    change of [data-testid] is dropped: the state is unchanged. *)
Theorem observer_filter (ms : list MutationRecord) (w : World) :
  (observing w = true →
   (∃ m, m ∈ ms ∧ ((∃ t, t ∈ addedNodes m ++ removedNodes m ∧ has_identifier t = true)
                   ∨ testid_attribute_record m)) →
   step (Mutations ms) w = debouncedScanAndHighlight [] w)
  ∧ ((∀ m, m ∈ ms →
        (∀ t, t ∈ addedNodes m ++ removedNodes m → has_testid_attribute t = false)
        ∧ ¬ testid_attribute_record m) →
     step (Mutations ms) w = w).
Proof.
  split.
  - intros Ho (m&Hm&Hrel). apply notify_relevant; [done|].
    unfold hasRelevantChanges. apply existsb_exists. exists m.
    split; [by apply list_elem_of_In|].
    unfold relevant_mutation. rewrite !orb_true_iff.
    destruct Hrel as [(t&Ht&Hid)|Ha].
    + apply elem_of_app in Ht as [Ht|Ht]; [left; left|left; right];
        apply existsb_exists; exists t;
        (split; [by apply list_elem_of_In|by apply relevant_node_bounds]).
    + right. by apply relevant_mutation_attribute.
  - intros Hirr. cbn [step]. destruct (observing w); [|done].
    unfold observerCallback.
    destruct (hasRelevantChanges ms) eqn:Hrel; [|done]. exfalso.
    unfold hasRelevantChanges in Hrel. apply existsb_exists in Hrel as (m&Hm&Hrel).
    apply list_elem_of_In in Hm. destruct (Hirr m Hm) as [Hnodes Hattr].
    unfold relevant_mutation in Hrel. rewrite !orb_true_iff in Hrel.
    destruct Hrel as [[Hrel|Hrel]|Hrel].
    + apply existsb_exists in Hrel as (t&Ht&Hrel). apply list_elem_of_In in Ht.
      apply relevant_node_bounds in Hrel. rewrite Hnodes in Hrel; [done|].
      apply elem_of_app. by left.
    + apply existsb_exists in Hrel as (t&Ht&Hrel). apply list_elem_of_In in Ht.
      apply relevant_node_bounds in Hrel. rewrite Hnodes in Hrel; [done|].
      apply elem_of_app. by right.
    + by apply relevant_mutation_attribute in Hrel.
Qed.

(** ** The tooltip and the closures that hold on to it *)

(** The tooltips in the document. *)
Definition tooltips (w : World) : list nat :=
  filter (λ n, id (node w n) = TOOLTIP_ID) (document w).

(** A listener as the script registers it: under the event type its
    function was written for, and, for a listener of a tooltip, with a
    tooltip that has been created. *)
Definition listener_ok (n : nat) (l : EventType * Handler) : Prop :=
  match l.2 with
  | MouseEnter _ _ => l.1 = mouseenter
  | MouseLeave _ _ => l.1 = mouseleave
  | ClickCopy _ _ => l.1 = click
  | TooltipClick _ t => l.1 = click ∧ t < n
  | TooltipEnter t => l.1 = mouseenter ∧ t < n
  | TooltipLeave t => l.1 = mouseleave ∧ t < n
  | PageHandler _ => True
  end.

(** A timer callback holds on to an artifact that has been created. *)
Definition callback_ok (n : nat) (cb : Callback) : Prop :=
  match cb with
  | TooltipLeaveRemoval t => t < n
  | FeedbackRemoval t => t < n
  | _ => True
  end.

(** At most one tooltip is in the document, and the closures around
    are the script's own. *)
Record tidy (w : World) : Prop := mkTidy {
  tidy_tooltip : length (tooltips w) ≤ 1;
  tidy_timers : ∀ e, e ∈ timers w → callback_ok (nextNode w) e.2.2;
  tidy_listeners : ∀ x l, l ∈ listeners (node w x) → listener_ok (nextNode w) l
}.

Lemma listener_ok_mono n m l : n ≤ m → listener_ok n l → listener_ok m l.
Proof. unfold listener_ok. destruct (l.2); intros; try done; split; try tauto; lia. Qed.

Lemma callback_ok_mono n m cb : n ≤ m → callback_ok n cb → callback_ok m cb.
Proof. unfold callback_ok. destruct cb; intros; try done; lia. Qed.

Lemma getElementById_TOOLTIP w : getElementById TOOLTIP_ID w = head (tooltips w).
Proof. reflexivity. Qed.

Lemma filter_sublist_mono {A} (P : A → Prop) `{∀ x, Decision (P x)} (l1 l2 : list A) :
  l1 `sublist_of` l2 → filter P l1 `sublist_of` filter P l2.
Proof.
  induction 1 as [|x l1 l2 Hs IH|x l1 l2 Hs IH]; [done| |].
  - rewrite !filter_cons. destruct (decide (P x)); [by constructor|done].
  - rewrite filter_cons. destruct (decide (P x)); [by constructor|done].
Qed.

Lemma tooltips_sublist w' w :
  document w' `sublist_of` document w →
  (∀ x, x ∈ document w → id (node w' x) = id (node w x)) →
  tooltips w' `sublist_of` tooltips w.
Proof.
  intros Hs Hid. unfold tooltips.
  rewrite (filter_ext_in (λ n, id (node w' n) = TOOLTIP_ID)
             (λ n, id (node w n) = TOOLTIP_ID)).
  - by apply filter_sublist_mono.
  - intros x Hx. rewrite Hid; [done|]. by eapply elem_of_sublist.
Qed.

Lemma tooltips_ext w' w :
  document w' = document w → (∀ x, x ∈ document w → id (node w' x) = id (node w x)) →
  tooltips w' = tooltips w.
Proof.
  intros Hd Hid. unfold tooltips. rewrite Hd.
  apply filter_ext_in. intros x Hx. by rewrite Hid.
Qed.

Lemma tooltips_remove n w : tooltips (remove n w) = filter (λ m, m ≠ n) (tooltips w).
Proof.
  unfold tooltips, remove; cbn.
  change (λ n0, id (node (set_document (filter (λ m, m ≠ n)) w) n0) = TOOLTIP_ID)
    with (λ n0, id (node w n0) = TOOLTIP_ID).
  apply filter_filter_comm.
Qed.

(** With at most one tooltip around, removing the one that
    [getElementById] finds leaves none. *)
Lemma remove_if_present_tooltips w :
  length (tooltips w) ≤ 1 → tooltips (remove_if_present TOOLTIP_ID w) = [].
Proof.
  intros Hlen. unfold remove_if_present. rewrite getElementById_TOOLTIP.
  destruct (tooltips w) as [|m [|m' l]] eqn:Hf; [done| |cbn in Hlen; lia].
  cbn [head]. rewrite tooltips_remove, Hf, filter_cons, decide_False by (intros H; by apply H).
  done.
Qed.

Lemma remove_if_present_document i w :
  document (remove_if_present i w) `sublist_of` document w.
Proof.
  unfold remove_if_present. destruct (getElementById i w); [apply sublist_filter|done].
Qed.

(** The invariant after a change: the tooltips are counted again, and
    what is new among the timers and the listeners is checked. *)
Lemma tidy_step w' w :
  length (tooltips w') ≤ 1 →
  nextNode w ≤ nextNode w' →
  (∀ e, e ∈ timers w' → e ∈ timers w ∨ callback_ok (nextNode w') e.2.2) →
  (∀ x l, l ∈ listeners (node w' x) →
          l ∈ listeners (node w x) ∨ listener_ok (nextNode w') l) →
  tidy w → tidy w'.
Proof.
  intros Hlen Hn Ht Hl [T1 T2 T3]. split; [done| |].
  - intros e He. destruct (Ht e He) as [Ho|?]; [|done].
    eapply callback_ok_mono; [exact Hn|]. by apply T2.
  - intros x l Hx. destruct (Hl x l Hx) as [Ho|?]; [|done].
    eapply listener_ok_mono; [exact Hn|]. by apply (T3 x).
Qed.

(** A change that takes elements out of the document, timers out of the
    table and listeners off the elements, and nothing else. *)
Lemma tidy_shrink w' w :
  document w' `sublist_of` document w →
  (∀ x, x ∈ document w → id (node w' x) = id (node w x)) →
  nextNode w' = nextNode w →
  (∀ e, e ∈ timers w' → e ∈ timers w) →
  (∀ x l, l ∈ listeners (node w' x) → l ∈ listeners (node w x)) →
  tidy w → tidy w'.
Proof.
  intros Hd Hid Hn Ht Hl Hw. apply (tidy_step _ w); [|lia|auto..|done].
  etrans; [apply sublist_length, (tooltips_sublist _ w); done|apply Hw].
Qed.

Lemma tidy_ext w' w :
  page_view w' = page_view w → timers w' = timers w → tidy w → tidy w'.
Proof.
  unfold page_view. intros [= Hn Hd Hx] Ht.
  apply tidy_shrink; [by rewrite Hd| |done|by rewrite Ht|].
  - intros x _. by rewrite (node_ext _ _ Hn).
  - intros x l. by rewrite (node_ext _ _ Hn).
Qed.

(** *** Attaching and detaching *)

Lemma highlightElement_listeners el w x l :
  l ∈ listeners (node (highlightElement el w) x) →
  l ∈ listeners (node w x) ∨ (is_script_handler l.2 = true ∧ listener_ok 0 l).
Proof.
  destruct (highlightElement_cases el w) as [[-> _]|[-> _]]; [auto|].
  rewrite annotate_node. destruct (decide (el = x)) as [->|]; [|auto]. cbn.
  rewrite !add_listener_elem. intros [->|[->|[->|?]]]; [by right..|by left].
Qed.

Lemma cleanupElement_listeners el w x l :
  l ∈ listeners (node (cleanupElement el w) x) → l ∈ listeners (node w x).
Proof.
  rewrite cleanupElement_unfold. destruct (elementData w !! el) as [hs|]; [|done].
  rewrite detach_node. destruct (decide (el = x)) as [->|]; [|done]. cbn.
  by intros [_ ?]%list_elem_of_filter.
Qed.

Lemma highlightElement_tidy el w : tidy w → tidy (highlightElement el w).
Proof.
  intros Hw. pose proof (highlightElement_env el w) as He.
  apply (tidy_step _ w); [| | | |done].
  - rewrite (tooltips_ext _ w); [apply Hw|by apply env_document|].
    intros x _. apply attrs_id, highlightElement_attrs.
  - by rewrite (env_nextNode _ _ He).
  - intros e. left. unfold env in He. congruence.
  - intros x l Hl. apply highlightElement_listeners in Hl as [?|[_ Hl]]; [by left|right].
    eapply listener_ok_mono; [|exact Hl]. lia.
Qed.

Lemma env_timers w' w : env w' = env w → timers w' = timers w.
Proof. unfold env. congruence. Qed.

Lemma cleanupElement_tidy el w : tidy w → tidy (cleanupElement el w).
Proof.
  pose proof (cleanupElement_env el w) as He.
  apply tidy_shrink.
  - by rewrite (env_document _ _ He).
  - intros x _. apply attrs_id, cleanupElement_attrs.
  - by apply env_nextNode.
  - intros e. by rewrite (env_timers _ _ He).
  - apply cleanupElement_listeners.
Qed.

Lemma scanAndHighlight_tidy w : tidy w → tidy (scanAndHighlight w).
Proof.
  intros Hw. unfold scanAndHighlight. cbv zeta.
  apply foldl_preserves.
  - intros w0 x H0. unfold cleanup_if_gone.
    destruct (_ || _); [by apply cleanupElement_tidy|done].
  - apply foldl_preserves; [|done]. intros w0 x H0. by apply highlightElement_tidy.
Qed.

(** *** Timers and DOM primitives *)

Lemma set_timers_filter_tidy (P : nat * (nat * Callback) → Prop) `{∀ e, Decision (P e)} w :
  tidy w → tidy (set_timers (filter P) w).
Proof.
  apply tidy_shrink; try done. cbn. by intros e [_ ?]%list_elem_of_filter.
Qed.

Lemma clearTimeout_tidy t w : tidy w → tidy (clearTimeout t w).
Proof. destruct t; [apply set_timers_filter_tidy|done]. Qed.

Lemma setTimeout_tidy cb d w :
  callback_ok (nextNode w) cb → tidy w → tidy (setTimeout cb d w).2.
Proof.
  intros Hcb Hw. apply (tidy_step _ w); [apply Hw|done| |by left|done].
  cbn. intros e [?| ->%list_elem_of_singleton]%elem_of_app; [by left|by right].
Qed.

Lemma remove_tidy n w : tidy w → tidy (remove n w).
Proof. apply tidy_shrink; try done. apply sublist_filter. Qed.

Lemma remove_if_present_tidy i w : tidy w → tidy (remove_if_present i w).
Proof.
  intros Hw. unfold remove_if_present.
  destruct (getElementById i w); [by apply remove_tidy|done].
Qed.

Lemma createElement_tooltips w : stored w → tooltips (createElement w).2 = tooltips w.
Proof.
  intros Hs. apply tooltips_ext; [done|]. intros x _. by rewrite createElement_node.
Qed.

Lemma createElement_tidy w : stored w → tidy w → tidy (createElement w).2.
Proof.
  intros Hs Hw. apply (tidy_step _ w); [|cbn; lia|by left| |done].
  - rewrite createElement_tooltips by done. apply Hw.
  - intros x l. rewrite createElement_node by done. by left.
Qed.

Lemma update_node_tooltips n f w :
  n ∉ document w ∨ id (f (node w n)) = id (node w n) →
  tooltips (update_node n f w) = tooltips w.
Proof.
  intros Hid. apply tooltips_ext; [done|]. intros x Hx. rewrite node_update_node.
  destruct (decide (n = x)) as [<-|]; [|done]. by destruct Hid.
Qed.

Lemma update_node_tidy n f w :
  n ∉ document w ∨ id (f (node w n)) = id (node w n) →
  (∀ l, l ∈ listeners (f (node w n)) →
        l ∈ listeners (node w n) ∨ listener_ok (nextNode w) l) →
  tidy w → tidy (update_node n f w).
Proof.
  intros Hid Hl Hw. apply (tidy_step _ w); [|done|by left| |done].
  - rewrite update_node_tooltips by done. apply Hw.
  - intros x l. rewrite node_update_node.
    destruct (decide (n = x)) as [<-|]; [apply Hl|by left].
Qed.

Lemma tooltips_appendChild n w :
  tooltips (appendChild n w) =
  filter (λ m, m ≠ n) (tooltips w) ++ filter (λ m, id (node w m) = TOOLTIP_ID) [n].
Proof.
  change (tooltips (appendChild n w))
    with (filter (λ m, id (node w m) = TOOLTIP_ID)
            (filter (λ m, m ≠ n) (document w) ++ [n])).
  rewrite filter_app. f_equal. apply filter_filter_comm.
Qed.

Lemma appendChild_tidy n w :
  id (node w n) ≠ TOOLTIP_ID ∨ tooltips w = [] → tidy w → tidy (appendChild n w).
Proof.
  intros Hid Hw. apply (tidy_step _ w); [|done|by left|by left|done].
  rewrite tooltips_appendChild, length_app. destruct Hid as [Hid|Hid].
  - rewrite filter_cons, decide_False by done. cbn.
    pose proof (length_filter (λ m, m ≠ n) (tooltips w)).
    pose proof (tidy_tooltip _ Hw). lia.
  - rewrite Hid. cbn.
    pose proof (length_filter (λ m, id (node w m) = TOOLTIP_ID) [n]). cbn in *. lia.
Qed.

Lemma addEventListener_tooltips n ev h w :
  tooltips (addEventListener n ev h w) = tooltips w.
Proof. apply tooltips_ext; [done|]. intros x _. apply addEventListener_id. Qed.

Lemma addEventListener_tidy n ev h w :
  listener_ok (nextNode w) (ev, h) → tidy w → tidy (addEventListener n ev h w).
Proof.
  intros Hh Hw. unfold addEventListener.
  apply (tidy_ext _ (update_node n
           (λ e, if bool_decide ((ev, h) ∈ listeners e) then e
                 else with_listeners (listeners e ++ [(ev, h)]) e) w)); [done..|].
  apply update_node_tidy; [right; by case_bool_decide| |done].
  intros l. case_bool_decide; [by left|]. cbn.
  intros [?| ->%list_elem_of_singleton]%elem_of_app; [by left|by right].
Qed.

Lemma clear_and_delete_tidy l w : tidy w → tidy (foldl clear_and_delete w l).
Proof.
  intros Hw. destruct (clear_and_delete_all l w) as (Ht&_&_&Hp&_).
  unfold page_view in Hp. injection Hp as Hn Hd Hx.
  apply (tidy_shrink _ w); [by rewrite Hd| |done| |by intros x l0; rewrite (node_ext _ _ Hn)|done].
  - intros x _. by rewrite (node_ext _ _ Hn).
  - intros e. rewrite Ht. by intros [_ ?]%list_elem_of_filter.
Qed.

(** *** The artifacts *)

Lemma showCopyFeedback_tidy el testId w :
  wf w → tidy w → tidy (showCopyFeedback el testId w).
Proof.
  intros Hwf Hw. unfold showCopyFeedback. cbn zeta.
  set (w1 := remove_if_present FEEDBACK_ID (log_call _ w)).
  assert (wf w1) as Hw1 by by apply remove_if_present_wf, log_call_wf.
  assert (tidy w1) as Ht1 by by apply remove_if_present_tidy, (tidy_ext _ w).
  set (w2 := foldl clear_and_delete w1 (activeTimeouts w1)).
  assert (wf w2) as Hw2 by by apply clear_and_delete_wf.
  assert (tidy w2) as Ht2 by by apply clear_and_delete_tidy.
  clearbody w2. clear Hw1 Ht1. clearbody w1.
  destruct (createElement_wf w2 Hw2) as (Hw3&Hs3&Hd3&Hb3).
  pose proof (createElement_tidy w2 (wf_stored _ Hw2) Ht2) as Ht3.
  assert ((createElement w2).1 < nextNode (createElement w2).2) as Hlt by (cbn; lia).
  destruct (createElement w2) as [feedback w3]. cbn in Hw3, Hs3, Hd3, Hb3, Ht3, Hlt.
  set (w4 := update_node feedback _ w3).
  assert (tidy w4) as Ht4.
  { apply update_node_tidy; [by left| |done]. intros l. cbn. by left. }
  set (w5 := appendChild feedback w4).
  assert (tidy w5) as Ht5.
  { apply appendChild_tidy; [left|done].
    unfold w4. by rewrite node_update_node, decide_True. }
  apply (tidy_ext _ (setTimeout (FeedbackRemoval feedback) FEEDBACK_DELAY w5).2); [done..|].
  by apply setTimeout_tidy.
Qed.

Lemma fallbackCopyTextToClipboard_tidy text w :
  wf w → tidy w → tidy (fallbackCopyTextToClipboard text w).
Proof.
  intros Hwf Hw. unfold fallbackCopyTextToClipboard. cbn zeta.
  apply (log_call_wf (CallFallbackCopy text)) in Hwf.
  apply (tidy_ext (log_call (CallFallbackCopy text) w)) in Hw; [|done..].
  destruct (createElement_wf _ Hwf) as (Hw1&Hs1&Hd1&Hb1).
  pose proof (createElement_tidy _ (wf_stored _ Hwf) Hw) as Ht1.
  destruct (createElement (log_call _ w)) as [textArea w1]. cbn in Hw1, Hs1, Hd1, Hb1, Ht1.
  set (w2 := update_node textArea _ w1).
  assert (tidy w2) as Ht2.
  { apply update_node_tidy; [by left| |done]. intros l. cbn. by left. }
  apply remove_tidy.
  assert (tidy (appendChild textArea w2)) as Ht3.
  { apply appendChild_tidy; [left|done].
    unfold w2. by rewrite node_update_node, decide_True, Hb1. }
  destruct (execCommand _); [by apply (tidy_ext _ (appendChild textArea w2))|done|
                             by apply (tidy_ext _ (appendChild textArea w2))].
Qed.

Lemma copy_resolved_tidy src el testId w :
  wf w → tidy w → tidy (copy_resolved src el testId w).
Proof.
  intros Hwf Hw. unfold copy_resolved.
  destruct src; [|apply remove_tidy]; by apply showCopyFeedback_tidy.
Qed.

Lemma copy_rejected_tidy src el testId w :
  wf w → tidy w → tidy (copy_rejected src el testId w).
Proof.
  intros Hwf Hw. unfold copy_rejected. cbv zeta.
  assert (tidy (showCopyFeedback el testId
                  (fallbackCopyTextToClipboard testId
                     (set_console (λ c, c ++ ["Failed to copy data-testid:"]) w)))).
  { apply showCopyFeedback_tidy.
    - by apply fallbackCopyTextToClipboard_wf, set_console_wf.
    - apply fallbackCopyTextToClipboard_tidy; [by apply set_console_wf|].
      by apply (tidy_ext _ w). }
  destruct src; [done|by apply remove_tidy].
Qed.

Lemma copy_begin_tidy src el w : wf w → tidy w → tidy (copy_begin src el w).
Proof.
  intros Hwf Hw. unfold copy_begin.
  destruct (negb _); [done|].
  destruct (clipboardApi w); [by apply (tidy_ext _ w)|by apply copy_rejected_tidy].
Qed.

Lemma settle_tidy i ok w : wf w → tidy w → tidy (settle i ok w).
Proof.
  intros Hwf Hw. unfold settle. destruct (pendingWrites w !! i); [|done].
  destruct ok.
  - apply copy_resolved_tidy.
    + by apply set_clipboard_wf, set_pendingWrites_wf.
    + by apply (tidy_ext _ w).
  - apply copy_rejected_tidy; [by apply set_pendingWrites_wf|by apply (tidy_ext _ w)].
Qed.

Lemma run_mouseEnterHandler_tidy el w :
  wf w → tidy w → tidy (run_mouseEnterHandler el w).
Proof.
  intros Hwf Hw. unfold run_mouseEnterHandler. cbn zeta.
  pose proof (remove_if_present_tooltips w (tidy_tooltip _ Hw)) as Hno.
  apply (remove_if_present_tidy TOOLTIP_ID) in Hw.
  apply (remove_if_present_wf TOOLTIP_ID) in Hwf.
  destruct (createElement_wf _ Hwf) as (Hw1&Hs1&Hd1&Hb1).
  pose proof (createElement_tidy _ (wf_stored _ Hwf) Hw) as Ht1.
  pose proof (createElement_tooltips _ (wf_stored _ Hwf)) as Hno1. rewrite Hno in Hno1.
  assert ((createElement (remove_if_present TOOLTIP_ID w)).1
          < nextNode (createElement (remove_if_present TOOLTIP_ID w)).2) as Hlt
    by (cbn; lia).
  destruct (createElement (remove_if_present _ w)) as [tooltip w1].
  cbn in Hw1, Hs1, Hd1, Hb1, Ht1, Hno1, Hlt.
  set (w2 := update_node tooltip _ w1).
  assert (tidy w2 ∧ tooltips w2 = []) as [Ht2 Hno2].
  { split; [apply update_node_tidy; [by left| |done]
           |unfold w2; rewrite update_node_tooltips; [done|by left]].
    intros l. cbn. by left. }
  set (w3 := update_node tooltip (with_id TOOLTIP_ID) w2).
  assert (tidy w3 ∧ tooltips w3 = []) as [Ht3 Hno3].
  { split; [apply update_node_tidy; [by left| |done]
           |unfold w3; rewrite update_node_tooltips; [done|by left]].
    intros l. cbn. by left. }
  set (w4 := addEventListener tooltip click (TooltipClick el tooltip) w3).
  assert (tidy w4) as Ht4 by by apply addEventListener_tidy.
  set (w5 := addEventListener tooltip mouseenter (TooltipEnter tooltip) w4).
  assert (tidy w5) as Ht5 by by apply addEventListener_tidy.
  set (w6 := addEventListener tooltip mouseleave (TooltipLeave tooltip) w5).
  assert (tidy w6) as Ht6 by by apply addEventListener_tidy.
  apply appendChild_tidy; [right|done].
  unfold w6, w5, w4. by rewrite !addEventListener_tooltips.
Qed.

(** *** Listeners, timers and the transitions *)

Lemma run_handler_tidy ev h w :
  listener_ok (nextNode w) (ev, h) → wf w → tidy w → tidy (run_handler h w).
Proof.
  intros Hh Hwf Hw. destruct h; cbn [run_handler]; try done.
  - by apply run_mouseEnterHandler_tidy.
  - by apply (setTimeout_tidy LeaveRemoval).
  - by apply copy_begin_tidy.
  - by apply copy_begin_tidy.
  - apply (setTimeout_tidy (TooltipLeaveRemoval tooltip)); [|done]. apply Hh.
Qed.

Lemma later_tidy args w : tidy w → tidy (later args w).
Proof.
  intros Hw. unfold later, func. apply scanAndHighlight_tidy.
  apply (tidy_ext _ (clearTimeout (timeout w) w)); [done..|]. by apply clearTimeout_tidy.
Qed.

Lemma run_callback_tidy t cb w : tidy w → tidy (run_callback t cb w).
Proof.
  intros Hw. destruct cb; cbn [run_callback].
  - by apply later_tidy.
  - destruct (getElementById _ _); [|done]. destruct (negb _); [by apply remove_tidy|done].
  - destruct (document_contains _ _); [by apply remove_tidy|done].
  - destruct (document_contains _ _).
    + by apply (tidy_ext _ (remove feedback w)), remove_tidy.
    + by apply (tidy_ext _ w).
Qed.

Lemma run_due_tidy fuel w : tidy w → tidy (run_due fuel w).
Proof.
  revert w. induction fuel as [|fuel IH]; intros w Hw; [done|]. cbn.
  destruct (head _) as [[t [d cb]]|]; [|done].
  by apply IH, run_callback_tidy, set_timers_filter_tidy.
Qed.

Lemma tick_tidy w : tidy w → tidy (tick w).
Proof. intros Hw. unfold tick. by apply run_due_tidy, (tidy_ext _ w). Qed.

Lemma executedFunction_tidy wait args w : tidy w → tidy (executedFunction wait args w).
Proof.
  intros Hw. unfold executedFunction.
  apply (tidy_ext _ (setTimeout (Later args) wait (clearTimeout (timeout w) w)).2);
    [done..|].
  apply setTimeout_tidy; [done|by apply clearTimeout_tidy].
Qed.

Lemma beforeunload_tidy w : tidy w → tidy (beforeunload w).
Proof.
  intros Hw. unfold beforeunload. cbn zeta.
  do 2 apply remove_if_present_tidy.
  set (w1 := foldl (λ w el, cleanupElement el w) w (trackedElements w)).
  assert (tidy w1) as Hw1.
  { apply foldl_preserves; [|done]. intros w0 x H0. by apply cleanupElement_tidy. }
  set (w2 := foldl (λ w t, clearTimeout (Some t) w) w1 (activeTimeouts w1)).
  assert (tidy w2) as Hw2.
  { apply foldl_preserves; [|done]. intros w0 x H0. by apply clearTimeout_tidy. }
  by apply (tidy_ext _ w2).
Qed.

(** Node numbers are never handed out twice: [nextNode] only grows. *)
Lemma remove_if_present_nextNode i w : nextNode (remove_if_present i w) = nextNode w.
Proof. unfold remove_if_present. by destruct (getElementById i w). Qed.

Lemma showCopyFeedback_nextNode el testId w :
  nextNode (showCopyFeedback el testId w) = S (nextNode w).
Proof.
  unfold showCopyFeedback. cbv zeta.
  set (w1 := remove_if_present FEEDBACK_ID (log_call _ w)).
  assert (nextNode w1 = nextNode w) as Hn1 by (unfold w1; by rewrite remove_if_present_nextNode).
  destruct (clear_and_delete_all (activeTimeouts w1) w1) as (_&_&_&Hp&_).
  set (w2 := foldl clear_and_delete w1 (activeTimeouts w1)) in *.
  assert (nextNode w2 = nextNode w) as Hn2 by (unfold page_view in Hp; congruence).
  clearbody w2. rewrite <- Hn2. reflexivity.
Qed.

Lemma fallbackCopyTextToClipboard_nextNode text w :
  nextNode (fallbackCopyTextToClipboard text w) = S (nextNode w).
Proof.
  unfold fallbackCopyTextToClipboard. cbv zeta.
  change (createElement (log_call (CallFallbackCopy text) w))
    with (nextNode w, set_nextNode (S (nextNode w))
                        (set_nodes (λ m, <[nextNode w := blank]> m)
                           (log_call (CallFallbackCopy text) w))).
  cbv beta iota.
  set (w2 := appendChild _ _).
  change (execCommand w2) with (execCommand w).
  by destruct (execCommand w).
Qed.

Lemma copy_resolved_nextNode src el testId w :
  nextNode (copy_resolved src el testId w) = S (nextNode w).
Proof.
  unfold copy_resolved.
  assert (∀ w0, nextNode (match src with
                          | FromElement => w0
                          | FromTooltip tooltip => remove tooltip w0
                          end) = nextNode w0) as -> by by destruct src.
  apply showCopyFeedback_nextNode.
Qed.

Lemma copy_rejected_nextNode src el testId w :
  nextNode (copy_rejected src el testId w) = S (S (nextNode w)).
Proof.
  unfold copy_rejected. cbv zeta.
  assert (∀ w0, nextNode (match src with
                          | FromElement => w0
                          | FromTooltip tooltip => remove tooltip w0
                          end) = nextNode w0) as -> by by destruct src.
  by rewrite showCopyFeedback_nextNode, fallbackCopyTextToClipboard_nextNode.
Qed.

Lemma copy_begin_nextNode src el w : nextNode w ≤ nextNode (copy_begin src el w).
Proof.
  unfold copy_begin. destruct (negb _); [done|].
  destruct (clipboardApi w); [done|]. rewrite copy_rejected_nextNode. lia.
Qed.

Lemma run_mouseEnterHandler_nextNode el w :
  nextNode (run_mouseEnterHandler el w) = S (nextNode w).
Proof.
  unfold run_mouseEnterHandler. cbv zeta.
  rewrite <- (remove_if_present_nextNode TOOLTIP_ID w). reflexivity.
Qed.

Lemma run_handler_nextNode h w : nextNode w ≤ nextNode (run_handler h w).
Proof.
  destruct h; cbn [run_handler]; try done.
  - rewrite run_mouseEnterHandler_nextNode. lia.
  - apply copy_begin_nextNode.
  - apply copy_begin_nextNode.
Qed.

Lemma dispatch_tidy ev n w : wf w → tidy w → tidy (dispatch ev n w).
Proof.
  intros Hwf Hw. unfold dispatch.
  assert (∀ ls w0, (∀ l, l ∈ ls → listener_ok (nextNode w0) l) → wf w0 → tidy w0 →
            tidy (foldl (λ w l, if bool_decide (l.1 = ev) then run_handler l.2 w else w)
                    w0 ls)) as Hgen.
  { induction ls as [|l ls IH]; intros w0 Hls Hwf0 Hw0; [done|]. cbn [foldl].
    apply IH.
    - intros l' Hl'. case_bool_decide; [|apply Hls; by right].
      eapply listener_ok_mono; [apply run_handler_nextNode|]. apply Hls. by right.
    - case_bool_decide; [by apply run_handler_wf|done].
    - case_bool_decide; [|done]. apply (run_handler_tidy l.1); [|done..].
      destruct l. apply Hls. left. }
  apply Hgen; [|done..]. intros l Hl. by apply (tidy_listeners _ Hw n).
Qed.

Lemma step_tidy a w : wf w → tidy w → tidy (step a w).
Proof.
  intros Hwf Hw. destruct a; cbn [step].
  - by apply tick_tidy.
  - destruct (observing w); [|done]. unfold observerCallback.
    destruct (hasRelevantChanges ms); [by apply executedFunction_tidy|done].
  - apply dispatch_tidy; [by apply set_pointer_wf|by apply (tidy_ext _ w)].
  - apply dispatch_tidy; [by apply set_pointer_wf|by apply (tidy_ext _ w)].
  - by apply dispatch_tidy.
  - by apply settle_tidy.
  - by apply beforeunload_tidy.
  - destruct (nodes w !! n); [|done].
    apply update_node_tidy; [by right| |done]. intros l. by left.
  - destruct (nodes w !! n); [|done].
    apply update_node_tidy; [by right| |done]. intros l. by left.
  - by apply remove_tidy.
  - destruct (createElement_wf _ Hwf) as (Hw1&Hs1&Hd1&Hb1).
    pose proof (createElement_tidy _ (wf_stored _ Hwf) Hw) as Ht1.
    destruct (createElement w) as [n w1]. cbn in Hw1, Hs1, Hd1, Hb1, Ht1.
    apply appendChild_tidy; [left|].
    + by rewrite node_update_node, decide_True, Hb1.
    + apply update_node_tidy; [by left| |done]. intros l. by left.
Qed.

Lemma operate_tidy w o : wf w → tidy w → tidy (operate w o).
Proof.
  intros Hwf Hw. destruct o; cbn [operate].
  - by apply highlightElement_tidy.
  - by apply cleanupElement_tidy.
  - by apply scanAndHighlight_tidy.
  - by apply beforeunload_tidy.
  - by apply (tidy_ext _ w).
  - by apply step_tidy.
Qed.

(** An element of the page before the script ran: it uses neither of
    the reserved ids, and its listeners are functions of the page. *)
Definition is_page_handler (h : Handler) : bool :=
  match h with PageHandler _ => true | _ => false end.

Definition host_element (e : Element) : Prop :=
  id e ≠ FEEDBACK_ID ∧ id e ≠ TOOLTIP_ID
  ∧ Forall (λ l, is_page_handler l.2 = true) (listeners e).

#[global] Instance host_element_dec e : Decision (host_element e).
Proof. unfold host_element. apply _. Defined.

Lemma host_page_element e : host_element e → page_element e.
Proof.
  intros (H1&_&H3). split; [done|].
  eapply Forall_impl; [exact H3|]. intros [ev h]. cbn. by destruct h.
Qed.

Lemma page_node_host els api exec i :
  Forall host_element els → host_element (node (page els api exec) i).
Proof.
  intros Hels. rewrite page_node. destruct (els !! i) as [e|] eqn:He; cbn.
  - eapply Forall_lookup_1; eauto.
  - split; [done|]. split; [done|constructor].
Qed.

Lemma page_tidy els api exec : Forall host_element els → tidy (page els api exec).
Proof.
  intros Hels. split.
  - unfold tooltips. rewrite filter_none; [cbn; lia|].
    intros n _. by destruct (page_node_host els api exec n Hels) as (_&?&_).
  - cbn. intros e He. by apply elem_of_nil in He.
  - intros x l Hl. destruct (page_node_host els api exec x Hels) as (_&_&Hf).
    rewrite Forall_forall in Hf. apply Hf in Hl.
    destruct l as [ev h]. unfold listener_ok. cbn in *. by destruct h.
Qed.

(** The states of the script on a page of the host: the page as the
    script finds it, and what its operations and the transitions of the
    system make of it. *)
Definition started (w : World) : Prop :=
  ∃ els api exec os,
    Forall host_element els ∧ w = foldl operate (page els api exec) os.

Lemma started_reachable w : started w → reachable w.
Proof.
  intros (els&api&exec&os&Hels&->). exists els, api, exec, os. split; [|done].
  eapply Forall_impl; [exact Hels|]. apply host_page_element.
Qed.

Lemma started_wf w : started w → wf w.
Proof. intros Hs. by apply reachable_wf, started_reachable. Qed.

Lemma started_tidy w : started w → tidy w.
Proof.
  intros (els&api&exec&os&Hels&->).
  refine (proj2 (foldl_preserves (λ w, wf w ∧ tidy w) operate os _ _ _)).
  - intros w o [H1 H2]. split; [by apply operate_wf|by apply operate_tidy].
  - split; [apply page_wf|by apply page_tidy].
    eapply Forall_impl; [exact Hels|]. apply host_page_element.
Qed.

Lemma started_operate w o : started w → started (operate w o).
Proof.
  intros (els&api&exec&os&Hels&->). exists els, api, exec, (os ++ [o]).
  split; [done|]. by rewrite foldl_app.
Qed.

Lemma started_run acts w : started w → started (run acts w).
Proof.
  revert w. induction acts as [|a acts IH]; intros w Hw; [done|].
  apply IH. by apply (started_operate w (DoStep a)).
Qed.

(** ** One tooltip *)

(** What [mouseEnterHandler] makes: the tooltip, as the one element
    with the reserved id. *)
Definition tooltip_of (el tooltip : nat) (text : string) : Element :=
  mkElement TOOLTIP_ID None ["test-id-tooltip"] text ""
    [(click, TooltipClick el tooltip); (mouseenter, TooltipEnter tooltip);
     (mouseleave, TooltipLeave tooltip)].

Lemma node_addEventListener_new n ev h w :
  (ev, h) ∉ listeners (node w n) →
  node (addEventListener n ev h w) n
  = with_listeners (listeners (node w n) ++ [(ev, h)]) (node w n).
Proof.
  intros Hn. by rewrite node_addEventListener, decide_True, bool_decide_eq_false_2.
Qed.

Lemma run_mouseEnterHandler_spec el w :
  wf w → length (tooltips w) ≤ 1 →
  let w' := run_mouseEnterHandler el w in
  let n := nextNode w in
  tooltips w' = [n]
  ∧ node w' n = tooltip_of el n (default "" (dataset_testid (node w el)))
  ∧ (∀ x, x ≠ n → node w' x = node w x)
  ∧ (∀ m, m ∈ tooltips w → m ∉ document w')
  ∧ (∀ m, m ∈ document w' → m = n ∨ m ∈ document w)
  ∧ pointer w' = pointer w.
Proof.
  intros Hwf Hlen w' n. unfold w', run_mouseEnterHandler. cbv zeta.
  pose proof (remove_if_present_tooltips w Hlen) as Hno.
  pose proof (remove_if_present_wf TOOLTIP_ID w Hwf) as Hwf0.
  pose proof (remove_if_present_document TOOLTIP_ID w) as Hsub.
  assert (∀ m, m ∈ tooltips w → m ∉ document (remove_if_present TOOLTIP_ID w)) as Hold.
  { intros m Hm. unfold remove_if_present. rewrite getElementById_TOOLTIP.
    destruct (tooltips w) as [|m' [|m'' l]] eqn:Hf;
      [by apply elem_of_nil in Hm| |cbn in Hlen; lia].
    apply list_elem_of_singleton in Hm as ->. cbn.
    rewrite list_elem_of_filter. tauto. }
  assert (nodes (remove_if_present TOOLTIP_ID w) = nodes w
          ∧ nextNode (remove_if_present TOOLTIP_ID w) = n
          ∧ pointer (remove_if_present TOOLTIP_ID w) = pointer w) as (Hn0&Hx0&Hp0).
  { unfold remove_if_present. by destruct (getElementById _ _). }
  set (w0 := remove_if_present TOOLTIP_ID w) in *. clearbody w0.
  pose proof (createElement_node w0) as Hnode1.
  change (createElement w0) with
    (nextNode w0, set_nextNode (S (nextNode w0))
                    (set_nodes (λ m, <[nextNode w0 := blank]> m) w0)) in *.
  cbv beta iota zeta. cbn [fst snd] in Hnode1. rewrite Hx0 in *.
  specialize (λ x, Hnode1 x (wf_stored _ Hwf0)).
  set (w1 := set_nextNode (S n) (set_nodes (λ m, <[n := blank]> m) w0)) in *.
  assert (node w1 n = blank) as Hblank.
  { unfold node, w1. cbn [nodes set_nextNode set_nodes]. by rewrite lookup_insert_eq. }
  assert (n ∉ document w0) as Hfresh.
  { intros Hin. apply (stored_document _ (wf_stored _ Hwf0)) in Hin.
    apply (stored_fresh _ (wf_stored _ Hwf0)) in Hin. lia. }
  set (text := default "" (dataset_testid (node w1 el))).
  assert (text = default "" (dataset_testid (node w el))) as Htext.
  { unfold text. by rewrite Hnode1, (node_ext _ _ Hn0). }
  set (w2 := update_node n _ w1).
  set (w3 := update_node n (with_id TOOLTIP_ID) w2).
  set (w4 := addEventListener n click (TooltipClick el n) w3).
  set (w5 := addEventListener n mouseenter (TooltipEnter n) w4).
  set (w6 := addEventListener n mouseleave (TooltipLeave n) w5).
  assert (node w3 n = mkElement TOOLTIP_ID None ["test-id-tooltip"] text "" []) as H3.
  { unfold w3, w2. rewrite !node_update_node, !decide_True by done. by rewrite Hblank. }
  assert (node w4 n = mkElement TOOLTIP_ID None ["test-id-tooltip"] text ""
                        [(click, TooltipClick el n)]) as H4.
  { unfold w4. rewrite node_addEventListener_new; rewrite H3; [done|].
    apply not_elem_of_nil. }
  assert (node w5 n = mkElement TOOLTIP_ID None ["test-id-tooltip"] text ""
                        [(click, TooltipClick el n); (mouseenter, TooltipEnter n)]) as H5.
  { unfold w5. rewrite node_addEventListener_new; rewrite H4; [done|].
    cbn. by intros [=]%list_elem_of_singleton. }
  assert (node w6 n = tooltip_of el n text) as H6.
  { unfold w6. rewrite node_addEventListener_new; rewrite H5; [done|].
    cbn. rewrite !elem_of_cons, elem_of_nil. by intros [[=]|[[=]|[]]]. }
  assert (∀ x, x ≠ n → node w6 x = node w0 x) as Hother.
  { intros x Hx. unfold w6, w5, w4, w3, w2.
    rewrite !node_addEventListener, !node_update_node, !(decide_False (P := n = x)) by done.
    apply Hnode1. }
  change (document (appendChild n w6)) with (filter (λ m, m ≠ n) (document w0) ++ [n]).
  rewrite (filter_ne_absent _ _ Hfresh).
  change (pointer (appendChild n w6)) with (pointer w0).
  change (node (appendChild n w6)) with (node w6).
  split; [|split; [|split; [|split; [|split]]]].
  - change (tooltips (appendChild n w6))
      with (filter (λ x, id (node w6 x) = TOOLTIP_ID)
              (filter (λ m, m ≠ n) (document w0) ++ [n])).
    rewrite (filter_ne_absent _ _ Hfresh), filter_app.
    rewrite (filter_cons_True _ n) by by rewrite H6.
    rewrite filter_nil. rewrite filter_none; [done|].
    intros x Hx Hid. rewrite Hother in Hid by (intros ->; done).
    assert (x ∈ tooltips w0) as Hin by by apply list_elem_of_filter.
    rewrite Hno in Hin. by apply elem_of_nil in Hin.
  - by rewrite H6, Htext.
  - intros x Hx. by rewrite Hother, (node_ext _ _ Hn0).
  - intros m Hm. rewrite elem_of_app, list_elem_of_singleton.
    intros [Hin| ->]; [by apply (Hold m)|].
    apply list_elem_of_filter in Hm as [_ Hm].
    apply (stored_document _ (wf_stored _ Hwf)), (stored_fresh _ (wf_stored _ Hwf)) in Hm.
    unfold n in Hm. lia.
  - intros m. rewrite elem_of_app, list_elem_of_singleton.
    intros [Hin| ->]; [right|by left]. by eapply elem_of_sublist.
  - done.
Qed.

(** The listeners a tracked element has under one event type: the one
    of the script, and functions that do nothing to the state. *)
Lemma tracked_listeners w el :
  wf w → tidy w → tracked w el →
  ∃ k, elementData w !! el
       = Some (mkHandlers (MouseEnter el k) (MouseLeave el k) (ClickCopy el k))
     ∧ (∀ l, l ∈ installed (mkHandlers (MouseEnter el k) (MouseLeave el k) (ClickCopy el k))
             → l ∈ listeners (node w el))
     ∧ (∀ l, l ∈ listeners (node w el) → is_script_handler l.2 = true →
             l ∈ installed (mkHandlers (MouseEnter el k) (MouseLeave el k)
                              (ClickCopy el k))).
Proof.
  intros Hwf Hw Ht. destruct (wf_linked _ Hwf) as [L1 L2 L3].
  apply L1 in Ht as [hs Hhs]. destruct (L2 _ _ Hhs) as [[k ->] Hin].
  exists k. split; [done|]. split; [done|].
  intros l Hl Hs. destruct (L3 _ _ Hl Hs) as (hs'&Hhs'&?). congruence.
Qed.

Lemma mouseenter_listeners w el k l :
  wf w → tidy w →
  elementData w !! el
  = Some (mkHandlers (MouseEnter el k) (MouseLeave el k) (ClickCopy el k)) →
  l ∈ listeners (node w el) → l.1 = mouseenter → l ≠ (mouseenter, MouseEnter el k) →
  ∀ w0, run_handler l.2 w0 = w0.
Proof.
  intros Hwf Hw Hhs Hl Hev Hne w0.
  pose proof (tidy_listeners _ Hw _ _ Hl) as Hok.
  destruct (wf_linked _ Hwf) as [_ _ L3]. specialize (L3 el l Hl).
  destruct l as [ev h]. cbn in Hev. subst ev. unfold listener_ok in Hok.
  destruct h; cbn [fst snd run_handler] in Hok, L3 |- *; try done; try (by destruct Hok).
  destruct L3 as (hs&Hhs'&Hin); [done|].
  pose proof (eq_trans (eq_sym Hhs') Hhs) as [= ->].
  unfold installed in Hin. cbn in Hin.
  rewrite !elem_of_cons, elem_of_nil in Hin. destruct Hin as [?|[[=]|[[=]|[]]]]. done.
Qed.

Lemma pointer_enter_shows_tooltip w el :
  wf w → tidy w → tracked w el →
  let w' := step (PointerEnter el) w in
  pointer w' = Some el
  ∧ ∃ n, tooltips w' = [n]
         ∧ node w' n = tooltip_of el n (default "" (dataset_testid (node w el))).
Proof.
  intros Hwf Hw Ht w'. unfold w'. cbn [step]. unfold dispatch.
  destruct (tracked_listeners w el Hwf Hw Ht) as (k&Hhs&Hin&_).
  change (node (set_pointer (Some el) w) el) with (node w el).
  set (target := (mouseenter, MouseEnter el k)).
  set (text := default "" (dataset_testid (node w el))).
  set (G := λ w0 : World, wf w0 ∧ length (tooltips w0) ≤ 1 ∧ pointer w0 = Some el
                          ∧ node w0 el = node w el ∧ el < nextNode w0).
  set (T := λ w0 : World, ∃ n, tooltips w0 = [n] ∧ node w0 n = tooltip_of el n text).
  assert (∀ ls w0,
            (∀ l, l ∈ ls → l.1 = mouseenter → l ≠ target → ∀ w1, run_handler l.2 w1 = w1) →
            G w0 → T w0 ∨ target ∈ ls →
            let w1 := foldl (λ w l, if bool_decide (l.1 = mouseenter)
                                    then run_handler l.2 w else w) w0 ls in
            G w1 ∧ T w1) as Hgen.
  { induction ls as [|l ls IH]; intros w0 Hls HG HT.
    { destruct HT as [HT|HT]; [done|by apply elem_of_nil in HT]. }
    cbn [foldl]. destruct (decide (l = target)) as [->|Hne].
    - cbn [target fst snd]. rewrite bool_decide_eq_true_2 by done. cbn [run_handler].
      destruct HG as (G1&G2&G3&G4&G5).
      destruct (run_mouseEnterHandler_spec el w0 G1 G2) as (S1&S2&S3&_&_&S6).
      apply IH.
      + intros l Hl. apply Hls. by right.
      + split; [by apply run_mouseEnterHandler_wf|]. split; [by rewrite S1|].
        split; [congruence|]. split; [rewrite S3; [done|lia]|].
        rewrite run_mouseEnterHandler_nextNode. lia.
      + left. exists (nextNode w0). split; [done|]. rewrite S2. unfold text.
        by rewrite G4.
    - assert ((if bool_decide (l.1 = mouseenter) then run_handler l.2 w0 else w0) = w0)
        as ->.
      { case_bool_decide; [|done]. apply Hls; [by left|done..]. }
      apply IH; [|done|].
      + intros l' Hl'. apply Hls. by right.
      + destruct HT as [?|[?|?]%elem_of_cons]; [by left|done|by right]. }
  destruct (Hgen (listeners (node w el)) (set_pointer (Some el) w)) as [HG HT].
  - intros l Hl Hev Hne. by apply (mouseenter_listeners w el k).
  - split; [by apply set_pointer_wf|]. split; [apply Hw|]. split; [done|]. split; [done|].
    apply (stored_fresh _ (wf_stored _ Hwf)).
    apply node_in_store. intros Hb.
    assert (target ∈ listeners (node w el)) as Hl by (apply Hin; left).
    rewrite Hb in Hl. by apply elem_of_nil in Hl.
  - right. apply Hin. left.
  - split; [apply HG|done].
Qed.

(** In every state of the script on a page of the host, the document
    holds at most one tooltip.  [mouseEnterHandler] leaves exactly one,
    the new one: it shows the identifier of the element, it has the three
    listeners of a tooltip, and the tooltip that was there is out of the
    document.  So when the pointer enters a tracked element, one tooltip
    is shown, with the identifier of that element. *)
Theorem single_tooltip (w : World) :
  started w →
  length (tooltips w) ≤ 1
  ∧ (∀ el,
       let w' := run_mouseEnterHandler el w in
       tooltips w' = [nextNode w]
       ∧ node w' (nextNode w)
         = tooltip_of el (nextNode w) (default "" (dataset_testid (node w el)))
       ∧ (∀ m, m ∈ tooltips w → m ∉ document w')
       ∧ (∀ x, x ≠ nextNode w → node w' x = node w x))
  ∧ (∀ el, tracked w el →
       let w' := step (PointerEnter el) w in
       pointer w' = Some el
       ∧ ∃ n, tooltips w' = [n]
              ∧ node w' n = tooltip_of el n (default "" (dataset_testid (node w el)))).
Proof.
  intros Hs. pose proof (started_wf _ Hs) as Hwf. pose proof (started_tidy _ Hs) as Hw.
  split; [apply Hw|]. split.
  - intros el w'.
    destruct (run_mouseEnterHandler_spec el w Hwf (tidy_tooltip _ Hw)) as (S1&S2&S3&S4&_).
    done.
  - intros el Ht. by apply pointer_enter_shows_tooltip.
Qed.

(** ** As time passes *)

(** A timer fires: it leaves the table and its callback runs. *)
Definition fire (t : nat) (cb : Callback) (w : World) : World :=
  run_callback t cb (set_timers (filter (λ e, e.1 ≠ t)) w).

(** The element a callback takes out of the document, if it takes one. *)
Definition removes (cb : Callback) (w : World) : option nat :=
  match cb with
  | Later _ => None
  | LeaveRemoval =>
      match getElementById TOOLTIP_ID w with
      | Some tooltip => if matches_hover w tooltip then None else Some tooltip
      | None => None
      end
  | TooltipLeaveRemoval tooltip => Some tooltip
  | FeedbackRemoval feedback => Some feedback
  end.

Lemma run_due_preserves (I : World → Prop) fuel w :
  (∀ w0 t d cb, I w0 → (t, (d, cb)) ∈ timers w0 → d ≤ clock w0 → I (fire t cb w0)) →
  I w → I (run_due fuel w).
Proof.
  intros Hcb. revert w. induction fuel as [|fuel IH]; intros w Hw; [done|]. cbn.
  destruct (head _) as [[t [d cb]]|] eqn:Hh; [|done].
  apply head_Some_elem_of, list_elem_of_filter in Hh as [Hdue Hin].
  apply IH. by apply (Hcb w t d cb).
Qed.

Lemma fire_wf t d cb w : wf w → (t, (d, cb)) ∈ timers w → wf (fire t cb w).
Proof.
  intros Hwf Hin. unfold fire. apply run_callback_wf.
  - cbn. intros e [? _]%list_elem_of_filter. done.
  - apply (wf_timers_only _ w); [done..| |done]. apply timers_ok_filter, Hwf.
Qed.

Lemma fire_tidy t cb w : tidy w → tidy (fire t cb w).
Proof. intros Hw. by apply run_callback_tidy, set_timers_filter_tidy. Qed.

Lemma remove_absent n w : n ∉ document w → document w = filter (λ m, m ≠ n) (document w).
Proof. intros Hn. by rewrite filter_ne_absent. Qed.

(** What a firing timer changes, field by field. *)
Lemma fire_footprint t d cb w :
  wf w → (t, (d, cb)) ∈ timers w →
  let w' := fire t cb w in
  timers w' = filter (λ e, e.1 ≠ t) (timers w)
  ∧ clock w' = clock w ∧ pointer w' = pointer w ∧ nextNode w' = nextNode w
  ∧ (∀ x, attrs (node w' x) = attrs (node w x))
  ∧ document w' = match removes cb w with
                  | Some x => filter (λ m, m ≠ x) (document w)
                  | None => document w
                  end
  ∧ activeTimeouts w' = match cb with
                        | FeedbackRemoval _ => set_delete t (activeTimeouts w)
                        | _ => activeTimeouts w
                        end.
Proof.
  intros Hwf Hin w'. unfold w', fire.
  set (w1 := set_timers (filter (λ e, e.1 ≠ t)) w).
  destruct cb as [args| |tooltip|feedback]; cbn [run_callback removes].
  - unfold later, func.
    pose proof (timers_later _ (wf_timers _ Hwf) _ Hin eq_refl) as Hto. cbn in Hto.
    change (timeout w1) with (timeout w). rewrite Hto.
    set (w2 := log_call (CallFunc args) (clearTimeout (Some t) w1)).
    pose proof (scanAndHighlight_env w2) as He.
    pose proof (scanAndHighlight_attrs w2) as Ha.
    remember (scanAndHighlight w2) as w3 eqn:Hw3. clear Hw3.
    unfold env in He. injection He as -> -> -> _ _ _ _ _ -> _ -> -> _ _ _.
    split; [|done].
    change (timers w2) with (filter (λ e, e.1 ≠ t) (filter (λ e, e.1 ≠ t) (timers w))).
    rewrite list_filter_filter. apply list_filter_iff. intros e. tauto.
  - change (getElementById TOOLTIP_ID w1) with (getElementById TOOLTIP_ID w).
    destruct (getElementById TOOLTIP_ID w) as [tooltip|]; [|done].
    change (matches_hover w1 tooltip) with (matches_hover w tooltip).
    by destruct (matches_hover w tooltip).
  - unfold document_contains. change (document w1) with (document w).
    case_bool_decide as Hd; [done|]. repeat (split; [done|]).
    split; [|done]. by apply (remove_absent _ w).
  - unfold document_contains. change (document w1) with (document w).
    case_bool_decide as Hd; [done|]. repeat (split; [done|]).
    split; [|done]. by apply (remove_absent _ w).
Qed.

Lemma run_due_clock fuel w : clock (run_due fuel w) = clock w.
Proof.
  revert w. induction fuel as [|fuel IH]; intros w; [done|]. cbn.
  destruct (head _) as [[t [d cb]]|]; [|done].
  rewrite IH. by destruct (run_callback_timers t cb (set_timers (filter (λ e, e.1 ≠ t)) w)).
Qed.

Lemma tick_clock w : clock (tick w) = S (clock w).
Proof. unfold tick. by rewrite run_due_clock. Qed.

Lemma ticks_snoc k w : ticks (S k) w = tick (ticks k w).
Proof.
  unfold ticks, run. change (repeat Tick (S k)) with (Tick :: repeat Tick k).
  by rewrite repeat_cons, foldl_app.
Qed.

Lemma ticks_clock k w : clock (ticks k w) = clock w + k.
Proof.
  induction k as [|k IH]; [cbn; lia|]. rewrite ticks_snoc, tick_clock, IH. lia.
Qed.

(** A pending timer [e], a state of affairs [V] that lasts while [e] is
    pending, and the one, [D], that its callback brings about and that
    nothing undoes. *)
Section pending.
Variables (e : nat * (nat * Callback)) (V D : World → Prop).
Hypothesis V_pending : ∀ u, V u → wf u ∧ e ∈ timers u.
Hypothesis V_clock : ∀ u c, V u → V (set_clock c u).
Hypothesis D_clock : ∀ u c, D u → D (set_clock c u).
Hypothesis V_other : ∀ u t d cb,
  V u → (t, (d, cb)) ∈ timers u → t ≠ e.1 → V (fire t cb u).
Hypothesis V_fires : ∀ u, V u → D (fire e.1 e.2.2 u).
Hypothesis D_any : ∀ u t d cb, D u → (t, (d, cb)) ∈ timers u → D (fire t cb u).

Lemma pending_entry u t d cb :
  V u → (t, (d, cb)) ∈ timers u → t = e.1 → (t, (d, cb)) = e.
Proof.
  intros [Hwf He]%V_pending Hin Heq.
  eapply NoDup_fst_eq; [apply (timers_nodup _ (wf_timers _ Hwf))|done..].
Qed.

Lemma pending_tick_before u : V u → S (clock u) < e.2.1 → V (tick u).
Proof using V_pending V_clock V_other.
  intros Hu Hc. unfold tick.
  refine (proj1 (run_due_preserves (λ u0, V u0 ∧ clock u0 = S (clock u)) _ _ _ _)).
  - intros w0 t d cb [H0 Hc0] Hin Hdue. split.
    + apply (V_other _ _ d); [done..|]. intros Heq.
      pose proof (pending_entry _ _ _ _ H0 Hin Heq) as He. rewrite <- He in Hc.
      cbn in Hc. lia.
    + destruct (V_pending _ H0) as [Hwf _].
      destruct (fire_footprint t d cb w0 Hwf Hin) as (_&->&_). done.
  - split; [by apply V_clock|done].
Qed.

Lemma pending_tick_any u : V u ∨ D u → V (tick u) ∨ D (tick u).
Proof.
  intros Hu. unfold tick. apply (run_due_preserves (λ u0, V u0 ∨ D u0)).
  - intros w0 t d cb [H0|H0] Hin _; [|right; by apply (D_any _ _ d)].
    destruct (decide (t = e.1)) as [Heq|Hne]; [|left; by apply (V_other _ _ d)].
    pose proof (pending_entry _ _ _ _ H0 Hin Heq) as He. right.
    replace t with e.1 by by rewrite <- He. replace cb with e.2.2 by by rewrite <- He.
    by apply V_fires.
  - destruct Hu; [left; by apply V_clock|right; by apply D_clock].
Qed.

Lemma pending_any u k : V u ∨ D u → V (ticks k u) ∨ D (ticks k u).
Proof.
  intros Hu. induction k as [|k IH]; [done|]. rewrite ticks_snoc.
  by apply pending_tick_any.
Qed.

Lemma pending_done u k : D u → D (ticks k u).
Proof using D_clock D_any.
  intros Hu. induction k as [|k IH]; [done|]. rewrite ticks_snoc. unfold tick.
  apply (run_due_preserves D).
  - intros w0 t d cb H0 Hin _. by apply (D_any _ _ d).
  - by apply D_clock.
Qed.

Lemma pending_before u k : V u → clock u + k < e.2.1 → V (ticks k u).
Proof using V_pending V_clock V_other.
  intros Hu. induction k as [|k IH]; intros Hc; [done|].
  rewrite ticks_snoc. apply pending_tick_before; [apply IH; lia|].
  rewrite ticks_clock. lia.
Qed.

Lemma pending_after u k : V u → e.2.1 ≤ clock u + k → 0 < k → D (ticks k u).
Proof.
  intros Hu Hc Hk.
  destruct (pending_any u k (or_introl Hu)) as [Hv|Hd]; [exfalso|done].
  destruct k as [|k]; [lia|].
  apply V_pending in Hv as [_ Hin].
  pose proof (tick_complete (ticks k u)) as Hno. rewrite <- ticks_snoc in Hno.
  eapply (filter_nil_not_elem_of _ _ e); [exact Hno| |done].
  unfold is_due. rewrite ticks_clock. lia.
Qed.
End pending.

Lemma fire_by_id (i : string) t d cb w :
  wf w → (t, (d, cb)) ∈ timers w →
  filter (λ n, id (node (fire t cb w) n) = i) (document (fire t cb w))
  = match removes cb w with
    | Some x => filter (λ m, m ≠ x) (filter (λ n, id (node w n) = i) (document w))
    | None => filter (λ n, id (node w n) = i) (document w)
    end.
Proof.
  intros Hwf Hin. destruct (fire_footprint t d cb w Hwf Hin) as (_&_&_&_&Ha&Hd&_).
  rewrite Hd.
  rewrite (list_filter_iff (λ n, id (node (fire t cb w) n) = i) (λ n, id (node w n) = i))
    by (intros x; by rewrite (attrs_id _ _ (Ha x))).
  destruct (removes cb w); [apply filter_filter_comm|done].
Qed.

Lemma fire_tooltips t d cb w :
  wf w → (t, (d, cb)) ∈ timers w →
  tooltips (fire t cb w) = match removes cb w with
                           | Some x => filter (λ m, m ≠ x) (tooltips w)
                           | None => tooltips w
                           end.
Proof. apply fire_by_id. Qed.

Lemma fire_feedbacks t d cb w :
  wf w → (t, (d, cb)) ∈ timers w →
  feedbacks (fire t cb w) = match removes cb w with
                            | Some x => filter (λ m, m ≠ x) (feedbacks w)
                            | None => feedbacks w
                            end.
Proof. apply fire_by_id. Qed.

(** ** The tooltip after the pointer left *)

(** The removal scheduled by [mouseLeaveHandler] is pending, and the
    pointer is over nothing. *)
Definition leave_pending (e : nat * (nat * Callback)) (w : World) : Prop :=
  wf w ∧ e ∈ timers w ∧ length (tooltips w) ≤ 1 ∧ pointer w = None.

Definition no_tooltip (w : World) : Prop :=
  wf w ∧ tooltips w = [] ∧ pointer w = None.

Lemma leave_removal_due t d w k :
  leave_pending (t, (d, LeaveRemoval)) w → d ≤ clock w + k → 0 < k →
  no_tooltip (ticks k w).
Proof.
  apply (pending_after (t, (d, LeaveRemoval)) (leave_pending (t, (d, LeaveRemoval)))
           no_tooltip).
  - intros u (?&?&_). done.
  - intros u c (H1&H2&H3&H4). split; [by apply set_clock_wf|done].
  - intros u c (H1&H2&H3). split; [by apply set_clock_wf|done].
  - intros u t' d' cb (H1&H2&H3&H4) Hin Hne.
    destruct (fire_footprint t' d' cb u H1 Hin) as (F1&_&F3&_).
    split; [by apply (fire_wf _ d')|]. split; [|split].
    + rewrite F1. apply list_elem_of_filter. split; [|done]. cbn in *. congruence.
    + rewrite (fire_tooltips _ d') by done.
      destruct (removes cb u); [|done]. etrans; [apply length_filter|done].
    + congruence.
  - intros u (H1&H2&H3&H4). cbn [fst snd].
    destruct (fire_footprint t d LeaveRemoval u H1 H2) as (_&_&F3&_).
    split; [by apply (fire_wf _ d)|]. split; [|congruence].
    rewrite (fire_tooltips _ d) by done. cbn [removes].
    rewrite getElementById_TOOLTIP.
    destruct (tooltips u) as [|x [|y l]] eqn:Ht; [done| |cbn in H3; lia].
    cbn [head]. unfold matches_hover. rewrite bool_decide_eq_false_2 by congruence.
    by rewrite filter_cons_False, filter_nil by (intros ?; done).
  - intros u t' d' cb (H1&H2&H3) Hin.
    destruct (fire_footprint t' d' cb u H1 Hin) as (_&_&F3&_).
    split; [by apply (fire_wf _ d')|]. split; [|congruence].
    rewrite (fire_tooltips _ d') by done. rewrite H2. by destruct (removes cb u).
Qed.

(** The listeners of an element under [mouseleave]: each one starts a
    timer or does nothing. *)
Lemma mouseleave_listeners w x l :
  tidy w → l ∈ listeners (node w x) → l.1 = mouseleave →
  (∃ el k, l.2 = MouseLeave el k)
  ∨ (∃ tooltip, l.2 = TooltipLeave tooltip ∧ tooltip < nextNode w)
  ∨ (∀ w0, run_handler l.2 w0 = w0).
Proof.
  intros Hw Hl Hev. pose proof (tidy_listeners _ Hw _ _ Hl) as Hok.
  destruct l as [ev h]. cbn in Hev. subst ev. unfold listener_ok in Hok.
  destruct h; cbn [fst snd run_handler] in Hok |- *; try done; try (by destruct Hok).
  - left. eauto.
  - right. left. exists tooltip. by destruct Hok.
  - right. right. done.
Qed.

Lemma pointer_leave_schedules w el :
  wf w → tidy w → tracked w el →
  ∃ t, leave_pending (t, (clock w + GRACE, LeaveRemoval)) (step (PointerLeave el) w)
       ∧ clock (step (PointerLeave el) w) = clock w.
Proof.
  intros Hwf Hw Ht. cbn [step]. unfold dispatch.
  destruct (tracked_listeners w el Hwf Hw Ht) as (k&_&Hin&_).
  change (node (set_pointer None w) el) with (node w el).
  set (G := λ u : World, wf u ∧ tidy u ∧ pointer u = None ∧ clock u = clock w
                         ∧ nextNode u = nextNode w).
  set (T := λ u : World, ∃ t, (t, (clock w + GRACE, LeaveRemoval)) ∈ timers u).
  assert (∀ ls u,
            (∀ l, l ∈ ls → l ∈ listeners (node w el)) →
            G u → T u ∨ (∃ l, l ∈ ls ∧ l.1 = mouseleave ∧ ∃ el' k', l.2 = MouseLeave el' k') →
            let u' := foldl (λ w l, if bool_decide (l.1 = mouseleave)
                                    then run_handler l.2 w else w) u ls in
            G u' ∧ T u') as Hgen.
  { induction ls as [|l ls IH]; intros u Hls HG HT.
    { destruct HT as [HT|(l&Hl&_)]; [done|by apply elem_of_nil in Hl]. }
    cbn [foldl]. destruct HG as (G1&G2&G3&G4&G5).
    assert (∀ l', l' ∈ ls → l' ∈ listeners (node w el)) as Hls'
      by (intros l' Hl'; apply Hls; by right).
    case_bool_decide as Hev.
    - destruct (mouseleave_listeners w el l Hw) as [(el'&k'&Hl)|[(x&Hl&Hx)|Hl]];
        [apply Hls; left|done| | |].
      + rewrite Hl. cbn [run_handler]. unfold run_mouseLeaveHandler. apply IH; [done| |].
        * split; [by apply (setTimeout_wf LeaveRemoval)|].
          split; [by apply setTimeout_tidy|done].
        * left. exists (nextTimer u). cbn. rewrite G4.
          apply elem_of_app. right. by left.
      + rewrite Hl. cbn [run_handler]. apply IH; [done| |].
        * split; [by apply (setTimeout_wf (TooltipLeaveRemoval x))|].
          split; [apply setTimeout_tidy; [cbn; lia|done]|done].
        * destruct HT as [[t HT]|(l'&[->|Hl']%elem_of_cons&Hl1&el'&k'&Hl2)].
          -- left. exists t. cbn. apply elem_of_app. by left.
          -- congruence.
          -- right. exists l'. eauto.
      + rewrite Hl. apply IH; [done|done|].
        destruct HT as [HT|(l'&[->|Hl']%elem_of_cons&Hl1&el'&k'&Hl2)]; [by left| |].
        * exfalso. specialize (Hl (set_clock (S (clock w)) w)).
          rewrite Hl2 in Hl. cbn in Hl. unfold run_mouseLeaveHandler in Hl. cbn in Hl.
          apply (f_equal nextTimer) in Hl. cbn in Hl. lia.
        * right. exists l'. eauto.
    - apply IH; [done|done|].
      destruct HT as [HT|(l'&[->|Hl']%elem_of_cons&Hl1&el'&k'&Hl2)]; [by left|done|].
      right. exists l'. eauto. }
  destruct (Hgen (listeners (node w el)) (set_pointer None w)) as [HG [t HT]].
  - done.
  - split; [by apply set_pointer_wf|]. split; [by apply (tidy_ext _ w)|done].
  - right. exists (mouseleave, MouseLeave el k). split; [apply Hin; right; left|].
    split; [done|eauto].
  - exists t. destruct HG as (G1&G2&G3&G4&G5).
    split; [|done]. split; [done|]. split; [done|]. split; [apply G2|done].
Qed.

(** When the pointer has left a tracked element and is over nothing,
    then [GRACE] = 100 ms later, with nothing else happening, no tooltip
    is left in the document, and none comes back as time passes. *)
Theorem tooltip_removed_after_leave (w : World) (el : nat) :
  started w → tracked w el →
  ∀ k, GRACE ≤ k → tooltips (ticks k (step (PointerLeave el) w)) = [].
Proof.
  intros Hs Ht k Hk.
  destruct (pointer_leave_schedules w el (started_wf _ Hs) (started_tidy _ Hs) Ht)
    as (t&Hp&Hc).
  destruct (leave_removal_due t (clock w + GRACE) _ k Hp) as (_&Hno&_);
    [rewrite Hc; lia|unfold GRACE in Hk; lia|done].
Qed.

(** ** The feedback artifact, shown and removed *)

Lemma showCopyFeedback_timers el testId w :
  let w' := showCopyFeedback el testId w in
  clock w' = clock w
  ∧ (nextTimer w, (clock w + FEEDBACK_DELAY, FeedbackRemoval (nextNode w))) ∈ timers w'
  ∧ ∀ e, e ∈ timers w' →
         e ∈ timers w
         ∨ e = (nextTimer w, (clock w + FEEDBACK_DELAY, FeedbackRemoval (nextNode w))).
Proof.
  intros w'. unfold w', showCopyFeedback. cbv zeta.
  set (w1 := remove_if_present FEEDBACK_ID (log_call _ w)).
  assert (nextNode w1 = nextNode w ∧ nextTimer w1 = nextTimer w ∧ clock w1 = clock w
          ∧ timers w1 = timers w) as (Hn1&Ht1&Hc1&Hts1).
  { unfold w1, remove_if_present. by destruct (getElementById _ _). }
  destruct (clear_and_delete_all (activeTimeouts w1) w1) as (Ht2&_&_&Hp2&Hnt2&_&_&Hc2).
  set (w2 := foldl clear_and_delete w1 (activeTimeouts w1)) in *.
  unfold page_view in Hp2. injection Hp2 as _ _ Hn2.
  clearbody w2.
  change (createElement w2) with
    (nextNode w2, set_nextNode (S (nextNode w2)) (set_nodes (λ m, <[nextNode w2 := blank]> m) w2)).
  cbv beta iota zeta.
  set (w5 := appendChild _ _).
  change (setTimeout (FeedbackRemoval (nextNode w2)) FEEDBACK_DELAY w5) with
    (nextTimer w2, set_nextTimer (S (nextTimer w2))
       (set_timers (λ l, l ++ [(nextTimer w2, (clock w2 + FEEDBACK_DELAY,
                                               FeedbackRemoval (nextNode w2)))]) w5)).
  cbv beta iota zeta.
  split; [cbn; congruence|].
  cbn [timers set_activeTimeouts set_nextTimer set_timers].
  change (timers w5) with (timers w2).
  rewrite Ht2, Hnt2, Ht1, Hc2, Hc1, Hn2, Hn1, Hts1. split.
  - apply elem_of_app. right. left.
  - intros e.
    intros [[_ ?]%list_elem_of_filter| ->%list_elem_of_singleton]%elem_of_app;
      [by left|by right].
Qed.

(** The feedback artifact [n] is in the document, showing [text], and
    the timer [e] that will remove it is pending. *)
Definition feedback_visible (e : nat * (nat * Callback)) (n : nat) (text : string)
    (w : World) : Prop :=
  wf w ∧ e ∈ timers w ∧ feedbacks w = [n] ∧ innerText (node w n) = text
  ∧ activeTimeouts w = [e.1]
  ∧ ∀ e', e' ∈ timers w → e' ≠ e → callback_ok n e'.2.2.

Definition feedback_gone (w : World) : Prop :=
  wf w ∧ feedbacks w = [] ∧ activeTimeouts w = [].

Lemma feedback_not_removed t d n text w t' d' cb :
  feedback_visible (t, (d, FeedbackRemoval n)) n text w →
  (t', (d', cb)) ∈ timers w → t' ≠ t → removes cb w ≠ Some n.
Proof.
  intros (H1&H2&H3&H4&H5&H6) Hin Hne Hr.
  assert (id (node w n) = FEEDBACK_ID) as Hid.
  { assert (n ∈ feedbacks w) as Hn by (rewrite H3; left).
    by apply list_elem_of_filter in Hn as [? _]. }
  specialize (H6 _ Hin). cbn in H6.
  destruct cb as [args| |x|x]; cbn in Hr.
  - done.
  - rewrite getElementById_TOOLTIP in Hr.
    destruct (head (tooltips w)) as [x|] eqn:Hh; [|done].
    apply head_Some_elem_of, list_elem_of_filter in Hh as [Hx _].
    destruct (matches_hover w x); [done|]. injection Hr as ->.
    rewrite Hid in Hx. discriminate.
  - injection Hr as ->. assert (n < n); [|lia]. apply H6. congruence.
  - injection Hr as ->. assert (n < n); [|lia]. apply H6. congruence.
Qed.

Lemma feedback_removal_due t d n text w :
  feedback_visible (t, (d, FeedbackRemoval n)) n text w →
  (∀ k, clock w + k < d → feedback_visible (t, (d, FeedbackRemoval n)) n text (ticks k w))
  ∧ (∀ k, d ≤ clock w + k → 0 < k → feedback_gone (ticks k w)).
Proof.
  set (e := (t, (d, FeedbackRemoval n))).
  assert (∀ u, feedback_visible e n text u → wf u ∧ e ∈ timers u) as V_pending
    by (intros u (?&?&_); done).
  assert (∀ u c, feedback_visible e n text u → feedback_visible e n text (set_clock c u))
    as V_clock.
  { intros u c (H1&H2&H3). split; [by apply set_clock_wf|done]. }
  assert (∀ u c, feedback_gone u → feedback_gone (set_clock c u)) as D_clock.
  { intros u c (H1&H2). split; [by apply set_clock_wf|done]. }
  assert (∀ u t' d' cb, feedback_visible e n text u → (t', (d', cb)) ∈ timers u →
            t' ≠ e.1 → feedback_visible e n text (fire t' cb u)) as V_other.
  { intros u t' d' cb Hv Hin Hne.
    pose proof (feedback_not_removed _ _ _ _ _ _ _ _ Hv Hin Hne) as Hnr.
    destruct Hv as (H1&H2&H3&H4&H5&H6).
    destruct (fire_footprint t' d' cb u H1 Hin) as (F1&_&_&_&F5&_&F7).
    split; [by apply (fire_wf _ d')|]. split; [|split; [|split; [|split]]].
    - rewrite F1. apply list_elem_of_filter. split; [|done]. cbn in *. congruence.
    - rewrite (fire_feedbacks _ d') by done.
      destruct (removes cb u) as [x|]; [|done]. rewrite H3.
      rewrite filter_cons_True; [done|]. intros Heq. apply Hnr. by rewrite Heq.
    - pose proof (F5 n) as Ha. unfold attrs in Ha. congruence.
    - rewrite F7, H5. cbn [fst]. destruct cb; try done.
      unfold set_delete. rewrite filter_cons_True; [done|].
      intros Heq. apply Hne. exact (eq_sym Heq).
    - intros e'. rewrite F1. intros [_ ?]%list_elem_of_filter. by apply H6. }
  assert (∀ u, feedback_visible e n text u → feedback_gone (fire e.1 e.2.2 u)) as V_fires.
  { intros u (H1&H2&H3&H4&H5&H6). cbn [e fst snd].
    destruct (fire_footprint t d (FeedbackRemoval n) u H1 H2) as (_&_&_&_&_&_&F7).
    split; [by apply (fire_wf _ d)|]. split.
    - rewrite (fire_feedbacks _ d) by done. cbn [removes]. rewrite H3.
      by rewrite filter_cons_False, filter_nil by (intros ?; done).
    - rewrite F7, H5. cbn [e fst]. unfold set_delete.
      by rewrite filter_cons_False, filter_nil by (intros ?; done). }
  assert (∀ u t' d' cb, feedback_gone u → (t', (d', cb)) ∈ timers u →
            feedback_gone (fire t' cb u)) as D_any.
  { intros u t' d' cb (H1&H2&H3) Hin.
    destruct (fire_footprint t' d' cb u H1 Hin) as (_&_&_&_&_&_&F7).
    split; [by apply (fire_wf _ d')|]. split.
    - rewrite (fire_feedbacks _ d') by done. rewrite H2. by destruct (removes cb u).
    - rewrite F7, H3. by destruct cb. }
  intros Hv. split.
  - intros k Hk. by apply (pending_before e (feedback_visible e n text)).
  - intros k Hk Hpos.
    by apply (pending_after e (feedback_visible e n text) feedback_gone).
Qed.

Lemma showCopyFeedback_visible el testId w :
  wf w → tidy w →
  feedback_visible (nextTimer w, (clock w + FEEDBACK_DELAY, FeedbackRemoval (nextNode w)))
    (nextNode w) ("Copied: " +:+ testId) (showCopyFeedback el testId w)
  ∧ clock (showCopyFeedback el testId w) = clock w.
Proof.
  intros Hwf Hw.
  destruct (showCopyFeedback_spec el testId w Hwf) as (S1&S2&_&_&S5).
  destruct (showCopyFeedback_timers el testId w) as (Hc&He&Hts).
  pose proof (showCopyFeedback_wf el testId w Hwf) as Hwf'.
  remember (showCopyFeedback el testId w) as w' eqn:Hw'. clear Hw'.
  split; [|done]. split; [done|]. split; [done|]. split; [done|].
  split; [done|]. split; [done|].
  intros e' He' Hne. destruct (Hts e' He') as [Hin|?]; [|done].
  by apply (tidy_timers _ Hw).
Qed.

(** After [showCopyFeedback], with nothing else happening: for the
    [FEEDBACK_DELAY] = 2000 ms that follow, the one feedback artifact in
    the document is the new one and it shows the identifier; from then
    on no feedback artifact is in the document and [activeTimeouts] is
    empty. *)
Theorem feedback_shown_then_removed (w : World) (el : nat) (testId : string) :
  started w →
  let w' := showCopyFeedback el testId w in
  (∀ k, k < FEEDBACK_DELAY →
        feedbacks (ticks k w') = [nextNode w]
        ∧ innerText (node (ticks k w') (nextNode w)) = "Copied: " +:+ testId)
  ∧ (∀ k, FEEDBACK_DELAY ≤ k →
          feedbacks (ticks k w') = [] ∧ activeTimeouts (ticks k w') = []).
Proof.
  intros Hs w'.
  destruct (showCopyFeedback_visible el testId w (started_wf _ Hs) (started_tidy _ Hs))
    as [Hv Hc].
  fold w' in Hv, Hc. clearbody w'.
  destruct (feedback_removal_due _ _ _ _ _ Hv) as [Hbefore Hafter].
  split.
  - intros k Hk. destruct (Hbefore k) as (_&_&H3&H4&_); [rewrite Hc; lia|done].
  - intros k Hk. destruct (Hafter k) as (_&H2&H3); [rewrite Hc; lia| |done].
    unfold FEEDBACK_DELAY in Hk. lia.
Qed.

(** ** What teardown does clear *)

Lemma cleanupElement_has_class x w el :
  has_class (cleanupElement x w) el → has_class w el.
Proof.
  unfold has_class. rewrite cleanupElement_unfold.
  destruct (elementData w !! x) as [hs|]; [|done].
  rewrite detach_node. destruct (decide (x = el)) as [->|]; [|done]. cbn.
  by intros [_ ?]%list_elem_of_filter.
Qed.

Lemma cleanup_each_has_class l w el :
  has_class (foldl (λ w el, cleanupElement el w) w l) el → has_class w el.
Proof.
  revert w. induction l as [|x l IH]; intros w; [done|]. cbn.
  intros Hc. by apply IH, cleanupElement_has_class in Hc.
Qed.

Lemma cleanup_each_no_class l w el :
  el ∈ l → annotated w el →
  ¬ has_class (foldl (λ w el, cleanupElement el w) w l) el.
Proof.
  revert w. induction l as [|x l IH]; intros w Hin Ha; [by apply elem_of_nil in Hin|].
  cbn. destruct (decide (x = el)) as [->|Hne].
  - intros Hc%cleanup_each_has_class. revert Hc.
    rewrite cleanupElement_unfold. destruct Ha as [hs ->]. apply detach_no_class.
  - apply IH.
    + apply elem_of_cons in Hin as [?|?]; [congruence|done].
    + unfold annotated. rewrite cleanupElement_unfold.
      destruct (elementData w !! x) as [hs|]; [|done].
      rewrite detach_elementData. by rewrite lookup_delete_ne.
Qed.

Lemma clear_each_page l w :
  page_view (foldl (λ w t, clearTimeout (Some t) w) w l) = page_view w.
Proof. revert w. induction l as [|t l IH]; intros w; [done|]. cbn [foldl]. by rewrite IH. Qed.

Lemma remove_if_present_nodes i w : nodes (remove_if_present i w) = nodes w.
Proof. unfold remove_if_present. by destruct (getElementById i w). Qed.

Lemma beforeunload_node w x :
  node (beforeunload w) x
  = node (foldl (λ w el, cleanupElement el w) w (trackedElements w)) x.
Proof.
  unfold beforeunload. cbv zeta.
  set (w1 := foldl (λ w el, cleanupElement el w) w (trackedElements w)).
  pose proof (clear_each_page (activeTimeouts w1) w1) as Hp.
  set (w2 := foldl (λ w t, clearTimeout (Some t) w) w1 (activeTimeouts w1)) in *.
  clearbody w2. clearbody w1.
  rewrite !(node_ext _ _ (remove_if_present_nodes _ _)).
  unfold page_view in Hp. injection Hp as Hn _ _. by apply node_ext.
Qed.

Lemma beforeunload_artifacts w :
  wf w → tidy w → tooltips (beforeunload w) = [] ∧ feedbacks (beforeunload w) = [].
Proof.
  intros Hwf Hw. unfold beforeunload. cbv zeta.
  set (w1 := foldl (λ w el, cleanupElement el w) w (trackedElements w)).
  assert (wf w1 ∧ tidy w1) as [Hwf1 Hw1].
  { apply (foldl_preserves (λ w, wf w ∧ tidy w)); [|done].
    intros w0 x [H0 H0']. split; [by apply cleanupElement_wf|by apply cleanupElement_tidy]. }
  set (w2 := foldl (λ w t, clearTimeout (Some t) w) w1 (activeTimeouts w1)).
  assert (wf w2 ∧ tidy w2) as [Hwf2 Hw2].
  { apply (foldl_preserves (λ w, wf w ∧ tidy w)); [|done].
    intros w0 x [H0 H0']. split; [by apply clearTimeout_wf|by apply clearTimeout_tidy]. }
  clearbody w2. clear Hwf1 Hw1. clearbody w1.
  set (w3 := set_observing false (set_activeTimeouts (λ _, []) w2)).
  assert (length (tooltips w3) ≤ 1) as Ht3 by apply Hw2.
  assert (length (feedbacks w3) ≤ 1) as Hf3 by apply Hwf2.
  clearbody w3.
  pose proof (remove_if_present_tooltips w3 Ht3) as Hno.
  set (w4 := remove_if_present TOOLTIP_ID w3) in *.
  assert (length (feedbacks w4) ≤ 1) as Hf4.
  { etrans; [|exact Hf3]. unfold w4, remove_if_present.
    destruct (getElementById _ _); [|done]. rewrite feedbacks_remove. apply length_filter. }
  clearbody w4. split; [|by apply remove_if_present_feedbacks].
  apply sublist_nil_r. rewrite <- Hno.
  apply tooltips_sublist; [apply remove_if_present_document|].
  intros x _. by rewrite (node_ext _ _ (remove_if_present_nodes _ _)).
Qed.

(** After the [beforeunload] listener ran, in any state of the script
    on a page of the host: no element is tracked, the side-table is
    empty, no listener of the script is left on any element, the
    elements that were tracked have lost the highlight class, no timer
    of a feedback artifact is pending and [activeTimeouts] is empty,
    neither a tooltip nor a feedback artifact is in the document, and
    the observer is disconnected: a mutation notification changes
    nothing any more. *)
Theorem teardown_detaches_everything (w : World) :
  started w →
  let w' := beforeunload w in
  trackedElements w' = [] ∧ elementData w' = ∅
  ∧ (∀ x l, l ∈ listeners (node w' x) → is_script_handler l.2 = false)
  ∧ (∀ el, tracked w el → ¬ has_class w' el)
  ∧ activeTimeouts w' = [] ∧ feedback_timers w' = []
  ∧ tooltips w' = [] ∧ feedbacks w' = []
  ∧ observing w' = false ∧ (∀ ms, step (Mutations ms) w' = w').
Proof.
  intros Hs w'. pose proof (started_wf _ Hs) as Hwf. pose proof (started_tidy _ Hs) as Hw.
  destruct (beforeunload_clears_registered w (started_reachable _ Hs)) as (B1&B2&B3&B4&_).
  destruct (beforeunload_artifacts w Hwf Hw) as [A1 A2].
  pose proof (beforeunload_wf w Hwf) as Hwf'.
  pose proof (beforeunload_node w) as Hnode.
  fold w' in B1, B2, B3, B4, A1, A2, Hwf', Hnode. clearbody w'.
  destruct (wf_linked _ Hwf') as [L1 L2 L3].
  assert (elementData w' = ∅) as He.
  { apply map_empty. intros el. destruct (elementData w' !! el) as [hs|] eqn:Hel; [|done].
    assert (el ∈ trackedElements w') as Hin by (apply L1; eauto).
    rewrite B1 in Hin. by apply elem_of_nil in Hin. }
  split; [done|]. split; [done|]. split; [|split].
  - intros x l Hl. destruct (is_script_handler l.2) eqn:Hsc; [|done].
    destruct (L3 x l Hl Hsc) as (hs&Hhs&_). rewrite He in Hhs. by rewrite lookup_empty in Hhs.
  - intros el Ht. unfold has_class. rewrite Hnode.
    apply cleanup_each_no_class; [done|].
    by apply (linked_tracked _ (wf_linked _ Hwf)).
  - do 5 (split; [done|]). intros ms. cbn [step]. by rewrite B3.
Qed.

(** ** From a mutation to the pass *)

(** A timer other than the debouncer's leaves the nodes and the
    bookkeeping of the script as they are. *)
Lemma fire_other t cb w :
  match cb with Later _ => False | _ => True end →
  nodes (fire t cb w) = nodes w ∧ script_view (fire t cb w) = script_view w.
Proof.
  unfold fire. destruct cb as [args| |tooltip|feedback]; [done|..]; intros _;
    cbn [run_callback].
  - destruct (getElementById _ _); [|done]. by destruct (negb _).
  - by destruct (document_contains _ _).
  - by destruct (document_contains _ _).
Qed.

(** When the debouncer's timer fires, the pass runs on the page and the
    bookkeeping as they are at that moment. *)
Lemma fire_later t args w :
  ∃ w0, fire t (Later args) w = scanAndHighlight w0
        ∧ page_view w0 = page_view w ∧ script_view w0 = script_view w.
Proof.
  unfold fire. cbn [run_callback]. unfold later, func.
  eexists. split; [reflexivity|]. cbn [timeout set_timers].
  by destruct (timeout w).
Qed.

Lemma laters_fire t d cb w :
  wf w → (t, (d, cb)) ∈ timers w →
  laters (fire t cb w) = filter (λ e, e.1 ≠ t) (laters w).
Proof.
  intros Hwf Hin. destruct (fire_footprint t d cb w Hwf Hin) as (F1&_).
  unfold laters. rewrite F1. apply filter_filter_comm.
Qed.

(** The pass is pending in the debouncer: [P] lasts until it runs, and
    [Q], which it brings about, lasts from then on. *)
Section reconcile.
Variables (P Q : World → Prop).
Hypothesis P_clock : ∀ u c, P u → P (set_clock c u).
Hypothesis Q_clock : ∀ u c, Q u → Q (set_clock c u).
Hypothesis P_other : ∀ u t d cb,
  wf u → P u → (t, (d, cb)) ∈ timers u → is_later_timer (t, (d, cb)) = false →
  P (fire t cb u).
Hypothesis Q_other : ∀ u t d cb,
  wf u → Q u → (t, (d, cb)) ∈ timers u → is_later_timer (t, (d, cb)) = false →
  Q (fire t cb u).
Hypothesis P_pass : ∀ u t d args,
  wf u → P u → (t, (d, Later args)) ∈ timers u → Q (fire t (Later args) u).

Lemma pass_due e w k :
  wf w → laters w = [e] → P w → e.2.1 ≤ clock w + k → 0 < k →
  wf (ticks k w) ∧ laters (ticks k w) = [] ∧ Q (ticks k w).
Proof.
  intros Hwf Hl Hp.
  apply (pending_after e (λ u, wf u ∧ laters u = [e] ∧ P u)
           (λ u, wf u ∧ laters u = [] ∧ Q u)); [| | | | | |done].
  - intros u (H1&H2&_). split; [done|].
    assert (e ∈ laters u) as He by (rewrite H2; left).
    by apply elem_of_laters in He as [_ ?].
  - intros u c (H1&H2&H3). split; [by apply set_clock_wf|]. split; [done|by apply P_clock].
  - intros u c (H1&H2&H3). split; [by apply set_clock_wf|]. split; [done|by apply Q_clock].
  - intros u t d cb (H1&H2&H3) Hin Hne.
    assert (is_later_timer (t, (d, cb)) = false) as Hnl.
    { destruct (is_later_timer (t, (d, cb))) eqn:Hle; [|done].
      assert ((t, (d, cb)) ∈ laters u) as He by by apply elem_of_laters.
      rewrite H2 in He. apply list_elem_of_singleton in He. by subst e. }
    split; [by apply (fire_wf _ d)|]. split; [|by apply (P_other _ _ d)].
    rewrite (laters_fire _ d), H2 by done.
    rewrite filter_cons_True; [done|]. cbn. congruence.
  - intros u (H1&H2&H3).
    assert (e ∈ laters u) as He by (rewrite H2; left).
    apply elem_of_laters in He as [Hle Hin].
    destruct e as [t [d cb]]. cbn [fst snd].
    destruct cb as [args| | |]; try discriminate Hle.
    split; [by apply (fire_wf _ d)|]. split; [|by apply (P_pass _ _ d)].
    rewrite (laters_fire _ d), H2 by done.
    by rewrite filter_cons_False, filter_nil by (intros ?; done).
  - intros u t d cb (H1&H2&H3) Hin.
    assert (is_later_timer (t, (d, cb)) = false) as Hnl.
    { by apply (proj1 (laters_nil u) H2). }
    split; [by apply (fire_wf _ d)|]. split; [|by apply (Q_other _ _ d)].
    by rewrite (laters_fire _ d), H2 by done.
Qed.
End reconcile.

(** A relevant notification, while the observer is connected, puts the
    pass in the debouncer and changes nothing else of the page or of the
    bookkeeping. *)
Lemma notify_schedules ms w :
  wf w → observing w = true → hasRelevantChanges ms = true →
  let w' := step (Mutations ms) w in
  wf w' ∧ laters w' = [(nextTimer w, (clock w + WAIT, Later []))]
  ∧ clock w' = clock w ∧ page_view w' = page_view w ∧ script_view w' = script_view w
  ∧ ∀ e, e ∈ timers w' → e ∈ timers w ∨ e = (nextTimer w, (clock w + WAIT, Later [])).
Proof.
  intros Hwf Ho Hr w'.
  pose proof (step_wf (Mutations ms) w Hwf) as Hwf'. fold w' in Hwf'.
  unfold w' in *. rewrite notify_relevant in * by done.
  destruct (debounced_pending [] w (timers_ok_debounce_ok _ (wf_timers _ Hwf)))
    as (_&D2&_&D4&_).
  split; [done|]. split; [done|]. split; [done|].
  unfold debouncedScanAndHighlight, debounce, executedFunction.
  split; [by destruct (timeout w)|]. split; [by destruct (timeout w)|].
  intros e. cbn. rewrite clearTimeout_nextTimer.
  assert (clock (clearTimeout (timeout w) w) = clock w) as -> by by destruct (timeout w).
  intros [He| ->%list_elem_of_singleton]%elem_of_app; [left|by right].
  destruct (timeout w); [|done]. cbn in He. by apply list_elem_of_filter in He as [_ ?].
Qed.

(** *** An attribute removed *)

Lemma attribute_removal_pending el :
  let P := λ u : World, tracked u el ∧ dataset_testid (node u el) = None in
  let Q := λ u : World, ¬ tracked u el ∧ ¬ has_class u el in
  ∀ e w k, wf w → laters w = [e] → P w → e.2.1 ≤ clock w + k → 0 < k →
           wf (ticks k w) ∧ laters (ticks k w) = [] ∧ Q (ticks k w).
Proof.
  intros P Q e w k. apply (pass_due P Q).
  - by intros u c [? ?].
  - by intros u c [? ?].
  - intros u t d cb Hwf [H1 H2] Hin Hnl.
    destruct (fire_other t cb u) as [Hn Hs]; [by destruct cb|].
    unfold script_view in Hs. injection Hs as _ Ht.
    split; [unfold tracked; by rewrite Ht|by rewrite (node_ext _ _ Hn)].
  - intros u t d cb Hwf [H1 H2] Hin Hnl.
    destruct (fire_other t cb u) as [Hn Hs]; [by destruct cb|].
    unfold script_view in Hs. injection Hs as _ Ht.
    split; [unfold tracked; by rewrite Ht|unfold has_class; by rewrite (node_ext _ _ Hn)].
  - intros u t d args Hwf [H1 H2] Hin.
    destruct (fire_later t args u) as (w0&->&Hp&Hs).
    unfold page_view in Hp. injection Hp as Hn Hd _.
    unfold script_view in Hs. injection Hs as He Ht.
    destruct (proj1 (linked_tracked _ (wf_linked _ Hwf) el) H1) as [hs Hhs].
    destruct (scanAndHighlight_detaches w0 el hs) as (D1&_&D3&_).
    + unfold tracked. by rewrite Ht.
    + by rewrite He.
    + left. intros [Hsome _]%list_elem_of_filter.
      rewrite (node_ext _ _ Hn), H2 in Hsome. by destruct Hsome.
    + done.
Qed.

(** The page takes [data-testid] off a tracked element and the observer
    delivers the record of that change.  Then, with only time passing,
    [WAIT] = 100 ms later and at every later instant the element is out
    of [trackedElements], has lost the highlight class and has none of
    the script's three listeners: no listener left on it is one that
    [highlightElement] registers. *)
Theorem attribute_removal_detaches (w : World) (el : nat) (k : nat) :
  reachable w → observing w = true → tracked w el → WAIT ≤ k →
  let w' := ticks k (step (Mutations [testid_changed]) (step (PageSetTestid el None) w)) in
  ¬ tracked w' el ∧ ¬ has_class w' el
  ∧ ∀ l, l ∈ listeners (node w' el) → is_script_handler l.2 = false.
Proof.
  intros Hr Ho Ht Hk w'. pose proof (reachable_wf _ Hr) as Hwf.
  set (w1 := step (PageSetTestid el None) w) in *.
  assert (wf w1) as Hwf1 by by apply step_wf.
  destruct (proj1 (linked_tracked _ (wf_linked _ Hwf) el) Ht) as [hs Hhs].
  destruct (linked_in_store w el hs (wf_linked _ Hwf) Hhs) as [e0 He0].
  assert (w1 = update_node el (with_testid None) w) as Hw1.
  { unfold w1. cbn [step].
    destruct (@lookup Node _ _ _ el (nodes w)) eqn:Hx; [done|].
    pose proof (eq_trans (eq_sym Hx) He0). discriminate. }
  assert (observing w1 = true ∧ tracked w1 el ∧ dataset_testid (node w1 el) = None)
    as (Ho1&Ht1&Hd1).
  { rewrite Hw1. split; [done|]. split; [done|].
    by rewrite node_update_node, decide_True. }
  clearbody w1.
  pose proof (notify_schedules [testid_changed] w1 Hwf1 Ho1 eq_refl) as Hns.
  cbv zeta in Hns. set (w2 := step (Mutations [testid_changed]) w1) in *. clearbody w2.
  destruct Hns as (Hwf2&Hl2&Hc2&Hp2&Hs2&_).
  unfold page_view in Hp2. injection Hp2 as Hn2 _ _.
  unfold script_view in Hs2. injection Hs2 as _ Ht2.
  destruct (attribute_removal_pending el _ _ k Hwf2 Hl2) as (Hwf'&_&Q1&Q2).
  - split; [unfold tracked; by rewrite Ht2|by rewrite (node_ext _ _ Hn2)].
  - cbn [fst snd]. lia.
  - unfold WAIT in Hk. lia.
  - fold w' in Hwf', Q1, Q2. split; [done|]. split; [done|].
    intros l Hl. destruct (is_script_handler l.2) eqn:Hsc; [|done].
    destruct (linked_listeners _ (wf_linked _ Hwf') el l Hl Hsc) as (hs'&Hhs'&_).
    destruct Q1. apply (linked_tracked _ (wf_linked _ Hwf')). eauto.
Qed.

(** *** An element inserted *)


Lemma truthy_nonempty v : v ≠ "" → truthy (Some v) = true.
Proof. intros Hv. cbn. by destruct (String.eqb_spec v ""). Qed.



(** ** The tooltip's own delayed removal *)

(** The removal that the tooltip's [mouseleave] listener scheduled is
    pending. *)
Definition own_removal_pending (e : nat * (nat * Callback)) (w : World) : Prop :=
  wf w ∧ tidy w ∧ e ∈ timers w.

Definition tooltip_out (t : nat) (w : World) : Prop :=
  wf w ∧ tidy w ∧ (t ∉ document w) ∧ t < nextNode w.

(** Under [mouseenter] a listener shows a tooltip or does nothing:
    it leaves the timers and the clock alone and brings no old node
    back. *)
Lemma mouseenter_handler_footprint h u :
  wf u → tidy u → listener_ok (nextNode u) (mouseenter, h) →
  let u' := run_handler h u in
  timers u' = timers u ∧ clock u' = clock u ∧ nextNode u ≤ nextNode u'
  ∧ ∀ m, m ∈ document u' → m ∈ document u ∨ nextNode u ≤ m.
Proof.
  intros Hwf Hw Hok. unfold listener_ok in Hok.
  destruct h; cbn [fst snd run_handler] in Hok |- *; try done; try (by destruct Hok).
  - destruct (run_mouseEnterHandler_spec el u Hwf (tidy_tooltip _ Hw)) as (_&_&_&_&S5&_).
    rewrite run_mouseEnterHandler_nextNode.
    assert (timers (remove_if_present TOOLTIP_ID u) = timers u
            ∧ clock (remove_if_present TOOLTIP_ID u) = clock u) as [Ht Hc]
      by (unfold remove_if_present; by destruct (getElementById _ _)).
    split; [|split; [|split; [lia|]]].
    + rewrite <- Ht. reflexivity.
    + rewrite <- Hc. reflexivity.
    + intros m Hm. destruct (S5 m Hm) as [->|?]; [right; lia|by left].
  - split; [done|]. split; [done|]. split; [lia|]. intros m ?. by left.
  - split; [done|]. split; [done|]. split; [lia|]. intros m ?. by left.
Qed.

Lemma pointer_enter_footprint x w :
  wf w → tidy w →
  let w' := step (PointerEnter x) w in
  timers w' = timers w ∧ clock w' = clock w ∧ nextNode w ≤ nextNode w'
  ∧ ∀ m, m ∈ document w' → m ∈ document w ∨ nextNode w ≤ m.
Proof.
  intros Hwf Hw. cbn [step]. unfold dispatch.
  change (node (set_pointer (Some x) w) x) with (node w x).
  assert (∀ ls u,
            (∀ l, l ∈ ls → l ∈ listeners (node w x)) →
            wf u → tidy u → nextNode w ≤ nextNode u →
            let u' := foldl (λ w l, if bool_decide (l.1 = mouseenter)
                                    then run_handler l.2 w else w) u ls in
            timers u' = timers u ∧ clock u' = clock u ∧ nextNode u ≤ nextNode u'
            ∧ ∀ m, m ∈ document u' → m ∈ document u ∨ nextNode u ≤ m) as Hgen.
  { induction ls as [|l ls IH]; intros u Hls Hwfu Hwu Hn.
    { cbn. split; [done|]. split; [done|]. split; [lia|]. intros m ?. by left. }
    cbn [foldl].
    assert (∀ l', l' ∈ ls → l' ∈ listeners (node w x)) as Hls'
      by (intros l' Hl'; apply Hls; by right).
    case_bool_decide as Hev; [|by apply IH].
    assert (listener_ok (nextNode u) (mouseenter, l.2)) as Hl.
    { eapply listener_ok_mono; [exact Hn|]. rewrite <- Hev.
      destruct l. apply (tidy_listeners _ Hw x), Hls. left. }
    destruct (mouseenter_handler_footprint l.2 u Hwfu Hwu Hl) as (H1&H2&H3&H4).
    destruct (IH (run_handler l.2 u)) as (I1&I2&I3&I4); [done| | | |].
    - by apply run_handler_wf.
    - by apply (run_handler_tidy mouseenter).
    - lia.
    - split; [congruence|]. split; [congruence|]. split; [lia|].
      intros m Hm. destruct (I4 m Hm) as [Hm'|?]; [|right; lia].
      destruct (H4 m Hm') as [?|?]; [by left|right; lia]. }
  by destruct (Hgen (listeners (node w x)) (set_pointer (Some x) w)) as (G1&G2&G3&G4);
    [done|by apply set_pointer_wf|by apply (tidy_ext _ w)|done|].
Qed.

Lemma own_removal_due t d w k :
  let e := (d.1, (d.2, TooltipLeaveRemoval t)) in
  (own_removal_pending e w ∨ tooltip_out t w →
   own_removal_pending e (ticks k w) ∨ tooltip_out t (ticks k w))
  ∧ (tooltip_out t w → tooltip_out t (ticks k w))
  ∧ (own_removal_pending e w → d.2 ≤ clock w + k → 0 < k → tooltip_out t (ticks k w)).
Proof.
  intros e.
  assert (∀ u, own_removal_pending e u → wf u ∧ e ∈ timers u) as V_pending
    by (intros u (?&?&?); done).
  assert (∀ u c, own_removal_pending e u → own_removal_pending e (set_clock c u))
    as V_clock.
  { intros u c (H1&H2&H3). split; [by apply set_clock_wf|].
    split; [by apply (tidy_ext _ u)|done]. }
  assert (∀ u c, tooltip_out t u → tooltip_out t (set_clock c u)) as D_clock.
  { intros u c (H1&H2&H3). split; [by apply set_clock_wf|].
    split; [by apply (tidy_ext _ u)|done]. }
  assert (∀ u t' d' cb, own_removal_pending e u → (t', (d', cb)) ∈ timers u →
            t' ≠ e.1 → own_removal_pending e (fire t' cb u)) as V_other.
  { intros u t' d' cb (H1&H2&H3) Hin Hne.
    destruct (fire_footprint t' d' cb u H1 Hin) as (F1&_).
    split; [by apply (fire_wf _ d')|]. split; [by apply fire_tidy|].
    rewrite F1. apply list_elem_of_filter. split; [|done]. cbn in *. congruence. }
  assert (∀ u, own_removal_pending e u → tooltip_out t (fire e.1 e.2.2 u)) as V_fires.
  { intros u (H1&H2&H3). cbn [e fst snd].
    destruct (fire_footprint d.1 d.2 (TooltipLeaveRemoval t) u H1 H3)
      as (_&_&_&F4&_&F6&_).
    split; [by apply (fire_wf _ d.2)|]. split; [by apply fire_tidy|].
    rewrite F6, F4. cbn [removes]. split.
    - rewrite list_elem_of_filter. tauto.
    - apply (tidy_timers _ H2 _ H3). }
  assert (∀ u t' d' cb, tooltip_out t u → (t', (d', cb)) ∈ timers u →
            tooltip_out t (fire t' cb u)) as D_any.
  { intros u t' d' cb (H1&H2&H3&H4) Hin.
    destruct (fire_footprint t' d' cb u H1 Hin) as (_&_&_&F4&_&F6&_).
    split; [by apply (fire_wf _ d')|]. split; [by apply fire_tidy|].
    rewrite F6, F4. split; [|done].
    destruct (removes cb u); [|done]. rewrite list_elem_of_filter. tauto. }
  split; [|split].
  - by apply (pending_any e (own_removal_pending e) (tooltip_out t)).
  - by apply (pending_done (tooltip_out t)).
  - by apply (pending_after e (own_removal_pending e) (tooltip_out t)).
Qed.

(** The tooltip's [mouseleave] listener schedules its removal and the
    tooltip's [mouseenter] listener cancels nothing: when the pointer
    leaves the tooltip and is back over it [j] ms later, the tooltip is
    out of the document [GRACE] = 100 ms after the pointer left it, and
    stays out, with the pointer still over where it was. *)
Theorem tooltip_own_removal_is_unconditional (w : World) (el t : nat) (text : string)
    (j k : nat) :
  started w → node w t = tooltip_of el t text → GRACE ≤ j + k →
  let w' := ticks k (step (PointerEnter t) (ticks j (step (PointerLeave t) w))) in
  t ∉ document w'.
Proof.
  intros Hs Ht Hjk w'.
  pose proof (started_wf _ Hs) as Hwf. pose proof (started_tidy _ Hs) as Hw.
  set (e := (nextTimer w, (clock w + GRACE, TooltipLeaveRemoval t))).
  set (w1 := step (PointerLeave t) w) in *.
  assert (own_removal_pending e w1 ∧ clock w1 = clock w) as [Hp1 Hc1].
  { assert (w1 = (setTimeout (TooltipLeaveRemoval t) GRACE (set_pointer None w)).2) as ->.
    { unfold w1. cbn [step]. unfold dispatch.
      change (node (set_pointer None w) t) with (node w t). rewrite Ht. reflexivity. }
    split; [|done]. split; [|split].
    - by apply (setTimeout_wf (TooltipLeaveRemoval t)), set_pointer_wf.
    - apply setTimeout_tidy; [|by apply (tidy_ext _ w)]. cbn.
      apply (stored_fresh _ (wf_stored _ Hwf)), node_in_store. by rewrite Ht.
    - cbn. apply elem_of_app. right. left. }
  clearbody w1.
  destruct (own_removal_due t (nextTimer w, clock w + GRACE) w1 j) as (A1&_&A3).
  cbn [fst snd] in A1, A3. fold e in A1, A3.
  set (w2 := ticks j w1) in *.
  assert (clock w2 = clock w + j) as Hc2 by (unfold w2; rewrite ticks_clock; lia).
  assert ((0 < j → GRACE ≤ j → tooltip_out t w2)
          ∧ (own_removal_pending e w2 ∨ tooltip_out t w2)) as [Hd2 Hv2].
  { split; [|by apply A1; left]. intros Hj Hge. apply A3; [done|lia|done]. }
  clearbody w2. clear A1 A3.
  set (w3 := step (PointerEnter t) w2) in *.
  assert (wf w2 ∧ tidy w2) as [Hwf2 Hw2] by (destruct Hv2 as [(?&?&_)|(?&?&_)]; done).
  destruct (pointer_enter_footprint t w2 Hwf2 Hw2) as (E1&Hc3&E2&E3).
  fold w3 in E1, Hc3, E2, E3.
  assert (wf w3 ∧ tidy w3) as [Hwf3 Hw3].
  { split; [by apply step_wf|by apply step_tidy]. }
  assert (tooltip_out t w2 → tooltip_out t w3) as Hout.
  { intros (_&_&H3&H4). split; [done|]. split; [done|]. split; [|lia].
    intros Hin. destruct (E3 t Hin) as [?|?]; [done|lia]. }
  destruct (own_removal_due t (nextTimer w, clock w + GRACE) w3 k) as (_&B2&B3).
  cbn [fst snd] in B3. fold e in B3.
  destruct Hv2 as [Hv|Hd].
  - destruct (decide (k = 0)) as [->|Hk].
    + destruct Hout as (_&_&?&_); [|done]. apply Hd2; unfold GRACE in *; lia.
    + destruct B3 as (_&_&?&_); [|lia|lia|done].
      destruct Hv as (_&_&Hv). split; [done|]. split; [done|]. by rewrite E1.
  - destruct B2 as (_&_&?&_); [by apply Hout|done].
Qed.

(** ** A click on the tooltip *)

Lemma fallbackCopyTextToClipboard_clipboard text w :
  clipboard (fallbackCopyTextToClipboard text w)
  = match execCommand w with ExecCopies => Some text | _ => clipboard w end.
Proof.
  pose proof (fallbackCopyTextToClipboard_io text w) as H. unfold io in H. congruence.
Qed.

(** The copy started from the tooltip, run to its end: the feedback is
    shown and the tooltip is closed. *)
Lemma copy_resolved_from_tooltip t el testId w :
  wf w → t < nextNode w →
  let w' := copy_resolved (FromTooltip t) el testId w in
  (t ∉ document w') ∧ feedbacks w' = [nextNode w]
  ∧ innerText (node w' (nextNode w)) = "Copied: " +:+ testId
  ∧ clipboard w' = clipboard w.
Proof.
  intros Hwf Ht w'. unfold w', copy_resolved.
  rewrite feedbacks_remove, node_remove, clipboard_remove, document_remove.
  destruct (showCopyFeedback_spec el testId w Hwf) as (S1&S2&_).
  rewrite S1, S2, showCopyFeedback_clipboard.
  split; [rewrite list_elem_of_filter; tauto|].
  by rewrite filter_cons_True by lia.
Qed.

Lemma copy_rejected_from_tooltip t el testId w :
  wf w → t < nextNode w →
  let w' := copy_rejected (FromTooltip t) el testId w in
  (t ∉ document w') ∧ feedbacks w' = [S (nextNode w)]
  ∧ innerText (node w' (S (nextNode w))) = "Copied: " +:+ testId
  ∧ clipboard w' = match execCommand w with
                   | ExecCopies => Some testId
                   | _ => clipboard w
                   end.
Proof.
  intros Hwf Ht w'. unfold w', copy_rejected. cbv zeta.
  rewrite feedbacks_remove, node_remove, clipboard_remove, document_remove.
  set (w0 := set_console (λ c, c ++ ["Failed to copy data-testid:"]) w).
  assert (wf w0) as Hwf0 by by apply set_console_wf.
  destruct (showCopyFeedback_spec el testId (fallbackCopyTextToClipboard testId w0))
    as (S1&S2&_); [by apply fallbackCopyTextToClipboard_wf|].
  rewrite fallbackCopyTextToClipboard_nextNode in S1, S2.
  change (nextNode w0) with (nextNode w) in S1, S2.
  rewrite S1, S2, showCopyFeedback_clipboard, fallbackCopyTextToClipboard_clipboard.
  split; [rewrite list_elem_of_filter; tauto|].
  split; [|done]. rewrite filter_cons_True; [done|]. cbn. lia.
Qed.

(** A click on the tooltip runs [tooltipClickHandler], and nothing
    else.  With no identifier on the element, or an empty one, nothing
    happens and the tooltip stays.  Otherwise the identifier is copied
    as by a click on the element, and when the copy has run to its end,
    through the clipboard API or through the fallback, the tooltip is
    out of the document and the one feedback artifact shows the
    identifier. *)
Theorem tooltip_click_copies_and_closes (w : World) (el t : nat) (text : string) :
  reachable w → node w t = tooltip_of el t text →
  step (Click t) w = copy_begin (FromTooltip t) el w
  ∧ (truthy (dataset_testid (node w el)) = false → step (Click t) w = w)
  ∧ (∀ testId, dataset_testid (node w el) = Some testId → testId ≠ "" →
       (clipboardApi w = false →
          let w' := step (Click t) w in
          (t ∉ document w') ∧ feedbacks w' = [S (nextNode w)]
          ∧ innerText (node w' (S (nextNode w))) = "Copied: " +:+ testId
          ∧ clipboard w' = match execCommand w with
                           | ExecCopies => Some testId
                           | _ => clipboard w
                           end)
       ∧ (clipboardApi w = true →
          let w1 := step (Click t) w in
          document w1 = document w
          ∧ pendingWrites w1 = pendingWrites w ++ [mkPending (FromTooltip t) el testId]
          ∧ (let w' := settle (length (pendingWrites w)) true w1 in
             (t ∉ document w') ∧ feedbacks w' = [nextNode w]
             ∧ innerText (node w' (nextNode w)) = "Copied: " +:+ testId
             ∧ clipboard w' = Some testId)
          ∧ (let w' := settle (length (pendingWrites w)) false w1 in
             (t ∉ document w') ∧ feedbacks w' = [S (nextNode w)]
             ∧ innerText (node w' (S (nextNode w))) = "Copied: " +:+ testId
             ∧ clipboard w' = match execCommand w with
                              | ExecCopies => Some testId
                              | _ => clipboard w
                              end))).
Proof.
  intros Hr Ht. pose proof (reachable_wf _ Hr) as Hwf.
  assert (step (Click t) w = copy_begin (FromTooltip t) el w) as Hstep.
  { cbn [step]. unfold dispatch. rewrite Ht. reflexivity. }
  assert (t < nextNode w) as Hlt.
  { apply (stored_fresh _ (wf_stored _ Hwf)), node_in_store. by rewrite Ht. }
  rewrite Hstep. split; [done|]. split.
  { intros Hf. unfold copy_begin. by rewrite Hf. }
  intros testId Hid Hne.
  assert (truthy (dataset_testid (node w el)) = true) as Htr
    by (rewrite Hid; by apply truthy_nonempty).
  split.
  - intros Hapi w'. unfold w', copy_begin. rewrite Htr, Hapi, Hid. cbn [negb default].
    change (Datatypes.id testId) with testId.
    by apply copy_rejected_from_tooltip.
  - intros Hapi w1.
    assert (w1 = set_pendingWrites (λ l, l ++ [mkPending (FromTooltip t) el testId]) w)
      as Hw1.
    { unfold w1, copy_begin. rewrite Htr, Hapi, Hid. done. }
    clearbody w1. subst w1. split; [done|]. split; [done|].
    set (w1 := set_pendingWrites _ w).
    assert (pendingWrites w1 !! length (pendingWrites w)
            = Some (mkPending (FromTooltip t) el testId)) as Hp.
    { unfold w1. cbn. by rewrite list_lookup_middle. }
    assert (wf w1) as Hwf1 by by apply set_pendingWrites_wf.
    split.
    + intros w'. unfold w', settle. rewrite Hp. cbn [pw_source pw_el pw_testId].
      set (w2 := set_clipboard _ _).
      destruct (copy_resolved_from_tooltip t el testId w2) as (R1&R2&R3&R4);
        [by apply set_clipboard_wf, set_pendingWrites_wf|done|].
      done.
    + intros w'. unfold w', settle. rewrite Hp. cbn [pw_source pw_el pw_testId].
      set (w2 := set_pendingWrites _ w1).
      destruct (copy_rejected_from_tooltip t el testId w2) as (R1&R2&R3&R4);
        [by apply set_pendingWrites_wf|done|].
      done.
Qed.

(** ** One event, one handler *)

Definition is_tooltip_handler (h : Handler) : bool :=
  match h with
  | TooltipClick _ _ | TooltipEnter _ | TooltipLeave _ => true
  | _ => false
  end.

(** An element is bound once: none of the script's listeners is on it
    twice, and the listeners of a tooltip are on a tooltip only. *)
Definition bound_once (e : Element) : Prop :=
  NoDup (filter (λ l, is_script_handler l.2 = true) (listeners e))
  ∧ ∀ l, l ∈ listeners e → is_tooltip_handler l.2 = true → id e = TOOLTIP_ID.

Definition once (w : World) : Prop := ∀ x, bound_once (node w x).

(** A change that leaves every element its listeners, and its id unless
    the element had no listener. *)
Definition keeps_binding (w' w : World) : Prop :=
  ∀ x, listeners (node w' x) = listeners (node w x)
       ∧ (id (node w' x) = id (node w x) ∨ listeners (node w x) = []).

Lemma keeps_binding_once w' w : keeps_binding w' w → once w → once w'.
Proof.
  intros Hk Ho x. destruct (Hk x) as [Hl Hid]. destruct (Ho x) as [O1 O2].
  unfold bound_once. rewrite Hl. split; [done|].
  intros l Hin Ht. destruct Hid as [->|Hnil]; [by apply (O2 l)|].
  rewrite Hnil in Hin. by apply elem_of_nil in Hin.
Qed.

Lemma keeps_binding_nodes w' w : nodes w' = nodes w → keeps_binding w' w.
Proof. intros Hn x. rewrite (node_ext _ _ Hn). split; [done|by left]. Qed.

Lemma keeps_binding_trans w1 w2 w3 :
  keeps_binding w1 w2 → keeps_binding w2 w3 → keeps_binding w1 w3.
Proof.
  intros H12 H23 x. destruct (H12 x) as [L1 I1]. destruct (H23 x) as [L2 I2].
  split; [congruence|].
  destruct I2 as [I2|?]; [|by right]. destruct I1 as [I1|I1]; [left; congruence|].
  right. congruence.
Qed.

(** A new element, given its attributes. *)
Lemma keeps_binding_create w f :
  stored w → (∀ e, listeners (f e) = listeners e) →
  keeps_binding (update_node (createElement w).1 f (createElement w).2) w.
Proof.
  intros Hs Hf x. rewrite node_update_node.
  pose proof (createElement_node w) as Hn.
  destruct (decide ((createElement w).1 = x)) as [<-|Hne].
  - rewrite Hf, !Hn by done. split; [done|]. right.
    unfold node. destruct (nodes w !! (createElement w).1) eqn:He; [|done].
    assert ((createElement w).1 < nextNode w) by (apply (stored_fresh _ Hs); eauto).
    cbn in *. lia.
  - rewrite Hn by done. split; [done|by left].
Qed.

Lemma once_annotate el w : once w → once (annotate el w).
Proof.
  intros Ho x. rewrite annotate_node. destruct (decide (el = x)) as [->|]; [|done].
  destruct (Ho x) as [O1 O2]. split; cbn.
  - assert (∀ l ls, NoDup (filter (λ l, is_script_handler l.2 = true) ls) →
                    NoDup (filter (λ l, is_script_handler l.2 = true) (add_listener l ls)))
      as Hadd.
    { intros l ls Hnd. unfold add_listener. case_bool_decide as Hin; [done|].
      rewrite filter_app. apply NoDup_app. split; [done|]. split.
      - intros y [_ Hy]%list_elem_of_filter Hy'.
        rewrite filter_cons in Hy'. destruct (decide _); [|by apply elem_of_nil in Hy'].
        apply list_elem_of_singleton in Hy'. by subst.
      - rewrite filter_cons. destruct (decide _); [apply NoDup_singleton|constructor]. }
    by do 3 apply Hadd.
  - intros l. rewrite !add_listener_elem. intros [->|[->|[->|?]]]; [done..|].
    by apply O2.
Qed.

Lemma once_detach el hs w : once w → once (detach el hs w).
Proof.
  intros Ho x. rewrite detach_node. destruct (decide (el = x)) as [->|]; [|done].
  destruct (Ho x) as [O1 O2]. split; cbn.
  - rewrite filter_filter_comm. eapply sublist_NoDup; [exact O1|apply sublist_filter].
  - intros l [_ ?]%list_elem_of_filter. by apply O2.
Qed.

Lemma highlightElement_once el w : once w → once (highlightElement el w).
Proof.
  intros Ho. destruct (highlightElement_cases el w) as [[-> _]|[-> _]];
    [done|by apply once_annotate].
Qed.

Lemma cleanupElement_once el w : once w → once (cleanupElement el w).
Proof.
  intros Ho. rewrite cleanupElement_unfold.
  destruct (elementData w !! el); [by apply once_detach|done].
Qed.

Lemma scanAndHighlight_once w : once w → once (scanAndHighlight w).
Proof.
  intros Hw. unfold scanAndHighlight. cbv zeta.
  apply foldl_preserves.
  - intros w0 x H0. unfold cleanup_if_gone.
    destruct (_ || _); [by apply cleanupElement_once|done].
  - apply foldl_preserves; [|done]. intros w0 x H0. by apply highlightElement_once.
Qed.

Lemma remove_if_present_keeps i w : keeps_binding (remove_if_present i w) w.
Proof. apply keeps_binding_nodes, remove_if_present_nodes. Qed.

Lemma showCopyFeedback_keeps el testId w :
  wf w → keeps_binding (showCopyFeedback el testId w) w.
Proof.
  intros Hwf. unfold showCopyFeedback. cbv zeta.
  set (w1 := remove_if_present FEEDBACK_ID (log_call _ w)).
  assert (wf w1) as Hwf1 by by apply remove_if_present_wf, log_call_wf.
  assert (nodes w1 = nodes w) as Hn1 by (unfold w1; by rewrite remove_if_present_nodes).
  destruct (clear_and_delete_all (activeTimeouts w1) w1) as (_&_&_&Hp&_).
  pose proof (clear_and_delete_wf w1 Hwf1) as Hwf2.
  set (w2 := foldl clear_and_delete w1 (activeTimeouts w1)) in *.
  assert (nodes w2 = nodes w) as Hn2 by (unfold page_view in Hp; congruence).
  clearbody w2. clear Hp Hwf1 Hn1. clearbody w1.
  pose proof (wf_stored _ Hwf2) as Hs2.
  apply (keeps_binding_trans _ w2); [|by apply keeps_binding_nodes].
  pose proof (keeps_binding_create w2
                (λ e, mkElement FEEDBACK_ID (dataset_testid e) ["test-id-copy-feedback"]
                        ("Copied: " +:+ testId) (value e) (listeners e)) Hs2 (λ _, eq_refl))
    as Hk.
  intros x. apply Hk.
Qed.

Lemma fallbackCopyTextToClipboard_keeps text w :
  wf w → keeps_binding (fallbackCopyTextToClipboard text w) w.
Proof.
  intros Hwf.
  pose proof (wf_stored _ (log_call_wf (CallFallbackCopy text) w Hwf)) as Hs.
  unfold fallbackCopyTextToClipboard. cbv zeta.
  pose proof (keeps_binding_create (log_call (CallFallbackCopy text) w)
                (λ e, mkElement (id e) (dataset_testid e) (classList e) (innerText e)
                        text (listeners e)) Hs (λ _, eq_refl)) as Hk.
  change (createElement (log_call (CallFallbackCopy text) w))
    with (nextNode w, set_nextNode (S (nextNode w))
                        (set_nodes (λ m, <[nextNode w := blank]> m)
                           (log_call (CallFallbackCopy text) w))) in *.
  cbv beta iota. cbn [fst snd] in Hk.
  set (w2 := appendChild _ _) in *.
  change (execCommand w2) with (execCommand w).
  intros x. destruct (execCommand w); apply Hk.
Qed.

Lemma nodes_remove t w : nodes (remove t w) = nodes w.
Proof. reflexivity. Qed.

Lemma copy_resolved_keeps src el testId w :
  wf w → keeps_binding (copy_resolved src el testId w) w.
Proof.
  intros Hwf. unfold copy_resolved.
  apply (keeps_binding_trans _ (showCopyFeedback el testId w));
    [|by apply showCopyFeedback_keeps].
  destruct src; apply keeps_binding_nodes; [done|apply nodes_remove].
Qed.

Lemma copy_rejected_keeps src el testId w :
  wf w → keeps_binding (copy_rejected src el testId w) w.
Proof.
  intros Hwf. unfold copy_rejected. cbv zeta.
  set (w0 := set_console (λ c, c ++ ["Failed to copy data-testid:"]) w).
  assert (wf w0) as Hwf0 by by apply set_console_wf.
  apply (keeps_binding_trans _ w0); [|by apply keeps_binding_nodes].
  clearbody w0.
  apply (keeps_binding_trans _ (fallbackCopyTextToClipboard testId w0));
    [|by apply fallbackCopyTextToClipboard_keeps].
  apply (keeps_binding_trans _ (showCopyFeedback el testId
                                  (fallbackCopyTextToClipboard testId w0)));
    [|by apply showCopyFeedback_keeps, fallbackCopyTextToClipboard_wf].
  destruct src; apply keeps_binding_nodes; [done|apply nodes_remove].
Qed.

Lemma copy_begin_keeps src el w : wf w → keeps_binding (copy_begin src el w) w.
Proof.
  intros Hwf. unfold copy_begin.
  destruct (negb _); [by apply keeps_binding_nodes|].
  destruct (clipboardApi w); [by apply keeps_binding_nodes|by apply copy_rejected_keeps].
Qed.

Lemma settle_keeps i ok w : wf w → keeps_binding (settle i ok w) w.
Proof.
  intros Hwf. unfold settle.
  destruct (pendingWrites w !! i); [|by apply keeps_binding_nodes].
  destruct ok.
  - apply (keeps_binding_trans _ (set_clipboard (Some (pw_testId p))
                                    (set_pendingWrites (delete i) w)));
      [|by apply keeps_binding_nodes].
    by apply copy_resolved_keeps, set_clipboard_wf, set_pendingWrites_wf.
  - apply (keeps_binding_trans _ (set_pendingWrites (delete i) w));
      [|by apply keeps_binding_nodes].
    by apply copy_rejected_keeps, set_pendingWrites_wf.
Qed.

Lemma tooltip_bound_once el n text : bound_once (tooltip_of el n text).
Proof.
  split; [|done]. unfold tooltip_of. cbn [listeners].
  rewrite filter_none; [constructor|].
  intros l Hl. rewrite !elem_of_cons, elem_of_nil in Hl.
  by destruct Hl as [->|[->|[->|[]]]].
Qed.

Lemma run_mouseEnterHandler_once el w :
  wf w → tidy w → once w → once (run_mouseEnterHandler el w).
Proof.
  intros Hwf Hw Ho x.
  destruct (run_mouseEnterHandler_spec el w Hwf (tidy_tooltip _ Hw)) as (_&S2&S3&_).
  destruct (decide (x = nextNode w)) as [->|Hne].
  - rewrite S2. apply tooltip_bound_once.
  - by rewrite S3.
Qed.

Lemma run_handler_once h w : wf w → tidy w → once w → once (run_handler h w).
Proof.
  intros Hwf Hw Ho. destruct h; cbn [run_handler]; try done.
  - by apply run_mouseEnterHandler_once.
  - by apply (keeps_binding_once _ w); [apply copy_begin_keeps|].
  - by apply (keeps_binding_once _ w); [apply copy_begin_keeps|].
Qed.

(** What the listeners of one event keep, [dispatch] keeps. *)
Lemma dispatch_preserves (I : World → Prop) ev n w :
  (∀ h u, wf u → tidy u → I u → I (run_handler h u)) →
  wf w → tidy w → I w → I (dispatch ev n w).
Proof.
  intros Hh Hwf Hw Hi. unfold dispatch.
  assert (∀ ls w0, (∀ l, l ∈ ls → listener_ok (nextNode w0) l) → wf w0 → tidy w0 → I w0 →
            I (foldl (λ w l, if bool_decide (l.1 = ev) then run_handler l.2 w else w)
                 w0 ls)) as Hgen.
  { induction ls as [|l ls IH]; intros w0 Hls Hwf0 Hw0 Hi0; [done|]. cbn [foldl].
    apply IH.
    - intros l' Hl'. case_bool_decide; [|apply Hls; by right].
      eapply listener_ok_mono; [apply run_handler_nextNode|]. apply Hls. by right.
    - case_bool_decide; [by apply run_handler_wf|done].
    - case_bool_decide; [|done]. apply (run_handler_tidy l.1); [|done..].
      destruct l. apply Hls. left.
    - case_bool_decide; [by apply Hh|done]. }
  apply Hgen; [|done..]. intros l Hl. by apply (tidy_listeners _ Hw n).
Qed.

Lemma run_callback_once t cb w : once w → once (run_callback t cb w).
Proof.
  intros Ho. destruct cb; cbn [run_callback].
  - unfold later, func. apply scanAndHighlight_once.
    apply (keeps_binding_once _ w); [|done]. apply keeps_binding_nodes.
    by destruct (timeout w).
  - destruct (getElementById _ _); [|done]. by destruct (negb _).
  - by destruct (document_contains _ _).
  - by destruct (document_contains _ _).
Qed.

Lemma tick_once w : once w → once (tick w).
Proof.
  intros Ho. unfold tick. apply (run_due_preserves once); [|done].
  intros w0 t d cb H0 _ _. by apply run_callback_once.
Qed.

Lemma beforeunload_once w : once w → once (beforeunload w).
Proof.
  intros Ho x. rewrite beforeunload_node. revert x.
  apply (foldl_preserves once); [|done]. intros w0 y H0. by apply cleanupElement_once.
Qed.

Lemma step_once a w : wf w → tidy w → once w → once (step a w).
Proof.
  intros Hwf Hw Ho. destruct a; cbn [step].
  - by apply tick_once.
  - destruct (observing w); [|done]. unfold observerCallback.
    destruct (hasRelevantChanges ms); [|done].
    apply (keeps_binding_once _ w); [|done]. apply keeps_binding_nodes.
    unfold debouncedScanAndHighlight, debounce, executedFunction. by destruct (timeout w).
  - apply (dispatch_preserves once); [intros; by apply run_handler_once|
      by apply set_pointer_wf|by apply (tidy_ext _ w)|done].
  - apply (dispatch_preserves once); [intros; by apply run_handler_once|
      by apply set_pointer_wf|by apply (tidy_ext _ w)|done].
  - apply (dispatch_preserves once); [intros; by apply run_handler_once|done..].
  - by apply (keeps_binding_once _ w); [apply settle_keeps|].
  - by apply beforeunload_once.
  - destruct (nodes w !! n); [|done]. apply (keeps_binding_once _ w); [|done].
    intros x. rewrite node_update_node. by case_decide; subst; (split; [|left]).
  - destruct (nodes w !! n); [|done]. apply (keeps_binding_once _ w); [|done].
    intros x. rewrite node_update_node. by case_decide; subst; (split; [|left]).
  - done.
  - apply (keeps_binding_once _ w); [|done].
    pose proof (keeps_binding_create w (with_testid testid) (wf_stored _ Hwf) (λ _, eq_refl))
      as Hk.
    destruct (createElement w) as [n w1]. exact Hk.
Qed.

Lemma operate_once w o : wf w → tidy w → once w → once (operate w o).
Proof.
  intros Hwf Hw Ho. destruct o; cbn [operate].
  - by apply highlightElement_once.
  - by apply cleanupElement_once.
  - by apply scanAndHighlight_once.
  - by apply beforeunload_once.
  - done.
  - by apply step_once.
Qed.

Lemma page_once els api exec : Forall host_element els → once (page els api exec).
Proof.
  intros Hels x. destruct (page_node_host els api exec x Hels) as (_&_&Hf).
  rewrite Forall_forall in Hf. split.
  - rewrite filter_none; [constructor|]. intros l Hl Hs. apply Hf in Hl.
    destruct l as [ev h]. cbn in *. by destruct h.
  - intros l Hl Ht. apply Hf in Hl. destruct l as [ev h]. cbn in *. by destruct h.
Qed.

Lemma started_once w : started w → once w.
Proof.
  intros (els&api&exec&os&Hels&->).
  refine (proj2 (proj2 (foldl_preserves (λ w, wf w ∧ tidy w ∧ once w) operate os _ _ _))).
  - intros w o (H1&H2&H3).
    split; [by apply operate_wf|]. split; [by apply operate_tidy|by apply operate_once].
  - split; [apply page_wf|split; [by apply page_tidy|by apply page_once]].
    eapply Forall_impl; [exact Hels|]. apply host_page_element.
Qed.

(** Running the listeners of one event when exactly one of them does
    anything. *)
Lemma foldl_single_handler ev (target : EventType * Handler) ls w :
  target.1 = ev →
  (∀ l, l ∈ ls → l.1 = ev → l ≠ target → ∀ u, run_handler l.2 u = u) →
  length (filter (λ l, l = target) ls) = 1 →
  foldl (λ w l, if bool_decide (l.1 = ev) then run_handler l.2 w else w) w ls
  = run_handler target.2 w.
Proof.
  intros Hev. revert w.
  assert (∀ ls w, (∀ l, l ∈ ls → l.1 = ev → l ≠ target → ∀ u, run_handler l.2 u = u) →
                  filter (λ l, l = target) ls = [] →
                  foldl (λ w l, if bool_decide (l.1 = ev) then run_handler l.2 w else w)
                    w ls = w) as Hnone.
  { clear ls. induction ls as [|l ls IH]; intros w Hls Hf; [done|]. cbn [foldl].
    rewrite filter_cons in Hf. destruct (decide (l = target)) as [|Hne]; [done|].
    assert ((if bool_decide (l.1 = ev) then run_handler l.2 w else w) = w) as ->.
    { case_bool_decide; [|done]. apply Hls; [by left|done..]. }
    apply IH; [|done]. intros l' Hl'. apply Hls. by right. }
  induction ls as [|l ls IH]; intros w Hls Hf; [done|]. cbn [foldl].
  rewrite filter_cons in Hf. destruct (decide (l = target)) as [->|Hne].
  - rewrite bool_decide_eq_true_2 by done. apply Hnone.
    + intros l' Hl'. apply Hls. by right.
    + cbn in Hf. destruct (filter _ ls); [done|cbn in Hf; lia].
  - assert ((if bool_decide (l.1 = ev) then run_handler l.2 w else w) = w) as ->.
    { case_bool_decide; [|done]. apply Hls; [by left|done..]. }
    apply IH; [|done]. intros l' Hl'. apply Hls. by right.
Qed.

Lemma NoDup_filter_once {A} `{EqDecision A} (P : A → Prop) `{∀ x, Decision (P x)}
    (l : list A) (x : A) :
  NoDup (filter P l) → P x → x ∈ l → length (filter (λ y, y = x) l) = 1.
Proof.
  induction l as [|y l IH]; intros Hnd Hp Hin; [by apply elem_of_nil in Hin|].
  rewrite filter_cons. rewrite filter_cons in Hnd.
  destruct (decide (y = x)) as [->|Hne].
  - rewrite decide_True in Hnd by done. apply NoDup_cons in Hnd as [Hx Hnd].
    cbn. f_equal. apply length_zero_iff_nil, filter_none.
    intros z Hz ->. apply Hx. by apply list_elem_of_filter.
  - apply IH; [by destruct (decide (P y)); [apply NoDup_cons in Hnd as [_ ?]|]|done|].
    apply elem_of_cons in Hin as [?|?]; [congruence|done].
Qed.

(** The listeners of a tracked element, run for one event: of the
    script's listeners only the one registered for that event runs, and
    it runs once. *)
Lemma tracked_dispatch w el :
  started w → tracked w el → id (node w el) ≠ TOOLTIP_ID →
  ∃ k, ∀ ev target,
    target ∈ installed (mkHandlers (MouseEnter el k) (MouseLeave el k) (ClickCopy el k)) →
    target.1 = ev →
    ∀ w0, foldl (λ w l, if bool_decide (l.1 = ev) then run_handler l.2 w else w)
            w0 (listeners (node w el))
          = run_handler target.2 w0.
Proof.
  intros Hs Ht Hid.
  pose proof (started_wf _ Hs) as Hwf. pose proof (started_tidy _ Hs) as Hw.
  destruct (started_once _ Hs el) as [O1 O2].
  destruct (tracked_listeners w el Hwf Hw Ht) as (k&Hhs&Hin&Hsc).
  exists k. intros ev target Htg Hev w0. apply foldl_single_handler; [done| |].
  - intros l Hl Hlev Hne u.
    pose proof (tidy_listeners _ Hw _ _ Hl) as Hok.
    destruct (is_script_handler l.2) eqn:Hls.
    + exfalso. specialize (Hsc l Hl Hls).
      unfold installed in Hsc, Htg. cbn in Hsc, Htg.
      rewrite !elem_of_cons, elem_of_nil in Hsc, Htg.
      destruct Htg as [->|[->|[->|[]]]]; destruct Hsc as [->|[->|[->|[]]]];
        cbn in *; congruence.
    + destruct l as [ev' h]. cbn in Hls, Hok, Hlev |- *.
      destruct h; try discriminate Hls; try done;
        exfalso; apply Hid; by apply (O2 (ev', _) Hl).
  - apply (NoDup_filter_once (λ l, is_script_handler l.2 = true)); [done| |by apply Hin].
    unfold installed in Htg. cbn in Htg. rewrite !elem_of_cons, elem_of_nil in Htg.
    by destruct Htg as [->|[->|[->|[]]]].
Qed.

Lemma tracked_click w el :
  started w → tracked w el → id (node w el) ≠ TOOLTIP_ID →
  step (Click el) w = copy_begin FromElement el w.
Proof.
  intros Hs Ht Hid. destruct (tracked_dispatch w el Hs Ht Hid) as [k Hrun].
  cbn [step]. unfold dispatch.
  apply (Hrun click (click, ClickCopy el k)); [|done]. unfold installed; cbn.
  rewrite !elem_of_cons. tauto.
Qed.

(** No double binding.  On a tracked element that is not the tooltip,
    each of the three events runs the one handler that
    [highlightElement] registered for it, once, and nothing else of the
    script. *)
Theorem tracked_element_events (w : World) (el : nat) :
  started w → tracked w el → id (node w el) ≠ TOOLTIP_ID →
  step (Click el) w = copy_begin FromElement el w
  ∧ step (PointerEnter el) w = run_mouseEnterHandler el (set_pointer (Some el) w)
  ∧ step (PointerLeave el) w = run_mouseLeaveHandler (set_pointer None w).
Proof.
  intros Hs Ht Hid. destruct (tracked_dispatch w el Hs Ht Hid) as [k Hrun].
  split; [|split]; cbn [step]; unfold dispatch.
  - apply (Hrun click (click, ClickCopy el k)); [|done]. unfold installed; cbn.
    rewrite !elem_of_cons. tauto.
  - change (node (set_pointer (Some el) w) el) with (node w el).
    apply (Hrun mouseenter (mouseenter, MouseEnter el k)); [|done]. unfold installed; cbn.
    rewrite !elem_of_cons. tauto.
  - change (node (set_pointer None w) el) with (node w el).
    apply (Hrun mouseleave (mouseleave, MouseLeave el k)); [|done]. unfold installed; cbn.
    rewrite !elem_of_cons. tauto.
Qed.

(** ** The page under the script *)

(** The two ids the script keeps for its artifacts. *)
Definition reserved (i : string) : Prop := i = TOOLTIP_ID ∨ i = FEEDBACK_ID.

#[global] Instance reserved_dec i : Decision (reserved i).
Proof. unfold reserved. apply _. Defined.

(** The elements of [w] that are not artifacts of the script. *)
Definition of_page (w : World) (x : nat) : Prop :=
  x < nextNode w ∧ ¬ reserved (id (node w x)).

#[global] Instance of_page_dec w x : Decision (of_page w x).
Proof. unfold of_page. apply _. Defined.

(** [u] has the page of [w]: the elements of [w] have their id,
    [data-testid], text and value, their classes but for the highlight
    class and their listeners but for the script's three, and those that
    are not artifacts are in the document of [u] as they are in that of
    [w], in the same order. *)
Record host_kept (u w : World) : Prop := mkHostKept {
  kept_next : nextNode w ≤ nextNode u;
  kept_attrs : ∀ x, x < nextNode w → attrs (node u x) = attrs (node w x);
  kept_classes : ∀ x c, x < nextNode w → c ≠ HIGHLIGHT →
                        (c ∈ classList (node u x) ↔ c ∈ classList (node w x));
  kept_listeners : ∀ x l, x < nextNode w → is_script_handler l.2 = false →
                          (l ∈ listeners (node u x) ↔ l ∈ listeners (node w x));
  kept_document : filter (of_page w) (document u) = filter (of_page w) (document w)
}.

(** What a closure of the script holds on to is an artifact: the node
    that a tooltip's listeners, the two removal callbacks and a
    suspended click on a tooltip will remove carries the reserved id. *)
Definition callback_bound (w : World) (cb : Callback) : Prop :=
  match cb with
  | TooltipLeaveRemoval t => id (node w t) = TOOLTIP_ID
  | FeedbackRemoval t => id (node w t) = FEEDBACK_ID
  | _ => True
  end.

Definition handler_bound (w : World) (h : Handler) : Prop :=
  match h with
  | TooltipClick _ t | TooltipLeave t => id (node w t) = TOOLTIP_ID
  | _ => True
  end.

Definition source_bound (w : World) (src : CopySource) : Prop :=
  match src with
  | FromTooltip t => id (node w t) = TOOLTIP_ID
  | FromElement => True
  end.

Record pinned (w : World) : Prop := mkPinned {
  pinned_timers : ∀ e, e ∈ timers w → callback_bound w e.2.2;
  pinned_listeners : ∀ x l, l ∈ listeners (node w x) → handler_bound w l.2;
  pinned_writes : ∀ p, p ∈ pendingWrites w → source_bound w (pw_source p)
}.

(** A reserved id, once given, stays. *)
Definition ids_kept (u' u : World) : Prop :=
  ∀ x, reserved (id (node u x)) → id (node u' x) = id (node u x).

Definition safe (w u : World) : Prop := pinned u ∧ host_kept u w.

Lemma callback_bound_kept u' u cb :
  ids_kept u' u → callback_bound u cb → callback_bound u' cb.
Proof.
  intros Hk. destruct cb; cbn; try done; intros H; rewrite Hk; try done; rewrite H;
    [by left|by right].
Qed.

Lemma handler_bound_kept u' u h :
  ids_kept u' u → handler_bound u h → handler_bound u' h.
Proof.
  intros Hk. destruct h; cbn; try done; intros H; rewrite Hk; try done; rewrite H; by left.
Qed.

Lemma source_bound_kept u' u src :
  ids_kept u' u → source_bound u src → source_bound u' src.
Proof.
  intros Hk. destruct src; cbn; try done; intros H; rewrite Hk; try done; rewrite H; by left.
Qed.

Lemma pinned_step u' u :
  ids_kept u' u →
  (∀ e, e ∈ timers u' → e ∈ timers u ∨ callback_bound u' e.2.2) →
  (∀ x l, l ∈ listeners (node u' x) →
          l ∈ listeners (node u x) ∨ handler_bound u' l.2) →
  (∀ p, p ∈ pendingWrites u' → p ∈ pendingWrites u ∨ source_bound u' (pw_source p)) →
  pinned u → pinned u'.
Proof.
  intros Hk Ht Hl Hp [P1 P2 P3]. split.
  - intros e He. destruct (Ht e He) as [?|?]; [|done].
    apply (callback_bound_kept _ u); auto.
  - intros x l Hx. destruct (Hl x l Hx) as [?|?]; [|done].
    apply (handler_bound_kept _ u); eauto.
  - intros p Hp'. destruct (Hp p Hp') as [?|?]; [|done].
    apply (source_bound_kept _ u); auto.
Qed.

Lemma pinned_shrink u' u :
  (∀ x, node u' x = node u x) →
  (∀ e, e ∈ timers u' → e ∈ timers u) →
  (∀ p, p ∈ pendingWrites u' → p ∈ pendingWrites u) →
  pinned u → pinned u'.
Proof.
  intros Hn Ht Hp. apply pinned_step.
  - intros x _. by rewrite Hn.
  - intros e He. left. auto.
  - intros x l. rewrite Hn. by left.
  - intros p Hp'. left. auto.
Qed.

Lemma host_kept_refl w : host_kept w w.
Proof. by split. Qed.

Lemma host_kept_step u' u w :
  nextNode u ≤ nextNode u' →
  (∀ x, x < nextNode w → node u' x = node u x) →
  filter (of_page w) (document u') = filter (of_page w) (document u) →
  host_kept u w → host_kept u' w.
Proof.
  intros Hn Hx Hd [K1 K2 K3 K4 K5]. split.
  - lia.
  - intros x Hlt. rewrite Hx by done. by apply K2.
  - intros x c Hlt Hc. rewrite Hx by done. by apply K3.
  - intros x l Hlt Hl. rewrite Hx by done. by apply K4.
  - by rewrite Hd.
Qed.

Lemma of_page_weaken u w x : host_kept u w → of_page w x → of_page u x.
Proof.
  intros [K1 K2 _ _ _] [Hlt Hid]. split; [lia|].
  by rewrite (attrs_id _ _ (K2 x Hlt)).
Qed.

Lemma filter_filter_weaken {A} (P Q : A → Prop) `{∀ x, Decision (P x)}
    `{∀ x, Decision (Q x)} (l : list A) :
  (∀ x, P x → Q x) → filter P (filter Q l) = filter P l.
Proof.
  intros Hpq. rewrite list_filter_filter. apply list_filter_iff.
  intros x. split; [tauto|]. auto.
Qed.

Lemma host_kept_trans u' u w : host_kept u' u → host_kept u w → host_kept u' w.
Proof.
  intros H1 H2. pose proof (λ x, of_page_weaken u w x H2) as Hw.
  destruct H1 as [A1 A2 A3 A4 A5], H2 as [B1 B2 B3 B4 B5]. split.
  - lia.
  - intros x Hlt. rewrite A2 by lia. by apply B2.
  - intros x c Hlt Hc. rewrite A3 by (done || lia). by apply B3.
  - intros x l Hlt Hl. rewrite A4 by (done || lia). by apply B4.
  - rewrite <- (filter_filter_weaken (of_page w) (of_page u) (document u')) by done.
    rewrite A5, filter_filter_weaken by done. done.
Qed.

Lemma host_kept_pass u' u w :
  env u' = env u → (∀ x, attrs (node u' x) = attrs (node u x)) → page_kept u' u →
  host_kept u w → host_kept u' w.
Proof.
  intros He Ha Hp [K1 K2 K3 K4 K5]. split.
  - by rewrite (env_nextNode _ _ He).
  - intros x Hlt. rewrite Ha. by apply K2.
  - intros x c Hlt Hc. rewrite (proj1 (Hp x) c Hc). by apply K3.
  - intros x l Hlt Hl. rewrite (proj2 (Hp x) l Hl). by apply K4.
  - by rewrite (env_document _ _ He).
Qed.

Lemma not_of_page u w n :
  host_kept u w → reserved (id (node u n)) ∨ nextNode w ≤ n → ¬ of_page w n.
Proof.
  intros [_ K2 _ _ _] Hn [Hlt Hid]. destruct Hn as [Hr|?]; [|lia].
  apply Hid. by rewrite <- (attrs_id _ _ (K2 n Hlt)).
Qed.

Lemma filter_without {A} `{EqDecision A} (P : A → Prop) `{∀ x, Decision (P x)}
    (l : list A) (n : A) :
  ¬ P n → filter P (filter (λ m, m ≠ n) l) = filter P l.
Proof.
  intros Hn. rewrite list_filter_filter. apply list_filter_iff.
  intros x. split; [tauto|]. intros Hx. split; [done|]. by intros ->.
Qed.

Lemma stored_blank w x : stored w → nextNode w ≤ x → node w x = blank.
Proof.
  intros [H1 _] Hx. unfold node. destruct (nodes w !! x) eqn:Hn; [|done].
  assert (x < nextNode w) by (apply H1; eauto). lia.
Qed.

Lemma host_kept_ids u w : stored w → host_kept u w → ids_kept u w.
Proof.
  intros Hs [_ K2 _ _ _] x Hr. destruct (decide (x < nextNode w)) as [Hlt|Hge].
  - by apply attrs_id, K2.
  - rewrite (stored_blank w x) in Hr by (done || lia). by destruct Hr.
Qed.

Lemma getElementById_id i w n : getElementById i w = Some n → id (node w n) = i.
Proof.
  unfold getElementById. intros Hh.
  by apply head_Some_elem_of, list_elem_of_filter in Hh as [? _].
Qed.

(** *** The primitives *)

Lemma safe_shrink u' u w :
  nodes u' = nodes u → document u' = document u → nextNode u' = nextNode u →
  (∀ e, e ∈ timers u' → e ∈ timers u) →
  (∀ p, p ∈ pendingWrites u' → p ∈ pendingWrites u) →
  safe w u → safe w u'.
Proof.
  intros Hn Hd Hx Ht Hp [P K]. split.
  - apply (pinned_shrink _ u); [|done..]. by apply node_ext.
  - apply (host_kept_step _ u); [lia| |by rewrite Hd|done].
    intros x _. by apply node_ext.
Qed.

Lemma safe_remove n u w :
  reserved (id (node u n)) ∨ nextNode w ≤ n → safe w u → safe w (remove n u).
Proof.
  intros Hn [P K]. split.
  - by apply (pinned_shrink _ u).
  - apply (host_kept_step _ u); [done..| |done].
    apply filter_without. by apply (not_of_page u).
Qed.

Lemma safe_remove_if_present i u w :
  reserved i → safe w u → safe w (remove_if_present i u).
Proof.
  intros Hi Hs. unfold remove_if_present.
  destruct (getElementById i u) as [n|] eqn:Hg; [|done].
  apply safe_remove; [|done]. left. by rewrite (getElementById_id _ _ _ Hg).
Qed.

Lemma safe_setTimeout cb d u w :
  callback_bound u cb → safe w u → safe w (setTimeout cb d u).2.
Proof.
  intros Hcb [P K]. split.
  - apply (pinned_step _ u); [by intros x _| |by left..|done].
    cbn. intros e [?| ->%list_elem_of_singleton]%elem_of_app; [by left|by right].
  - by apply (host_kept_step _ u).
Qed.

Lemma safe_createElement u w : stored u → safe w u → safe w (createElement u).2.
Proof.
  intros Hs [P K]. split.
  - apply (pinned_shrink _ u); [|done..]. intros x. by apply createElement_node.
  - apply (host_kept_step _ u); [cbn; lia| |done..]. intros x _. by apply createElement_node.
Qed.

Lemma safe_update_node n f u w :
  nextNode w ≤ n →
  (reserved (id (node u n)) → id (f (node u n)) = id (node u n)) →
  (∀ l, l ∈ listeners (f (node u n)) →
        l ∈ listeners (node u n) ∨ handler_bound (update_node n f u) l.2) →
  safe w u → safe w (update_node n f u).
Proof.
  intros Hn Hid Hl [P K]. split.
  - apply (pinned_step _ u); [| |  |by left|done].
    + intros x. rewrite node_update_node. by case_decide; subst.
    + by left.
    + intros x l. rewrite node_update_node. case_decide; subst; [apply Hl|by left].
  - apply (host_kept_step _ u); [done| |done..].
    intros x Hlt. rewrite node_update_node, decide_False; [done|lia].
Qed.

Lemma safe_addEventListener n ev h u w :
  nextNode w ≤ n → handler_bound u h → safe w u → safe w (addEventListener n ev h u).
Proof.
  intros Hn Hh [P K].
  assert (ids_kept (addEventListener n ev h u) u) as Hk.
  { intros x _. rewrite node_addEventListener. case_decide; subst; [|done].
    by case_bool_decide. }
  split.
  - apply (pinned_step _ u); [done|by left| |by left|done].
    intros x l. rewrite node_addEventListener. case_decide; subst; [|by left].
    case_bool_decide; [by left|]. cbn.
    intros [?| ->%list_elem_of_singleton]%elem_of_app; [by left|right].
    by apply (handler_bound_kept _ u).
  - apply (host_kept_step _ u); [done| |done..].
    intros x Hlt. rewrite node_addEventListener, decide_False; [done|lia].
Qed.

Lemma safe_appendChild n u w : nextNode w ≤ n → safe w u → safe w (appendChild n u).
Proof.
  intros Hn [P K]. split.
  - by apply (pinned_shrink _ u).
  - apply (host_kept_step _ u); [done..| |done].
    assert (¬ of_page w n) as Hno by (apply (not_of_page u); [done|by right]).
    change (document (appendChild n u)) with (filter (λ m, m ≠ n) (document u) ++ [n]).
    rewrite filter_app, filter_cons_False, filter_nil, app_nil_r by done.
    by apply filter_without.
Qed.

(** *** Attaching and detaching *)

Lemma safe_highlightElement el u w : safe w u → safe w (highlightElement el u).
Proof.
  intros [P K]. pose proof (highlightElement_env el u) as He. split.
  - apply (pinned_step _ u); [| | | |done].
    + intros x _. apply attrs_id, highlightElement_attrs.
    + intros e. left. by rewrite <- (env_timers _ _ He).
    + intros x l Hl. apply highlightElement_listeners in Hl as [?|[Hs _]]; [by left|right].
      destruct l as [ev h]. cbn in *. by destruct h.
    + intros p. left. unfold env in He. congruence.
  - apply (host_kept_pass _ u); [done| |apply highlightElement_page_kept|done].
    intros x. apply highlightElement_attrs.
Qed.

Lemma safe_cleanupElement el u w : linked u → safe w u → safe w (cleanupElement el u).
Proof.
  intros Hl [P K]. pose proof (cleanupElement_env el u) as He. split.
  - apply (pinned_step _ u); [| | | |done].
    + intros x _. apply attrs_id, cleanupElement_attrs.
    + intros e. left. by rewrite <- (env_timers _ _ He).
    + intros x l Hx. left. by apply (cleanupElement_listeners el).
    + intros p. left. unfold env in He. congruence.
  - apply (host_kept_pass _ u); [done| |by apply cleanupElement_page_kept|done].
    intros x. apply cleanupElement_attrs.
Qed.

Lemma safe_scanAndHighlight u w : wf u → safe w u → safe w (scanAndHighlight u).
Proof.
  intros Hwf Hs. unfold scanAndHighlight. cbv zeta.
  refine (proj2 (foldl_preserves (λ w0, wf w0 ∧ safe w w0) _ _ _ _ _)).
  - intros w0 x [H0 S0]. unfold cleanup_if_gone.
    destruct (_ || _); [|done]. split; [by apply cleanupElement_wf|].
    apply safe_cleanupElement; [apply H0|done].
  - apply (foldl_preserves (λ w0, wf w0 ∧ safe w w0)); [|done].
    intros w0 x [H0 S0]. split; [by apply highlightElement_wf|by apply safe_highlightElement].
Qed.

(** *** The artifacts *)

Lemma createElement_safe u w :
  wf u → safe w u →
  safe w (createElement u).2
  ∧ nextNode w ≤ (createElement u).1
  ∧ node (createElement u).2 (createElement u).1 = blank.
Proof.
  intros Hwf Hs. split; [apply safe_createElement; [apply Hwf|done]|]. split.
  - apply Hs.
  - by destruct (createElement_wf u Hwf) as (_&_&_&?).
Qed.

Lemma node_update_node_eq n f u : node (update_node n f u) n = f (node u n).
Proof. by rewrite node_update_node, decide_True. Qed.

Lemma clear_and_delete_pendingWrites l w :
  pendingWrites (foldl clear_and_delete w l) = pendingWrites w.
Proof. revert w. induction l as [|t l IH]; intros w; [done|]. cbn [foldl]. by rewrite IH. Qed.

Lemma safe_showCopyFeedback el testId u w :
  wf u → safe w u → safe w (showCopyFeedback el testId u).
Proof.
  intros Hwf Hs. unfold showCopyFeedback. cbv zeta.
  set (w1 := remove_if_present FEEDBACK_ID (log_call _ u)).
  assert (wf w1) as Hwf1 by by apply remove_if_present_wf, log_call_wf.
  assert (safe w w1) as Hs1.
  { apply safe_remove_if_present; [by right|]. by apply (safe_shrink _ u). }
  destruct (clear_and_delete_all (activeTimeouts w1) w1) as (Ht2&_&_&Hp&_).
  pose proof (clear_and_delete_wf w1 Hwf1) as Hwf2.
  pose proof (clear_and_delete_pendingWrites (activeTimeouts w1) w1) as Hpw.
  set (w2 := foldl clear_and_delete w1 (activeTimeouts w1)) in *.
  assert (safe w w2) as Hs2.
  { unfold page_view in Hp. injection Hp as Hn Hd Hx.
    apply (safe_shrink _ w1); [done..| | |done].
    - rewrite Ht2. by intros e [_ ?]%list_elem_of_filter.
    - by rewrite Hpw. }
  clearbody w2. clear Hs1 Hwf1 Ht2 Hp Hpw. clearbody w1.
  destruct (createElement_safe w2 w Hwf2 Hs2) as (Hs3&Hn&Hb).
  destruct (createElement w2) as [feedback w3]. cbn [fst snd] in Hs3, Hn, Hb.
  set (w4 := update_node feedback _ w3).
  assert (safe w w4) as Hs4.
  { apply safe_update_node; [done| |by left|done].
    rewrite Hb. by intros [|]. }
  assert (safe w (appendChild feedback w4)) as Hs5 by by apply safe_appendChild.
  assert (safe w (setTimeout (FeedbackRemoval feedback) FEEDBACK_DELAY
                    (appendChild feedback w4)).2) as Hs6.
  { apply safe_setTimeout; [|done]. unfold callback_bound.
    change (node (appendChild feedback w4) feedback) with (node w4 feedback).
    unfold w4. by rewrite node_update_node_eq. }
  by apply (safe_shrink _ (setTimeout (FeedbackRemoval feedback) FEEDBACK_DELAY
                            (appendChild feedback w4)).2).
Qed.

Lemma safe_fallbackCopyTextToClipboard text u w :
  wf u → safe w u → safe w (fallbackCopyTextToClipboard text u).
Proof.
  intros Hwf Hs. unfold fallbackCopyTextToClipboard. cbv zeta.
  assert (safe w (log_call (CallFallbackCopy text) u)) as Hs0 by by apply (safe_shrink _ u).
  destruct (createElement_safe _ w (log_call_wf (CallFallbackCopy text) u Hwf) Hs0)
    as (Hs1&Hn&Hb).
  destruct (createElement (log_call _ u)) as [textArea w1]. cbn [fst snd] in Hs1, Hn, Hb.
  set (w2 := update_node textArea _ w1).
  assert (safe w w2) as Hs2 by (apply safe_update_node; [done|done|by left|done]).
  assert (safe w (appendChild textArea w2)) as Hs3 by by apply safe_appendChild.
  apply safe_remove; [by right|].
  destruct (execCommand _); [|done|]; by apply (safe_shrink _ (appendChild textArea w2)).
Qed.

Lemma safe_run_mouseEnterHandler el u w :
  wf u → safe w u → safe w (run_mouseEnterHandler el u).
Proof.
  intros Hwf Hs. unfold run_mouseEnterHandler. cbv zeta.
  assert (safe w (remove_if_present TOOLTIP_ID u)) as Hs0
    by (apply safe_remove_if_present; [by left|done]).
  destruct (createElement_safe _ w (remove_if_present_wf TOOLTIP_ID u Hwf) Hs0)
    as (Hs1&Hn&Hb).
  destruct (createElement (remove_if_present _ u)) as [tooltip w1].
  cbn [fst snd] in Hs1, Hn, Hb.
  set (w2 := update_node tooltip _ w1).
  assert (safe w w2) as Hs2 by (apply safe_update_node; [done|done|by left|done]).
  assert (id (node w2 tooltip) = "") as Hid2
    by (unfold w2; by rewrite node_update_node_eq, Hb).
  set (w3 := update_node tooltip (with_id TOOLTIP_ID) w2).
  assert (safe w w3) as Hs3.
  { apply safe_update_node; [done| |by left|done]. rewrite Hid2. by intros [|]. }
  assert (id (node w3 tooltip) = TOOLTIP_ID) as Hid3
    by (unfold w3; by rewrite node_update_node_eq).
  set (w4 := addEventListener tooltip click (TooltipClick el tooltip) w3).
  assert (safe w w4) as Hs4 by by apply safe_addEventListener.
  assert (id (node w4 tooltip) = TOOLTIP_ID) as Hid4.
  { unfold w4. rewrite node_addEventListener, decide_True by done. by case_bool_decide. }
  set (w5 := addEventListener tooltip mouseenter (TooltipEnter tooltip) w4).
  assert (safe w w5) as Hs5 by by apply safe_addEventListener.
  assert (id (node w5 tooltip) = TOOLTIP_ID) as Hid5.
  { unfold w5. rewrite node_addEventListener, decide_True by done. by case_bool_decide. }
  apply safe_appendChild; [done|]. by apply safe_addEventListener.
Qed.

(** *** Copying *)

Lemma safe_trans w u u' : safe w u → safe u u' → safe w u'.
Proof. intros [_ K] [P' K']. split; [done|]. by apply (host_kept_trans _ u). Qed.

Lemma safe_refl u : pinned u → safe u u.
Proof. intros P. split; [done|apply host_kept_refl]. Qed.

Lemma safe_ids u u' : wf u → safe u u' → ids_kept u' u.
Proof. intros Hwf [_ K]. by apply host_kept_ids; [apply wf_stored|]. Qed.

Lemma safe_after_copy src u0 u w :
  wf u0 → source_bound u0 src → safe u0 u → safe w u →
  safe w match src with FromElement => u | FromTooltip tooltip => remove tooltip u end.
Proof.
  intros Hwf Hsrc H0 Hs. destruct src as [|t]; [done|].
  apply safe_remove; [|done]. left. left.
  by apply (source_bound_kept _ u0 (FromTooltip t)); [apply safe_ids|].
Qed.

Lemma safe_copy_resolved src el testId u w :
  source_bound u src → wf u → safe w u → safe w (copy_resolved src el testId u).
Proof.
  intros Hsrc Hwf Hs. unfold copy_resolved. cbv zeta.
  apply (safe_after_copy src u); [done..| |].
  - apply safe_showCopyFeedback; [done|]. apply safe_refl, Hs.
  - by apply safe_showCopyFeedback.
Qed.

Lemma safe_copy_rejected src el testId u w :
  source_bound u src → wf u → safe w u → safe w (copy_rejected src el testId u).
Proof.
  intros Hsrc Hwf Hs. unfold copy_rejected. cbv zeta.
  set (u0 := set_console (λ c, c ++ ["Failed to copy data-testid:"]) u).
  assert (wf u0) as Hwf0 by by apply set_console_wf.
  assert (∀ w, safe w u → safe w (showCopyFeedback el testId
                                    (fallbackCopyTextToClipboard testId u0))) as Hall.
  { intros w' Hs'. apply safe_showCopyFeedback; [by apply fallbackCopyTextToClipboard_wf|].
    apply safe_fallbackCopyTextToClipboard; [done|]. by apply (safe_shrink _ u). }
  apply (safe_after_copy src u); [done..| |by apply Hall].
  apply Hall, safe_refl, Hs.
Qed.

Lemma safe_copy_begin src el u w :
  source_bound u src → wf u → safe w u → safe w (copy_begin src el u).
Proof.
  intros Hsrc Hwf Hs. unfold copy_begin.
  destruct (negb _); [done|].
  destruct (clipboardApi u); [|by apply safe_copy_rejected].
  destruct Hs as [P K]. split; [|by apply (host_kept_step _ u)].
  apply (pinned_step _ u); [by intros x _|by left..| |done].
  cbn. intros p [?| ->%list_elem_of_singleton]%elem_of_app; [by left|by right].
Qed.

Lemma safe_settle i ok u w : wf u → safe w u → safe w (settle i ok u).
Proof.
  intros Hwf Hs. unfold settle.
  destruct (pendingWrites u !! i) as [p|] eqn:Hp; [|done].
  assert (source_bound u (pw_source p)) as Hsrc.
  { apply (pinned_writes _ (proj1 Hs)). by eapply list_elem_of_lookup_2. }
  assert (safe w (set_pendingWrites (delete i) u)) as Hs1.
  { apply (safe_shrink _ u); [done..| |done].
    cbn. intros q Hq. eapply elem_of_sublist; [exact Hq|apply sublist_delete]. }
  destruct ok.
  - apply safe_copy_resolved; [done|by apply set_clipboard_wf, set_pendingWrites_wf|].
    by apply (safe_shrink _ (set_pendingWrites (delete i) u)).
  - apply safe_copy_rejected; [done|by apply set_pendingWrites_wf|done].
Qed.

(** *** Listeners and timers *)

Lemma safe_run_handler h u w :
  handler_bound u h → wf u → safe w u → safe w (run_handler h u).
Proof.
  intros Hh Hwf Hs. destruct h; cbn [run_handler]; try done.
  - by apply safe_run_mouseEnterHandler.
  - by apply (safe_setTimeout LeaveRemoval).
  - by apply safe_copy_begin.
  - by apply safe_copy_begin.
  - by apply (safe_setTimeout (TooltipLeaveRemoval tooltip)).
Qed.

Lemma safe_dispatch_here ev n u : wf u → pinned u → safe u (dispatch ev n u).
Proof.
  intros Hwf P. unfold dispatch.
  assert (∀ ls u0, (∀ l, l ∈ ls → handler_bound u l.2) → wf u0 → safe u u0 →
            safe u (foldl (λ w l, if bool_decide (l.1 = ev) then run_handler l.2 w else w)
                      u0 ls)) as Hgen.
  { induction ls as [|l ls IH]; intros u0 Hls Hwf0 Hs0; [done|]. cbn [foldl].
    apply IH.
    - intros l' Hl'. apply Hls. by right.
    - case_bool_decide; [by apply run_handler_wf|done].
    - case_bool_decide; [|done]. apply safe_run_handler; [|done..].
      apply (handler_bound_kept _ u); [by apply safe_ids|]. apply Hls. by left. }
  apply Hgen; [|done|by apply safe_refl].
  intros l Hl. by apply (pinned_listeners _ P n).
Qed.

Lemma safe_dispatch ev n u w : wf u → safe w u → safe w (dispatch ev n u).
Proof.
  intros Hwf Hs. apply (safe_trans _ u); [done|]. apply safe_dispatch_here; [done|apply Hs].
Qed.

Lemma safe_later args u w : wf u → safe w u → safe w (later args u).
Proof.
  intros Hwf Hs. unfold later, func.
  apply safe_scanAndHighlight; [by apply log_call_wf, clearTimeout_wf|].
  apply (safe_shrink _ u); [by destruct (timeout u)..| |by destruct (timeout u)|done].
  destruct (timeout u); [|done]. cbn. by intros e [_ ?]%list_elem_of_filter.
Qed.

Lemma safe_run_callback t cb u w :
  callback_bound u cb → wf u → safe w u → safe w (run_callback t cb u).
Proof.
  intros Hcb Hwf Hs. destruct cb; cbn [run_callback].
  - by apply safe_later.
  - destruct (getElementById _ _) as [n|] eqn:Hg; [|done].
    destruct (negb _); [|done]. apply safe_remove; [|done].
    left. left. by apply (getElementById_id _ _ _ Hg).
  - destruct (document_contains _ _); [|done]. apply safe_remove; [|done]. left. by left.
  - cbv zeta. destruct (document_contains _ _).
    + apply (safe_shrink _ (remove feedback u)); [done..|].
      apply safe_remove; [|done]. left. by right.
    + by apply (safe_shrink _ u).
Qed.

Lemma safe_fire t d cb u w :
  (t, (d, cb)) ∈ timers u → wf u → safe w u → safe w (fire t cb u).
Proof.
  intros Hin Hwf Hs. unfold fire. apply safe_run_callback.
  - apply (pinned_timers _ (proj1 Hs) _ Hin).
  - apply (wf_timers_only _ u); [done..| |done]. apply timers_ok_filter, Hwf.
  - apply (safe_shrink _ u); [done..| |done|done].
    cbn. by intros e [_ ?]%list_elem_of_filter.
Qed.

Lemma safe_tick u w : wf u → safe w u → safe w (tick u).
Proof.
  intros Hwf Hs. unfold tick. cbv zeta.
  refine (proj2 (run_due_preserves (λ u0, wf u0 ∧ safe w u0) _ _ _ _)).
  - intros u0 t d cb [H0 S0] Hin _. split; [by apply (fire_wf t d)|by apply (safe_fire t d)].
  - split; [by apply set_clock_wf|by apply (safe_shrink _ u)].
Qed.

Lemma safe_executedFunction wait args u w :
  safe w u → safe w (executedFunction wait args u).
Proof.
  intros Hs. unfold executedFunction. cbv zeta.
  assert (safe w (clearTimeout (timeout u) u)) as Hs1.
  { apply (safe_shrink _ u); [by destruct (timeout u)..| |by destruct (timeout u)|done].
    destruct (timeout u); [|done]. cbn. by intros e [_ ?]%list_elem_of_filter. }
  pose proof (safe_setTimeout (Later args) wait _ w I Hs1) as Hs2.
  destruct (setTimeout (Later args) wait (clearTimeout (timeout u) u)) as [t u2].
  by apply (safe_shrink _ u2).
Qed.

Lemma safe_beforeunload u w : wf u → safe w u → safe w (beforeunload u).
Proof.
  intros Hwf Hs. unfold beforeunload. cbv zeta.
  apply safe_remove_if_present; [by right|]. apply safe_remove_if_present; [by left|].
  set (w1 := foldl (λ w el, cleanupElement el w) u (trackedElements u)).
  assert (wf w1 ∧ safe w w1) as [Hwf1 Hs1].
  { apply (foldl_preserves (λ w0, wf w0 ∧ safe w w0)); [|done].
    intros w0 x [H0 S0]. split; [by apply cleanupElement_wf|].
    apply safe_cleanupElement; [apply H0|done]. }
  set (w2 := foldl (λ w t, clearTimeout (Some t) w) w1 (activeTimeouts w1)).
  assert (safe w w2) as Hs2.
  { apply foldl_preserves; [|done]. intros w0 x S0.
    apply (safe_shrink _ w0); [done..| |done|done].
    cbn. by intros e [_ ?]%list_elem_of_filter. }
  by apply (safe_shrink _ w2).
Qed.

(** *** The script's side of the transition function *)

Definition script_action (a : Action) : bool :=
  match a with
  | PageSetTestid _ _ | PageSetClasses _ _ | PageDetach _ | PageInsert _ => false
  | _ => true
  end.

Lemma safe_step a u w : script_action a = true → wf u → safe w u → safe w (step a u).
Proof.
  intros Ha Hwf Hs. destruct a; try discriminate Ha; cbn [step].
  - by apply safe_tick.
  - destruct (observing u); [|done]. unfold observerCallback.
    destruct (hasRelevantChanges ms); [|done]. by apply safe_executedFunction.
  - apply safe_dispatch; [by apply set_pointer_wf|by apply (safe_shrink _ u)].
  - apply safe_dispatch; [by apply set_pointer_wf|by apply (safe_shrink _ u)].
  - by apply safe_dispatch.
  - by apply safe_settle.
  - by apply safe_beforeunload.
Qed.

(** *** The invariant *)

Lemma pinned_step_any a u : wf u → pinned u → pinned (step a u).
Proof.
  intros Hwf P. destruct (script_action a) eqn:Ha.
  - by apply (safe_step a u u Ha Hwf), safe_refl.
  - destruct a; try discriminate Ha; cbn [step].
    + destruct (nodes u !! n); [|done]. apply (pinned_step _ u); [|by left| |by left|done].
      * intros x _. rewrite node_update_node. by case_decide; subst.
      * intros x l. rewrite node_update_node. left. by case_decide; subst.
    + destruct (nodes u !! n); [|done]. apply (pinned_step _ u); [|by left| |by left|done].
      * intros x _. rewrite node_update_node. by case_decide; subst.
      * intros x l. rewrite node_update_node. left. by case_decide; subst.
    + by apply (pinned_shrink _ u).
    + pose proof (createElement_node u) as Hc.
      assert (timers (createElement u).2 = timers u
              ∧ pendingWrites (createElement u).2 = pendingWrites u) as [Ht Hp] by done.
      destruct (createElement u) as [n u1]. cbn [snd] in Hc, Ht, Hp.
      apply (pinned_step _ u);
        [|intros e; left; by rewrite <- Ht| |intros p; left; by rewrite <- Hp|done].
      * intros x _.
        change (node (appendChild n (update_node n (with_testid testid) u1)) x)
          with (node (update_node n (with_testid testid) u1) x).
        rewrite node_update_node. case_decide; subst; cbn; by rewrite Hc by apply Hwf.
      * intros x l.
        change (node (appendChild n (update_node n (with_testid testid) u1)) x)
          with (node (update_node n (with_testid testid) u1) x).
        rewrite node_update_node. left. case_decide; subst; cbn in *;
          by rewrite Hc in * by apply Hwf.
Qed.

Lemma pinned_operate u o : wf u → pinned u → pinned (operate u o).
Proof.
  intros Hwf P. destruct o; cbn [operate].
  - by apply (safe_highlightElement el u u), safe_refl.
  - by apply (safe_cleanupElement el u u), safe_refl; [apply Hwf|].
  - by apply (safe_scanAndHighlight u u), safe_refl.
  - by apply (safe_beforeunload u u), safe_refl.
  - by apply (pinned_shrink _ u).
  - by apply pinned_step_any.
Qed.

Lemma page_pinned els api exec : Forall host_element els → pinned (page els api exec).
Proof.
  intros Hels. split; [by intros e He%elem_of_nil| |by intros p Hp%elem_of_nil].
  intros x l Hl. destruct (page_node_host els api exec x Hels) as (_&_&Hf).
  rewrite Forall_forall in Hf. apply Hf in Hl. destruct l as [ev h]. cbn in *. by destruct h.
Qed.

Lemma started_pinned w : started w → pinned w.
Proof.
  intros (els&api&exec&os&Hels&->).
  refine (proj2 (foldl_preserves (λ w, wf w ∧ pinned w) operate os _ _ _)).
  - intros w o [H1 H2]. split; [by apply operate_wf|by apply pinned_operate].
  - split; [apply page_wf|by apply page_pinned].
    eapply Forall_impl; [exact Hels|]. apply host_page_element.
Qed.

Lemma safe_run l u w :
  forallb script_action l = true → wf u → safe w u → safe w (run l u).
Proof.
  revert u. induction l as [|a l IH]; intros u Hl Hwf Hs; [done|].
  cbn in Hl. apply andb_prop in Hl as [Ha Hl].
  change (run (a :: l) u) with (run l (step a u)).
  apply IH; [done|by apply step_wf|by apply safe_step].
Qed.

(** The script never touches the page.  Whatever its listeners, its
    timers and its teardown do in a started state, and however many of
    them run: every element that is not one of its artifacts is in the
    document afterwards exactly if it was before, in the same order, and
    every element has the id, [data-testid], text and value it had, its
    classes but for the highlight class, and the listeners that are not
    the script's three.  What the script removes from the document are
    tooltips and feedback artifacts only, and the text field of the
    fallback copy that it added itself. *)
Theorem script_leaves_page_alone (w : World) (l : list Action) :
  started w → forallb script_action l = true →
  let w' := run l w in
  filter (of_page w) (document w') = filter (of_page w) (document w)
  ∧ ∀ x, x < nextNode w →
      attrs (node w' x) = attrs (node w x)
      ∧ (∀ c, c ≠ HIGHLIGHT → (c ∈ classList (node w' x) ↔ c ∈ classList (node w x)))
      ∧ (∀ h, is_script_handler h.2 = false →
              (h ∈ listeners (node w' x) ↔ h ∈ listeners (node w x))).
Proof.
  intros Hs Hl w'.
  destruct (safe_run l w w Hl (started_wf _ Hs) (safe_refl _ (started_pinned _ Hs)))
    as [_ [K1 K2 K3 K4 K5]].
  split; [done|]. intros x Hx. split; [by apply K2|]. split.
  - intros c Hc. by apply K3.
  - intros h Hh. by apply K4.
Qed.

(** ** When nothing happens *)

(** The timers the script starts run 100 ms or 2000 ms later. *)
Definition on_time (w : World) : Prop :=
  ∀ e, e ∈ timers w → clock w < e.2.1 ∧ e.2.1 ≤ clock w + FEEDBACK_DELAY.

(** From [w] to [w'] no time passes, and what is pending in [w'] was
    pending in [w] or has just been started. *)
Definition timers_from (w' w : World) : Prop :=
  clock w' = clock w
  ∧ ∀ e, e ∈ timers w' →
         e ∈ timers w ∨ (clock w < e.2.1 ∧ e.2.1 ≤ clock w + FEEDBACK_DELAY).

Lemma timers_from_on_time w' w : timers_from w' w → on_time w → on_time w'.
Proof.
  intros [Hc Ht] Ho e He. rewrite Hc. destruct (Ht e He) as [?|?]; [by apply Ho|done].
Qed.

Lemma timers_from_refl w : timers_from w w.
Proof. split; [done|]. intros e ?. by left. Qed.

Lemma timers_from_trans w1 w2 w3 : timers_from w1 w2 → timers_from w2 w3 → timers_from w1 w3.
Proof.
  intros [C1 T1] [C2 T2]. split; [congruence|]. intros e He.
  destruct (T1 e He) as [H2|H2]; [by apply T2|]. right. by rewrite <- C2.
Qed.

Lemma timers_from_sub w' w :
  clock w' = clock w → (∀ e, e ∈ timers w' → e ∈ timers w) → timers_from w' w.
Proof. intros Hc Ht. split; [done|]. intros e He. left. auto. Qed.

Lemma timers_from_env w' w : env w' = env w → timers_from w' w.
Proof.
  intros He. apply timers_from_sub; [unfold env in He; congruence|].
  intros e. by rewrite (env_timers _ _ He).
Qed.

Lemma timers_from_setTimeout cb d w :
  0 < d → d ≤ FEEDBACK_DELAY → timers_from (setTimeout cb d w).2 w.
Proof.
  intros H0 H1. split; [done|]. cbn [setTimeout snd timers set_nextTimer set_timers].
  intros e [?| ->%list_elem_of_singleton]%elem_of_app; [by left|right]. cbn [fst snd].
  split; [lia|by apply Nat.add_le_mono_l].
Qed.

Lemma timers_from_clearTimeout t w : timers_from (clearTimeout t w) w.
Proof.
  apply timers_from_sub; [by destruct t|]. destruct t; [|done].
  cbn. by intros e [_ ?]%list_elem_of_filter.
Qed.

Lemma timers_from_remove_if_present i w : timers_from (remove_if_present i w) w.
Proof. unfold remove_if_present. by destruct (getElementById i w); apply timers_from_sub. Qed.

Lemma timers_from_scanAndHighlight w : timers_from (scanAndHighlight w) w.
Proof. apply timers_from_env, scanAndHighlight_env. Qed.

Lemma timers_from_showCopyFeedback el testId w :
  timers_from (showCopyFeedback el testId w) w.
Proof.
  destruct (showCopyFeedback_timers el testId w) as (Hc&_&Ht). split; [done|].
  intros e He. destruct (Ht e He) as [?| ->]; [by left|right]. cbn [fst snd].
  split; [unfold FEEDBACK_DELAY; lia|done].
Qed.

Lemma timers_from_fallbackCopyTextToClipboard text w :
  timers_from (fallbackCopyTextToClipboard text w) w.
Proof.
  unfold fallbackCopyTextToClipboard. cbv zeta.
  assert (clock (createElement (log_call (CallFallbackCopy text) w)).2 = clock w
          ∧ timers (createElement (log_call (CallFallbackCopy text) w)).2 = timers w)
    as [Hc Ht] by done.
  destruct (createElement _) as [textArea w1]. cbn [snd] in Hc, Ht.
  set (w3 := appendChild textArea _).
  assert (clock w3 = clock w ∧ timers w3 = timers w) as [Hc3 Ht3] by done.
  clearbody w3.
  apply timers_from_sub; [by destruct (execCommand w3)|].
  intros e. rewrite <- Ht3. by destruct (execCommand w3).
Qed.

Lemma timers_from_after_copy (src : CopySource) u w :
  timers_from u w →
  timers_from match src with FromElement => u | FromTooltip tooltip => remove tooltip u end w.
Proof.
  intros Hu. destruct src; [done|].
  apply (timers_from_trans _ u); [by apply timers_from_sub|done].
Qed.

Lemma timers_from_copy_resolved src el testId w :
  timers_from (copy_resolved src el testId w) w.
Proof. unfold copy_resolved. cbv zeta. apply timers_from_after_copy, timers_from_showCopyFeedback. Qed.

Lemma timers_from_copy_rejected src el testId w :
  timers_from (copy_rejected src el testId w) w.
Proof.
  unfold copy_rejected. cbv zeta. apply timers_from_after_copy.
  eapply timers_from_trans; [apply timers_from_showCopyFeedback|].
  eapply timers_from_trans; [apply timers_from_fallbackCopyTextToClipboard|].
  by apply timers_from_sub.
Qed.

Lemma timers_from_copy_begin src el w : timers_from (copy_begin src el w) w.
Proof.
  unfold copy_begin. destruct (negb _); [apply timers_from_refl|].
  destruct (clipboardApi w); [by apply timers_from_sub|apply timers_from_copy_rejected].
Qed.

Lemma timers_from_settle i ok w : timers_from (settle i ok w) w.
Proof.
  unfold settle. destruct (pendingWrites w !! i); [|apply timers_from_refl].
  destruct ok.
  - eapply timers_from_trans; [apply timers_from_copy_resolved|by apply timers_from_sub].
  - eapply timers_from_trans; [apply timers_from_copy_rejected|by apply timers_from_sub].
Qed.

Lemma timers_from_run_mouseEnterHandler el w : timers_from (run_mouseEnterHandler el w) w.
Proof.
  apply (timers_from_trans _ (remove_if_present TOOLTIP_ID w));
    [|apply timers_from_remove_if_present].
  by apply timers_from_sub.
Qed.

Lemma timers_from_run_handler h w : timers_from (run_handler h w) w.
Proof.
  destruct h; cbn [run_handler]; try apply timers_from_refl.
  - apply timers_from_run_mouseEnterHandler.
  - apply timers_from_setTimeout; unfold GRACE, FEEDBACK_DELAY; lia.
  - apply timers_from_copy_begin.
  - apply timers_from_copy_begin.
  - apply timers_from_setTimeout; unfold GRACE, FEEDBACK_DELAY; lia.
Qed.

Lemma timers_from_dispatch ev n w : timers_from (dispatch ev n w) w.
Proof.
  unfold dispatch. apply (foldl_preserves (λ u, timers_from u w)); [|apply timers_from_refl].
  intros u l Hu. case_bool_decide; [|done].
  eapply timers_from_trans; [apply timers_from_run_handler|done].
Qed.

Lemma timers_from_executedFunction args w :
  timers_from (executedFunction WAIT args w) w.
Proof.
  unfold executedFunction. cbv zeta.
  pose proof (timers_from_setTimeout (Later args) WAIT (clearTimeout (timeout w) w)) as Hs.
  destruct (setTimeout (Later args) WAIT (clearTimeout (timeout w) w)) as [t w2].
  apply (timers_from_trans _ w2); [by apply timers_from_sub|].
  eapply timers_from_trans; [apply Hs; unfold WAIT, FEEDBACK_DELAY; lia|].
  apply timers_from_clearTimeout.
Qed.

Lemma timers_from_beforeunload w : timers_from (beforeunload w) w.
Proof.
  unfold beforeunload. cbv zeta.
  eapply timers_from_trans; [apply timers_from_remove_if_present|].
  eapply timers_from_trans; [apply timers_from_remove_if_present|].
  set (w1 := foldl (λ w el, cleanupElement el w) w (trackedElements w)).
  assert (timers_from w1 w) as H1.
  { apply (foldl_preserves (λ u, timers_from u w)); [|apply timers_from_refl].
    intros u x Hu. eapply timers_from_trans; [|exact Hu].
    apply timers_from_env, cleanupElement_env. }
  set (w2 := foldl (λ w t, clearTimeout (Some t) w) w1 (activeTimeouts w1)).
  assert (timers_from w2 w1) as H2.
  { apply (foldl_preserves (λ u, timers_from u w1)); [|apply timers_from_refl].
    intros u x Hu. eapply timers_from_trans; [|exact Hu]. apply timers_from_clearTimeout. }
  apply (timers_from_trans _ w2); [by apply timers_from_sub|].
  by apply (timers_from_trans _ w1).
Qed.

(** *** A millisecond *)

(** The timers that are due run, each once, and the others stay. *)
Lemma tick_timers w :
  wf w → timers (tick w) = filter (λ e, S (clock w) < e.2.1) (timers w).
Proof.
  intros Hwf. set (nd := λ e : nat * (nat * Callback), S (clock w) < e.2.1).
  assert (wf (tick w) ∧ clock (tick w) = S (clock w)
          ∧ filter nd (timers (tick w)) = filter nd (timers w)) as (_&Hc&Hf).
  { unfold tick. cbv zeta.
    apply (run_due_preserves (λ u, wf u ∧ clock u = S (clock w)
                                   ∧ filter nd (timers u) = filter nd (timers w))).
    - intros u t d cb (Hu&Hcu&Hfu) Hin Hdue.
      destruct (fire_footprint t d cb u Hu Hin) as (Ht&Hck&_).
      split; [by apply (fire_wf t d)|]. split; [congruence|].
      rewrite Ht, <- Hfu, list_filter_filter. apply filter_ext_in.
      intros e He. split; [tauto|]. intros Hnd. split; [done|]. intros Heq.
      pose proof (NoDup_fst_eq (timers u) e (t, (d, cb))
                    (timers_nodup _ (wf_timers _ Hu)) He Hin Heq) as ->.
      unfold nd in Hnd. cbn in Hnd. lia.
    - split; [by apply set_clock_wf|done]. }
  rewrite <- Hf. symmetry. apply filter_all. intros e He. unfold nd.
  pose proof (tick_complete w) as Hd.
  assert (¬ is_due (tick w) e) as Hn.
  { intros Hdue. assert (e ∈ filter (is_due (tick w)) (timers (tick w))) as Hin
      by by apply list_elem_of_filter.
    rewrite Hd in Hin. by apply elem_of_nil in Hin. }
  unfold is_due in Hn. rewrite Hc in Hn. lia.
Qed.

Lemma ticks_timers k w :
  wf w → on_time w → timers (ticks k w) = filter (λ e, clock w + k < e.2.1) (timers w).
Proof.
  intros Hwf Ho. induction k as [|k IH].
  - symmetry. apply filter_all. intros e He. destruct (Ho e He). cbn. lia.
  - assert (wf (ticks k w)) as Hwk by by apply run_wf.
    rewrite ticks_snoc, (tick_timers _ Hwk), IH, ticks_clock, list_filter_filter.
    apply list_filter_iff. intros e. lia.
Qed.

Lemma on_time_tick w : wf w → on_time w → on_time (tick w).
Proof.
  intros Hwf Ho e. rewrite (tick_timers _ Hwf), tick_clock.
  intros [Hnd He]%list_elem_of_filter. destruct (Ho e He). lia.
Qed.

(** *** The invariant *)

Lemma on_time_step a w : wf w → on_time w → on_time (step a w).
Proof.
  intros Hwf Ho. destruct a; cbn [step]; [by apply on_time_tick|..];
    apply (timers_from_on_time _ w); try done.
  - destruct (observing w); [|apply timers_from_refl]. unfold observerCallback.
    destruct (hasRelevantChanges ms); [|apply timers_from_refl].
    apply timers_from_executedFunction.
  - eapply timers_from_trans; [apply timers_from_dispatch|by apply timers_from_sub].
  - eapply timers_from_trans; [apply timers_from_dispatch|by apply timers_from_sub].
  - apply timers_from_dispatch.
  - apply timers_from_settle.
  - apply timers_from_beforeunload.
  - by destruct (nodes w !! n); apply timers_from_sub.
  - by destruct (nodes w !! n); apply timers_from_sub.
  - by apply timers_from_sub.
  - by apply timers_from_sub.
Qed.

Lemma on_time_operate w o : wf w → on_time w → on_time (operate w o).
Proof.
  intros Hwf Ho. destruct o; cbn [operate]; [..|by apply on_time_step];
    apply (timers_from_on_time _ w); try done.
  - apply timers_from_env, highlightElement_env.
  - apply timers_from_env, cleanupElement_env.
  - apply timers_from_scanAndHighlight.
  - apply timers_from_beforeunload.
  - by apply timers_from_sub.
Qed.

Lemma reachable_on_time w : reachable w → on_time w.
Proof.
  intros (els&api&exec&os&Hels&->).
  refine (proj2 (foldl_preserves (λ w, wf w ∧ on_time w) operate os _ _ _)).
  - intros w o [H1 H2]. split; [by apply operate_wf|by apply on_time_operate].
  - split; [by apply page_wf|]. by intros e He%elem_of_nil.
Qed.

(** Time alone starts nothing.  In a state the script can be in, while
    nothing happens but time passing, a pending timer runs in the
    millisecond it is due and not before, no timer is added, and 2000 ms
    later none is left: no callback of the script starts a timer. *)
Theorem timers_run_out (w : World) (k : nat) :
  reachable w →
  timers (ticks k w) = filter (λ e, clock w + k < e.2.1) (timers w)
  ∧ (FEEDBACK_DELAY ≤ k → timers (ticks k w) = []).
Proof.
  intros Hr. pose proof (reachable_wf _ Hr) as Hwf.
  pose proof (reachable_on_time _ Hr) as Ho.
  rewrite (ticks_timers k w Hwf Ho). split; [done|].
  intros Hk. apply filter_none. intros e He. destruct (Ho e He). lia.
Qed.

(** ** The timer ids the script remembers *)

(** [activeTimeouts] lists the pending feedback removals, of which there
    is at most one; and the id in the debouncer's [timeout] variable is
    one that was handed out and, if pending, that of a [later]. *)
Record ledger (w : World) : Prop := mkLedger {
  ledger_active : activeTimeouts w = (feedback_timers w).*1;
  ledger_single : length (feedback_timers w) ≤ 1;
  ledger_timeout : ∀ e, e ∈ timers w → timeout w = Some e.1 → is_later_timer e = true;
  ledger_fresh : ∀ t, timeout w = Some t → t < nextTimer w
}.

Lemma ledger_ext w' w : timer_view w' = timer_view w → ledger w → ledger w'.
Proof.
  unfold timer_view. intros [= Ht Hn Ha Hto] [L1 L2 L3 L4].
  split; unfold feedback_timers in *; rewrite ?Ht, ?Hn, ?Ha, ?Hto; done.
Qed.

Lemma fst_filter_ne {A} (t : nat) (l : list (nat * A)) :
  (filter (λ e, e.1 ≠ t) l).*1 = filter (λ x, x ≠ t) l.*1.
Proof.
  induction l as [|e l IH]; [done|]. rewrite fmap_cons, !filter_cons.
  destruct (decide (e.1 ≠ t)); [rewrite fmap_cons|]; by rewrite IH.
Qed.

Lemma feedback_timers_without t w :
  (∀ e, e ∈ feedback_timers w → e.1 ≠ t) →
  feedback_timers (set_timers (filter (λ e, e.1 ≠ t)) w) = feedback_timers w.
Proof.
  intros Hne. unfold feedback_timers. cbn [timers set_timers].
  rewrite filter_filter_comm. by apply filter_all.
Qed.

Lemma ledger_setTimeout cb d w :
  match cb with LeaveRemoval | TooltipLeaveRemoval _ => True | _ => False end →
  ledger w → ledger (setTimeout cb d w).2.
Proof.
  intros Hcb [L1 L2 L3 L4].
  assert (feedback_timers (setTimeout cb d w).2 = feedback_timers w) as Hf.
  { unfold feedback_timers. cbn [setTimeout snd timers set_nextTimer set_timers].
    rewrite filter_app, filter_cons_False, filter_nil, app_nil_r; [done|].
    cbn. by destruct cb. }
  split.
  - by rewrite Hf.
  - by rewrite Hf.
  - cbn [setTimeout snd timers set_nextTimer set_timers timeout].
    intros e [He| ->%list_elem_of_singleton]%elem_of_app Hto; [by apply L3|].
    cbn in Hto. apply L4 in Hto. lia.
  - cbn. intros t Ht. apply L4 in Ht. lia.
Qed.

Lemma ledger_clear_debounced w :
  ledger w →
  feedback_timers (clearTimeout (timeout w) w) = feedback_timers w.
Proof.
  intros [L1 L2 L3 L4]. destruct (timeout w) as [t0|] eqn:Hto; [|done].
  apply feedback_timers_without. intros e [Hfb He]%list_elem_of_filter Heq.
  specialize (L3 e He (f_equal Some (eq_sym Heq))).
  unfold is_feedback_timer in Hfb. unfold is_later_timer in L3. by destruct (e.2.2).
Qed.

Lemma ledger_executedFunction wait args w :
  wf w → ledger w → ledger (executedFunction wait args w).
Proof.
  intros Hwf L. pose proof (ledger_clear_debounced w L) as Hf.
  destruct L as [L1 L2 L3 L4].
  unfold executedFunction, setTimeout. cbv beta iota zeta.
  set (w1 := clearTimeout (timeout w) w) in *.
  assert (activeTimeouts w1 = activeTimeouts w ∧ nextTimer w1 = nextTimer w
          ∧ ∀ e, e ∈ timers w1 → e ∈ timers w) as (A1&N1&T1).
  { unfold w1. destruct (timeout w); [|done]. cbn. split; [done|]. split; [done|].
    by intros e [_ ?]%list_elem_of_filter. }
  clearbody w1.
  set (w3 := set_timeout _ _).
  assert (feedback_timers w3 = feedback_timers w1) as Hf3.
  { unfold feedback_timers, w3. cbn [timers set_timeout set_nextTimer set_timers].
    by rewrite filter_app, filter_cons_False, filter_nil, app_nil_r. }
  split.
  - rewrite Hf3, Hf. unfold w3. cbn. congruence.
  - by rewrite Hf3, Hf.
  - unfold w3. cbn [timers timeout set_timeout set_nextTimer set_timers].
    intros e [He| ->%list_elem_of_singleton]%elem_of_app Hto; [|done].
    injection Hto as Hto.
    pose proof (timers_fresh _ (wf_timers _ Hwf) e (T1 e He)). lia.
  - unfold w3. cbn. intros t [= <-]. lia.
Qed.

Lemma fire_ids t cb w :
  timeout (fire t cb w) = timeout w ∧ nextTimer (fire t cb w) = nextTimer w.
Proof.
  unfold fire. set (w1 := set_timers (filter (λ e, e.1 ≠ t)) w).
  change (timeout w) with (timeout w1). change (nextTimer w) with (nextTimer w1).
  clearbody w1.
  assert (debounce_view (run_callback t cb w1)
          = (timers (run_callback t cb w1), nextTimer w1, timeout w1,
             calls (run_callback t cb w1), clock w1, observing w1)) as Hv.
  { destruct cb as [args| | |].
    - cbn [run_callback]. pose proof (later_view args w1) as Hv.
      remember (later args w1) as w' eqn:Hw'. clear Hw'.
      unfold debounce_view in Hv |- *. congruence.
    - pose proof (run_callback_other t LeaveRemoval w1 I) as Hv.
      remember (run_callback t LeaveRemoval w1) as w' eqn:Hw'. clear Hw'.
      unfold debounce_view in Hv |- *. congruence.
    - pose proof (run_callback_other t (TooltipLeaveRemoval tooltip) w1 I) as Hv.
      remember (run_callback t (TooltipLeaveRemoval tooltip) w1) as w' eqn:Hw'. clear Hw'.
      unfold debounce_view in Hv |- *. congruence.
    - pose proof (run_callback_other t (FeedbackRemoval feedback) w1 I) as Hv.
      remember (run_callback t (FeedbackRemoval feedback) w1) as w' eqn:Hw'. clear Hw'.
      unfold debounce_view in Hv |- *. congruence. }
  unfold debounce_view in Hv. injection Hv as Hn Ht. by split.
Qed.

Lemma ledger_fire t d cb w :
  wf w → (t, (d, cb)) ∈ timers w → ledger w → ledger (fire t cb w).
Proof.
  intros Hwf Hin [L1 L2 L3 L4].
  destruct (fire_footprint t d cb w Hwf Hin) as (Ht&_&_&_&_&_&Ha).
  destruct (fire_ids t cb w) as [Hto Hn].
  assert (feedback_timers (fire t cb w)
          = filter (λ e, e.1 ≠ t) (feedback_timers w)) as Hf.
  { unfold feedback_timers. rewrite Ht. apply filter_filter_comm. }
  split.
  - rewrite Ha, Hf, fst_filter_ne, <- L1. destruct cb; try done;
      symmetry; rewrite L1, <- fst_filter_ne; f_equal; apply filter_all;
      intros e [Hfb He]%list_elem_of_filter Heq;
      pose proof (NoDup_fst_eq (timers w) e _ (timers_nodup _ (wf_timers _ Hwf)) He Hin Heq)
        as ->; done.
  - rewrite Hf. etrans; [apply length_filter|done].
  - rewrite Ht, Hto. intros e [_ He]%list_elem_of_filter. by apply L3.
  - by rewrite Hto, Hn.
Qed.

Lemma showCopyFeedback_ids el testId w :
  timeout (showCopyFeedback el testId w) = timeout w
  ∧ nextTimer (showCopyFeedback el testId w) = S (nextTimer w).
Proof.
  unfold showCopyFeedback. cbv zeta.
  set (w1 := remove_if_present FEEDBACK_ID (log_call _ w)).
  assert (nextTimer w1 = nextTimer w ∧ timeout w1 = timeout w) as (Ht1&Hto1).
  { unfold w1, remove_if_present. by destruct (getElementById _ _). }
  destruct (clear_and_delete_all (activeTimeouts w1) w1) as (_&_&_&_&Hnt2&Hto2&_).
  set (w2 := foldl clear_and_delete w1 (activeTimeouts w1)) in *.
  clearbody w2.
  change (createElement w2) with
    (nextNode w2, set_nextNode (S (nextNode w2)) (set_nodes (λ m, <[nextNode w2 := blank]> m) w2)).
  cbv beta iota zeta.
  set (w5 := appendChild _ _).
  change (setTimeout (FeedbackRemoval (nextNode w2)) FEEDBACK_DELAY w5) with
    (nextTimer w2, set_nextTimer (S (nextTimer w2))
       (set_timers (λ l, l ++ [(nextTimer w2, (clock w2 + FEEDBACK_DELAY,
                                               FeedbackRemoval (nextNode w2)))]) w5)).
  cbv beta iota zeta. cbn [timeout nextTimer set_activeTimeouts set_nextTimer set_timers].
  change (timeout w5) with (timeout w2). split; congruence.
Qed.

Lemma ledger_showCopyFeedback el testId w :
  wf w → ledger w → ledger (showCopyFeedback el testId w).
Proof.
  intros Hwf [L1 L2 L3 L4].
  destruct (showCopyFeedback_spec el testId w Hwf) as (_&_&_&Hf&Ha).
  destruct (showCopyFeedback_timers el testId w) as (_&_&Ht).
  destruct (showCopyFeedback_ids el testId w) as [Hto Hn].
  split.
  - by rewrite Ha, Hf.
  - rewrite Hf. cbn. lia.
  - intros e He. rewrite Hto. intros Heq. destruct (Ht e He) as [?| ->]; [by apply L3|].
    cbn in Heq. apply L4 in Heq. lia.
  - intros t. rewrite Hto, Hn. intros H. apply L4 in H. lia.
Qed.

Lemma fallbackCopyTextToClipboard_timer_view text w :
  timer_view (fallbackCopyTextToClipboard text w) = timer_view w.
Proof.
  unfold fallbackCopyTextToClipboard. cbv zeta.
  assert (timer_view (createElement (log_call (CallFallbackCopy text) w)).2 = timer_view w)
    as Hv by done.
  destruct (createElement _) as [textArea w1]. cbn [snd] in Hv.
  set (w3 := appendChild textArea _).
  assert (timer_view w3 = timer_view w) as Hv3 by done.
  clearbody w3. rewrite <- Hv3. by destruct (execCommand w3).
Qed.

Lemma run_mouseEnterHandler_timer_view el w :
  timer_view (run_mouseEnterHandler el w) = timer_view w.
Proof.
  unfold run_mouseEnterHandler. cbv zeta.
  assert (timer_view (remove_if_present TOOLTIP_ID w) = timer_view w) as <-
    by (unfold remove_if_present; by destruct (getElementById _ _)).
  done.
Qed.

Lemma ledger_after_copy (src : CopySource) u :
  ledger u →
  ledger match src with FromElement => u | FromTooltip tooltip => remove tooltip u end.
Proof. intros L. destruct src; [done|]. by apply (ledger_ext _ u). Qed.

Lemma ledger_copy_resolved src el testId w :
  wf w → ledger w → ledger (copy_resolved src el testId w).
Proof.
  intros Hwf L. unfold copy_resolved. cbv zeta.
  by apply ledger_after_copy, ledger_showCopyFeedback.
Qed.

Lemma ledger_copy_rejected src el testId w :
  wf w → ledger w → ledger (copy_rejected src el testId w).
Proof.
  intros Hwf L. unfold copy_rejected. cbv zeta.
  apply ledger_after_copy, ledger_showCopyFeedback.
  - by apply fallbackCopyTextToClipboard_wf, set_console_wf.
  - eapply ledger_ext; [apply fallbackCopyTextToClipboard_timer_view|].
    by apply (ledger_ext _ w).
Qed.

Lemma ledger_copy_begin src el w : wf w → ledger w → ledger (copy_begin src el w).
Proof.
  intros Hwf L. unfold copy_begin. destruct (negb _); [done|].
  destruct (clipboardApi w); [by apply (ledger_ext _ w)|by apply ledger_copy_rejected].
Qed.

Lemma ledger_settle i ok w : wf w → ledger w → ledger (settle i ok w).
Proof.
  intros Hwf L. unfold settle. destruct (pendingWrites w !! i); [|done].
  destruct ok.
  - apply ledger_copy_resolved; [by apply set_clipboard_wf, set_pendingWrites_wf|].
    by apply (ledger_ext _ w).
  - apply ledger_copy_rejected; [by apply set_pendingWrites_wf|by apply (ledger_ext _ w)].
Qed.

Lemma ledger_run_handler h w : wf w → ledger w → ledger (run_handler h w).
Proof.
  intros Hwf L. destruct h; cbn [run_handler]; try done.
  - eapply ledger_ext; [apply run_mouseEnterHandler_timer_view|done].
  - by apply (ledger_setTimeout LeaveRemoval).
  - by apply ledger_copy_begin.
  - by apply ledger_copy_begin.
  - by apply (ledger_setTimeout (TooltipLeaveRemoval tooltip)).
Qed.

Lemma ledger_dispatch ev n w : wf w → ledger w → ledger (dispatch ev n w).
Proof.
  intros Hwf L. unfold dispatch.
  refine (proj2 (foldl_preserves (λ u, wf u ∧ ledger u) _ _ _ _ _)); [|done].
  intros u l [Hu Lu]. case_bool_decide; [|done].
  split; [by apply run_handler_wf|by apply ledger_run_handler].
Qed.

Lemma ledger_tick w : wf w → ledger w → ledger (tick w).
Proof.
  intros Hwf L. unfold tick. cbv zeta.
  refine (proj2 (run_due_preserves (λ u, wf u ∧ ledger u) _ _ _ _)).
  - intros u t d cb [Hu Lu] Hin _. split; [by apply (fire_wf t d)|by apply (ledger_fire t d)].
  - split; [by apply set_clock_wf|by apply (ledger_ext _ w)].
Qed.

Lemma clear_each_ids l w :
  timeout (foldl (λ w t, clearTimeout (Some t) w) w l) = timeout w
  ∧ nextTimer (foldl (λ w t, clearTimeout (Some t) w) w l) = nextTimer w.
Proof.
  revert w. induction l as [|t l IH]; intros w; [done|]. cbn [foldl].
  by destruct (IH (clearTimeout (Some t) w)) as [-> ->].
Qed.

Lemma beforeunload_ids w :
  wf w →
  timeout (beforeunload w) = timeout w ∧ nextTimer (beforeunload w) = nextTimer w.
Proof.
  intros Hwf. unfold beforeunload. cbv zeta.
  destruct (cleanup_each_untracks (trackedElements w) w Hwf) as [_ He].
  set (w1 := foldl (λ w el, cleanupElement el w) w (trackedElements w)) in *.
  assert (timeout w1 = timeout w ∧ nextTimer w1 = nextTimer w) as [<- <-]
    by (unfold env in He; split; congruence).
  clearbody w1.
  destruct (clear_each_ids (activeTimeouts w1) w1) as [H1 H2].
  set (w2 := foldl (λ w t, clearTimeout (Some t) w) w1 (activeTimeouts w1)) in *.
  clearbody w2. rewrite <- H1, <- H2.
  set (w3 := set_observing false (set_activeTimeouts (λ _, []) w2)).
  change (timeout w2) with (timeout w3). change (nextTimer w2) with (nextTimer w3).
  clearbody w3.
  assert (∀ i u, timeout (remove_if_present i u) = timeout u
                 ∧ nextTimer (remove_if_present i u) = nextTimer u) as Hr.
  { intros i u. unfold remove_if_present. by destruct (getElementById i u). }
  destruct (Hr FEEDBACK_ID (remove_if_present TOOLTIP_ID w3)) as [-> ->]. apply Hr.
Qed.

Lemma ledger_beforeunload w : reachable w → ledger w → ledger (beforeunload w).
Proof.
  intros Hr [L1 L2 L3 L4].
  destruct (beforeunload_clears_registered w Hr) as (_&Ha&_&Hf&Ht).
  destruct (beforeunload_ids w (reachable_wf _ Hr)) as [Hto Hn].
  split.
  - by rewrite Ha, Hf.
  - rewrite Hf. cbn. lia.
  - rewrite Ht, Hto. intros e [_ He]%list_elem_of_filter. by apply L3.
  - by rewrite Hto, Hn.
Qed.

Lemma ledger_step a w : reachable w → ledger w → ledger (step a w).
Proof.
  intros Hr L. pose proof (reachable_wf _ Hr) as Hwf. destruct a; cbn [step].
  - by apply ledger_tick.
  - destruct (observing w); [|done]. unfold observerCallback.
    destruct (hasRelevantChanges ms); [|done]. by apply ledger_executedFunction.
  - apply ledger_dispatch; [by apply set_pointer_wf|by apply (ledger_ext _ w)].
  - apply ledger_dispatch; [by apply set_pointer_wf|by apply (ledger_ext _ w)].
  - by apply ledger_dispatch.
  - by apply ledger_settle.
  - by apply ledger_beforeunload.
  - destruct (nodes w !! n); [by apply (ledger_ext _ w)|done].
  - destruct (nodes w !! n); [by apply (ledger_ext _ w)|done].
  - by apply (ledger_ext _ w).
  - by apply (ledger_ext _ w).
Qed.

Lemma ledger_env w' w : env w' = env w → ledger w → ledger w'.
Proof. intros He. apply ledger_ext. unfold timer_view, env in *. congruence. Qed.

Lemma ledger_operate w o : reachable w → ledger w → ledger (operate w o).
Proof.
  intros Hr L. destruct o; cbn [operate].
  - eapply ledger_env; [apply highlightElement_env|done].
  - eapply ledger_env; [apply cleanupElement_env|done].
  - eapply ledger_env; [apply scanAndHighlight_env|done].
  - by apply ledger_beforeunload.
  - by apply (ledger_ext _ w).
  - by apply ledger_step.
Qed.

Lemma reachable_ledger w : reachable w → ledger w.
Proof.
  intros (els&api&exec&os&Hels&->).
  assert (∀ w0, reachable w0 → ledger w0 → ledger (foldl operate w0 os)) as Hgen.
  { induction os as [|o os IH]; intros w0 Hr L; [done|]. cbn [foldl].
    apply IH; [by apply reachable_operate|by apply ledger_operate]. }
  apply Hgen.
  - exists els, api, exec, []. by split.
  - split; try done. cbn. lia.
Qed.

(** The set of timer ids is exact.  In every state the script can be
    in, [activeTimeouts] holds the ids of the pending feedback removals
    and nothing else, so no id of a timer that ran or was cancelled stays
    behind; and at most one feedback removal is pending, so the set has
    at most one entry. *)
Theorem activeTimeouts_exact (w : World) :
  reachable w →
  activeTimeouts w = (feedback_timers w).*1 ∧ length (activeTimeouts w) ≤ 1.
Proof.
  intros Hr. destruct (reachable_ledger _ Hr) as [L1 L2 _ _].
  split; [done|]. by rewrite L1, length_fmap.
Qed.

(** ** One copy after another *)

Lemma trackedElements_remove t w : trackedElements (remove t w) = trackedElements w.
Proof. reflexivity. Qed.
Lemma clipboardApi_remove t w : clipboardApi (remove t w) = clipboardApi w.
Proof. reflexivity. Qed.

Lemma source_in_store w t : wf w → id (node w t) = TOOLTIP_ID → t < nextNode w.
Proof.
  intros Hwf Hid. destruct (decide (t < nextNode w)) as [|Hge]; [done|].
  rewrite (stored_blank w t) in Hid by (apply Hwf || lia). discriminate.
Qed.

(** A copy that ran to its end shows its own identifier. *)
Lemma copy_resolved_feedback src el testId w :
  wf w → source_bound w src →
  ∃ n, feedbacks (copy_resolved src el testId w) = [n]
       ∧ innerText (node (copy_resolved src el testId w) n) = "Copied: " +:+ testId.
Proof.
  intros Hwf Hsrc. exists (nextNode w). destruct src as [|t].
  - unfold copy_resolved. by destruct (showCopyFeedback_spec el testId w Hwf) as (S1&S2&_).
  - by destruct (copy_resolved_from_tooltip t el testId w Hwf (source_in_store w t Hwf Hsrc))
      as (_&F1&F2&_).
Qed.

Lemma copy_rejected_feedback src el testId w :
  wf w → source_bound w src →
  ∃ n, feedbacks (copy_rejected src el testId w) = [n]
       ∧ innerText (node (copy_rejected src el testId w) n) = "Copied: " +:+ testId.
Proof.
  intros Hwf Hsrc. exists (S (nextNode w)). destruct src as [|t].
  - unfold copy_rejected. cbv zeta.
    set (w0 := set_console (λ c, c ++ ["Failed to copy data-testid:"]) w).
    destruct (showCopyFeedback_spec el testId (fallbackCopyTextToClipboard testId w0))
      as (S1&S2&_); [by apply fallbackCopyTextToClipboard_wf, set_console_wf|].
    rewrite fallbackCopyTextToClipboard_nextNode in S1, S2. by split.
  - by destruct (copy_rejected_from_tooltip t el testId w Hwf (source_in_store w t Hwf Hsrc))
      as (_&F1&F2&_).
Qed.

(** When the write of a suspended copy settles, resolved or rejected,
    the one artifact in the document shows the identifier of that copy. *)
Lemma settle_feedback i ok p w :
  wf w → pinned w → pendingWrites w !! i = Some p →
  ∃ n, feedbacks (settle i ok w) = [n]
       ∧ innerText (node (settle i ok w) n) = "Copied: " +:+ pw_testId p.
Proof.
  intros Hwf P Hp.
  assert (source_bound w (pw_source p)) as Hsrc
    by (apply (pinned_writes _ P); by eapply list_elem_of_lookup_2).
  unfold settle. rewrite Hp. destruct ok.
  - apply copy_resolved_feedback; [by apply set_clipboard_wf, set_pendingWrites_wf|].
    by apply (source_bound_kept _ w).
  - apply copy_rejected_feedback; [by apply set_pendingWrites_wf|].
    by apply (source_bound_kept _ w).
Qed.

Lemma settle_pendingWrites i ok p w :
  pendingWrites w !! i = Some p →
  pendingWrites (settle i ok w) = delete i (pendingWrites w).
Proof.
  intros Hp. unfold settle. rewrite Hp. destruct ok.
  - pose proof (copy_resolved_outcome (pw_source p) (pw_el p) (pw_testId p)
                  (set_clipboard (Some (pw_testId p)) (set_pendingWrites (delete i) w))) as Ho.
    unfold outcome in Ho. injection Ho as _ _ Hq. exact Hq.
  - pose proof (copy_rejected_outcome (pw_source p) (pw_el p) (pw_testId p)
                  (set_pendingWrites (delete i) w)) as Ho.
    unfold outcome in Ho. injection Ho as _ _ Hq. exact Hq.
Qed.

(** [clickHandler] on an element with an identifier: suspended at the
    [await] where there is a clipboard API, in the [catch] branch at once
    where there is none. *)
Lemma copy_begin_suspends el testId w :
  dataset_testid (node w el) = Some testId → testId ≠ "" → clipboardApi w = true →
  copy_begin FromElement el w
  = set_pendingWrites (λ l, l ++ [mkPending FromElement el testId]) w.
Proof.
  intros Hid Hne Hapi. unfold copy_begin. by rewrite Hid, (truthy_nonempty _ Hne), Hapi.
Qed.

Lemma copy_begin_falls_back el testId w :
  dataset_testid (node w el) = Some testId → testId ≠ "" → clipboardApi w = false →
  copy_begin FromElement el w = copy_rejected FromElement el testId w.
Proof.
  intros Hid Hne Hapi. unfold copy_begin. by rewrite Hid, (truthy_nonempty _ Hne), Hapi.
Qed.

(** The [catch] branch leaves the tracked set, the browser's clipboard
    support and the elements that were there as they are. *)
Lemma copy_rejected_frame src el testId w :
  trackedElements (copy_rejected src el testId w) = trackedElements w
  ∧ clipboardApi (copy_rejected src el testId w) = clipboardApi w
  ∧ ∀ x, x < nextNode w → node (copy_rejected src el testId w) x = node w x.
Proof.
  unfold copy_rejected. cbv zeta.
  set (u0 := set_console (λ c, c ++ ["Failed to copy data-testid:"]) w).
  destruct (fallbackCopyTextToClipboard_textarea testId u0) as (_&_&F3&F4&F5).
  pose proof (fallbackCopyTextToClipboard_io testId u0) as Hio.
  assert (nextNode u0 = nextNode w ∧ trackedElements u0 = trackedElements w
          ∧ clipboardApi u0 = clipboardApi w ∧ ∀ x, node u0 x = node w x)
    as (Hn0&Ht0&Ha0&Hx0) by done.
  rewrite Hn0 in F3, F4. rewrite Ht0 in F5.
  assert (clipboardApi (fallbackCopyTextToClipboard testId u0) = clipboardApi w) as Ha1
    by (rewrite <- Ha0; unfold io in Hio; congruence).
  clear Hio.
  set (u1 := fallbackCopyTextToClipboard testId u0) in *. clearbody u1.
  destruct (showCopyFeedback_frame el testId u1) as (S1&_&S3).
  pose proof (showCopyFeedback_io el testId u1) as Hio.
  assert (clipboardApi (showCopyFeedback el testId u1) = clipboardApi w) as Ha2
    by (rewrite <- Ha1; unfold io in Hio; congruence).
  clear Hio.
  set (u2 := showCopyFeedback el testId u1) in *. clearbody u2.
  assert (trackedElements u2 = trackedElements w ∧ clipboardApi u2 = clipboardApi w
          ∧ ∀ x, x < nextNode w → node u2 x = node w x) as (G1&G2&G3).
  { split; [congruence|]. split; [done|]. intros x Hx.
    rewrite S1 by lia. rewrite F4 by lia. apply Hx0. }
  destruct src as [|t]; [done|].
  rewrite trackedElements_remove, clipboardApi_remove. do 2 (split; [done|]).
  intros x Hx. rewrite node_remove. by apply G3.
Qed.

(** C5.  In every state the script can be in, from a page that does
    not use the reserved id, the document holds at most one feedback
    artifact.  A call of [showCopyFeedback] there leaves exactly one, the
    new one, showing the identifier of this call: the one that was there
    is out of the document, the one feedback timer pending is the new
    one, and so is the one entry of [activeTimeouts]; so of two calls the
    second decides what is shown.  A copy action calls
    [showCopyFeedback] when its clipboard write settles, or at once where
    there is no clipboard API.  So, once the script is started on a page
    with neither reserved id: when the write of a suspended copy settles,
    the one artifact shows the identifier of that copy; and after two
    clicks on tracked elements, one after the other, the artifact shows
    the identifier of the second click where there is no clipboard API
    and where the two writes settle in the order of the clicks, and the
    identifier of the first click where its write settles last. *)
Theorem single_feedback_artifact (w : World) :
  reachable w →
  length (feedbacks w) ≤ 1
  ∧ (∀ el testId,
       let w' := showCopyFeedback el testId w in
       feedbacks w' = [nextNode w]
       ∧ innerText (node w' (nextNode w)) = "Copied: " +:+ testId
       ∧ (∀ m, m ∈ feedbacks w → m ∉ document w')
       ∧ feedback_timers w' =
           [(nextTimer w, (clock w + FEEDBACK_DELAY, FeedbackRemoval (nextNode w)))]
       ∧ activeTimeouts w' = [nextTimer w])
  ∧ (∀ el1 testId1 between el2 testId2,
       let w1 := run between (showCopyFeedback el1 testId1 w) in
       let w2 := showCopyFeedback el2 testId2 w1 in
       length (feedbacks w1) ≤ 1
       ∧ ∃ n, feedbacks w2 = [n] ∧ innerText (node w2 n) = "Copied: " +:+ testId2)
  ∧ (started w →
     (∀ i ok p, pendingWrites w !! i = Some p →
        let w' := step (SettleWrite i ok) w in
        ∃ n, feedbacks w' = [n] ∧ innerText (node w' n) = "Copied: " +:+ pw_testId p)
     ∧ (∀ el1 id1 el2 id2,
          tracked w el1 → id (node w el1) ≠ TOOLTIP_ID →
          dataset_testid (node w el1) = Some id1 → id1 ≠ "" →
          tracked w el2 → id (node w el2) ≠ TOOLTIP_ID →
          dataset_testid (node w el2) = Some id2 → id2 ≠ "" →
          let w2 := run [Click el1; Click el2] w in
          let k := length (pendingWrites w) in
          (clipboardApi w = false →
             ∃ n, feedbacks w2 = [n] ∧ innerText (node w2 n) = "Copied: " +:+ id2)
          ∧ (clipboardApi w = true → ∀ ok1 ok2,
               feedbacks w2 = feedbacks w
               ∧ (let w' := run [SettleWrite k ok1; SettleWrite k ok2] w2 in
                  ∃ n, feedbacks w' = [n] ∧ innerText (node w' n) = "Copied: " +:+ id2)
               ∧ (let w' := run [SettleWrite (S k) ok2; SettleWrite k ok1] w2 in
                  ∃ n, feedbacks w' = [n]
                       ∧ innerText (node w' n) = "Copied: " +:+ id1)))).
Proof.
  intros Hr. pose proof (reachable_wf _ Hr) as Hwf.
  split; [apply Hwf|]. split; [|split].
  - intros el testId. by apply showCopyFeedback_spec.
  - intros el1 testId1 between el2 testId2 w1 w2.
    assert (wf w1) as Hw1 by by apply run_wf, showCopyFeedback_wf.
    split; [apply Hw1|].
    destruct (showCopyFeedback_spec el2 testId2 w1 Hw1) as (H1&H2&_). eauto.
  - intros Hs. split.
    { intros i ok p Hp w'. by apply settle_feedback; [|apply started_pinned|]. }
    intros el1 id1 el2 id2 T1 I1 D1 N1 T2 I2 D2 N2 w2 k.
    assert (el2 < nextNode w) as Hlt.
    { destruct (proj1 (linked_tracked _ (wf_linked _ Hwf) el2) T2) as [hs Hhs].
      apply (stored_fresh _ (wf_stored _ Hwf)).
      by apply (linked_in_store w el2 hs (wf_linked _ Hwf)). }
    pose proof (started_operate w (DoStep (Click el1)) Hs) as Hs1. cbn [operate] in Hs1.
    pose proof (tracked_click w el1 Hs T1 I1) as E1.
    unfold w2. change (run [Click el1; Click el2] w) with (step (Click el2) (step (Click el1) w)).
    set (W1 := step (Click el1) w) in *.
    split.
    + intros Hapi. rewrite (copy_begin_falls_back el1 id1 w D1 N1 Hapi) in E1.
      destruct (copy_rejected_frame FromElement el1 id1 w) as (F1&F2&F3).
      rewrite <- E1 in F1, F2, F3. clearbody W1.
      assert (tracked W1 el2) as T2' by (unfold tracked; by rewrite F1).
      assert (id (node W1 el2) ≠ TOOLTIP_ID) as I2' by by rewrite F3.
      assert (dataset_testid (node W1 el2) = Some id2) as D2' by by rewrite F3.
      rewrite (tracked_click W1 el2 Hs1 T2' I2').
      rewrite (copy_begin_falls_back el2 id2 W1 D2' N2) by by rewrite F2.
      apply copy_rejected_feedback; [by apply started_wf|done].
    + intros Hapi ok1 ok2.
      rewrite (copy_begin_suspends el1 id1 w D1 N1 Hapi) in E1.
      assert (tracked W1 el2 ∧ id (node W1 el2) ≠ TOOLTIP_ID
              ∧ dataset_testid (node W1 el2) = Some id2 ∧ clipboardApi W1 = true
              ∧ feedbacks W1 = feedbacks w
              ∧ pendingWrites W1 = pendingWrites w ++ [mkPending FromElement el1 id1])
        as (T2'&I2'&D2'&A'&Hf1&Hp1) by by rewrite E1.
      clearbody W1.
      pose proof (started_operate W1 (DoStep (Click el2)) Hs1) as Hs2. cbn [operate] in Hs2.
      pose proof (tracked_click W1 el2 Hs1 T2' I2') as E2.
      rewrite (copy_begin_suspends el2 id2 W1 D2' N2 A') in E2.
      set (W2 := step (Click el2) W1) in *.
      assert (feedbacks W2 = feedbacks W1
              ∧ pendingWrites W2 = pendingWrites W1 ++ [mkPending FromElement el2 id2])
        as (Hf2&Hp2) by by rewrite E2.
      clearbody W2. rewrite Hp1 in Hp2. fold k in Hp2.
      split; [congruence|]. split.
      * change (run [SettleWrite k ok1; SettleWrite k ok2] W2)
          with (settle k ok2 (settle k ok1 W2)).
        assert (pendingWrites W2 !! k = Some (mkPending FromElement el1 id1)) as L1.
        { rewrite Hp2, <- app_assoc. by apply list_lookup_middle. }
        pose proof (started_operate W2 (DoStep (SettleWrite k ok1)) Hs2) as Hs3.
        cbn [operate step] in Hs3.
        pose proof (settle_pendingWrites k ok1 _ W2 L1) as Hp3.
        set (W3 := settle k ok1 W2) in *. clearbody W3.
        apply (settle_feedback k ok2 (mkPending FromElement el2 id2));
          [by apply started_wf|by apply started_pinned|].
        rewrite Hp3, Hp2, <- app_assoc. cbn [app]. unfold k.
        rewrite delete_middle. by apply list_lookup_middle.
      * change (run [SettleWrite (S k) ok2; SettleWrite k ok1] W2)
          with (settle k ok1 (settle (S k) ok2 W2)).
        assert (S k = length (pendingWrites w ++ [mkPending FromElement el1 id1])) as Hk
          by (rewrite length_app; cbn; unfold k; lia).
        assert (pendingWrites W2 !! S k = Some (mkPending FromElement el2 id2)) as L2.
        { rewrite Hp2. by apply list_lookup_middle. }
        pose proof (started_operate W2 (DoStep (SettleWrite (S k) ok2)) Hs2) as Hs3.
        cbn [operate step] in Hs3.
        pose proof (settle_pendingWrites (S k) ok2 _ W2 L2) as Hp3.
        set (W3 := settle (S k) ok2 W2) in *. clearbody W3.
        apply (settle_feedback k ok1 (mkPending FromElement el1 id1));
          [by apply started_wf|by apply started_pinned|].
        rewrite Hp3, Hp2, Hk, delete_middle, app_nil_r. by apply list_lookup_middle.
Qed.

(** ** Instances of the further properties *)

Lemma login_page_host_elements : Forall host_element [div (Some "login-btn")].
Proof.
  constructor; [|constructor]. split; [discriminate|]. split; [discriminate|constructor].
Qed.

Lemma loaded_page_started : started (load login_page).
Proof.
  exists [div (Some "login-btn")], true, ExecCopies, [DoScanAndHighlight; DoObserve].
  split; [apply login_page_host_elements|reflexivity].
Qed.

Lemma attach_detach_round_trip_witness :
  elementData (cleanupElement 0 (highlightElement 0 login_page)) = elementData login_page.
Proof.
  refine (proj1 (proj2 (attach_detach_round_trip login_page 0 login_page_reachable _))).
  split; [reflexivity|]. split.
  - intros Hc. apply elem_of_nil in Hc. done.
  - intros [hs Hhs]. vm_compute in Hhs. discriminate.
Defined.

Lemma tracked_after_pass_witness : tracked (scanAndHighlight login_page) 0.
Proof.
  refine (proj2 (tracked_after_pass login_page 0 login_page_reachable) _).
  split.
  - apply list_elem_of_filter. split; [by eexists|left].
  - right. split; [reflexivity|]. intros Hc. apply elem_of_nil in Hc. done.
Defined.

Lemma pass_touches_only_highlighting_witness :
  env (scanAndHighlight login_page) = env login_page.
Proof.
  refine (proj1 (pass_touches_only_highlighting login_page login_page_reachable)).
Defined.

Lemma fallback_leaves_no_textarea_witness :
  document (fallbackCopyTextToClipboard "login-btn" (load login_page))
  = document (load login_page).
Proof.
  refine (proj1 (fallback_leaves_no_textarea (load login_page) "login-btn"
                   loaded_page_reachable)).
Defined.

Lemma observer_filter_witness :
  step (Mutations [testid_changed]) (load login_page)
  = debouncedScanAndHighlight [] (load login_page).
Proof.
  refine (proj1 (observer_filter [testid_changed] (load login_page)) eq_refl _).
  exists testid_changed. split; [left|]. right. split; reflexivity.
Defined.

Lemma single_tooltip_witness :
  length (tooltips (run [PointerEnter 0; PointerLeave 0; PointerEnter 0]
                      (load login_page))) ≤ 1.
Proof.
  refine (proj1 (single_tooltip
                   (run [PointerEnter 0; PointerLeave 0; PointerEnter 0] (load login_page))
                   _)).
  apply started_run, loaded_page_started.
Defined.

Lemma teardown_detaches_everything_witness :
  trackedElements (beforeunload (load login_page)) = [].
Proof.
  refine (proj1 (teardown_detaches_everything (load login_page) loaded_page_started)).
Defined.

Lemma feedback_shown_then_removed_witness :
  feedbacks (ticks 2000 (showCopyFeedback 0 "login-btn" (load login_page))) = [].
Proof.
  refine (proj1 (proj2 (feedback_shown_then_removed (load login_page) 0 "login-btn"
                          loaded_page_started) 2000 _)).
  apply le_n.
Defined.

Lemma tooltip_removed_after_leave_witness :
  tooltips (ticks 100 (step (PointerLeave 0) (step (PointerEnter 0) (load login_page))))
  = [].
Proof.
  refine (tooltip_removed_after_leave (step (PointerEnter 0) (load login_page)) 0 _ _ 100 _).
  - apply (started_run [PointerEnter 0]), loaded_page_started.
  - left.
  - apply le_n.
Defined.

Lemma attribute_removal_detaches_witness :
  ¬ tracked (ticks 100 (step (Mutations [testid_changed])
                          (step (PageSetTestid 0 None) (load login_page)))) 0.
Proof.
  refine (proj1 (attribute_removal_detaches (load login_page) 0 100
                   loaded_page_reachable eq_refl _ _)).
  - left.
  - apply le_n.
Defined.


Lemma tooltip_own_removal_is_unconditional_witness :
  1 ∉ document (ticks 50 (step (PointerEnter 1)
                            (ticks 50 (step (PointerLeave 1)
                                         (step (PointerEnter 0) (load login_page)))))).
Proof.
  refine (tooltip_own_removal_is_unconditional (step (PointerEnter 0) (load login_page))
            0 1 "login-btn" 50 50 _ _ _).
  - apply (started_run [PointerEnter 0]), loaded_page_started.
  - reflexivity.
  - apply le_n.
Defined.

Lemma tooltip_click_copies_and_closes_witness :
  step (Click 1) (step (PointerEnter 0) (load login_page))
  = copy_begin (FromTooltip 1) 0 (step (PointerEnter 0) (load login_page)).
Proof.
  refine (proj1 (tooltip_click_copies_and_closes (step (PointerEnter 0) (load login_page))
                   0 1 "login-btn" _ _)).
  - apply (reachable_run [PointerEnter 0]), loaded_page_reachable.
  - reflexivity.
Defined.

Lemma tracked_element_events_witness :
  step (Click 0) (load login_page) = copy_begin FromElement 0 (load login_page).
Proof.
  refine (proj1 (tracked_element_events (load login_page) 0 loaded_page_started _ _)).
  - left.
  - discriminate.
Defined.

Lemma script_leaves_page_alone_witness :
  filter (of_page (load login_page))
    (document (run [PointerEnter 0; Click 0; Tick; Unload] (load login_page)))
  = filter (of_page (load login_page)) (document (load login_page)).
Proof.
  refine (proj1 (script_leaves_page_alone (load login_page)
                   [PointerEnter 0; Click 0; Tick; Unload] loaded_page_started eq_refl)).
Defined.

Lemma timers_run_out_witness :
  timers (ticks 2000 (step (PointerLeave 0) (load login_page))) = [].
Proof.
  refine (proj2 (timers_run_out (step (PointerLeave 0) (load login_page)) 2000 _) _).
  - exact (reachable_operate _ (DoStep (PointerLeave 0)) loaded_page_reachable).
  - apply le_n.
Defined.

Lemma activeTimeouts_exact_witness :
  length (activeTimeouts (run [Click 0; SettleWrite 0 true] (load login_page))) ≤ 1.
Proof.
  refine (proj2 (activeTimeouts_exact (run [Click 0; SettleWrite 0 true] (load login_page))
                   (reachable_run [Click 0; SettleWrite 0 true] _ loaded_page_reachable))).
Defined.

(** A page with two marked elements, and what two clicks on it leave
    when the write of the second resolves before that of the first. *)
Definition two_button_page : World :=
  page [div (Some "a"); div (Some "b")] true ExecCopies.

Definition writes_settled_in_reverse : World :=
  run [Click 0; Click 1; SettleWrite 1 true; SettleWrite 0 true] (load two_button_page).

Lemma two_button_page_started : started (load two_button_page).
Proof.
  exists [div (Some "a"); div (Some "b")], true, ExecCopies, [DoScanAndHighlight; DoObserve].
  split; [|reflexivity].
  repeat constructor; discriminate.
Qed.

(** The claim of C5 as the specification words it fails for two copy
    actions whose writes settle in the other order: both elements are
    tracked, the first click is on "a" and the second, the most recent, on
    "b", and the one artifact left shows "a". *)
Lemma feedback_shows_first_copy_settled_last :
  tracked (load two_button_page) 0 ∧ tracked (load two_button_page) 1
  ∧ dataset_testid (node (load two_button_page) 0) = Some "a"
  ∧ dataset_testid (node (load two_button_page) 1) = Some "b"
  ∧ feedbacks writes_settled_in_reverse = [3]
  ∧ innerText (node writes_settled_in_reverse 3) = "Copied: a"
  ∧ ¬ (∃ n, feedbacks writes_settled_in_reverse = [n]
            ∧ innerText (node writes_settled_in_reverse n) = "Copied: b").
Proof.
  assert (feedbacks writes_settled_in_reverse = [3]) as Hf by (vm_compute; reflexivity).
  assert (innerText (node writes_settled_in_reverse 3) = "Copied: a") as Ht
    by (vm_compute; reflexivity).
  split; [left|]. split; [right; left|]. split; [reflexivity|]. split; [reflexivity|].
  split; [exact Hf|]. split; [exact Ht|].
  intros (n&Hn&Hb). rewrite Hf in Hn. injection Hn as <-. rewrite Ht in Hb. discriminate.
Qed.

Lemma single_feedback_artifact_witness :
  length (feedbacks (load two_button_page)) ≤ 1
  ∧ ∃ n, feedbacks (run [SettleWrite 0 true; SettleWrite 0 false]
                      (run [Click 0; Click 1] (load two_button_page))) = [n]
         ∧ innerText (node (run [SettleWrite 0 true; SettleWrite 0 false]
                              (run [Click 0; Click 1] (load two_button_page))) n)
           = "Copied: b".
Proof.
  destruct (single_feedback_artifact (load two_button_page)
              (started_reachable _ two_button_page_started)) as (H1&_&_&H4).
  destruct (H4 two_button_page_started) as [_ H5].
  destruct (H5 0 "a" 1 "b") as [_ H6];
    [left|discriminate|reflexivity|discriminate|right; left|discriminate|reflexivity
    |discriminate|].
  destruct (H6 eq_refl true false) as (_&H7&_).
  split; [exact H1|exact H7].
Defined.
